(* ===== verification/_CoqProject ===== *)
-Q . S2P
Prelude.v
PyString.v
PyFloat.v
Classifier.v
FileSys.v
Imaging.v
Converter.v
Cad.v
Loading.v
Dispatch.v
WebApp.v
RouteTable.v
WebGif.v
Server.v
Listing.v
Routes.v
Interleave.v
Independent.v
Pool.v
Threaded.v
QtApp.v
QtWindow.v
FrontEnds.v
