(* ===== verification/Prelude.v ===== *)
(** * imageHandle: a verification development

    The repository is a small image-conversion tool with three front ends
    over the same conversion code:

    - [src/converter.py]: a library, [convert_image] (raster and SVG
      conversion through PIL and cairosvg) and [convert_dwg_to_pdf]
      (AutoCAD automation);
    - [src/app.py]: a Flask application with the routes [/convert],
      [/merge_gif], [/dwgtopdf], [/download] and [/], its own copies
      [convert_image] and [convert_svg], and the classifier [allowed_file];
    - [src/app_qt5.py]: a PyQt5 window with the same [allowed_file],
      [convert_image] and [convert_svg] and two button handlers.

    ** Files of the development, in dependency order

    - [Prelude]   (this file) the effect monad every component runs in:
                  a computation is a function from a state to an outcome
                  ([Ok] or [Raise]) and a new state.  The state is kept when
                  an exception is raised, as on a real file system; this is
                  why the monad is written here and not taken as a state
                  transformer over an error monad, which would forget the
                  writes done before the [raise].  [try_except] and
                  [try_finally] are Python's [try]/[except]/[finally].
    - [PyString]  the Python string and [os.path] functions the sources
                  call: [str.lower], [str.upper], [in], [str.rsplit(sep, 1)],
                  [str.replace], [str.endswith], [os.path.splitext],
                  [os.path.join], [os.path.dirname], [os.path.basename];
                  [str.split], [str.lstrip] and [os.path.normpath], which
                  the sources do not call: they are what Werkzeug does
                  to the path of a request and what the operating system
                  does to a path with [..].
    - [PyFloat]   Python's [float] on a string, called on the duration of
                  a frame by both front ends: the grammar it accepts, and
                  the decimal number read.
    - [Classifier] [ALLOWED_EXTENSIONS] and [allowed_file] of [app.py] and of
                  [app_qt5.py], and the extension extracted by each front end.
    - [FileSys]   the file system the [os] calls act on: files as a finite
                  map from path to contents, directories as a finite set;
                  [os.makedirs], [os.remove], [os.path.exists], reading and
                  writing, and the Python exceptions with their [str].
    - [Imaging]   what the code relies on from PIL, cairosvg and imageio,
                  as the type classes [Pillow] (operations with the laws
                  used: PIL's [SAVE] registry has no ["JPG"] key, [convert]
                  sets the mode) and [Imageio] (the encoder of [mimsave]),
                  the file-level actions built on them
                  ([Image_open], [Image_save], [svg2png], [svg2pdf],
                  [mimsave]), and the small executable instances [toy] and
                  [toy_imageio] used to run the handlers.
    - [Converter] [convert_image] of [converter.py]; [convert_image] and
                  [convert_svg] of [app.py] (identical in [app_qt5.py]).
    - [Cad]       [convert_dwg_to_pdf] of [converter.py]: the state is the
                  disk and the list of COM calls made so far; AutoCAD is
                  an oracle (class [AutoCAD]) for what each call does,
                  with the two flags that say whether the names
                  [pythoncom] and [win32com] are bound.
    - [Loading]   the import statements at the top of the three files, as
                  programs on the set of the global names bound, over an
                  installation that says which packages are there; the
                  guarded imports of [converter.py], and [host], the
                  [AutoCAD] whose flags are what the imports left.
    - [Dispatch]  the dispatch table of the specification (source kind and
                  target to strategy) and what each strategy produces,
                  written from the specification; [convert_image] of
                  [converter.py] is compared with it.
    - [WebApp]    the Flask routes [/convert] and [/dwgtopdf] over a request
                  record, with their responses.
    - [RouteTable] the route [/convert] compared with the dispatch table
                  on the uploads that are vector sources.
    - [WebGif]    the Flask route [/merge_gif]: the guards, the loop over
                  the uploads ([collect_images]), the two-frame minimum and
                  the animation written under [outputs/gif].  The text of
                  [uuid.uuid4().hex] is an argument of the handler.
    - [Server]    the web application as a state machine: a step is one
                  request served from the state the previous one left;
                  [reachable] are the states after any sequence of requests
                  from a fresh start, [tidy] is the invariant.
    - [Listing]   the routes that only read: [index] (route [/]), the two
                  nested loops over [os.listdir], and [download_file]
                  (route [/download]); Flask's [safe_join] is an operation
                  of the class [Flask], [send_from_directory] is written
                  after Flask's.
    - [Routes]    the Flask application object of [app.py]: the five
                  rules of the [app.route] decorators, [app.config], and
                  [wsgi_app], what the application does with one HTTP
                  request (the path split and matched against the rules,
                  404, 405, the automatic [OPTIONS], 413 for a body over
                  [MAX_CONTENT_LENGTH], the view called on the arguments
                  of the path, 500 for an exception that leaves it);
                  [run] is [app.run], the requests served one after
                  another, and [app_main] the program from the creation
                  of the folders on.
    - [Interleave] two [/convert] requests served at the same time: the body
                  of the route cut at its calls into program points ([pc]),
                  one call per [step]; [interleave] runs two threads along
                  a schedule, a list of who steps next.
    - [Independent] the relation between the file system of a thread run
                  alone and the one it shares with other threads, and the
                  lemmas on a step of the thread and of another.
    - [Pool]      any number of [/convert] requests served at the same
                  time: the list of the program points over one file
                  system, a schedule as the list of the threads that step.
    - [Threaded]  the HTTP uploads to [/convert] as the jobs of the pool,
                  and the pool compared with [Routes.run].
    - [QtApp]     the two button handlers of [app_qt5.py],
                  [select_and_convert] (a fold of [convert_step] over the
                  selected paths, with the counters [success_count] and
                  [failed_files] as accumulator) and [select_and_merge_gif],
                  and the module's copies of the converters.  What the
                  dialogs and combo boxes return is an argument of the
                  handler; the message box shown is its result.
    - [QtWindow]  [ImageConverter.__init__] call by call (the combo
                  boxes and their items, the buttons and the slots
                  connected to them, the layout), [window.show] and the
                  event loop of the main block: an event is the pick of a
                  row of a combo box or a click, and a click on a button
                  runs the handler of [QtApp] connected to it.
    - [FrontEnds] the web route and the Qt handler that compose an
                  animation, compared on the same images.

    ** Conventions

    - A Python [str] is a Rocq [string], a sequence of bytes.  [lower] and
      [upper] act on ASCII letters only; no non-ASCII character lowers to a
      letter of the allow-lists, so [allowed_file] decides as in Python.
    - [os.path] is [posixpath]: the separator is ["/"].
    - A path is the exact string the code builds; no normalisation.
    - Library calls (PIL, cairosvg, imageio, werkzeug's [secure_filename])
      are operations of a class, never definitions of their own: every
      theorem holds for any library with the stated laws, and the instance
      [Imaging.toy] shows the laws can be met.
    - A Python [float] is the decimal number that was written (sign,
      mantissa, power of ten, in normal form), or an infinity, or not a
      number.  The rounding to 64 binary digits is not modelled: the
      theorems use whether a text is read and the sign of what is read.
    - A combo box of Qt is the list of its items and the index of the
      current one, [-1] for none.  The boxes of the window are not
      editable: the user picks rows.
    - The path of an HTTP request is the decoded path of its URL, without
      the query.  As in Werkzeug the slashes it starts with count as one;
      a doubled slash further on is a segment that is empty, which no rule
      of [app.py] takes (Werkzeug answers some of these with a redirect to
      the path without the doubled slash; the model answers 404).
    - An installation is the function that says which packages are
      installed beside the standard library; a package that is found has
      the modules and the names the programs import from it.
    - A failed [Image.save] or [imageio.mimsave] leaves the file system as
      it was: the write is one step, after the encoding.
    - Nothing is recursive beyond structural recursion on strings and
      lists.  The only fuel is the number of steps of a thread in
      [Interleave]: eight steps are the longest path through the body of
      [/convert] (save, makedirs, render, open, save, remove the temporary
      file, test and remove the upload), and a thread that has answered or
      crashed stays where it is, so any larger number gives the same
      result ([thread_alone_enough]).  [Interleave.rank] is the measure
      behind the number: every step lowers the rank of its thread, from
      eight at the start.
    - In [Interleave] and [Pool] each call of the operating system or of
      an imaging library is one atomic step; the other routes are served
      atomically.

    ** What the theorems show

    - [PyString]: [rsplit1] splits at the last separator and joins back;
      so does [split_on] at every separator; [normpath] of [d/../n] is
      [n];
      [lower] is idempotent; [splitext] loses nothing; [replace] is the
      identity when the pattern is absent.
    - [Classifier]: [allowed_file] is case-insensitive, decides by the
      text after the last dot, and the two front ends' allow-lists differ;
      every classifier is a morphism for [caseless], the equivalence of
      names that differ in the case of letters only.
    - [FileSys]: writes, removals and [makedirs] act as a map and a set.
    - [Converter]: the temporary PNG is removed on success and left behind
      on failure; [app.py]'s [convert_svg] to PNG removes its own output;
      [app.py]'s JPEG path always raises [KeyError] where [converter.py]'s
      succeeds.
    - [Cad]: the COM calls made are always a prefix of one fixed script;
      a failing call leaves AutoCAD running and COM initialised; the
      [.dsd] file written next to the drawing is never removed.
    - [Loading]: [converter.py] is loaded exactly where Pillow, PyMuPDF
      and CairoSVG are installed, though nothing uses PyMuPDF; without
      pywin32 it is loaded and [convert_dwg_to_pdf] raises [NameError]
      before any call; with [pythoncom] and without [win32com] the
      function initialises COM and raises, never uninitialising it; the
      front ends need neither PyMuPDF nor pywin32.
    - [Dispatch]: a refinement.  On every pair of the specification's
      table [convert_image] of [converter.py] returns exactly when the
      strategy produces a payload, and the output file then holds it;
      outside the table the code converts raster sources where the
      specification refuses.
    - [WebApp]: the uploaded file never survives the request; status codes
      per guard; [/dwgtopdf] always answers 500.
    - [RouteTable]: the route converts an SVG to [webp], which the table
      refuses, and refuses the target [pdf], which the table has.
    - [Server]: by induction on [reachable], every file of a reachable state
      is directly inside an existing folder of [outputs] named after a
      format, and the upload folders are empty; in a reachable state no
      exception leaves a route.  The hypotheses on a request
      ([admissible]) are that the sanitised name of an upload is not
      [dwg], the name of a folder inside the upload folder, and that the
      text of [uuid.uuid4().hex] holds no separator.
    - [Listing]: in a reachable state the list of [index] is exactly the
      files of the server; every entry of it can be downloaded; the link
      of a 200 answer of [/convert] sends the converted file, except for
      an SVG converted to [png], where it answers [NotFound];
      [download_file] never raises and never writes.
    - [Routes]: a refinement.  [wsgi_app] answers a [POST] to [/convert],
      [/merge_gif] or [/dwgtopdf] whose body is within the bound with the
      answer of the route of [Server] on the body, and every other
      request in the state it found; served one after another from a
      fresh start, no request of any sequence is answered with the 500
      of an exception that left a view; the three routes answer 413
      exactly for a body over 16 MiB; the [download_url] of an answer 200
      of [/convert], requested with [GET], is matched by the rule of
      [download_file] and sends the file named in the answer;
      [/download/../n] sends the file [outputs/../n], beside the folder
      [outputs].  The hypothesis on a request ([polite]) is that the call
      it amounts to is [admissible].
    - [Interleave]: run alone, the steps are the handler of [WebApp]; two
      uploads with the same name served at the same time get each other's
      image, and the [finally] clause of one can raise after the other
      removed the upload; served one after the other both are answered,
      and the second replaces the file the first answer links to.
    - [Pool]: along every schedule that gives each thread eight turns,
      every request ends, answered or crashed, whatever the uploads are
      named; any number of requests no two of which share a path
      (different names before the extension are enough) end as each ends
      alone, with the files each writes alone, and so as the server that
      takes them one after another ends ([one_by_one]): such requests are
      serialisable; the pool of two is the machine of [Interleave].
    - [Threaded]: for uploads that pass the guards of [/convert] and
      share no path, each client of the pool receives the response that
      [app.run] gives when it takes the requests one after another, and
      the files are the same.
    - [PyFloat]: what [float] reads is in normal form; a text that starts
      with a minus sign is never read as a number above zero.
    - [QtWindow]: no sequence of events makes the loop end with an
      exception, and the window stays as it was built; the handlers are
      given one of the three formats of the web route and a duration that
      [float] reads as a number above zero; with [jpg] picked every file
      of a click fails.
    - [QtApp]: the batch loop never raises and counts every selected file
      once, as a success or as a failure; with the target [jpg] every file
      fails; an SVG converted to [png] is counted as a success and leaves
      no file; the temporary PNG is the file beside the input, which a
      conversion deletes; [select_and_merge_gif] composes all the frames
      or writes nothing.
    - [FrontEnds]: on the same images the web route and the Qt handler
      hand the same frames to [imageio.mimsave].
    - [WebGif]: the duration is refused exactly when [float] refuses its
      text, so zero, negative numbers, infinities and [nan] pass;
      no exception leaves [/merge_gif]; an answer 200 means at
      least two frames, all the named uploads of the batch, in order; any
      other answer leaves the files untouched; the loop agrees with its
      reference [frames_of]; the name check and the decoding are
      interleaved, unlike in the specification.

    ** Not modelled

    Painting and geometry of the Qt widgets, the file dialogs themselves
    (what they return is part of an event), the parsing of the multipart
    body of a request (a request carries its files and form fields), JSON
    and template rendering are library or I/O code the sources only call.
    Of Flask's routing the model has what the rules of [app.py] use:
    static parts and the string converter; the redirects of Werkzeug, the
    rule [/static], the reloader and the debugger that [debug=True] turns
    on are left out.  The text of [app.py] that is commented out (lines 48
    to 89, a copy of [convert_dwg_to_pdf]) is not code.
    Digits and white space outside ASCII, which [float] also accepts, are
    not read.  Text written with [print] is not part of a handler's
    result.  A path that ends in a separator is a path like
    any other for the file system of [FileSys].  The order in which
    [os.listdir] returns names is not modelled: theorems on [index] speak
    of membership.  Flask resolves the folder of a download against the
    directory of [app.py], the other routes resolve their paths against
    the working directory; the model has one root for both. *)

From Stdlib Require Export Ascii.
From stdpp Require Export base option list strings gmap.

(** ** Outcomes and the effect monad *)

Inductive outcome (E A : Type) : Type :=
| Ok (a : A)
| Raise (e : E).
Arguments Ok {E A} a.
Arguments Raise {E A} e.

Definition Eff (S E A : Type) : Type := S -> outcome E A * S.

Section Eff.
Context {S E : Type}.

Definition ret {A} (a : A) : Eff S E A := fun s => (Ok a, s).

Definition raise {A} (e : E) : Eff S E A := fun s => (Raise e, s).

Definition bind {A B} (m : Eff S E A) (k : A -> Eff S E B) : Eff S E B :=
  fun s => match m s with
           | (Ok a, s') => k a s'
           | (Raise e, s') => (Raise e, s')
           end.

Definition get : Eff S E S := fun s => (Ok s, s).

Definition gets {A} (f : S -> A) : Eff S E A := fun s => (Ok (f s), s).

Definition modify (f : S -> S) : Eff S E unit := fun s => (Ok tt, f s).

(** [lift_outcome o] is the pure computation [o] run as an action. *)
Definition lift_outcome {A} (o : outcome E A) : Eff S E A := fun s => (o, s).

(** Python's [try: m except Exception as e: h e]. *)
Definition try_except {A} (m : Eff S E A) (h : E -> Eff S E A) : Eff S E A :=
  fun s => match m s with
           | (Ok a, s') => (Ok a, s')
           | (Raise e, s') => h e s'
           end.

(** Python's [try: m finally: c].  The clean-up [c] runs in the state [m]
    left, whatever the outcome of [m]; an exception of [c] replaces it. *)
Definition try_finally {A} (m : Eff S E A) (c : Eff S E unit) : Eff S E A :=
  fun s => match m s with
           | (o, s') => match c s' with
                        | (Ok _, s'') => (o, s'')
                        | (Raise e, s'') => (Raise e, s'')
                        end
           end.

(** [if b: m] *)
Definition when (b : bool) (m : Eff S E unit) : Eff S E unit :=
  if b then m else ret tt.

End Eff.

Declare Scope eff_scope.
Delimit Scope eff_scope with eff.
Notation "x <- m ;; k" := (bind m (fun x => k))
  (at level 100, m at next level, right associativity) : eff_scope.
Notation "m ;;; k" := (bind m (fun _ => k))
  (at level 100, right associativity) : eff_scope.

(** Projections of a run. *)
Definition result_of {S E A} (r : outcome E A * S) : outcome E A := r.1.
Definition state_of {S E A} (r : outcome E A * S) : S := r.2.

Definition is_ok {E A} (o : outcome E A) : bool :=
  match o with Ok _ => true | Raise _ => false end.

(** ** Automation *)

Create HintDb eff discriminated.

#[export] Hint Unfold ret raise bind get gets modify lift_outcome
  try_except try_finally when result_of state_of : eff.

(** Unfold the monad and compute. *)
Ltac eff_unfold := autounfold with eff in *; simpl in *.

(** Case on the run of a sub-computation that blocks reduction. *)
Ltac eff_case :=
  match goal with
  | |- context [match ?m ?s with (_, _) => _ end] =>
      let o := fresh "o" in let s' := fresh "s'" in let R := fresh "R" in
      destruct (m s) as [o s'] eqn:R; try destruct o
  end.

(** ** Laws of the monad, pointwise in the state *)

Section EffLaws.
Context {S E : Type}.
Implicit Types s : S.

Lemma bind_ret_l {A B} (a : A) (k : A -> Eff S E B) s :
  bind (ret a) k s = k a s.
Proof. reflexivity. Qed.

Lemma bind_ret_r {A} (m : Eff S E A) s : bind m ret s = m s.
Proof. unfold bind, ret. by destruct (m s) as [[]]. Qed.

Lemma bind_assoc {A B C} (m : Eff S E A) (f : A -> Eff S E B)
    (g : B -> Eff S E C) s :
  bind (bind m f) g s = bind m (fun a => bind (f a) g) s.
Proof. unfold bind. by destruct (m s) as [[]]. Qed.

Lemma bind_raise {A B} (e : E) (k : A -> Eff S E B) s :
  bind (raise e) k s = (Raise e, s).
Proof. reflexivity. Qed.

Lemma bind_ok {A B} (m : Eff S E A) (k : A -> Eff S E B) s a s' :
  m s = (Ok a, s') -> bind m k s = k a s'.
Proof. unfold bind. by intros ->. Qed.

Lemma bind_err {A B} (m : Eff S E A) (k : A -> Eff S E B) s e s' :
  m s = (Raise e, s') -> bind m k s = (Raise e, s').
Proof. unfold bind. by intros ->. Qed.

(** What a [bind] that succeeded went through. *)
Lemma bind_ok_inv {A B} (m : Eff S E A) (k : A -> Eff S E B) s b s2 :
  bind m k s = (Ok b, s2) ->
  exists a s1, m s = (Ok a, s1) /\ k a s1 = (Ok b, s2).
Proof. unfold bind. destruct (m s) as [[a|e] s1]; [eauto | done]. Qed.

Lemma try_except_ok {A} (m : Eff S E A) h s a s' :
  m s = (Ok a, s') -> try_except m h s = (Ok a, s').
Proof. unfold try_except. by intros ->. Qed.

Lemma try_except_err {A} (m : Eff S E A) h s e s' :
  m s = (Raise e, s') -> try_except m h s = h e s'.
Proof. unfold try_except. by intros ->. Qed.

(** A handler that does not raise makes the whole block total. *)
Lemma try_except_total {A} (m : Eff S E A) (h : E -> Eff S E A) s :
  (forall e s', is_ok (h e s').1 = true) ->
  is_ok (try_except m h s).1 = true.
Proof.
  intros Hh. unfold try_except. destruct (m s) as [[a|e] s']; [done|apply Hh].
Qed.

(** The clean-up of [try_finally] always runs, in the state the body left. *)
Lemma try_finally_state {A} (m : Eff S E A) c s :
  (try_finally m c s).2 = (c (m s).2).2.
Proof.
  unfold try_finally. destruct (m s) as [o s']. simpl.
  by destruct (c s') as [[]].
Qed.

(** A clean-up that does not raise keeps the outcome of the body. *)
Lemma try_finally_outcome {A} (m : Eff S E A) c s :
  is_ok (c (m s).2).1 = true ->
  (try_finally m c s).1 = (m s).1.
Proof.
  unfold try_finally. destruct (m s) as [o s']. simpl.
  by destruct (c s') as [[]].
Qed.

Lemma when_true m s : when (S:=S) (E:=E) true m s = m s.
Proof. reflexivity. Qed.

Lemma when_false m s : when (S:=S) (E:=E) false m s = (Ok tt, s).
Proof. reflexivity. Qed.

End EffLaws.

Create Rewrite HintDb eff_rw.
#[export] Hint Rewrite @bind_ret_l @bind_raise @when_true @when_false : eff_rw.

(** ** Generic facts on booleans *)

Lemma bool_decide_ext_orb (P Q R : Prop) `{Decision P, Decision Q, Decision R} :
  (P <-> Q \/ R) -> bool_decide P = bool_decide Q || bool_decide R.
Proof.
  intros HP. destruct (decide Q), (decide R);
    rewrite ?(bool_decide_true Q), ?(bool_decide_false Q),
            ?(bool_decide_true R), ?(bool_decide_false R) by done; simpl;
    [apply bool_decide_true..|apply bool_decide_false]; tauto.
Qed.

(** ** Traversals that may fail *)

Lemma mapM_cons_Some {A B} (f : A -> option B) x l y k :
  f x = Some y -> mapM f l = Some k -> mapM f (x :: l) = Some (y :: k).
Proof. intros Hy Hk. apply mapM_Some. constructor; [done|by apply mapM_Some]. Qed.

Lemma mapM_cons_inv {A B} (f : A -> option B) x l r :
  mapM f (x :: l) = Some r ->
  exists y k, f x = Some y /\ mapM f l = Some k /\ r = y :: k.
Proof.
  intros (y & k & Hy & Hk & ->)%mapM_Some%Forall2_cons_inv_l.
  apply mapM_Some in Hk. eauto.
Qed.

(** ** Generic facts on strings *)

Lemma string_app_cons (a : ascii) (s1 s2 : string) :
  String a s1 +:+ s2 = String a (s1 +:+ s2).
Proof. reflexivity. Qed.

Lemma string_app_nil_l (s : string) : "" +:+ s = s.
Proof. reflexivity. Qed.

Lemma string_app_nil_r (s : string) : s +:+ "" = s.
Proof. induction s as [|a s IH]; [done|]. by rewrite string_app_cons, IH. Qed.

Lemma string_app_assoc (s1 s2 s3 : string) :
  (s1 +:+ s2) +:+ s3 = s1 +:+ s2 +:+ s3.
Proof.
  induction s1 as [|a s1 IH]; [done|]. by rewrite !string_app_cons, IH.
Qed.

Lemma string_app_length (s1 s2 : string) :
  String.length (s1 +:+ s2) = String.length s1 + String.length s2.
Proof.
  induction s1 as [|a s1 IH]; [done|]. rewrite string_app_cons. simpl.
  by rewrite IH.
Qed.

Lemma string_app_inj_l (p s1 s2 : string) : p +:+ s1 = p +:+ s2 -> s1 = s2.
Proof.
  induction p as [|a p IH]; [done|]. rewrite !string_app_cons.
  intros [= E]. by apply IH.
Qed.

#[export] Hint Rewrite string_app_cons string_app_nil_l string_app_nil_r
  string_app_assoc string_app_length : eff_rw.
