(* ===== verification/PyString.v ===== *)
(** * PyString: the Python string and [os.path] functions the sources call

    Each function is the Python built-in of the same name, restricted to the
    way the sources call it ([rsplit] with [maxsplit = 1] and a one-character
    separator, [os.path.join] with two arguments).  [os.path] is
    [posixpath].  Strings are byte strings; [lower] and [upper] change ASCII
    letters only. *)

From S2P Require Import Prelude.

Local Open Scope char_scope.

(** ** Characters *)

Definition is_upper (c : ascii) : bool :=
  (65 <=? N_of_ascii c)%N && (N_of_ascii c <=? 90)%N.

Definition is_lower (c : ascii) : bool :=
  (97 <=? N_of_ascii c)%N && (N_of_ascii c <=? 122)%N.

Definition lower_char (c : ascii) : ascii :=
  if is_upper c then ascii_of_N (N_of_ascii c + 32) else c.

Definition upper_char (c : ascii) : ascii :=
  if is_lower c then ascii_of_N (N_of_ascii c - 32) else c.

(** ** [str] methods *)

(** [s.lower()] *)
Fixpoint lower (s : string) : string :=
  match s with
  | EmptyString => EmptyString
  | String c s' => String (lower_char c) (lower s')
  end.

(** [s.upper()] *)
Fixpoint upper (s : string) : string :=
  match s with
  | EmptyString => EmptyString
  | String c s' => String (upper_char c) (upper s')
  end.

(** [c in s] for a one-character [c] *)
Fixpoint contains (c : ascii) (s : string) : bool :=
  match s with
  | EmptyString => false
  | String a s' => bool_decide (a = c) || contains c s'
  end.

(** [s == c * len(s)]: every character of [s] is [c] *)
Fixpoint all_char (c : ascii) (s : string) : bool :=
  match s with
  | EmptyString => true
  | String a s' => bool_decide (a = c) && all_char c s'
  end.

(** The split of [s] at its last [sep]: [Some (head, tail)] with
    [s = head ++ sep ++ tail], or [None] when [sep] does not occur. *)
Fixpoint rsplit_last (sep : ascii) (s : string) : option (string * string) :=
  match s with
  | EmptyString => None
  | String a s' =>
      match rsplit_last sep s' with
      | Some (h, t) => Some (String a h, t)
      | None => if bool_decide (a = sep) then Some (EmptyString, s') else None
      end
  end.

(** [s.rsplit(sep, 1)]: a list of one or two strings *)
Definition rsplit1 (sep : ascii) (s : string) : list string :=
  match rsplit_last sep s with
  | Some (h, t) => [h; t]
  | None => [s]
  end.

(** [s.rsplit(sep, 1)[0]]: the index cannot fail, the list is never empty *)
Definition rsplit1_head (sep : ascii) (s : string) : string :=
  match rsplit_last sep s with
  | Some (h, _) => h
  | None => s
  end.

(** [l[-1]] on a non-empty list *)
Definition py_last (l : list string) : option string := last l.

(** [s.startswith(p)] *)
Fixpoint startswith (p s : string) : bool :=
  match p, s with
  | EmptyString, _ => true
  | String a p', String b s' => bool_decide (a = b) && startswith p' s'
  | String _ _, EmptyString => false
  end.

(** [s.endswith(p)]: [p] is [s] or a suffix of the tail of [s] *)
Fixpoint endswith (p s : string) : bool :=
  bool_decide (s = p) ||
  match s with
  | EmptyString => false
  | String _ s' => endswith p s'
  end.

(** [old in s] for a substring [old] *)
Fixpoint has_sub (old s : string) : bool :=
  startswith old s ||
  match s with
  | EmptyString => false
  | String _ s' => has_sub old s'
  end.

(** [s.replace(old, new)] for a non-empty [old]: every occurrence, left to
    right, without overlap.  [skip] counts the characters of a matched
    occurrence still to drop. *)
Fixpoint replace_go (old new : string) (skip : nat) (s : string) : string :=
  match s with
  | EmptyString => EmptyString
  | String a s' =>
      match skip with
      | S k => replace_go old new k s'
      | O =>
          if startswith old s
          then new +:+ replace_go old new (String.length old - 1) s'
          else String a (replace_go old new 0 s')
      end
  end.

Definition replace (old new s : string) : string := replace_go old new 0 s.

(** [s.rstrip(c)] for a one-character [c] *)
Fixpoint rstrip (c : ascii) (s : string) : string :=
  match s with
  | EmptyString => EmptyString
  | String a s' =>
      match rstrip c s' with
      | EmptyString => if bool_decide (a = c) then EmptyString else String a EmptyString
      | r => String a r
      end
  end.

(** ** [os.path] (posixpath) *)

Definition sep : ascii := "/".
Definition extsep : ascii := ".".

(** [p[:i], p[i:]] with [i = p.rfind('/') + 1]: the directory part with its
    final slash, and the last component *)
Definition split_dir (p : string) : string * string :=
  match rsplit_last sep p with
  | Some (h, t) => (h +:+ String sep EmptyString, t)
  | None => (EmptyString, p)
  end.

(** [os.path.basename(p)]: what follows the last ["/"] *)
Definition basename (p : string) : string := (split_dir p).2.

(** [os.path.dirname(p)]: [head = p[:rfind('/')+1]], right-stripped of
    slashes unless it consists of slashes only *)
Definition dirname (p : string) : string :=
  let head := (split_dir p).1 in
  if all_char sep head then head else rstrip sep head.

(** [os.path.join(a, b)] *)
Definition join (a b : string) : string :=
  if startswith (String sep EmptyString) b then b
  else if bool_decide (a = EmptyString) || endswith (String sep EmptyString) a
       then a +:+ b
       else a +:+ String sep b.

(** [os.path.splitext(p)]: the extension starts at the last dot of the last
    component, unless only dots precede it there. *)
Definition splitext (p : string) : string * string :=
  let '(d, name) := split_dir p in
  match rsplit_last extsep name with
  | Some (h, t) =>
      if all_char extsep h then (p, EmptyString)
      else (d +:+ h, String extsep t)
  | None => (p, EmptyString)
  end.

(** ** Tests against the Python interpreter's answers *)

Example lower_ex : lower "Photo.PNG" = "photo.png"%string.
Proof. reflexivity. Qed.

Example upper_ex : upper "webp" = "WEBP"%string.
Proof. reflexivity. Qed.

Example rsplit1_ex : rsplit1 "." "a.tar.gz" = ["a.tar"; "gz"]%string.
Proof. reflexivity. Qed.

Example rsplit1_nodot_ex : rsplit1 "." "README" = ["README"]%string.
Proof. reflexivity. Qed.

Example replace_ex : replace ".jpg" ".png" "a.jpg/b.jpg" = "a.png/b.png"%string.
Proof. reflexivity. Qed.

Example replace_overlap_ex : replace "aa" "b" "aaa" = "ba"%string.
Proof. reflexivity. Qed.

Example splitext_ex : splitext "out/jpg/a.b.jpg" = ("out/jpg/a.b", ".jpg")%string.
Proof. reflexivity. Qed.

Example splitext_hidden_ex : splitext "dir/.svg" = ("dir/.svg", "")%string.
Proof. reflexivity. Qed.

Example splitext_dotdir_ex : splitext "a.d/file" = ("a.d/file", "")%string.
Proof. reflexivity. Qed.

Example dirname_ex : dirname "outputs/pdf/x.pdf" = "outputs/pdf"%string.
Proof. reflexivity. Qed.

Example dirname_root_ex : dirname "/x" = "/"%string.
Proof. reflexivity. Qed.

Example join_ex : join "outputs" "gif" = "outputs/gif"%string.
Proof. reflexivity. Qed.

Example join_abs_ex : join "uploads" "/etc/passwd" = "/etc/passwd"%string.
Proof. reflexivity. Qed.

Example endswith_ex : endswith ".dwg" "plan.dwg" = true.
Proof. reflexivity. Qed.

(** ** Characters and case *)

Lemma lower_char_idemp (c : ascii) : lower_char (lower_char c) = lower_char c.
Proof. by destruct c as [[] [] [] [] [] [] [] []]. Qed.

Lemma upper_lower_char (c : ascii) :
  lower_char (upper_char (lower_char c)) = lower_char c.
Proof. by destruct c as [[] [] [] [] [] [] [] []]. Qed.

Lemma lower_char_upper (c : ascii) : lower_char (upper_char c) = lower_char c.
Proof. by destruct c as [[] [] [] [] [] [] [] []]. Qed.

Lemma lower_char_sep (c : ascii) (x : ascii) :
  is_upper x = false -> is_lower x = false ->
  bool_decide (lower_char c = x) = bool_decide (c = x).
Proof.
  intros Hu Hl. apply bool_decide_ext. split; [|by intros ->; unfold lower_char; rewrite Hu].
  intros <-. revert Hu Hl. by destruct c as [[] [] [] [] [] [] [] []].
Qed.

Lemma upper_char_idemp (c : ascii) : upper_char (upper_char c) = upper_char c.
Proof. by destruct c as [[] [] [] [] [] [] [] []]. Qed.

Lemma upper_idemp (s : string) : upper (upper s) = upper s.
Proof. induction s; simpl; [done|]. by rewrite upper_char_idemp, IHs. Qed.

Lemma lower_idemp (s : string) : lower (lower s) = lower s.
Proof. induction s; simpl; [done|]. by rewrite lower_char_idemp, IHs. Qed.

Lemma lower_upper (s : string) : lower (upper s) = lower s.
Proof. induction s; simpl; [done|]. by rewrite lower_char_upper, IHs. Qed.

Lemma lower_app (s1 s2 : string) : lower (s1 +:+ s2) = lower s1 +:+ lower s2.
Proof.
  induction s1 as [|a s1 IH]; [done|].
  rewrite string_app_cons. simpl. by rewrite IH.
Qed.

Lemma lower_length (s : string) : String.length (lower s) = String.length s.
Proof. induction s; simpl; auto. Qed.

(** Lowering does not create or remove a non-letter such as the dot. *)
Lemma contains_lower (x : ascii) (s : string) :
  is_upper x = false -> is_lower x = false ->
  contains x (lower s) = contains x s.
Proof.
  intros Hu Hl. induction s as [|a s IH]; simpl; [done|].
  by rewrite lower_char_sep, IH.
Qed.

(** ** Membership and splitting *)

Lemma contains_app (c : ascii) (s1 s2 : string) :
  contains c (s1 +:+ s2) = contains c s1 || contains c s2.
Proof.
  induction s1 as [|a s1 IH]; [done|].
  rewrite string_app_cons. simpl. by rewrite IH, orb_assoc.
Qed.

Lemma rsplit_last_None (c : ascii) (s : string) :
  rsplit_last c s = None <-> contains c s = false.
Proof.
  induction s as [|a s IH]; simpl; [done|].
  destruct (rsplit_last c s) as [[h t]|].
  - split; [done|]. intros [_ H]%orb_false_iff. by apply IH in H.
  - rewrite (proj1 IH eq_refl), orb_false_r. by case_bool_decide.
Qed.

Lemma rsplit_last_inv (c : ascii) (s h t : string) :
  rsplit_last c s = Some (h, t) ->
  s = h +:+ String c t /\ contains c t = false.
Proof.
  revert h t. induction s as [|a s IH]; intros h t; simpl; [done|].
  destruct (rsplit_last c s) as [[h' t']|] eqn:R.
  - intros [= <- <-]. destruct (IH _ _ eq_refl) as [-> ?].
    by rewrite string_app_cons.
  - apply rsplit_last_None in R. case_bool_decide; [|done].
    intros [= <- <-]. by subst a.
Qed.

Lemma rsplit_last_app (c : ascii) (h t : string) :
  contains c t = false -> rsplit_last c (h +:+ String c t) = Some (h, t).
Proof.
  intros Ht. induction h as [|a h IH].
  - simpl. rewrite (proj2 (rsplit_last_None c t) Ht).
    by rewrite bool_decide_true.
  - rewrite string_app_cons. simpl. by rewrite IH.
Qed.

Lemma rsplit_last_Some (c : ascii) (s h t : string) :
  rsplit_last c s = Some (h, t) <->
  s = h +:+ String c t /\ contains c t = false.
Proof.
  split; [apply rsplit_last_inv|]. intros [-> ?]. by apply rsplit_last_app.
Qed.

(** [sep.join(l)] for a one-character separator: the inverse of a split. *)
Fixpoint sep_join (c : ascii) (l : list string) : string :=
  match l with
  | [] => EmptyString
  | [x] => x
  | x :: l' => x +:+ String c (sep_join c l')
  end.

Lemma rsplit1_length (c : ascii) (s : string) :
  length (rsplit1 c s) = if contains c s then 2 else 1.
Proof.
  unfold rsplit1. destruct (rsplit_last c s) as [[h t]|] eqn:R.
  - apply rsplit_last_Some in R as [-> _]. rewrite contains_app. simpl.
    by rewrite bool_decide_true, orb_true_r.
  - apply rsplit_last_None in R. by rewrite R.
Qed.

Lemma rsplit1_lookup_1 (c : ascii) (s : string) :
  contains c s = true -> is_Some (rsplit1 c s !! 1).
Proof.
  intros H. apply lookup_lt_is_Some. rewrite rsplit1_length, H. lia.
Qed.

Lemma rsplit1_tail_no_sep (c : ascii) (s t : string) :
  rsplit1 c s !! 1 = Some t -> contains c t = false.
Proof.
  unfold rsplit1. destruct (rsplit_last c s) as [[h t']|] eqn:R; [|done].
  intros [= <-]. by apply rsplit_last_Some in R as [_ ?].
Qed.

(** ** [os.path] *)

Lemma split_dir_join (p : string) : (split_dir p).1 +:+ (split_dir p).2 = p.
Proof.
  unfold split_dir. destruct (rsplit_last sep p) as [[h t]|] eqn:R; [|done].
  apply rsplit_last_Some in R as [-> _]. simpl.
  by rewrite string_app_assoc.
Qed.

Lemma basename_no_sep (p : string) : contains sep (basename p) = false.
Proof.
  unfold basename, split_dir.
  destruct (rsplit_last sep p) as [[h t]|] eqn:R; simpl.
  - by apply rsplit_last_Some in R as [_ ?].
  - by apply rsplit_last_None.
Qed.

Lemma split_dir_no_sep (p : string) :
  contains sep p = false -> split_dir p = (EmptyString, p).
Proof. intros H%rsplit_last_None. unfold split_dir. by rewrite H. Qed.

(** Splitting loses nothing: joining the pieces of [s.rsplit(sep, 1)]
    with the separator gives [s] back. *)
Theorem rsplit1_roundtrip (c : ascii) (s : string) : sep_join c (rsplit1 c s) = s.
Proof.
  unfold rsplit1. destruct (rsplit_last c s) as [[h t]|] eqn:R; [|done].
  by apply rsplit_last_inv in R as [-> _].
Qed.

Lemma splitext_join (p : string) : (splitext p).1 +:+ (splitext p).2 = p.
Proof.
  unfold splitext. pose proof (split_dir_join p) as J.
  destruct (split_dir p) as [d name]. simpl in J.
  destruct (rsplit_last extsep name) as [[h t]|] eqn:R; simpl.
  - destruct (all_char extsep h); simpl; [apply string_app_nil_r|].
    apply rsplit_last_inv in R as [-> _]. by rewrite string_app_assoc.
  - apply string_app_nil_r.
Qed.

(** [os.path.splitext] cuts a path in two without losing a character,
    and the extension is empty or a dot followed by text that has neither
    dot nor slash. *)
Theorem splitext_roundtrip (p : string) :
  (splitext p).1 +:+ (splitext p).2 = p /\
  ((splitext p).2 = EmptyString \/
   exists t, (splitext p).2 = String extsep t /\
             contains extsep t = false /\ contains sep t = false).
Proof.
  split; [apply splitext_join|]. unfold splitext.
  pose proof (basename_no_sep p) as B. unfold basename in B.
  destruct (split_dir p) as [d name]. simpl in B.
  destruct (rsplit_last extsep name) as [[h t]|] eqn:R; simpl; [|by left].
  destruct (all_char extsep h); simpl; [by left|]. right. exists t.
  apply rsplit_last_inv in R as [-> ?]. rewrite contains_app in B.
  by apply orb_false_iff in B as [_ B].
Qed.

(** On a bare file name with a proper stem, [splitext] and [rsplit(".", 1)]
    cut at the same dot. *)
Lemma splitext_rsplit (f h t : string) :
  contains sep f = false ->
  rsplit_last extsep f = Some (h, t) ->
  all_char extsep h = false ->
  splitext f = (h, String extsep t).
Proof.
  intros Hs R Hh. unfold splitext. rewrite (split_dir_no_sep _ Hs), R, Hh.
  done.
Qed.

(** ** Prefixes and replacement *)

Lemma startswith_app (p s : string) : startswith p (p +:+ s) = true.
Proof.
  induction p as [|a p IH]; [done|].
  rewrite string_app_cons. simpl. by rewrite bool_decide_true.
Qed.

Lemma startswith_inv (p s : string) :
  startswith p s = true -> exists r, s = p +:+ r.
Proof.
  revert s. induction p as [|a p IH]; intros s; [by exists s|].
  destruct s as [|b s]; simpl; [done|].
  intros [->%bool_decide_eq_true [r ->]%IH]%andb_true_iff. by exists r.
Qed.

Lemma startswith_same_length (p q s : string) :
  String.length p = String.length q ->
  startswith p s = true -> startswith q s = true -> p = q.
Proof.
  revert q s. induction p as [|a p IH]; intros [|b q] [|c s]; simpl; try done.
  intros [= L] [->%bool_decide_eq_true Hp]%andb_true_iff
    [->%bool_decide_eq_true Hq]%andb_true_iff.
  f_equal. eauto.
Qed.

Lemma replace_go_absent (old new s : string) :
  has_sub old s = false -> replace_go old new 0 s = s.
Proof.
  induction s as [|a s IH]; [done|]. simpl has_sub.
  intros [H1 H2]%orb_false_iff. simpl replace_go.
  destruct old as [|o old]; [done|]. simpl in H1. simpl startswith.
  rewrite H1. by rewrite IH.
Qed.

(** [s.replace(old, new)] is [s] when [old] does not occur in [s]. *)
Lemma replace_absent (old new s : string) :
  has_sub old s = false -> replace old new s = s.
Proof. apply replace_go_absent. Qed.

(** It differs from [s] when [old] occurs and [new] is another string of the
    same length. *)
Lemma replace_present (old new s : string) :
  String.length old = String.length new -> old <> new ->
  has_sub old s = true -> replace old new s <> s.
Proof.
  intros L Hne. unfold replace. induction s as [|a s IH].
  - destruct old; [|done]. destruct new; done.
  - simpl has_sub. simpl replace_go.
    destruct (startswith old (String a s)) eqn:P.
    + intros _ E. apply Hne. apply (startswith_same_length _ _ (String a s)); [done..|].
      rewrite <- E. apply startswith_app.
    + simpl. intros H [= E]. by apply IH.
Qed.

(** ** Splitting commutes with lowering *)

Lemma rsplit_last_lower (c : ascii) (s : string) :
  is_upper c = false -> is_lower c = false ->
  rsplit_last c (lower s) = prod_map lower lower <$> rsplit_last c s.
Proof.
  intros Hu Hl. induction s as [|a s IH]; simpl; [done|]. rewrite IH.
  destruct (rsplit_last c s) as [[h t]|]; simpl; [done|].
  rewrite lower_char_sep by done. by case_bool_decide.
Qed.

Lemma rsplit1_lower (c : ascii) (s : string) :
  is_upper c = false -> is_lower c = false ->
  rsplit1 c (lower s) = lower <$> rsplit1 c s.
Proof.
  intros Hu Hl. unfold rsplit1. rewrite rsplit_last_lower by done.
  by destruct (rsplit_last c s) as [[h t]|].
Qed.

(** ** Suffixes, stripping and joining *)

Lemma endswith_iff (p s : string) :
  endswith p s = true <-> exists h, s = h +:+ p.
Proof.
  induction s as [|a s IH]; simpl.
  - rewrite orb_false_r, bool_decide_eq_true. split.
    + intros <-. by exists EmptyString.
    + intros [[|b h] H]; [done|]. by rewrite string_app_cons in H.
  - rewrite orb_true_iff, bool_decide_eq_true, IH. split.
    + intros [<-|[h ->]]; [by exists EmptyString|].
      exists (String a h). by rewrite string_app_cons.
    + intros [[|b h] H]; [by left|]. rewrite string_app_cons in H.
      injection H as -> ->. right. by exists h.
Qed.

Lemma all_char_app (c : ascii) (s1 s2 : string) :
  all_char c (s1 +:+ s2) = all_char c s1 && all_char c s2.
Proof.
  induction s1 as [|a s1 IH]; [done|].
  rewrite string_app_cons. simpl. by rewrite IH, andb_assoc.
Qed.

Lemma rstrip_all_char (c : ascii) (s : string) :
  all_char c s = true -> rstrip c s = EmptyString.
Proof.
  induction s as [|a s IH]; simpl; [done|].
  intros [Ha Hs]%andb_true_iff. by rewrite IH, Ha.
Qed.

Lemma rstrip_app_sep (c : ascii) (s : string) :
  rstrip c (s +:+ String c EmptyString) = rstrip c s.
Proof.
  induction s as [|a s IH].
  - simpl. by rewrite bool_decide_true.
  - rewrite string_app_cons. simpl. by rewrite IH.
Qed.

(** A non-empty string that [rstrip] leaves as it is does not end with the
    stripped character. *)
Lemma rstrip_id_endswith (c : ascii) (s : string) :
  s <> EmptyString -> rstrip c s = s ->
  endswith (String c EmptyString) s = false /\ all_char c s = false.
Proof.
  induction s as [|a s IH]; [done|]. intros _. simpl.
  destruct (rstrip c s) as [|b r] eqn:R.
  - case_bool_decide as Hac; [done|]. intros [= <-]. simpl.
    rewrite bool_decide_false by congruence. by rewrite orb_false_r.
  - intros [= E]. rewrite <- E in *. destruct (IH ltac:(done) eq_refl) as [H1 H2].
    rewrite H1, H2, andb_false_r, orb_false_r.
    by rewrite bool_decide_false by congruence.
Qed.

Lemma startswith_sep_contains (n : string) :
  contains sep n = false -> startswith (String sep EmptyString) n = false.
Proof.
  destruct n as [|a n]; simpl; [done|]. intros [H _]%orb_false_iff.
  rewrite andb_true_r. apply bool_decide_eq_false in H.
  apply bool_decide_eq_false. congruence.
Qed.

(** [os.path.join(d, n)] of a directory without final slash and a bare
    name. *)
Lemma join_dir_name (d n : string) :
  d <> EmptyString -> rstrip sep d = d -> contains sep n = false ->
  join d n = d +:+ String sep n.
Proof.
  intros Hd Hr Hn. unfold join. rewrite startswith_sep_contains by done.
  destruct (rstrip_id_endswith sep d Hd Hr) as [-> _].
  by rewrite bool_decide_false.
Qed.

Lemma split_dir_app (d n : string) :
  contains sep n = false ->
  split_dir (d +:+ String sep n) = (d +:+ String sep EmptyString, n).
Proof. intros Hn. unfold split_dir. by rewrite rsplit_last_app. Qed.

Lemma dirname_dir_name (d n : string) :
  d <> EmptyString -> rstrip sep d = d -> contains sep n = false ->
  dirname (d +:+ String sep n) = d.
Proof.
  intros Hd Hr Hn. unfold dirname.
  rewrite split_dir_app by done. simpl.
  destruct (rstrip_id_endswith sep d Hd Hr) as [_ Ha].
  by rewrite all_char_app, Ha, rstrip_app_sep.
Qed.

(** [dirname] and [basename] take a joined path apart again. *)
Lemma dirname_join (d n : string) :
  d <> EmptyString -> rstrip sep d = d -> contains sep n = false ->
  dirname (join d n) = d.
Proof.
  intros Hd Hr Hn. rewrite join_dir_name by done. by apply dirname_dir_name.
Qed.

Lemma basename_join (d n : string) :
  d <> EmptyString -> rstrip sep d = d -> contains sep n = false ->
  basename (join d n) = n.
Proof.
  intros Hd Hr Hn. rewrite join_dir_name by done. unfold basename.
  by rewrite split_dir_app.
Qed.

Lemma rsplit1_head_lookup (c : ascii) (s : string) :
  rsplit1 c s !! 0 = Some (rsplit1_head c s).
Proof. unfold rsplit1, rsplit1_head. by destruct (rsplit_last c s) as [[]|]. Qed.

Lemma rsplit1_head_app (c : ascii) (h t : string) :
  contains c t = false -> rsplit1_head c (h +:+ String c t) = h.
Proof. intros Ht. unfold rsplit1_head. by rewrite rsplit_last_app. Qed.

Lemma splitext_no_sep (p : string) :
  contains sep p = false ->
  contains sep (splitext p).1 = false /\ contains sep (splitext p).2 = false.
Proof.
  intros Hp. rewrite <- (splitext_join p), contains_app in Hp.
  by apply orb_false_iff in Hp.
Qed.

(** [rsplit('.', 1)[0]] of [d/stem.ext] when the extension has no dot. *)
Lemma rsplit1_head_path (d stem ext : string) :
  contains extsep ext = false ->
  rsplit1_head extsep (d +:+ stem +:+ String extsep ext) = d +:+ stem.
Proof.
  intros He. rewrite <- string_app_assoc. by apply rsplit1_head_app.
Qed.

(** [s.replace(old, new)] with a [new] of the length of [old] and
    different from it returns [s] exactly when [old] does not occur in
    [s]. *)
Theorem replace_fixed_iff (old new s : string) :
  String.length old = String.length new -> old <> new ->
  replace old new s = s <-> has_sub old s = false.
Proof.
  intros L Hne. split; [|apply replace_absent].
  intros E. destruct (has_sub old s) eqn:Hs; [|done].
  by destruct (replace_present old new s L Hne Hs).
Qed.

Lemma replace_fixed_iff_witness :
  replace ".jpg" ".png" "out/a.jpeg" = "out/a.jpeg"%string <->
  has_sub ".jpg" "out/a.jpeg" = false.
Proof. by apply replace_fixed_iff. Defined.

(** ** [str.split], [str.lstrip] and [os.path.normpath] *)

(** [s.split(c)] *)
Fixpoint split_on (c : ascii) (s : string) : list string :=
  match s with
  | EmptyString => [EmptyString]
  | String a s' =>
      if bool_decide (a = c) then EmptyString :: split_on c s'
      else match split_on c s' with
           | x :: l => String a x :: l
           | [] => [String a EmptyString]
           end
  end.

(** [s.lstrip(c)] *)
Fixpoint lstrip (c : ascii) (s : string) : string :=
  match s with
  | EmptyString => EmptyString
  | String a s' => if bool_decide (a = c) then lstrip c s' else s
  end.

(** One turn of the loop of [normpath]; [new_comps] is kept with its last
    component first. *)
Definition normpath_step (initial_slashes : nat) (new_comps : list string)
    (comp : string) : list string :=
  if bool_decide (comp = EmptyString) || bool_decide (comp = "."%string) then new_comps
  else if negb (bool_decide (comp = ".."%string))
          || (bool_decide (initial_slashes = 0) && bool_decide (new_comps = []))
          || bool_decide (head new_comps = Some ".."%string)
  then comp :: new_comps
  else tail new_comps.

(** [os.path.normpath(path)], the path the operating system resolves
    [path] to when no component is a link. *)
Definition normpath (path : string) : string :=
  let initial_slashes :=
    if startswith "/" path then
      if startswith "//" path && negb (startswith "///" path) then 2 else 1
    else 0 in
  let comps := foldl (normpath_step initial_slashes) [] (split_on sep path) in
  let path := sep_join sep (reverse comps) in
  let path := match initial_slashes with
              | 0 => path
              | 1 => String sep path
              | _ => String sep (String sep path)
              end in
  if bool_decide (path = EmptyString) then "."%string else path.

Example split_on_ex : split_on "/" "/download//x" = [""; "download"; ""; "x"]%string.
Proof. reflexivity. Qed.

Example normpath_ex :
  normpath "outputs/../app.py" = "app.py"%string /\
  normpath "outputs/png/./a.png" = "outputs/png/a.png"%string /\
  normpath "../x//y/" = "../x/y"%string /\ normpath "/../x" = "/x"%string /\
  normpath "//x" = "//x"%string /\ normpath "a/.." = "."%string.
Proof. by vm_compute. Qed.

Lemma split_on_ne_nil (c : ascii) (s : string) : split_on c s <> [].
Proof.
  destruct s as [|a s]; simpl; [done|]. case_bool_decide; [done|].
  by destruct (split_on c s).
Qed.

(** A text without the separator is one piece. *)
Lemma split_on_none (c : ascii) (s : string) :
  contains c s = false -> split_on c s = [s].
Proof.
  induction s as [|a s IH]; [done|]. simpl.
  intros [Ha Hs]%orb_false_elim. rewrite Ha, IH; done.
Qed.

(** The first piece ends at the first separator. *)
Lemma split_on_app (c : ascii) (h t : string) :
  contains c h = false -> split_on c (h +:+ String c t) = h :: split_on c t.
Proof.
  induction h as [|a h IH].
  - intros _. rewrite string_app_nil_l. simpl. by rewrite bool_decide_true.
  - rewrite string_app_cons. simpl. intros [Ha Hh]%orb_false_elim.
    rewrite Ha, IH; done.
Qed.

(** The pieces hold no separator. *)
Lemma split_on_contains (c : ascii) (s x : string) :
  x ∈ split_on c s -> contains c x = false.
Proof.
  revert x. induction s as [|a s IH]; intros x; simpl.
  - by intros ->%list_elem_of_singleton.
  - case_bool_decide as Ha.
    + intros [->|Hx]%elem_of_cons; [done|by apply IH].
    + destruct (split_on c s) as [|y l]; [by intros ->%list_elem_of_singleton;
        simpl; rewrite bool_decide_false|].
      intros [->|Hx]%elem_of_cons.
      * simpl. rewrite bool_decide_false by done. apply IH. by left.
      * apply IH. by right.
Qed.

(** Joining the pieces with the separator gives the text back. *)
Theorem split_on_join (c : ascii) (s : string) : sep_join c (split_on c s) = s.
Proof.
  induction s as [|a s IH]; [done|]. simpl.
  pose proof (split_on_ne_nil c s) as Hne.
  destruct (split_on c s) as [|x l]; [done|]. case_bool_decide as Ha.
  - subst a. change (sep_join c (EmptyString :: x :: l))
      with (String c (sep_join c (x :: l))). by rewrite IH.
  - destruct l as [|y l]; simpl in *; [by rewrite IH|].
    by rewrite string_app_cons, IH.
Qed.

Lemma lstrip_head (c a : ascii) (s : string) :
  a <> c -> lstrip c (String a s) = String a s.
Proof. intros Ha. simpl. by rewrite bool_decide_false. Qed.

(** A component that names an entry of a folder. *)
Definition plain (x : string) : Prop :=
  contains sep x = false /\ x ∉ [""; "."; ".."]%string.

#[export] Instance plain_dec (x : string) : Decision (plain x).
Proof. unfold plain. apply _. Defined.

Lemma normpath_step_plain (k : nat) (l : list string) (x : string) :
  plain x -> normpath_step k l x = x :: l.
Proof.
  intros [_ Hx]. rewrite !elem_of_cons, elem_of_nil in Hx.
  unfold normpath_step. rewrite !bool_decide_false by tauto. done.
Qed.

Lemma normpath_step_up (k : nat) (l : list string) (x : string) :
  x <> ".."%string -> normpath_step k (x :: l) ".." = l.
Proof.
  intros Hx. unfold normpath_step. simpl.
  rewrite andb_false_r, bool_decide_false; [done|]. by intros [= ->].
Qed.

Lemma plain_not_absolute (x y : string) : plain x -> startswith "/" (x +:+ y) = false.
Proof.
  intros [Hc Hx]. destruct x as [|a x]; [by destruct Hx; left|].
  rewrite string_app_cons. simpl in *. apply orb_false_elim in Hc as [Ha _].
  apply bool_decide_eq_false in Ha. by rewrite bool_decide_false by (by intros <-).
Qed.

(** [d/../n] is [n], beside [d]. *)
Lemma normpath_parent (d n : string) :
  plain d -> plain n -> normpath (d +:+ "/../" +:+ n) = n.
Proof.
  intros Hd Hn. unfold normpath. rewrite (plain_not_absolute d) by done.
  change (d +:+ "/../" +:+ n) with (d +:+ String sep (".." +:+ String sep n)).
  rewrite !split_on_app, split_on_none by (done || apply Hd || apply Hn).
  simpl foldl. rewrite (normpath_step_plain _ _ d) by done.
  rewrite normpath_step_up, normpath_step_plain
    by (done || (intros ->; apply Hd; by do 2 right; left)). simpl.
  destruct Hn as [_ Hn]. rewrite bool_decide_false; [done|].
  intros ->. apply Hn. by left.
Qed.
