(* ===== verification/PyFloat.v ===== *)
(** * PyFloat: Python's [float(s)] on a string

    [src/app.py] reads the duration of a frame with
    [float(request.form.get('duration', 0.5))] and [src/app_qt5.py] with
    [float(self.duration_combo.currentText())].  [float_of_str] is the
    grammar Python accepts, [None] standing for [ValueError]:

    << floatvalue ::= [sign] (floatnumber | "inf" | "infinity" | "nan")
       floatnumber ::= number [exponent]
       number      ::= [digitpart] "." digitpart | digitpart ["."]
       exponent    ::= ("e" | "E") [sign] digitpart
       digitpart   ::= digit (["_"] digit)* >>

    after white space is stripped at both ends; the three words are read in
    any case.

    A [float] is kept as the decimal number that was written: sign,
    mantissa and power of ten, with no zero at the end of the mantissa.
    The rounding to 64 binary digits is not modelled; what the theorems
    of the development use is whether a text is accepted, and the sign of
    the value. *)

From S2P Require Import Prelude PyString.

Local Open Scope char_scope.

(** ** Values *)

(** [Finite neg m e] is [m * 10^e], negated when [neg]. *)
Inductive float :=
| Finite (negative : bool) (mantissa : N) (exponent : Z)
| Infinity (negative : bool)
| NaN.

#[export] Instance float_eq_dec : EqDecision float.
Proof. solve_decision. Defined.

(** The literal [0.5]. *)
Definition float_half : float := Finite false 5 (-1).

(** A finite number above zero: what the duration of a frame is meant to
    be. *)
Definition is_positive (x : float) : bool :=
  match x with
  | Finite false m _ => negb (m =? 0)%N
  | _ => false
  end.

(** ** Characters *)

(** What [str.strip] and [float] take for white space, among the ASCII
    characters. *)
Definition is_space (c : ascii) : bool :=
  let n := N_of_ascii c in
  (n =? 32)%N || ((9 <=? n)%N && (n <=? 13)%N) || ((28 <=? n)%N && (n <=? 31)%N).

Definition digit_of (c : ascii) : option N :=
  let n := N_of_ascii c in
  if (48 <=? n)%N && (n <=? 57)%N then Some (n - 48)%N else None.

(** ** [str.strip] *)

Fixpoint lstrip_space (s : string) : string :=
  match s with
  | String c s' => if is_space c then lstrip_space s' else s
  | EmptyString => EmptyString
  end.

Fixpoint rstrip_space (s : string) : string :=
  match s with
  | String c s' =>
      let r := rstrip_space s' in
      if is_space c && bool_decide (r = EmptyString) then EmptyString
      else String c r
  | EmptyString => EmptyString
  end.

Definition strip (s : string) : string := rstrip_space (lstrip_space s).

(** ** The grammar *)

(** The digits after the first one of a [digitpart], each perhaps after one
    ["_"].  Digits are collected with the last one first. *)
Fixpoint more_digits (s : string) (acc : list N) : list N * string :=
  match s with
  | String c s' =>
      match digit_of c with
      | Some d => more_digits s' (d :: acc)
      | None =>
          match s' with
          | String c' _ =>
              if bool_decide (c = "_") && bool_decide (is_Some (digit_of c'))
              then more_digits s' acc
              else (acc, s)
          | EmptyString => (acc, s)
          end
      end
  | EmptyString => (acc, s)
  end.

Definition digitpart (s : string) : option (list N * string) :=
  match s with
  | String c s' =>
      match digit_of c with
      | Some d => Some (more_digits s' [d])
      | None => None
      end
  | EmptyString => None
  end.

(** The digits of a [number], the last one first, and the power of ten
    that the position of the point gives. *)
Definition number (s : string) : option (list N * Z * string) :=
  match digitpart s with
  | Some (int, rest) =>
      match rest with
      | String "." r =>
          match digitpart r with
          | Some (frac, r') => Some (frac ++ int, (- Z.of_nat (length frac))%Z, r')
          | None => Some (int, 0%Z, r)
          end
      | _ => Some (int, 0%Z, rest)
      end
  | None =>
      match s with
      | String "." r =>
          match digitpart r with
          | Some (frac, r') => Some (frac, (- Z.of_nat (length frac))%Z, r')
          | None => None
          end
      | _ => None
      end
  end.

Definition sign (s : string) : bool * string :=
  match s with
  | String "-" r => (true, r)
  | String "+" r => (false, r)
  | _ => (false, s)
  end.

(** The number digits stand for, the last digit first. *)
Definition value (ds : list N) : N := foldr (fun d a => d + 10 * a)%N 0%N ds.

Definition exponent (s : string) : option (Z * string) :=
  match s with
  | String c r =>
      if bool_decide (c = "e" \/ c = "E") then
        let '(neg, r) := sign r in
        match digitpart r with
        | Some (ds, r') =>
            let v := Z.of_N (value ds) in Some (if neg then (- v)%Z else v, r')
        | None => None
        end
      else Some (0%Z, s)
  | EmptyString => Some (0%Z, s)
  end.

(** The value of digits and a power of ten, without the zeros at the end
    of the mantissa. *)
Fixpoint finite (neg : bool) (ds : list N) (e : Z) : float :=
  match ds with
  | d :: ds' =>
      if (d =? 0)%N then finite neg ds' (e + 1)%Z
      else Finite neg (value ds) e
  | [] => Finite neg 0 0
  end.

(** [float(s)] *)
Definition float_of_str (s : string) : option float :=
  let '(neg, r) := sign (strip s) in
  let word := lower r in
  if bool_decide (word = "inf" \/ word = "infinity")%string then Some (Infinity neg)
  else if bool_decide (word = "nan")%string then Some NaN
  else
    match number r with
    | Some (ds, e1, r1) =>
        match exponent r1 with
        | Some (e2, EmptyString) => Some (finite neg ds (e1 + e2)%Z)
        | _ => None
        end
    | None => None
    end.

(** ** Runs *)

Example float_of_str_plain :
  float_of_str "0.5" = Some float_half /\ float_of_str "1.0" = Some (Finite false 1 0) /\
  float_of_str "0.50" = Some float_half /\ float_of_str " 5e-1 " = Some float_half /\
  float_of_str ".5" = Some float_half /\ float_of_str "5." = Some (Finite false 5 0) /\
  float_of_str "1_000" = Some (Finite false 1 3) /\
  float_of_str "1E3" = Some (Finite false 1 3) /\
  float_of_str "+1.25e+2" = Some (Finite false 125 0) /\
  float_of_str "-0" = Some (Finite true 0 0).
Proof. by vm_compute. Qed.

Example float_of_str_words :
  float_of_str "nan" = Some NaN /\ float_of_str "-NaN" = Some NaN /\
  float_of_str "inf" = Some (Infinity false) /\
  float_of_str "-Infinity" = Some (Infinity true).
Proof. by vm_compute. Qed.

Example float_of_str_refused :
  float_of_str "" = None /\ float_of_str "abc" = None /\ float_of_str "." = None /\
  float_of_str "1e" = None /\ float_of_str "e5" = None /\ float_of_str "1_" = None /\
  float_of_str "_1" = None /\ float_of_str "1__0" = None /\ float_of_str "1._5" = None /\
  float_of_str "0x10" = None /\ float_of_str "1 2" = None /\ float_of_str "0,5" = None /\
  float_of_str "--1" = None /\ float_of_str "- 1" = None.
Proof. by vm_compute. Qed.

(** ** White space *)

Section Strip.
Implicit Types (s : string) (c : ascii).

Lemma lstrip_space_idemp s : lstrip_space (lstrip_space s) = lstrip_space s.
Proof.
  induction s as [|c s IH]; [done|]. simpl.
  destruct (is_space c) eqn:E; [done|]. simpl. by rewrite E.
Qed.

(** What [rstrip_space] returns is empty or ends in a character that is
    not white space. *)
Lemma rstrip_space_idemp s : rstrip_space (rstrip_space s) = rstrip_space s.
Proof.
  induction s as [|c s IH]; [done|]. simpl.
  destruct (is_space c && bool_decide (rstrip_space s = EmptyString)) eqn:E; [done|].
  simpl. by rewrite IH, E.
Qed.

(** Stripping at the end leaves the start alone. *)
Lemma lstrip_rstrip s :
  lstrip_space (rstrip_space s) = rstrip_space (lstrip_space s).
Proof.
  induction s as [|c s IH]; [done|]. simpl.
  destruct (is_space c) eqn:Ec; simpl.
  - case_bool_decide as Er; simpl; [by rewrite <- IH, Er|].
    by rewrite Ec.
  - by rewrite Ec.
Qed.

Lemma strip_idemp s : strip (strip s) = strip s.
Proof.
  unfold strip.
  by rewrite lstrip_rstrip, lstrip_space_idemp, rstrip_space_idemp.
Qed.

End Strip.

(** ** The value read *)

Section Values.
Implicit Types (s r : string) (ds acc : list N) (d : N) (e : Z) (x : float).

(** A mantissa is zero, with exponent zero, or does not end in a zero. *)
Definition normal x : Prop :=
  match x with
  | Finite _ m e => (m = 0%N /\ e = 0%Z) \/ (m mod 10 <> 0)%N
  | _ => True
  end.

Lemma digit_of_lt c d : digit_of c = Some d -> (d < 10)%N.
Proof.
  unfold digit_of. destruct (_ && _) eqn:E; [|done]. intros [= <-].
  apply andb_prop in E as [?%N.leb_le ?%N.leb_le]. lia.
Qed.

Lemma more_digits_lt s acc :
  Forall (fun d => (d < 10)%N) acc -> Forall (fun d => (d < 10)%N) (more_digits s acc).1.
Proof.
  revert acc. induction s as [|c s IH]; intros acc Hacc; [done|]. simpl.
  destruct (digit_of c) as [d|] eqn:Hd.
  - apply IH. constructor; [by eapply digit_of_lt|done].
  - destruct s as [|c' s']; [done|]. case_match; [by apply IH|done].
Qed.

Lemma digitpart_lt s ds r :
  digitpart s = Some (ds, r) -> Forall (fun d => (d < 10)%N) ds.
Proof.
  destruct s as [|c s]; [done|]. simpl.
  destruct (digit_of c) as [d|] eqn:Hd; [|done]. intros [= E].
  pose proof (more_digits_lt s [d]) as Hlt. rewrite E in Hlt. apply Hlt.
  constructor; [by eapply digit_of_lt|done].
Qed.

Lemma number_lt s ds e r :
  number s = Some (ds, e, r) -> Forall (fun d => (d < 10)%N) ds.
Proof.
  unfold number. destruct (digitpart s) as [[int rest]|] eqn:Hi.
  - pose proof (digitpart_lt _ _ _ Hi) as Hint.
    destruct rest as [|c rest]; [by intros [= <- _ _]|].
    destruct (decide (c = ".")) as [->|Hc]; cycle 1.
    { by repeat case_match; simplify_eq; intros [= <- _ _]. }
    destruct (digitpart rest) as [[frac r']|] eqn:Hf; intros [= <- _ _]; [|done].
    apply Forall_app. split; [by eapply digitpart_lt|done].
  - repeat case_match; simplify_eq; try done.
    intros [= <- _ _]. by eapply digitpart_lt.
Qed.

Lemma finite_normal neg ds e :
  Forall (fun d => (d < 10)%N) ds -> normal (finite neg ds e).
Proof.
  intros Hds. revert e. induction Hds as [|d ds Hd Hds IH]; intros e; [by left|].
  simpl. destruct (d =? 0)%N eqn:E; [apply IH|]. right.
  apply N.eqb_neq in E. unfold value. cbn [foldr].
  rewrite N.Div0.add_mod, N.Div0.mul_mod, N.Div0.mod_same, N.mul_0_l by done.
  rewrite N.Div0.mod_0_l, N.add_0_r, N.Div0.mod_mod, N.mod_small by done. done.
Qed.

(** A number that [finite] builds is above zero when it is not negated
    and one of its digits is not zero. *)
Lemma finite_positive neg ds e :
  is_positive (finite neg ds e)
  = negb neg && existsb (fun d => negb (d =? 0)%N) ds.
Proof.
  revert e. induction ds as [|d ds IH]; intros e; simpl; [by destruct neg|].
  destruct (d =? 0)%N eqn:E; [apply IH|]. simpl.
  apply N.eqb_neq in E. destruct neg; simpl; [done|].
  apply negb_true_iff, N.eqb_neq. unfold value. cbn [foldr]. lia.
Qed.

End Values.

(** ** [float] *)

Section FloatOfStr.
Implicit Types (s r : string) (x : float).

(** What [float_of_str] does once the sign is read. *)
Lemma float_of_str_cases s x :
  float_of_str s = Some x ->
  let neg := (sign (strip s)).1 in
  x = Infinity neg \/ x = NaN \/
  exists ds e, Forall (fun d => (d < 10)%N) ds /\ x = finite neg ds e.
Proof.
  unfold float_of_str. destruct (sign (strip s)) as [neg r]. cbn [fst].
  repeat case_bool_decide; [intros [= <-]; auto..|].
  destruct (number r) as [[[ds e1] r1]|] eqn:Hn; [|done].
  destruct (exponent r1) as [[e2 [|]]|]; [|done..]. intros [= <-].
  right. right. exists ds, (e1 + e2)%Z. split; [by eapply number_lt|done].
Qed.

Lemma float_of_str_strip s : float_of_str (strip s) = float_of_str s.
Proof. unfold float_of_str. by rewrite strip_idemp. Qed.

End FloatOfStr.

(** ** Theorems *)

(** The values [float] reads are in normal form: the mantissa of a
    finite value does not end in a zero, and zero has the exponent zero.
    Two texts of the same number, as ["0.5"] and ["0.50"], are read as the
    same value. *)
Theorem float_of_str_normal (s : string) (x : float) :
  float_of_str s = Some x -> normal x.
Proof.
  intros [->|[->|(ds & e & Hds & ->)]]%float_of_str_cases; [done..|].
  by apply finite_normal.
Qed.

(** A text that starts with a minus sign, after the white space, is
    never read as a number above zero. *)
Theorem float_of_str_minus (s : string) (x : float) :
  float_of_str s = Some x -> (sign (strip s)).1 = true -> is_positive x = false.
Proof.
  intros Hx Hneg. apply float_of_str_cases in Hx. cbv zeta in Hx. rewrite Hneg in Hx.
  destruct Hx as [->|[->|(ds & e & _ & ->)]]; [done..|].
  by rewrite finite_positive.
Qed.

Lemma float_of_str_normal_witness : normal float_half.
Proof. apply (float_of_str_normal "0.50"). by vm_compute. Defined.

Lemma float_of_str_minus_witness : is_positive (Finite true 15 (-1)) = false.
Proof. apply (float_of_str_minus " -1.5"); by vm_compute. Defined.
