(* ===== verification/Classifier.v ===== *)
(** * Classifier: which uploads are accepted, and as what

    [ALLOWED_EXTENSIONS] and [allowed_file] of [src/app.py] and of
    [src/app_qt5.py] (same text, different allow-lists), the extension each
    front end extracts to choose between the raster and the SVG converter,
    the [.dwg] test of the [/dwgtopdf] route, and the classifier the
    specification describes ([classify]), against which the code is
    compared. *)

From S2P Require Import Prelude PyString.

Local Open Scope char_scope.

(** ** [allowed_file], for any allow-list *)

Section Allowed.
Variable ALLOWED : gset string.

(** ['.' in filename and filename.rsplit('.', 1)[1].lower() in ALLOWED].
    The [and] guards the index: the [None] branch is [IndexError], which
    [allowed_in_index_safe] shows cannot occur. *)
Definition allowed_in (filename : string) : bool :=
  contains "." filename &&
  match rsplit1 "." filename !! 1 with
  | Some e => bool_decide (lower e ∈ ALLOWED)
  | None => false
  end.

End Allowed.

(** [src/app.py] *)
Definition ALLOWED_EXTENSIONS : gset string :=
  {[ "pdf"; "jpg"; "jpeg"; "png"; "svg" ]}%string.

Definition allowed_file (filename : string) : bool :=
  allowed_in ALLOWED_EXTENSIONS filename.

(** [src/app_qt5.py] *)
Definition ALLOWED_EXTENSIONS_qt5 : gset string :=
  {[ "jpg"; "jpeg"; "png"; "svg"; "gif" ]}%string.

Definition allowed_file_qt5 (filename : string) : bool :=
  allowed_in ALLOWED_EXTENSIONS_qt5 filename.

(** ** The extension each front end dispatches on *)

(** [app.py], route [/convert]: [file.filename.rsplit('.', 1)[1].lower()];
    [None] is [IndexError]. *)
Definition ext_of_filename (filename : string) : option string :=
  lower <$> rsplit1 "." filename !! 1.

(** [app_qt5.py]: [file_path.rsplit('.', 1)[-1].lower()] *)
Definition ext_of_path_qt5 (file_path : string) : option string :=
  lower <$> py_last (rsplit1 "." file_path).

(** [converter.py]: [os.path.splitext(input_path)[1].lower()] *)
Definition ext_of_input (input_path : string) : string :=
  lower (splitext input_path).2.

(** [app.py], route [/dwgtopdf]: [file.filename.lower().endswith('.dwg')] *)
Definition is_dwg (filename : string) : bool :=
  endswith ".dwg" (lower filename).

(** ** The classifier of the specification *)

Inductive SourceKind := raster | vector | drawing.

#[export] Instance SourceKind_eq_dec : EqDecision SourceKind.
Proof. solve_decision. Defined.

(** The kind of a lower-case extension; [None] is [UnsupportedFormat]. *)
Definition kind_of_ext (e : string) : option SourceKind :=
  if bool_decide (e ∈ ({[ "png"; "jpg"; "jpeg" ]} : gset string))%string
  then Some raster
  else if bool_decide (e = "svg"%string) then Some vector
  else if bool_decide (e = "dwg"%string) then Some drawing
  else None.

(** [classify(name)]: by the extension, case-insensitive; absent or
    unlisted extensions are refused. *)
Definition classify (name : string) : option SourceKind :=
  if contains "." name then ext_of_filename name ≫= kind_of_ext else None.

(** ** Tests *)

Example allowed_png : allowed_file "Holiday.PNG" = true.
Proof. vm_compute. reflexivity. Qed.

Example allowed_noext : allowed_file "README" = false.
Proof. vm_compute. reflexivity. Qed.

Example allowed_double : allowed_file "shell.png.exe" = false.
Proof. vm_compute. reflexivity. Qed.

Example allowed_hidden : allowed_file ".svg" = true.
Proof. vm_compute. reflexivity. Qed.

Example ext_web_vs_lib :
  ext_of_filename ".svg" = Some "svg"%string /\ ext_of_input ".svg" = ""%string.
Proof. vm_compute. done. Qed.

Example is_dwg_ex : is_dwg "Plan.DWG" = true /\ is_dwg "plan.dwg.txt" = false.
Proof. vm_compute. done. Qed.

(** ** Properties of [allowed_file] *)

Section AllowedFacts.
Variable ALLOWED : gset string.
Implicit Types f h t e : string.

(** The index [[1]] that follows the test ['.' in filename] never raises. *)
Lemma allowed_in_index_safe f :
  contains "." f = true -> is_Some (rsplit1 "." f !! 1).
Proof. apply rsplit1_lookup_1. Qed.

Lemma allowed_in_split h t :
  contains "." t = false ->
  allowed_in ALLOWED (h +:+ String "." t) = bool_decide (lower t ∈ ALLOWED).
Proof.
  intros Ht. unfold allowed_in, rsplit1.
  rewrite rsplit_last_app, contains_app by done. simpl.
  by rewrite orb_true_r.
Qed.

Lemma allowed_in_inv f :
  allowed_in ALLOWED f = true ->
  exists h t, f = h +:+ String "." t /\ contains "." t = false /\
              lower t ∈ ALLOWED.
Proof.
  unfold allowed_in, rsplit1. intros [_ H]%andb_true_iff.
  destruct (rsplit_last "." f) as [[h t]|] eqn:R; [|done]. simpl in H.
  apply rsplit_last_inv in R as [-> ?]. exists h, t.
  by apply bool_decide_eq_true in H.
Qed.

Lemma allowed_in_lower f : allowed_in ALLOWED (lower f) = allowed_in ALLOWED f.
Proof.
  unfold allowed_in. rewrite contains_lower, rsplit1_lower by done.
  rewrite list_lookup_fmap. destruct (rsplit1 "." f !! 1); simpl; [|done].
  by rewrite lower_idemp.
Qed.

End AllowedFacts.

(** ** Names up to the case of their letters

    The classifiers do not see the case of letters: they are morphisms for
    [caseless], and a name can be rewritten into any other spelling of it
    under them. *)

Definition caseless : relation string := fun f1 f2 => lower f1 = lower f2.

#[export] Instance caseless_equivalence : Equivalence caseless.
Proof.
  unfold caseless. split; [by intros ?|by intros ??|].
  intros f1 f2 f3 E1 E2. by rewrite E1.
Qed.

Lemma caseless_lower (f : string) : caseless (lower f) f.
Proof. apply lower_idemp. Qed.

Lemma ext_of_filename_lower (f : string) :
  ext_of_filename (lower f) = ext_of_filename f.
Proof.
  unfold ext_of_filename. rewrite rsplit1_lower by done.
  rewrite list_lookup_fmap. destruct (rsplit1 "." f !! 1); simpl; [|done].
  by rewrite lower_idemp.
Qed.

#[export] Instance allowed_in_caseless (ALLOWED : gset string) :
  Proper (caseless ==> eq) (allowed_in ALLOWED).
Proof.
  intros f1 f2 E. unfold caseless in E.
  by rewrite <- (allowed_in_lower _ f1), E, allowed_in_lower.
Qed.

#[export] Instance allowed_file_caseless : Proper (caseless ==> eq) allowed_file.
Proof. apply allowed_in_caseless. Qed.

#[export] Instance allowed_file_qt5_caseless :
  Proper (caseless ==> eq) allowed_file_qt5.
Proof. apply allowed_in_caseless. Qed.

#[export] Instance ext_of_filename_caseless :
  Proper (caseless ==> eq) ext_of_filename.
Proof.
  intros f1 f2 E. unfold caseless in E.
  by rewrite <- (ext_of_filename_lower f1), E, ext_of_filename_lower.
Qed.

#[export] Instance is_dwg_caseless : Proper (caseless ==> eq) is_dwg.
Proof. intros f1 f2 E. unfold is_dwg. by rewrite E. Qed.

#[export] Instance classify_caseless : Proper (caseless ==> eq) classify.
Proof.
  intros f1 f2 E. unfold classify. rewrite (ext_of_filename_caseless _ _ E).
  by rewrite <- (contains_lower "." f1), E, contains_lower.
Qed.

(** A name and its lower-case spelling are classified alike by every front
    end. *)
Lemma classifiers_lower (f : string) :
  allowed_file (lower f) = allowed_file f /\
  allowed_file_qt5 (lower f) = allowed_file_qt5 f /\
  classify (lower f) = classify f /\ is_dwg (lower f) = is_dwg f.
Proof. by rewrite (caseless_lower f). Qed.

(** The five extensions of [app.py], as a case analysis. *)
Lemma allowed_ext_cases (e : string) :
  e ∈ ALLOWED_EXTENSIONS ->
  e = "pdf"%string \/ e = "jpg"%string \/ e = "jpeg"%string \/
  e = "png"%string \/ e = "svg"%string.
Proof.
  unfold ALLOWED_EXTENSIONS. rewrite !elem_of_union, !elem_of_singleton. tauto.
Qed.

(** [allowed_file] accepts exactly the names [h.t] whose text [t] after
    the last dot is, in lower case, one of the allowed extensions. *)
Theorem allowed_in_iff (ALLOWED : gset string) (f : string) :
  allowed_in ALLOWED f = true <->
  exists h t, f = h +:+ String "." t /\ contains "." t = false /\
              lower t ∈ ALLOWED.
Proof.
  split; [apply allowed_in_inv|]. intros (h & t & -> & Ht & Hin).
  rewrite allowed_in_split by done. by apply bool_decide_eq_true.
Qed.

(** Classification is case-insensitive: two names that agree up to the
    case of their letters are both accepted or both refused. *)
Theorem allowed_in_case_insensitive (ALLOWED : gset string) (f1 f2 : string) :
  lower f1 = lower f2 -> allowed_in ALLOWED f1 = allowed_in ALLOWED f2.
Proof. intros E. change (caseless f1 f2) in E. by rewrite E. Qed.

Lemma allowed_in_case_insensitive_witness :
  allowed_in ALLOWED_EXTENSIONS "A.Png" = allowed_in ALLOWED_EXTENSIONS "a.pNG".
Proof. apply allowed_in_case_insensitive. reflexivity. Defined.

(** After [allowed_file] answered yes, the extension the [/convert]
    route computes exists (no [IndexError]) and is one of the five of
    [ALLOWED_EXTENSIONS]. *)
Theorem allowed_file_ext (f : string) :
  allowed_file f = true ->
  exists e, ext_of_filename f = Some e /\ e ∈ ALLOWED_EXTENSIONS.
Proof.
  intros (h & t & -> & Ht & Hin)%allowed_in_inv. exists (lower t).
  unfold ext_of_filename, rsplit1. by rewrite rsplit_last_app.
Qed.

Lemma allowed_file_ext_witness :
  exists e, ext_of_filename "logo.SVG" = Some e /\ e ∈ ALLOWED_EXTENSIONS.
Proof. apply allowed_file_ext. vm_compute. reflexivity. Defined.

(** The two front ends accept the same names, except [.pdf] (web only) and
    [.gif] (Qt only). *)
Lemma allowed_file_web_qt5 (f : string) :
  allowed_file f = true ->
  allowed_file_qt5 f = true \/ ext_of_filename f = Some "pdf"%string.
Proof.
  intros (h & t & -> & Ht & Hin)%allowed_in_inv.
  unfold allowed_file_qt5, ext_of_filename, rsplit1.
  rewrite allowed_in_split, rsplit_last_app by done. simpl.
  apply allowed_ext_cases in Hin.
  destruct_or!; rewrite Hin; vm_compute; auto.
Qed.

(** ** The code against the specification's classifier *)

Lemma classify_split (h t : string) :
  contains "." t = false ->
  classify (h +:+ String "." t) = kind_of_ext (lower t).
Proof.
  intros Ht. unfold classify, ext_of_filename, rsplit1.
  rewrite rsplit_last_app, contains_app by done. simpl.
  by rewrite orb_true_r.
Qed.

Lemma kind_of_ext_allowed (e : string) :
  e ∈ ALLOWED_EXTENSIONS ->
  kind_of_ext e = None <-> e = "pdf"%string.
Proof.
  intros H%allowed_ext_cases. destruct_or!; subst e; vm_compute; split; congruence.
Qed.

(** C40. The web allow-list is wider than the specification's: every name
    [allowed_file] accepts is raster or vector for [classify], except the
    [.pdf] names, which the code accepts and the specification refuses. *)
Theorem allowed_file_classify (f : string) :
  allowed_file f = true ->
  (classify f = Some raster \/ classify f = Some vector) \/
  (classify f = None /\ ext_of_filename f = Some "pdf"%string).
Proof.
  intros (h & t & -> & Ht & Hin)%allowed_in_inv.
  rewrite classify_split by done. unfold ext_of_filename, rsplit1.
  rewrite rsplit_last_app by done. simpl.
  apply allowed_ext_cases in Hin.
  destruct_or!; rewrite Hin; vm_compute; auto.
Qed.

Lemma allowed_file_classify_witness :
  (classify "scan.pdf" = Some raster \/ classify "scan.pdf" = Some vector) \/
  (classify "scan.pdf" = None /\ ext_of_filename "scan.pdf" = Some "pdf"%string).
Proof. apply allowed_file_classify. vm_compute. reflexivity. Defined.
