(* ===== verification/FileSys.v ===== *)
(** * FileSys: the file system under the [os] calls, and Python's exceptions

    A file system is a finite map from paths to contents and a finite set of
    directories.  Paths are the strings the code builds.  Opening a file for
    writing needs its parent directory; removing needs the file.  Every
    action is a computation of the effect monad [M]: the state it leaves is
    kept when it raises. *)

From S2P Require Import Prelude PyString.

Local Open Scope eff_scope.

(** ** Exceptions *)

Inductive exn :=
| FileNotFoundError (path : string)
| FileExistsError (path : string)
| IsADirectoryError (path : string)
| NotADirectoryError (path : string)
| UnidentifiedImageError (path : string)
| KeyError (key : string)
| ValueError (msg : string)
| NameError (name : string)
| IndexError
| OSError (msg : string)
| LibraryError (msg : string).

#[export] Instance exn_eq_dec : EqDecision exn.
Proof. solve_decision. Defined.

(** [str(e)], as the handlers put it in their answers *)
Definition str (e : exn) : string :=
  match e with
  | FileNotFoundError p => "[Errno 2] No such file or directory: '" +:+ p +:+ "'"
  | FileExistsError p => "[Errno 17] File exists: '" +:+ p +:+ "'"
  | IsADirectoryError p => "[Errno 21] Is a directory: '" +:+ p +:+ "'"
  | NotADirectoryError p => "[Errno 20] Not a directory: '" +:+ p +:+ "'"
  | UnidentifiedImageError p => "cannot identify image file '" +:+ p +:+ "'"
  | KeyError k => "'" +:+ k +:+ "'"
  | ValueError m => m
  | NameError n => "name '" +:+ n +:+ "' is not defined"
  | IndexError => "list index out of range"
  | OSError m => m
  | LibraryError m => m
  end.

(** ** State *)

Definition bytes := string.

Record fs := Fs {
  files : gmap string bytes;
  dirs : gset string
}.

Definition M := Eff fs exn.

Definition empty_fs : fs := Fs ∅ ∅.

(** ** Queries *)

Definition is_file (p : string) (s : fs) : bool := bool_decide (is_Some (files s !! p)).
Definition is_dir (p : string) (s : fs) : bool := bool_decide (p ∈ dirs s).

(** The directory a new file at [p] would be created in exists. *)
Definition parent_ok (p : string) (s : fs) : bool :=
  bool_decide (dirname p = EmptyString) || is_dir (dirname p) s.

(** ** The proper prefixes of a path that end before a slash, and the path *)

Fixpoint prefixes_go (acc : string) (p : string) : list string :=
  match p with
  | EmptyString => []
  | String a p' =>
      (if bool_decide (a = sep) && negb (bool_decide (acc = EmptyString))
       then [acc] else [])
      ++ prefixes_go (acc +:+ String a EmptyString) p'
  end.

Definition ancestors (p : string) : list string := prefixes_go EmptyString p ++ [p].

(** ** State updates *)

Definition put_file (p : string) (b : bytes) (s : fs) : fs :=
  Fs (<[p := b]> (files s)) (dirs s).

Definition del_file (p : string) (s : fs) : fs :=
  Fs (delete p (files s)) (dirs s).

Definition add_dirs (ds : list string) (s : fs) : fs :=
  Fs (files s) (list_to_set ds ∪ dirs s).

(** ** Actions *)

(** [os.path.exists(p)] *)
Definition os_path_exists (p : string) : M bool :=
  gets (fun s => is_file p s || is_dir p s).

(** [os.path.isdir(p)] *)
Definition os_path_isdir (p : string) : M bool := gets (is_dir p).

(** [os.makedirs(p, exist_ok=True)]: [p] and every missing ancestor become
    directories; a file in the way is an error. *)
Definition os_makedirs (p : string) : M unit :=
  s <- get ;;
  match list_find (fun a => is_file a s = true) (ancestors p) with
  | Some (_, a) => raise (FileExistsError a)
  | None => modify (add_dirs (ancestors p))
  end.

(** What [open(p, "wb")] checks before it truncates or creates [p]. *)
Definition check_writable (p : string) : M unit :=
  s <- get ;;
  if is_dir p s then raise (IsADirectoryError p)
  else if parent_ok p s then ret tt
  else raise (FileNotFoundError p).

(** [open(p, "wb").write(b)] *)
Definition write_file (p : string) (b : bytes) : M unit :=
  check_writable p ;;;
  modify (put_file p b).

(** [open(p, "rb").read()] *)
Definition read_file (p : string) : M bytes :=
  s <- get ;;
  match files s !! p with
  | Some b => ret b
  | None => if is_dir p s then raise (IsADirectoryError p)
            else raise (FileNotFoundError p)
  end.

(** [os.remove(p)] *)
Definition os_remove (p : string) : M unit :=
  s <- get ;;
  if is_file p s then modify (del_file p)
  else if is_dir p s then raise (IsADirectoryError p)
  else raise (FileNotFoundError p).

(** [os.listdir(p)]: the names directly under [p], files and directories *)
Definition children (p : string) (s : fs) : list string :=
  basename <$>
    filter (fun q => dirname q = p)
      (elements (dom (files s)) ++ elements (dirs s)).

Definition os_listdir (p : string) : M (list string) :=
  s <- get ;;
  if is_dir p s then ret (children p s)
  else if is_file p s then raise (NotADirectoryError p)
  else raise (FileNotFoundError p).

(** [os.path.isfile(p)] *)
Definition os_path_isfile (p : string) : M bool := gets (is_file p).

#[export] Hint Unfold os_path_exists os_path_isdir os_path_isfile os_makedirs
  check_writable write_file read_file os_remove os_listdir : eff.

(** ** Tests *)

Example ancestors_ex :
  ancestors "outputs/pdf" = ["outputs"; "outputs/pdf"]%string.
Proof. reflexivity. Qed.

Example makedirs_ex :
  dirs (os_makedirs "uploads/dwg" empty_fs).2 = {[ "uploads"; "uploads/dwg" ]}%string.
Proof. vm_compute. reflexivity. Qed.

Example write_needs_parent :
  (write_file "outputs/a.png" "x" empty_fs).1 = Raise (FileNotFoundError "outputs/a.png").
Proof. vm_compute. reflexivity. Qed.

(** ** Facts on the actions *)

Section FsFacts.
Implicit Types (p q : string) (b : bytes) (s : fs).

Lemma put_file_twice p a b s : put_file p b (put_file p a s) = put_file p b s.
Proof. unfold put_file. simpl. by rewrite insert_insert_eq. Qed.

Lemma add_dirs_twice ds s : add_dirs ds (add_dirs ds s) = add_dirs ds s.
Proof. unfold add_dirs. simpl. by rewrite (assoc_L (∪)), (idemp_L (∪)). Qed.

Lemma fs_eta s : Fs (files s) (dirs s) = s.
Proof. by destruct s. Qed.

(** *** State updates *)

Lemma files_put_file p b s : files (put_file p b s) !! p = Some b.
Proof. apply lookup_insert_eq. Qed.

Lemma files_put_file_ne p q b s :
  p <> q -> files (put_file p b s) !! q = files s !! q.
Proof. apply lookup_insert_ne. Qed.

Lemma files_del_file p s : files (del_file p s) !! p = None.
Proof. apply lookup_delete_eq. Qed.

Lemma files_del_file_ne p q s :
  p <> q -> files (del_file p s) !! q = files s !! q.
Proof. apply lookup_delete_ne. Qed.

Lemma del_put_file p b s :
  files s !! p = None -> del_file p (put_file p b s) = s.
Proof.
  intros H. destruct s as [f d]. unfold del_file, put_file. simpl in *.
  by rewrite delete_insert_eq, delete_id.
Qed.

Lemma is_dir_put_file p q b s : is_dir q (put_file p b s) = is_dir q s.
Proof. done. Qed.

Lemma is_dir_del_file p q s : is_dir q (del_file p s) = is_dir q s.
Proof. done. Qed.

Lemma parent_ok_put_file p q b s : parent_ok q (put_file p b s) = parent_ok q s.
Proof. done. Qed.

Lemma parent_ok_del_file p q s : parent_ok q (del_file p s) = parent_ok q s.
Proof. done. Qed.

Lemma is_file_put_file_ne p q b s : p <> q -> is_file q (put_file p b s) = is_file q s.
Proof. intros Hne. unfold is_file. by rewrite files_put_file_ne. Qed.

Lemma is_file_del_file_ne p q s : p <> q -> is_file q (del_file p s) = is_file q s.
Proof. intros Hne. unfold is_file. by rewrite files_del_file_ne. Qed.

Lemma files_add_dirs ds s : files (add_dirs ds s) = files s.
Proof. reflexivity. Qed.

Lemma is_file_add_dirs q ds s : is_file q (add_dirs ds s) = is_file q s.
Proof. reflexivity. Qed.

Lemma is_file_Some p s b : files s !! p = Some b -> is_file p s = true.
Proof. intros H. unfold is_file. by rewrite H, bool_decide_true. Qed.

Lemma is_file_None p s : files s !! p = None <-> is_file p s = false.
Proof.
  unfold is_file. rewrite bool_decide_eq_false, <- eq_None_not_Some. done.
Qed.

(** *** Writing *)

Lemma check_writable_state p s : (check_writable p s).2 = s.
Proof.
  unfold check_writable. eff_unfold.
  destruct (is_dir p s); [done|]. by destruct (parent_ok p s).
Qed.

Lemma check_writable_ok p s :
  is_dir p s = false -> parent_ok p s = true ->
  check_writable p s = (Ok tt, s).
Proof. intros Hd Hp. unfold check_writable. eff_unfold. by rewrite Hd, Hp. Qed.

Lemma write_file_ok p b s :
  is_dir p s = false -> parent_ok p s = true ->
  write_file p b s = (Ok tt, put_file p b s).
Proof.
  intros Hd Hp. unfold write_file.
  by rewrite (bind_ok _ _ _ _ _ (check_writable_ok p s Hd Hp)).
Qed.

Lemma write_file_inv p b s s' :
  write_file p b s = (Ok tt, s') -> s' = put_file p b s.
Proof.
  unfold write_file, check_writable. eff_unfold.
  destruct (is_dir p s); [done|]. destruct (parent_ok p s); [|done].
  by intros [= <-].
Qed.

(** A write that raises changes nothing. *)
Lemma write_file_raise p b s e s' :
  write_file p b s = (Raise e, s') -> s' = s.
Proof.
  unfold write_file, check_writable. eff_unfold.
  destruct (is_dir p s); [by intros [= _ <-]|].
  destruct (parent_ok p s); [done|by intros [= _ <-]].
Qed.

Lemma write_file_dirs p b s : dirs (write_file p b s).2 = dirs s.
Proof.
  unfold write_file, check_writable. eff_unfold.
  destruct (is_dir p s); [done|]. by destruct (parent_ok p s).
Qed.

(** A write touches no other path. *)
Lemma write_file_other p q b s :
  p <> q -> files (write_file p b s).2 !! q = files s !! q.
Proof.
  intros Hne. unfold write_file, check_writable. eff_unfold.
  destruct (is_dir p s); [done|]. destruct (parent_ok p s); [|done].
  simpl. by rewrite lookup_insert_ne.
Qed.

(** *** Reading *)

Lemma read_file_state p s : (read_file p s).2 = s.
Proof.
  unfold read_file. eff_unfold. destruct (files s !! p); [done|].
  by destruct (is_dir p s).
Qed.

Lemma read_file_ok p s b : files s !! p = Some b -> read_file p s = (Ok b, s).
Proof. intros H. unfold read_file. eff_unfold. by rewrite H. Qed.

Lemma read_file_inv p s b s' :
  read_file p s = (Ok b, s') -> files s !! p = Some b /\ s' = s.
Proof.
  unfold read_file. eff_unfold. destruct (files s !! p) as [b'|].
  - by intros [= -> ->].
  - by destruct (is_dir p s).
Qed.

(** *** Removing *)

Lemma os_remove_ok p s b :
  files s !! p = Some b ->
  os_remove p s = (Ok tt, del_file p s).
Proof.
  intros H. unfold os_remove. eff_unfold. by rewrite (is_file_Some _ _ _ H).
Qed.

Lemma os_remove_absent p s :
  files s !! p = None -> exists e, os_remove p s = (Raise e, s).
Proof.
  intros H%is_file_None. unfold os_remove. eff_unfold. rewrite H.
  destruct (is_dir p s); eauto.
Qed.

Lemma os_remove_dirs p s : dirs (os_remove p s).2 = dirs s.
Proof.
  unfold os_remove. eff_unfold. destruct (is_file p s); [done|].
  by destruct (is_dir p s).
Qed.

Lemma os_remove_other p q s :
  p <> q -> files (os_remove p s).2 !! q = files s !! q.
Proof.
  intros Hne. unfold os_remove. eff_unfold. destruct (is_file p s).
  - simpl. by rewrite lookup_delete_ne.
  - by destruct (is_dir p s).
Qed.

(** After a removal that did not raise, the file is gone. *)
Lemma os_remove_gone p s s' :
  os_remove p s = (Ok tt, s') -> files s' !! p = None.
Proof.
  unfold os_remove. eff_unfold. destruct (is_file p s).
  - intros [= <-]. simpl. apply lookup_delete_eq.
  - by destruct (is_dir p s).
Qed.

Lemma os_remove_inv p s s' :
  os_remove p s = (Ok tt, s') -> s' = del_file p s.
Proof.
  unfold os_remove. eff_unfold. destruct (is_file p s); [by intros [= <-]|].
  by destruct (is_dir p s).
Qed.

(** *** Listing a directory *)

Lemma elem_of_children n p s :
  n ∈ children p s <->
  exists q, (is_Some (files s !! q) \/ q ∈ dirs s) /\ dirname q = p /\ basename q = n.
Proof.
  unfold children. rewrite list_elem_of_fmap. split.
  - intros (q & -> & [? Hq]%list_elem_of_filter). exists q. split; [|done].
    apply elem_of_app in Hq as [?%elem_of_elements%elem_of_dom|?%elem_of_elements];
      auto.
  - intros (q & Hq & ? & <-). exists q. split; [done|].
    apply list_elem_of_filter. split; [done|]. apply elem_of_app.
    destruct Hq as [?|?]; [left|right]; apply elem_of_elements; [|done].
    by apply elem_of_dom.
Qed.

Lemma os_listdir_ok p s :
  is_dir p s = true -> os_listdir p s = (Ok (children p s), s).
Proof. intros Hd. unfold os_listdir. eff_unfold. by rewrite Hd. Qed.

Lemma os_listdir_state p s : (os_listdir p s).2 = s.
Proof.
  unfold os_listdir. eff_unfold. by destruct (is_dir p s), (is_file p s).
Qed.

(** *** Directories *)

Lemma os_makedirs_files p s : files (os_makedirs p s).2 = files s.
Proof.
  unfold os_makedirs. eff_unfold.
  by destruct (list_find _ (ancestors p)) as [[]|].
Qed.

Lemma elem_of_ancestors_self p : p ∈ ancestors p.
Proof. unfold ancestors. apply elem_of_app. right. apply list_elem_of_singleton. done. Qed.

Lemma os_makedirs_is_dir p s s' :
  os_makedirs p s = (Ok tt, s') -> is_dir p s' = true.
Proof.
  unfold os_makedirs. eff_unfold.
  destruct (list_find _ (ancestors p)) as [[]|]; [done|]. intros [= <-].
  apply bool_decide_eq_true. simpl. apply elem_of_union. left.
  apply elem_of_list_to_set, elem_of_ancestors_self.
Qed.

(** Directories are only ever added. *)
Lemma os_makedirs_mono p q s :
  is_dir q s = true -> is_dir q (os_makedirs p s).2 = true.
Proof.
  unfold os_makedirs, is_dir. eff_unfold. rewrite !bool_decide_eq_true.
  destruct (list_find _ (ancestors p)) as [[]|]; simpl; [done|].
  intros H. apply elem_of_union. by right.
Qed.

(** On a file system where no file is in the way, [makedirs] succeeds. *)
Lemma os_makedirs_ok p s :
  Forall (fun a => is_file a s = false) (ancestors p) ->
  os_makedirs p s = (Ok tt, add_dirs (ancestors p) s).
Proof.
  intros H. unfold os_makedirs. eff_unfold.
  rewrite (proj2 (list_find_None _ _)); [done|].
  eapply Forall_impl; [exact H|]. simpl. intros a ->. done.
Qed.

End FsFacts.

(** ** Footprints

    [touches ps m]: whatever its outcome, [m] changes no directory and no
    file outside the paths [ps].  Footprints compose along [bind], and the
    [eff_touches] tactic derives the footprint of a handler from those of
    the actions it calls. *)

Definition touches {A} (ps : gset string) (m : M A) : Prop :=
  forall s, dirs (m s).2 = dirs s /\
            forall q, q ∉ ps -> files (m s).2 !! q = files s !! q.

Section Touches.
Context {A B : Type}.
Implicit Types (ps : gset string) (p : string).

Lemma touches_mono ps ps' (m : M A) : ps ⊆ ps' -> touches ps m -> touches ps' m.
Proof.
  intros Hs Hm s. destruct (Hm s) as [? Hf]. split; [done|].
  intros q Hq. apply Hf. intros Hin. by apply Hq, Hs.
Qed.

Lemma touches_pure ps (m : M A) : (forall s, (m s).2 = s) -> touches ps m.
Proof. intros Hm s. by rewrite Hm. Qed.

Lemma touches_ret ps (a : A) : touches ps (ret a).
Proof. by apply touches_pure. Qed.

Lemma touches_raise ps (e : exn) : touches ps (raise (A:=A) e).
Proof. by apply touches_pure. Qed.

Lemma touches_lift_outcome ps (o : outcome exn A) : touches ps (lift_outcome o).
Proof. by apply touches_pure. Qed.

Lemma touches_bind ps (m : M A) (k : A -> M B) :
  touches ps m -> (forall a, touches ps (k a)) -> touches ps (bind m k).
Proof.
  intros Hm Hk s. unfold bind. destruct (Hm s) as [Hd Hf].
  destruct (m s) as [[a|e] s1]; simpl in *; [|done].
  destruct (Hk a s1) as [Hd' Hf']. split; [congruence|].
  intros q Hq. by rewrite Hf', Hf.
Qed.

Lemma touches_try_except ps (m : M A) (h : exn -> M A) :
  touches ps m -> (forall e, touches ps (h e)) -> touches ps (try_except m h).
Proof.
  intros Hm Hh s. unfold try_except. destruct (Hm s) as [Hd Hf].
  destruct (m s) as [[a|e] s1]; simpl in *; [done|].
  destruct (Hh e s1) as [Hd' Hf']. split; [congruence|].
  intros q Hq. by rewrite Hf', Hf.
Qed.

Lemma touches_try_finally ps (m : M A) (c : M unit) :
  touches ps m -> touches ps c -> touches ps (try_finally m c).
Proof.
  intros Hm Hc s. rewrite try_finally_state.
  destruct (Hm s) as [Hd Hf], (Hc (m s).2) as [Hd' Hf'].
  split; [congruence|]. intros q Hq. by rewrite Hf', Hf.
Qed.

End Touches.

Lemma touches_get ps : touches ps (get (S:=fs) (E:=exn)).
Proof. by apply touches_pure. Qed.

Lemma touches_when ps (b : bool) (m : M unit) : touches ps m -> touches ps (when b m).
Proof. destruct b; [done|]. intros _. apply touches_ret. Qed.

Lemma touches_check_writable ps p : touches ps (check_writable p).
Proof. apply touches_pure, check_writable_state. Qed.

Lemma touches_read_file ps p : touches ps (read_file p).
Proof. apply touches_pure, read_file_state. Qed.

Lemma touches_os_path_exists ps p : touches ps (os_path_exists p).
Proof. by apply touches_pure. Qed.

Lemma touches_write_file ps p b : p ∈ ps -> touches ps (write_file p b).
Proof.
  intros Hp s. split; [apply write_file_dirs|]. intros q Hq.
  apply write_file_other. by intros ->.
Qed.

Lemma touches_os_remove ps p : p ∈ ps -> touches ps (os_remove p).
Proof.
  intros Hp s. split; [apply os_remove_dirs|]. intros q Hq.
  apply os_remove_other. by intros ->.
Qed.

Create HintDb touches discriminated.

#[export] Hint Resolve touches_ret touches_raise touches_lift_outcome
  touches_get touches_check_writable touches_read_file touches_os_path_exists
  touches_write_file touches_os_remove touches_when : touches.

#[export] Hint Extern 1 (_ ∈ _) => set_solver : touches.
#[export] Hint Extern 1 (_ ∉ _) => set_solver : touches.

(** Derive a footprint by the shape of the program: split binds and
    handlers, case on the tests of the code, close the leaves with the
    hints. *)
Ltac eff_touches_step :=
  lazymatch goal with
  | |- touches _ (bind _ _) => apply touches_bind; [|intros ?]
  | |- touches _ (try_finally _ _) => apply touches_try_finally
  | |- touches _ (try_except _ _) => apply touches_try_except; [|intros ?]
  | |- touches _ (match ?x with _ => _ end) => destruct x eqn:?
  | |- touches _ _ => solve [eauto with touches nocore]
  end.

Ltac eff_touches := cbv zeta; repeat eff_touches_step.
