(* ===== verification/Imaging.v ===== *)
(** * Imaging: what the code relies on from PIL and cairosvg

    The sources call [Image.open], [Image.convert], [Image.save],
    [cairosvg.svg2png] and [cairosvg.svg2pdf].  Their pixel-level behaviour
    is not this repository's code: it is the class [Pillow] below, a
    signature with the few laws the theorems use.  The file-level actions
    ([Image_open], [Image_save], [svg2png], [svg2pdf]) are then defined on
    the file system of [FileSys], with the exceptions each raises.

    [toy] is an executable instance (a file is a tag, a mode and a payload):
    it shows the laws are consistent and lets the handlers be run on
    concrete requests. *)

From stdpp Require Import pretty.
From S2P Require Import Prelude PyString PyFloat FileSys.

Local Open Scope eff_scope.

(** ** Image modes *)

Inductive mode := RGB | RGBA | L | P.

#[export] Instance mode_eq_dec : EqDecision mode.
Proof. solve_decision. Defined.

Definition has_alpha (m : mode) : bool :=
  match m with RGBA => true | _ => false end.

(** ** The libraries, as a signature *)

Class Pillow := {
  (** a decoded image *)
  Image : Type;
  mode_of : Image -> mode;
  (** what [Image.open] makes of a file's contents; [None] when PIL cannot
      identify them *)
  decode : bytes -> option Image;
  (** [img.convert(mode)] *)
  convert : mode -> Image -> Image;
  (** PIL's registry of encoders, keyed by upper-case format name *)
  SAVE : string -> option (Image -> outcome exn bytes);
  (** [cairosvg]: the rendering of an SVG document, or its error *)
  svg2png_bytes : bytes -> outcome exn bytes;
  svg2pdf_bytes : bytes -> outcome exn bytes;

  (** [convert] returns an image of the mode asked for *)
  convert_mode : forall m i, mode_of (convert m i) = m;
  (** the registry knows JPEG under the name ["JPEG"] only *)
  SAVE_JPG : SAVE "JPG" = None;
  (** the JPEG encoder accepts every RGB image, and what it writes opens
      again as an RGB image *)
  SAVE_JPEG_RGB : forall i, mode_of i = RGB ->
    exists enc b i', SAVE "JPEG" = Some enc /\ enc i = Ok b /\
                     decode b = Some i' /\ mode_of i' = RGB;
  (** the PNG encoder accepts every image *)
  SAVE_PNG : forall i, exists enc b, SAVE "PNG" = Some enc /\ enc i = Ok b;
  (** what [svg2png] renders is a PNG that PIL opens *)
  svg2png_decode : forall b p, svg2png_bytes b = Ok p -> is_Some (decode p)
}.

(** [imageio.mimsave]: the animation it encodes from the frames and the
    duration, a [float] of [PyFloat]. *)
Class Imageio `{Pillow} := {
  mimsave_bytes : list Image -> float -> outcome exn bytes
}.

(** ** File-level actions *)

Section Actions.
Context `{Pillow}.

(** [Image.open(path)], the image loaded *)
Definition Image_open (path : string) : M Image :=
  b <- read_file path ;;
  match decode b with
  | Some i => ret i
  | None => raise (UnidentifiedImageError path)
  end.

(** [img.save(path, format)]: look the encoder up (PIL upper-cases the
    name), open the file for writing, encode, write.  A failed encoding
    leaves no file behind. *)
Definition Image_save (img : Image) (path format : string) : M unit :=
  match SAVE (upper format) with
  | None => raise (KeyError (upper format))
  | Some enc =>
      check_writable path ;;;
      b <- lift_outcome (enc img) ;;
      write_file path b
  end.

(** [cairosvg.svg2png(url=url, write_to=write_to)] *)
Definition svg2png (url write_to : string) : M unit :=
  b <- read_file url ;;
  p <- lift_outcome (svg2png_bytes b) ;;
  write_file write_to p.

(** [cairosvg.svg2pdf(url=url, write_to=write_to)] *)
Definition svg2pdf (url write_to : string) : M unit :=
  b <- read_file url ;;
  p <- lift_outcome (svg2pdf_bytes b) ;;
  write_file write_to p.

(** [Image.open(stream)] on an upload's stream: no file is involved *)
Definition Image_open_stream (stream : bytes) : outcome exn Image :=
  match decode stream with
  | Some i => Ok i
  | None => Raise (UnidentifiedImageError "<FileStorage>")
  end.

(** [imageio.mimsave(path, images, duration=duration)].  The write is taken
    as one step: an encoding that fails leaves no file, as for
    [Image_save]. *)
Definition mimsave `{!Imageio} (path : string) (images : list Image)
    (duration : float) : M unit :=
  check_writable path ;;;
  b <- lift_outcome (mimsave_bytes images duration) ;;
  write_file path b.

End Actions.

#[export] Hint Unfold Image_open Image_save svg2png svg2pdf mimsave : eff.

(** ** An executable instance

    A file is ["<tag><mode><payload>"]: the tag is [P] (PNG), [J] (JPEG),
    [W] (WebP) or [D] (PDF); the mode is [3] (RGB), [4] (RGBA), [1] (L) or
    [8] (P).  An SVG document is any text that starts with ["<"]. *)

Local Open Scope char_scope.

Definition toy_mode_char (m : mode) : ascii :=
  match m with RGB => "3" | RGBA => "4" | L => "1" | P => "8" end.

Definition toy_char_mode (c : ascii) : option mode :=
  if bool_decide (c = "3") then Some RGB
  else if bool_decide (c = "4") then Some RGBA
  else if bool_decide (c = "1") then Some L
  else if bool_decide (c = "8") then Some P
  else None.

Definition toy_decode (b : bytes) : option (mode * string) :=
  match b with
  | String t (String m px) =>
      if bool_decide (t ∈ ["P"; "J"; "W"]) then
        (fun md => (md, px)) <$> toy_char_mode m
      else None
  | _ => None
  end.

Definition toy_encode (tag : ascii) (i : mode * string) : outcome exn bytes :=
  Ok (String tag (String (toy_mode_char i.1) i.2)).

Definition toy_SAVE (f : string) : option (mode * string -> outcome exn bytes) :=
  if bool_decide (f = "PNG"%string) then Some (toy_encode "P")
  else if bool_decide (f = "WEBP"%string) then Some (toy_encode "W")
  else if bool_decide (f = "JPEG"%string) then
    Some (fun i => match i.1 with
                   | RGB | L => toy_encode "J" i
                   | RGBA => Raise (OSError "cannot write mode RGBA as JPEG")
                   | P => Raise (OSError "cannot write mode P as JPEG")
                   end)
  else None.

Definition toy_svg (tag : ascii) (b : bytes) : outcome exn bytes :=
  match b with
  | String c doc =>
      if bool_decide (c = "<") then Ok (String tag (String "4" doc))
      else Raise (LibraryError "no element found")
  | EmptyString => Raise (LibraryError "no element found")
  end.

Definition toy_convert (m : mode) (i : mode * string) : mode * string := (m, i.2).

Lemma toy_mode_char_inv (m : mode) : toy_char_mode (toy_mode_char m) = Some m.
Proof. by destruct m. Qed.

Lemma toy_SAVE_JPEG_RGB (i : mode * string) :
  i.1 = RGB ->
  exists enc b i', toy_SAVE "JPEG" = Some enc /\ enc i = Ok b /\
                   toy_decode b = Some i' /\ i'.1 = RGB.
Proof. destruct i as [m px]. simpl. intros ->. by eexists _, _, (RGB, px). Qed.

Lemma toy_SAVE_PNG (i : mode * string) :
  exists enc b, toy_SAVE "PNG" = Some enc /\ enc i = Ok b.
Proof. by eexists _, _. Qed.

Lemma toy_svg2png_decode (b p : bytes) :
  toy_svg "P" b = Ok p -> is_Some (toy_decode p).
Proof.
  destruct b as [|c doc]; simpl; [done|]. case_bool_decide; [|done].
  intros [= <-]. by eexists.
Qed.

Definition toy : Pillow := {|
  Image := mode * string;
  mode_of := fst;
  decode := toy_decode;
  convert := toy_convert;
  SAVE := toy_SAVE;
  svg2png_bytes := toy_svg "P";
  svg2pdf_bytes := toy_svg "D";
  convert_mode := fun _ _ => eq_refl;
  SAVE_JPG := eq_refl;
  SAVE_JPEG_RGB := toy_SAVE_JPEG_RGB;
  SAVE_PNG := toy_SAVE_PNG;
  svg2png_decode := toy_svg2png_decode
|}.

(** A toy [imageio]: an animation is ["G"], the duration as its mantissa
    and power of ten, and the frames' payloads each after a ["|"]. *)
Definition toy_duration (d : float) : string :=
  match d with
  | Finite neg m e => (if neg then "-" else "") +:+ pretty m +:+ "e" +:+ pretty e
  | Infinity neg => (if neg then "-" else "") +:+ "inf"
  | NaN => "nan"
  end.

Definition toy_mimsave (imgs : list (mode * string)) (d : float) :
    outcome exn bytes :=
  Ok (foldl (fun acc i => acc +:+ "|" +:+ i.2) ("G" +:+ toy_duration d) imgs)%string.

Definition toy_imageio : @Imageio toy := @Build_Imageio toy toy_mimsave.

(** ** Facts on the file-level actions *)

Section ActionFacts.
Context `{Pillow}.
Implicit Types (p q : string) (b : bytes) (s : fs) (i : Image).

Lemma Image_open_state p s : (Image_open p s).2 = s.
Proof.
  unfold Image_open, bind. pose proof (read_file_state p s) as R.
  destruct (read_file p s) as [[b|e] s1]; simpl in R; subst s1; [|done].
  by destruct (decode b).
Qed.

Lemma Image_open_ok p s b i :
  files s !! p = Some b -> decode b = Some i -> Image_open p s = (Ok i, s).
Proof.
  intros Hb Hi. unfold Image_open.
  rewrite (bind_ok _ _ _ _ _ (read_file_ok _ _ _ Hb)). by rewrite Hi.
Qed.

Lemma Image_open_inv p s i s' :
  Image_open p s = (Ok i, s') ->
  exists b, files s !! p = Some b /\ decode b = Some i /\ s' = s.
Proof.
  intros (b & s1 & [Hb ->]%read_file_inv & Hd)%bind_ok_inv. exists b.
  destruct (decode b); [|done]. by injection Hd as -> ->.
Qed.

Lemma Image_save_unregistered i p f s :
  SAVE (upper f) = None -> Image_save i p f s = (Raise (KeyError (upper f)), s).
Proof. intros E. unfold Image_save. by rewrite E. Qed.

Lemma Image_save_ok i p f s enc b :
  SAVE (upper f) = Some enc -> enc i = Ok b ->
  is_dir p s = false -> parent_ok p s = true ->
  Image_save i p f s = (Ok tt, put_file p b s).
Proof.
  intros E Hb Hd Hp. unfold Image_save. rewrite E.
  rewrite (bind_ok _ _ _ _ _ (check_writable_ok p s Hd Hp)).
  unfold bind, lift_outcome. rewrite Hb. by apply write_file_ok.
Qed.

(** A save that returns wrote its target, and nothing else. *)
Lemma Image_save_inv i p f s s' :
  Image_save i p f s = (Ok tt, s') -> exists b, s' = put_file p b s.
Proof.
  unfold Image_save. destruct (SAVE (upper f)) as [enc|]; [|done].
  intros ([] & s1 & Hc & (b & s2 & Hb & Hw)%bind_ok_inv)%bind_ok_inv.
  pose proof (check_writable_state p s) as C. rewrite Hc in C. simpl in C.
  subst s1. unfold lift_outcome in Hb. destruct (enc i); [|done].
  injection Hb as -> <-. exists b. by apply write_file_inv.
Qed.

(** A save that raises leaves the file system as it was. *)
Lemma Image_save_raise i p f s e s' :
  Image_save i p f s = (Raise e, s') -> s' = s.
Proof.
  unfold Image_save. destruct (SAVE (upper f)) as [enc|]; [|by intros [= _ <-]].
  unfold bind at 1. pose proof (check_writable_state p s) as C.
  destruct (check_writable p s) as [[[]|e1] s1]; simpl in C; subst s1;
    [|by intros [= _ <-]].
  unfold bind, lift_outcome. destruct (enc i) as [b|e2]; [|by intros [= _ <-]].
  apply write_file_raise.
Qed.

Lemma svg2png_ok p q s b r :
  files s !! p = Some b -> svg2png_bytes b = Ok r ->
  is_dir q s = false -> parent_ok q s = true ->
  svg2png p q s = (Ok tt, put_file q r s).
Proof.
  intros Hb Hr Hd Hp. unfold svg2png.
  rewrite (bind_ok _ _ _ _ _ (read_file_ok _ _ _ Hb)).
  unfold bind, lift_outcome. rewrite Hr. by apply write_file_ok.
Qed.

(** A rendering that returns wrote its target, and nothing else. *)
Lemma svg2png_inv p q s s' :
  svg2png p q s = (Ok tt, s') -> exists r, s' = put_file q r s.
Proof.
  intros (b & s1 & [Hb ->]%read_file_inv & (r & s2 & Hr & Hw)%bind_ok_inv)%bind_ok_inv.
  unfold lift_outcome in Hr. destruct (svg2png_bytes b); [|done].
  injection Hr as -> <-. exists r. by apply write_file_inv.
Qed.

(** A rendering that raises leaves the file system as it was. *)
Lemma svg2png_raise p q s e s' : svg2png p q s = (Raise e, s') -> s' = s.
Proof.
  unfold svg2png, bind at 1. pose proof (read_file_state p s) as R.
  destruct (read_file p s) as [[b|e1] s1]; simpl in R; subst s1;
    [|by intros [= _ <-]].
  unfold bind, lift_outcome. destruct (svg2png_bytes b); [|by intros [= _ <-]].
  apply write_file_raise.
Qed.

Lemma mimsave_ok `{!Imageio} p imgs d s b :
  mimsave_bytes imgs d = Ok b ->
  is_dir p s = false -> parent_ok p s = true ->
  mimsave p imgs d s = (Ok tt, put_file p b s).
Proof.
  intros Hb Hd Hp. unfold mimsave.
  rewrite (bind_ok _ _ _ _ _ (check_writable_ok p s Hd Hp)).
  unfold bind, lift_outcome. rewrite Hb. by apply write_file_ok.
Qed.

(** An animation that was written is the whole of what [mimsave] encodes. *)
Lemma mimsave_inv `{!Imageio} p imgs d s s' :
  mimsave p imgs d s = (Ok tt, s') ->
  exists b, mimsave_bytes imgs d = Ok b /\ s' = put_file p b s.
Proof.
  intros ([] & s1 & Hc & (b & s2 & Hb & Hw)%bind_ok_inv)%bind_ok_inv.
  pose proof (check_writable_state p s) as C. rewrite Hc in C. simpl in C.
  subst s1. unfold lift_outcome in Hb. destruct (mimsave_bytes imgs d); [|done].
  injection Hb as -> <-. exists b. split; [done|]. by apply write_file_inv.
Qed.

Lemma mimsave_raise `{!Imageio} p imgs d s e s' :
  mimsave p imgs d s = (Raise e, s') -> s' = s.
Proof.
  unfold mimsave, bind at 1. pose proof (check_writable_state p s) as C.
  destruct (check_writable p s) as [[[]|e1] s1]; simpl in C; subst s1;
    [|by intros [= _ <-]].
  unfold bind, lift_outcome. destruct (mimsave_bytes _ _); [|by intros [= _ <-]].
  apply write_file_raise.
Qed.

(** Footprints: opening reads only; saving and rendering write their
    target only. *)
Lemma touches_Image_open ps p : touches ps (Image_open p).
Proof. apply touches_pure, Image_open_state. Qed.

Lemma touches_Image_save ps i p f : p ∈ ps -> touches ps (Image_save i p f).
Proof. intros Hp. unfold Image_save. eff_touches. Qed.

Lemma touches_svg2png ps p q : q ∈ ps -> touches ps (svg2png p q).
Proof. intros Hq. unfold svg2png. eff_touches. Qed.

Lemma touches_svg2pdf ps p q : q ∈ ps -> touches ps (svg2pdf p q).
Proof. intros Hq. unfold svg2pdf. eff_touches. Qed.

Lemma touches_mimsave `{!Imageio} ps p imgs d :
  p ∈ ps -> touches ps (mimsave p imgs d).
Proof. intros Hp. unfold mimsave. eff_touches. Qed.

End ActionFacts.

#[export] Hint Resolve touches_Image_open touches_Image_save touches_svg2png
  touches_svg2pdf touches_mimsave : touches.
