(* ===== verification/Converter.v ===== *)
(** * Converter: the three conversion functions

    - [convert_image]: [convert_image] of [src/converter.py], which
      dispatches on the input's extension and the target format;
    - [app_convert_image], [app_convert_svg]: [convert_image] and
      [convert_svg] of [src/app.py]; [src/app_qt5.py] holds the same two
      functions, character for character.

    They run in [M], on the file system, over any imaging library that
    meets [Pillow]. *)

From S2P Require Import Prelude PyString Classifier FileSys Imaging.

Local Open Scope eff_scope.

Section Converter.
Context `{Pillow}.

(** ** [src/converter.py] *)

Definition convert_image (input_path output_path format : string) : M unit :=
  let ext := ext_of_input input_path in
  if bool_decide (ext = ".svg") then
    if bool_decide (format = "png") then
      svg2png input_path output_path
    else if bool_decide (format = "pdf") then
      svg2pdf input_path output_path
    else if bool_decide (format = "jpg") then
      let tmp_png := replace ".jpg" ".png" output_path in
      svg2png input_path tmp_png ;;;
      (img <- Image_open tmp_png ;;
       Image_save (convert RGB img) output_path "JPEG") ;;;
      os_remove tmp_png
    else
      raise (ValueError "Unsupported SVG target format.")
  else
    img <- Image_open input_path ;;
    if bool_decide (format = "jpg") then
      Image_save (convert RGB img) output_path "JPEG"
    else
      Image_save img output_path (upper format).

(** ** [src/app.py] (and [src/app_qt5.py]) *)

Definition app_convert_image (input_path output_path format : string) : M unit :=
  img <- Image_open input_path ;;
  let img := if bool_decide (format = "jpg") then convert RGB img else img in
  Image_save img output_path (upper format).

(** [output_path.rsplit('.', 1)[0] + '.png'] *)
Definition temp_png_path (output_path : string) : string :=
  rsplit1_head "." output_path +:+ ".png".

Definition app_convert_svg (input_path output_path format : string) : M unit :=
  let temp_png_path := temp_png_path output_path in
  svg2png input_path temp_png_path ;;;
  (img <- Image_open temp_png_path ;;
   let img := if bool_decide (format = "jpg") then convert RGB img else img in
   Image_save img output_path (upper format)) ;;;
  os_remove temp_png_path.

End Converter.

(** ** Runs on the executable instance *)

Definition demo_fs : fs :=
  Fs {[ "in/logo.svg" := "<svg/>"; "in/photo.png" := "P4pixels" ]}%string
     {[ "in"; "out" ]}%string.

Example run_lib_svg_jpg :
  let r := convert_image (H:=toy) "in/logo.svg" "out/logo.jpg" "jpg" demo_fs in
  r.1 = Ok tt /\ files r.2 !! "out/logo.jpg"%string = Some "J3svg/>"%string /\
  files r.2 !! "out/logo.png"%string = None.
Proof. vm_compute. done. Qed.

Example run_app_svg_png :
  let r := app_convert_svg (H:=toy) "in/logo.svg" "out/logo.png" "png" demo_fs in
  r.1 = Ok tt /\ files r.2 !! "out/logo.png"%string = None.
Proof. vm_compute. done. Qed.

Example run_app_png_jpg :
  (app_convert_image (H:=toy) "in/photo.png" "out/photo.jpg" "jpg" demo_fs).1
  = Raise (KeyError "JPG").
Proof. vm_compute. done. Qed.

Example run_app_svg_jpg :
  let r := app_convert_svg (H:=toy) "in/logo.svg" "out/logo.jpg" "jpg" demo_fs in
  r.1 = Raise (KeyError "JPG") /\
  files r.2 !! "out/logo.png"%string = Some "P4svg/>"%string.
Proof. vm_compute. done. Qed.

(** ** Footprints *)

Section ConverterFacts.
Context `{Pillow}.
Implicit Types (s : fs) (b p : bytes) (i : Image).

(** [convert_image] of the library changes no directory and no file
    other than its output and, on the SVG-to-JPEG path, the temporary PNG:
    the input and every other file are as before, whatever the outcome. *)
Theorem convert_image_touches (input_path output_path format : string) :
  touches {[ output_path; replace ".jpg" ".png" output_path ]}
    (convert_image input_path output_path format).
Proof. unfold convert_image. eff_touches. Qed.

Lemma app_convert_image_touches (input_path output_path format : string) :
  touches {[ output_path ]} (app_convert_image input_path output_path format).
Proof. unfold app_convert_image. eff_touches. Qed.

Lemma app_convert_svg_touches (input_path output_path format : string) :
  touches {[ output_path; temp_png_path output_path ]}
    (app_convert_svg input_path output_path format).
Proof. unfold app_convert_svg. eff_touches. Qed.

(** ** The two-stage pipeline, stage by stage *)

(** Stage 1 succeeded: the rendering is at [tmp] and opens. *)
Lemma stage1_opens input tmp s b p :
  files s !! input = Some b -> svg2png_bytes b = Ok p ->
  is_dir tmp s = false -> parent_ok tmp s = true ->
  svg2png input tmp s = (Ok tt, put_file tmp p s) /\
  exists i, Image_open tmp (put_file tmp p s) = (Ok i, put_file tmp p s).
Proof.
  intros Hb Hp Hd Hok. split; [by apply svg2png_ok with b|].
  destruct (svg2png_decode _ _ Hp) as [i Hi]. exists i.
  apply Image_open_ok with p; [apply files_put_file|done].
Qed.

(** Removing a file that is there succeeds. *)
Lemma remove_present tmp s b :
  files s !! tmp = Some b -> os_remove tmp s = (Ok tt, del_file tmp s).
Proof. apply os_remove_ok. Qed.

(** The JPEG encoder on a converted image: a file that opens as RGB. *)
Lemma save_jpeg_rgb i out s :
  is_dir out s = false -> parent_ok out s = true ->
  exists j i', Image_save (convert RGB i) out "JPEG" s = (Ok tt, put_file out j s) /\
               decode j = Some i' /\ mode_of i' = RGB.
Proof.
  intros Hd Hp.
  destruct (SAVE_JPEG_RGB (convert RGB i) (convert_mode _ _))
    as (enc & j & i' & He & Hj & Hi' & Hm).
  exists j, i'. split; [|done]. by apply Image_save_ok with enc.
Qed.

(** ** [src/app.py]: the JPEG target *)

(** The run of [convert_image] of [app.py] on an input that opens, for a
    target other than ["jpg"] that PIL has an encoder for. *)
Lemma app_convert_image_run (input_path output_path format : string) s b i enc j :
  format <> "jpg" ->
  files s !! input_path = Some b -> decode b = Some i ->
  SAVE (upper format) = Some enc -> enc i = Ok j ->
  is_dir output_path s = false -> parent_ok output_path s = true ->
  app_convert_image input_path output_path format s
  = (Ok tt, put_file output_path j s).
Proof.
  intros Hf Hb Hi He Hj Hd Hp. unfold app_convert_image.
  rewrite (bind_ok _ _ _ _ _ (Image_open_ok _ _ _ _ Hb Hi)).
  cbv zeta. rewrite bool_decide_false by done.
  apply Image_save_ok with enc; [by rewrite upper_idemp|done..].
Qed.

(** A conversion that returns wrote its output, and nothing else. *)
Lemma app_convert_image_inv (input_path output_path format : string) s s' :
  app_convert_image input_path output_path format s = (Ok tt, s') ->
  exists j, s' = put_file output_path j s.
Proof.
  intros (i & s1 & (b & _ & _ & ->)%Image_open_inv & Hs)%bind_ok_inv.
  by apply Image_save_inv in Hs.
Qed.

(** A conversion of an SVG that returns wrote its temporary file, then its
    output, and removed the temporary file. *)
Lemma app_convert_svg_inv (input_path output_path format : string) s s' :
  app_convert_svg input_path output_path format s = (Ok tt, s') ->
  exists p j,
    s' = del_file (temp_png_path output_path)
           (put_file output_path j (put_file (temp_png_path output_path) p s)).
Proof.
  unfold app_convert_svg. cbv zeta.
  intros ([] & s1 & [p ->]%svg2png_inv & ([] & s2 & Hs & ->%os_remove_inv)%bind_ok_inv)%bind_ok_inv.
  apply bind_ok_inv in Hs as (i & s3 & (b & _ & _ & ->)%Image_open_inv & [j ->]%Image_save_inv).
  by exists p, j.
Qed.

Lemma save_jpg_unregistered i (output_path : string) s :
  Image_save i output_path (upper "jpg") s = (Raise (KeyError "JPG"), s).
Proof. apply (Image_save_unregistered _ _ "JPG"), SAVE_JPG. Qed.

Lemma app_convert_image_jpg_raises (input_path output_path : string) s :
  exists e, app_convert_image input_path output_path "jpg" s = (Raise e, s).
Proof.
  unfold app_convert_image, bind. cbv zeta.
  pose proof (Image_open_state input_path s) as Ho.
  destruct (Image_open input_path s) as [[i|e] s1]; simpl in Ho; subst s1;
    [|by eauto].
  eexists. apply save_jpg_unregistered.
Qed.

Lemma app_convert_svg_jpg_raises (input_path output_path : string) s :
  exists e s', app_convert_svg input_path output_path "jpg" s = (Raise e, s').
Proof.
  unfold app_convert_svg, bind. cbv zeta.
  destruct (svg2png _ _ s) as [[[]|e] s1]; [|by eauto].
  destruct (Image_open _ s1) as [[i|e] s2]; [|by eauto].
  rewrite save_jpg_unregistered. by eauto.
Qed.

(** C2. [convert_image] of [app.py] never converts to JPEG: with format
    ["jpg"] it asks PIL for the encoder ["JPG"], which the registry does not
    have.  It raises whatever the input, leaves the file system as it was,
    and the exception is [KeyError('JPG')] as soon as the input opens. *)
Theorem app_convert_image_jpg_fails (input_path output_path : string) s :
  (exists e, app_convert_image input_path output_path "jpg" s = (Raise e, s)) /\
  (forall b i, files s !! input_path = Some b -> decode b = Some i ->
     app_convert_image input_path output_path "jpg" s
     = (Raise (KeyError "JPG"), s)).
Proof.
  split; [apply app_convert_image_jpg_raises|]. intros b i Hb Hi.
  unfold app_convert_image. rewrite (bind_ok _ _ _ _ _ (Image_open_ok _ _ _ _ Hb Hi)).
  apply save_jpg_unregistered.
Qed.

(** C29. [convert_svg] of [app.py] with format ["jpg"]: once the SVG is
    rendered, the call raises [KeyError('JPG')] and the temporary PNG is
    left on disk; no JPEG is written. *)
Theorem app_convert_svg_jpg_leaks (input_path output_path : string) s b p :
  files s !! input_path = Some b -> svg2png_bytes b = Ok p ->
  is_dir (temp_png_path output_path) s = false ->
  parent_ok (temp_png_path output_path) s = true ->
  app_convert_svg input_path output_path "jpg" s
  = (Raise (KeyError "JPG"), put_file (temp_png_path output_path) p s).
Proof.
  intros Hb Hp Hd Hok. unfold app_convert_svg. cbv zeta.
  destruct (stage1_opens _ _ _ _ _ Hb Hp Hd Hok) as [H1 [i H2]].
  rewrite (bind_ok _ _ _ _ _ H1). apply bind_err.
  rewrite (bind_ok _ _ _ _ _ H2). apply save_jpg_unregistered.
Qed.

(** ** [src/app.py]: the PNG target of [convert_svg] *)

Lemma temp_png_path_png (stem : string) :
  temp_png_path (stem +:+ ".png") = stem +:+ ".png".
Proof. unfold temp_png_path. by rewrite (rsplit1_head_app "." stem "png"). Qed.

(** The run of [convert_svg] to a [.png] output path. *)
Lemma app_convert_svg_png_run (input_path stem : string) s b p :
  let output_path := stem +:+ ".png" in
  files s !! input_path = Some b -> svg2png_bytes b = Ok p ->
  is_dir output_path s = false -> parent_ok output_path s = true ->
  exists j, app_convert_svg input_path output_path "png" s
            = (Ok tt, del_file output_path
                        (put_file output_path j (put_file output_path p s))).
Proof.
  intros out Hb Hp Hd Hok. unfold app_convert_svg. cbv zeta.
  subst out. rewrite (temp_png_path_png stem). set (out := stem +:+ ".png") in *.
  destruct (stage1_opens _ out _ _ _ Hb Hp Hd Hok) as [H1 [i H2]].
  destruct (SAVE_PNG i) as (enc & j & He & Hj).
  pose proof (Image_save_ok i out "png" (put_file out p s) enc j He Hj Hd Hok) as H3.
  exists j. rewrite (bind_ok _ _ _ _ _ H1). erewrite bind_ok.
  - eapply remove_present, files_put_file.
  - rewrite (bind_ok _ _ _ _ _ H2). exact H3.
Qed.

(** The run of [convert_svg] where the temporary path is not the output
    path, for a target other than ["jpg"] that PIL has an encoder for: the
    rendering is written, opened, encoded to the output, and removed. *)
Lemma app_convert_svg_run (input_path output_path format : string) s b p i enc j :
  let tmp := temp_png_path output_path in
  format <> "jpg" -> tmp <> output_path ->
  files s !! input_path = Some b -> svg2png_bytes b = Ok p -> decode p = Some i ->
  SAVE (upper format) = Some enc -> enc i = Ok j ->
  is_dir tmp s = false -> parent_ok tmp s = true ->
  is_dir output_path s = false -> parent_ok output_path s = true ->
  app_convert_svg input_path output_path format s
  = (Ok tt, del_file tmp (put_file output_path j (put_file tmp p s))).
Proof.
  intros tmp Hf Hne Hb Hp Hi He Hj Hd Hok Hd' Hok'. unfold app_convert_svg.
  cbv zeta. fold tmp.
  rewrite (bind_ok _ _ _ _ _ (svg2png_ok _ tmp _ _ _ Hb Hp Hd Hok)).
  erewrite bind_ok.
  - apply (remove_present tmp _ p). rewrite files_put_file_ne by done.
    apply files_put_file.
  - rewrite (bind_ok _ _ _ _ _ (Image_open_ok tmp _ p i (files_put_file _ _ _) Hi)).
    rewrite bool_decide_false by done.
    apply Image_save_ok with enc; [by rewrite upper_idemp|done..].
Qed.

(** C1. [convert_svg] of [app.py] to PNG removes its own output.  For an
    output path that ends in [.png] the temporary path is the output path,
    so whenever the input renders and the output is writable the call
    returns normally and no file is at the output path afterwards; every
    other file is as before. *)
Theorem app_convert_svg_png_no_output (input_path stem : string) s b p :
  let output_path := stem +:+ ".png" in
  files s !! input_path = Some b -> svg2png_bytes b = Ok p ->
  is_dir output_path s = false -> parent_ok output_path s = true ->
  exists s', app_convert_svg input_path output_path "png" s = (Ok tt, s') /\
             files s' !! output_path = None /\
             forall q, q <> output_path -> files s' !! q = files s !! q.
Proof.
  intros out Hb Hp Hd Hok.
  destruct (app_convert_svg_png_run _ stem _ _ _ Hb Hp Hd Hok) as [j Hrun].
  eexists. split; [exact Hrun|]. split; [apply files_del_file|].
  intros q Hq. by rewrite files_del_file_ne, !files_put_file_ne.
Qed.

(** ** [src/converter.py]: SVG to JPEG *)

(** The branch [convert_image] takes for an SVG input and format ["jpg"]. *)
Lemma convert_image_svg_jpg_eq (input_path output_path : string) :
  ext_of_input input_path = ".svg" ->
  convert_image input_path output_path "jpg" =
    let tmp_png := replace ".jpg" ".png" output_path in
    (svg2png input_path tmp_png ;;;
     (img <- Image_open tmp_png ;;
      Image_save (convert RGB img) output_path "JPEG") ;;;
     os_remove tmp_png).
Proof. intros E. unfold convert_image. by rewrite E. Qed.

(** C3. The two-stage pipeline of [converter.py].  When the SVG renders and
    both paths are writable, [convert_image] returns normally; the output
    holds a JPEG that opens as an RGB image, and the temporary PNG is gone. *)
Theorem convert_image_svg_jpg (input_path output_path : string) s b p :
  let tmp_png := replace ".jpg" ".png" output_path in
  ext_of_input input_path = ".svg" -> tmp_png <> output_path ->
  files s !! input_path = Some b -> svg2png_bytes b = Ok p ->
  is_dir tmp_png s = false -> parent_ok tmp_png s = true ->
  is_dir output_path s = false -> parent_ok output_path s = true ->
  exists j i',
    convert_image input_path output_path "jpg" s
    = (Ok tt, del_file tmp_png (put_file output_path j (put_file tmp_png p s))) /\
    decode j = Some i' /\ mode_of i' = RGB.
Proof.
  intros tmp Hext Hne Hb Hp Hd Hok Hdo Hoko.
  rewrite convert_image_svg_jpg_eq by done. cbv zeta. fold tmp.
  destruct (stage1_opens _ tmp _ _ _ Hb Hp Hd Hok) as [H1 [i H2]].
  destruct (save_jpeg_rgb i output_path (put_file tmp p s) Hdo Hoko)
    as (j & i' & H3 & Hj & Hm).
  exists j, i'. split; [|done].
  rewrite (bind_ok _ _ _ _ _ H1). erewrite bind_ok.
  - apply remove_present with p.
    rewrite files_put_file_ne by done. apply files_put_file.
  - rewrite (bind_ok _ _ _ _ _ H2). exact H3.
Qed.

(** C4. The temporary PNG of [converter.py] is not released on failure.  Once
    the SVG is rendered, every exception of the second stage leaves the
    rendering at the temporary path: [os.remove] is only reached on
    success. *)
Theorem convert_image_svg_jpg_leak (input_path output_path : string) s b p e s' :
  let tmp_png := replace ".jpg" ".png" output_path in
  ext_of_input input_path = ".svg" ->
  files s !! input_path = Some b -> svg2png_bytes b = Ok p ->
  is_dir tmp_png s = false -> parent_ok tmp_png s = true ->
  convert_image input_path output_path "jpg" s = (Raise e, s') ->
  files s' !! tmp_png = Some p.
Proof.
  intros tmp Hext Hb Hp Hd Hok.
  rewrite convert_image_svg_jpg_eq by done. cbv zeta. fold tmp.
  destruct (stage1_opens _ tmp _ _ _ Hb Hp Hd Hok) as [H1 [i H2]].
  rewrite (bind_ok _ _ _ _ _ H1). unfold bind at 1.
  rewrite (bind_ok _ _ _ _ _ H2).
  destruct (Image_save _ _ _ _) as [[[]|e2] s2] eqn:H3.
  - apply Image_save_inv in H3 as [j ->].
    assert (is_Some (files (put_file output_path j (put_file tmp p s)) !! tmp))
      as [x Hx].
    { destruct (decide (tmp = output_path)) as [E|Hne].
      - rewrite E, files_put_file. eauto.
      - rewrite files_put_file_ne, files_put_file by done. eauto. }
    by rewrite (remove_present _ _ _ Hx).
  - intros [= _ <-]. apply Image_save_raise in H3 as ->. apply files_put_file.
Qed.

(** C35. A JPEG output path without [.jpg] in it is lost.  [str.replace]
    then returns the output path itself as the temporary path, and the
    final [os.remove] deletes the JPEG just written: after a successful
    call no file is at the output path. *)
Theorem convert_image_jpg_name_collision (input_path output_path : string) s s' :
  ext_of_input input_path = ".svg" -> has_sub ".jpg" output_path = false ->
  convert_image input_path output_path "jpg" s = (Ok tt, s') ->
  files s' !! output_path = None.
Proof.
  intros Hext Hsub. rewrite convert_image_svg_jpg_eq by done. cbv zeta.
  rewrite replace_absent by done.
  intros (_ & s1 & _ & (_ & s2 & _ & Hrm)%bind_ok_inv)%bind_ok_inv.
  by apply os_remove_gone in Hrm.
Qed.

(** ** [src/converter.py]: raster inputs *)

(** The branch [convert_image] takes for an input that is not an SVG. *)
Lemma convert_image_raster_eq (input_path output_path format : string) :
  ext_of_input input_path <> ".svg" ->
  convert_image input_path output_path format =
    (img <- Image_open input_path ;;
     if bool_decide (format = "jpg")
     then Image_save (convert RGB img) output_path "JPEG"
     else Image_save img output_path (upper format)).
Proof. intros E. unfold convert_image. by rewrite bool_decide_false. Qed.

(** Flattening for JPEG.  Any raster input that opens, whatever its mode
    (an image with an alpha channel included), converts to ["jpg"] without
    error when the output is writable, and the file written opens as an
    image without alpha channel. *)
Theorem convert_image_raster_jpg (input_path output_path : string) s b i :
  ext_of_input input_path <> ".svg" ->
  files s !! input_path = Some b -> decode b = Some i ->
  is_dir output_path s = false -> parent_ok output_path s = true ->
  exists j i',
    convert_image input_path output_path "jpg" s = (Ok tt, put_file output_path j s) /\
    decode j = Some i' /\ has_alpha (mode_of i') = false.
Proof.
  intros Hext Hb Hi Hd Hok. rewrite convert_image_raster_eq by done.
  destruct (save_jpeg_rgb i output_path s Hd Hok) as (j & i' & H3 & Hj & Hm).
  exists j, i'. rewrite (bind_ok _ _ _ _ _ (Image_open_ok _ _ _ _ Hb Hi)).
  by rewrite Hm.
Qed.

(** On raster inputs and targets other than ["jpg"], the library
    function and the web application's copy are the same computation; on
    ["jpg"] they are not (the library names the encoder ["JPEG"]). *)
Theorem convert_image_raster_app (input_path output_path format : string) s :
  ext_of_input input_path <> ".svg" -> format <> "jpg" ->
  convert_image input_path output_path format s
  = app_convert_image input_path output_path format s.
Proof.
  intros Hext Hf. rewrite convert_image_raster_eq by done.
  unfold app_convert_image. by rewrite bool_decide_false.
Qed.

(** An SVG input with a target other than ["png"], ["pdf"] and ["jpg"]
    is refused with [ValueError] before anything is read or written. *)
Theorem convert_image_svg_unsupported (input_path output_path format : string) s :
  ext_of_input input_path = ".svg" ->
  format <> "png" -> format <> "pdf" -> format <> "jpg" ->
  convert_image input_path output_path format s
  = (Raise (ValueError "Unsupported SVG target format."), s).
Proof.
  intros Hext H1 H2 H3. unfold convert_image.
  by rewrite Hext, bool_decide_true, !bool_decide_false.
Qed.

End ConverterFacts.

(** ** Witnesses on the executable instance *)

#[local] Existing Instance toy.

(** A file system where the JPEG output path is taken by a directory. *)
Definition blocked_fs : fs :=
  Fs {[ "in/logo.svg" := "<svg/>" ]}%string
     {[ "in"; "out"; "out/logo.jpg" ]}%string.

Lemma app_convert_svg_jpg_leaks_witness :
  app_convert_svg (H:=toy) "in/logo.svg" "out/logo.jpg" "jpg" demo_fs
  = (Raise (KeyError "JPG"),
     put_file (temp_png_path "out/logo.jpg") "P4svg/>" demo_fs).
Proof.
  apply (app_convert_svg_jpg_leaks (H:=toy) _ _ demo_fs "<svg/>");
    by vm_compute.
Defined.

Lemma app_convert_svg_png_no_output_witness :
  exists s', app_convert_svg (H:=toy) "in/logo.svg" "out/logo.png" "png" demo_fs
             = (Ok tt, s') /\
             files s' !! "out/logo.png"%string = None /\
             forall q, q <> "out/logo.png"%string -> files s' !! q = files demo_fs !! q.
Proof.
  apply (app_convert_svg_png_no_output (H:=toy) "in/logo.svg" "out/logo"
           demo_fs "<svg/>" "P4svg/>"); by vm_compute.
Defined.

Lemma convert_image_svg_jpg_witness :
  exists j i',
    convert_image (H:=toy) "in/logo.svg" "out/logo.jpg" "jpg" demo_fs
    = (Ok tt, del_file "out/logo.png"
                (put_file "out/logo.jpg" j (put_file "out/logo.png" "P4svg/>" demo_fs))) /\
    decode j = Some i' /\ mode_of i' = RGB.
Proof.
  apply (convert_image_svg_jpg (H:=toy) "in/logo.svg" "out/logo.jpg"
           demo_fs "<svg/>" "P4svg/>"); by vm_compute.
Defined.

Lemma convert_image_svg_jpg_leak_witness :
  files (convert_image (H:=toy) "in/logo.svg" "out/logo.jpg" "jpg" blocked_fs).2
    !! "out/logo.png"%string = Some "P4svg/>"%string.
Proof.
  apply (convert_image_svg_jpg_leak (H:=toy) "in/logo.svg" "out/logo.jpg"
           blocked_fs "<svg/>" "P4svg/>" (IsADirectoryError "out/logo.jpg"));
    by vm_compute.
Defined.

Lemma convert_image_jpg_name_collision_witness :
  files (convert_image (H:=toy) "in/logo.svg" "out/logo.jpeg" "jpg" demo_fs).2
    !! "out/logo.jpeg"%string = None.
Proof.
  apply (convert_image_jpg_name_collision (H:=toy) "in/logo.svg"
           "out/logo.jpeg" demo_fs); by vm_compute.
Defined.

Lemma convert_image_raster_jpg_witness :
  exists j i',
    convert_image (H:=toy) "in/photo.png" "out/photo.jpg" "jpg" demo_fs
    = (Ok tt, put_file "out/photo.jpg" j demo_fs) /\
    decode j = Some i' /\ has_alpha (mode_of i') = false.
Proof.
  apply (convert_image_raster_jpg (H:=toy) "in/photo.png" "out/photo.jpg"
           demo_fs "P4pixels" (RGBA, "pixels"%string)); by vm_compute.
Defined.

Lemma convert_image_raster_app_witness :
  convert_image (H:=toy) "in/photo.png" "out/photo.webp" "webp" demo_fs
  = app_convert_image (H:=toy) "in/photo.png" "out/photo.webp" "webp" demo_fs.
Proof. apply convert_image_raster_app; by vm_compute. Defined.

Lemma convert_image_svg_unsupported_witness :
  convert_image (H:=toy) "in/logo.svg" "out/logo.webp" "webp" demo_fs
  = (Raise (ValueError "Unsupported SVG target format."), demo_fs).
Proof. apply convert_image_svg_unsupported; by vm_compute. Defined.
