(* ===== verification/Cad.v ===== *)
(** * Cad: [convert_dwg_to_pdf] of [src/converter.py]

    The function drives AutoCAD through COM: it starts the application,
    opens the drawing, writes a [.dsd] sheet description next to it, has
    AutoCAD publish the sheet, and closes everything.  AutoCAD is not code
    of the repository: the class [AutoCAD] is an oracle that says, for each
    call and the calls made before it, whether the call raises and what it
    does to the disk.

    The state is the disk and the list of the COM calls made so far, in
    order, the raising call included.  [script] is the sequence of calls of
    a complete run.

    Paths are taken with ["/"] as separator, as in the rest of the
    development; the text of the [.dsd] file is the Python string, before
    any translation of line ends by the platform. *)

From S2P Require Import Prelude PyString FileSys.

Local Open Scope eff_scope.

(** ** COM calls and the world *)

Inductive ComCall :=
| CoInitialize
| Dispatch (prog_id : string)
| SetVisible (visible : bool)
| DocumentsOpen (path : string)
| SetVariable (name : string) (value : nat)
| PublishToWeb (dsd_path : string)
| DocClose (save_changes : bool)
| Quit
| CoUninitialize.

#[export] Instance ComCall_eq_dec : EqDecision ComCall.
Proof. solve_decision. Defined.

Record world := World {
  disk : fs;
  calls : list ComCall
}.

Definition W := Eff world exn.

Class AutoCAD := {
  (** whether [import pythoncom] succeeded when the module was loaded *)
  pythoncom_imported : bool;
  (** whether [import win32com.client] did *)
  win32com_imported : bool;
  (** the call, after the calls made before it, on a disk: the disk it
      leaves, or the [com_error] it raises *)
  com_run : list ComCall -> ComCall -> fs -> outcome exn fs
}.

(** ["\n"] *)
Definition newline : ascii := "010"%char.

(** The lines of a text, each ended by a newline. *)
Definition unlines (l : list string) : string :=
  foldr (fun x acc => x +:+ String newline acc) EmptyString l.

Section Cad.
Context `{AutoCAD}.

(** One COM call. *)
Definition com (c : ComCall) : W unit := fun w =>
  match com_run (calls w) c (disk w) with
  | Ok d => (Ok tt, World d (calls w ++ [c]))
  | Raise e => (Raise e, World (disk w) (calls w ++ [c]))
  end.

(** An action on the disk. *)
Definition on_disk {A} (m : M A) : W A := fun w =>
  ((m (disk w)).1, World (m (disk w)).2 (calls w)).

(** [os.path.splitext(dwg_path)[0] + ".dsd"] *)
Definition dsd_path (dwg_path : string) : string :=
  (splitext dwg_path).1 +:+ ".dsd".

Definition dsd_content (dwg_path pdf_output_path : string) : string :=
  unlines
    [ "[DWF6Version]"; "Ver=1"; "[DWF6MinorVersion]"; "MinorVer=1"; "[Sheet1]";
      "DWG=" +:+ dwg_path; "Layout=*"; "OriginalSheetPath=" +:+ dwg_path;
      "Has PlotStyles=0"; "[Target]"; "Type=6"; "DWF=" +:+ pdf_output_path;
      "OUT=" +:+ dirname pdf_output_path; "PWD="; "[AutoCAD Block Data]";
      "IncludeLayer=TRUE"; "PromptForDwfName=FALSE"; "RememberSheetSet=FALSE" ].

Definition convert_dwg_to_pdf (dwg_path pdf_output_path : string) : W unit :=
  if negb pythoncom_imported then raise (NameError "pythoncom") else
  com CoInitialize ;;;
  if negb win32com_imported then raise (NameError "win32com") else
  com (Dispatch "AutoCAD.Application") ;;;
  com (SetVisible false) ;;;
  com (DocumentsOpen dwg_path) ;;;
  com (SetVariable "BACKGROUNDPLOT" 0) ;;;
  let dsd_path := dsd_path dwg_path in
  let dsd_content := dsd_content dwg_path pdf_output_path in
  on_disk (write_file dsd_path dsd_content) ;;;
  com (PublishToWeb dsd_path) ;;;
  com (DocClose false) ;;;
  com Quit ;;;
  com CoUninitialize.

(** The calls of a complete run, in order. *)
Definition script (dwg_path : string) : list ComCall :=
  [ CoInitialize; Dispatch "AutoCAD.Application"; SetVisible false;
    DocumentsOpen dwg_path; SetVariable "BACKGROUNDPLOT" 0;
    PublishToWeb (dsd_path dwg_path); DocClose false; Quit; CoUninitialize ].

End Cad.

(** ** An executable AutoCAD

    Every call succeeds and leaves the disk alone, except [PublishToWeb],
    which reads the sheet description and writes a PDF named after it, and
    [Documents.Open], which raises when the drawing is not on the disk. *)

Definition toy_com_run (before : list ComCall) (c : ComCall) (d : fs)
    : outcome exn fs :=
  match c with
  | DocumentsOpen path =>
      if is_file path d then Ok d else Raise (LibraryError "com_error: Open")
  | PublishToWeb dsd =>
      match files d !! dsd with
      | Some text => Ok (put_file (dsd +:+ ".pdf") ("D" +:+ text) d)
      | None => Raise (LibraryError "com_error: PublishToWeb")
      end
  | _ => Ok d
  end.

Definition toy_autocad : AutoCAD :=
  {| pythoncom_imported := true; win32com_imported := true; com_run := toy_com_run |}.

(** An AutoCAD that opens whatever it is given. *)
Definition lenient_com_run (before : list ComCall) (c : ComCall) (d : fs)
    : outcome exn fs :=
  match c with
  | DocumentsOpen path => Ok d
  | _ => toy_com_run before c d
  end.

Definition lenient_autocad : AutoCAD :=
  {| pythoncom_imported := true; win32com_imported := true;
     com_run := lenient_com_run |}.

Definition no_autocad : AutoCAD :=
  {| pythoncom_imported := false; win32com_imported := false;
     com_run := toy_com_run |}.

(** A host with [pythoncom] and without [win32com]. *)
Definition half_autocad : AutoCAD :=
  {| pythoncom_imported := true; win32com_imported := false;
     com_run := toy_com_run |}.

Definition cad_fs : fs :=
  Fs {[ "dwg/plan.dwg" := "AC1027" ]}%string {[ "dwg"; "pdf" ]}%string.

Example run_cad :
  let r := convert_dwg_to_pdf (H:=toy_autocad) "dwg/plan.dwg" "pdf/plan.pdf"
             (World cad_fs []) in
  r.1 = Ok tt /\ calls r.2 = script "dwg/plan.dwg" /\
  is_file "dwg/plan.dsd" (disk r.2) = true.
Proof. by vm_compute. Qed.

Example run_cad_missing :
  let r := convert_dwg_to_pdf (H:=toy_autocad) "dwg/none.dwg" "pdf/none.pdf"
             (World cad_fs []) in
  r.1 = Raise (LibraryError "com_error: Open") /\
  calls r.2 = take 4 (script "dwg/none.dwg").
Proof. by vm_compute. Qed.

Example run_cad_not_windows :
  convert_dwg_to_pdf (H:=no_autocad) "dwg/plan.dwg" "pdf/plan.pdf" (World cad_fs [])
  = (Raise (NameError "pythoncom"), World cad_fs []).
Proof. by vm_compute. Qed.

Example run_cad_half :
  convert_dwg_to_pdf (H:=half_autocad) "dwg/plan.dwg" "pdf/plan.pdf" (World cad_fs [])
  = (Raise (NameError "win32com"), World cad_fs [CoInitialize]).
Proof. by vm_compute. Qed.

(** ** The calls made are a prefix of the script *)

Section CadFacts.
Context `{AutoCAD}.
Implicit Types (w : world) (c : ComCall) (l : list ComCall).

(** [m] makes the calls of [l] in order, all of them when it returns. *)
Definition follows (l : list ComCall) (m : W unit) : Prop :=
  forall w, exists n,
    calls (m w).2 = calls w ++ take n l /\
    (is_ok (m w).1 = true -> n = length l).

Lemma follows_com c : follows [c] (com c).
Proof.
  intros w. exists 1. unfold com.
  by destruct (com_run (calls w) c (disk w)).
Qed.

Lemma follows_on_disk (m : M unit) : follows [] (on_disk m).
Proof. intros w. exists 0. simpl. by rewrite app_nil_r. Qed.

Lemma follows_raise e : follows [] (raise e).
Proof. intros w. exists 0. simpl. by rewrite app_nil_r. Qed.

Lemma follows_seq l1 l2 (m1 m2 : W unit) :
  follows l1 m1 -> follows l2 m2 -> follows (l1 ++ l2) (m1 ;;; m2).
Proof.
  intros H1 H2 w. destruct (H1 w) as (n1 & E1 & F1). unfold bind.
  destruct (m1 w) as [[[]|e] w1]; simpl in *.
  - destruct (H2 w1) as (n2 & E2 & F2). exists (length l1 + n2).
    rewrite E2, E1, F1, take_app_add, firstn_all, app_assoc by done.
    split; [done|]. intros Hok. by rewrite F2, length_app.
  - destruct (decide (n1 <= length l1)).
    + exists n1. by rewrite E1, take_app_le.
    + exists (length l1). by rewrite E1, take_app_le, !take_ge by lia.
Qed.

Lemma follows_weaken l (m : W unit) : follows [] m -> (forall w, is_ok (m w).1 = false) ->
  follows l m.
Proof.
  intros Hm Hf w. destruct (Hm w) as (n & E & _). exists 0.
  rewrite E, take_nil, take_0. split; [done|]. by rewrite Hf.
Qed.

Lemma convert_dwg_to_pdf_follows dwg_path pdf_output_path :
  follows (script dwg_path) (convert_dwg_to_pdf dwg_path pdf_output_path).
Proof.
  unfold convert_dwg_to_pdf. destruct pythoncom_imported; simpl;
    [|by apply follows_weaken; [apply follows_raise|]].
  apply (follows_seq [_] _ _ _ (follows_com _)).
  destruct win32com_imported; simpl;
    [|by apply follows_weaken; [apply follows_raise|]].
  repeat first
    [ apply (follows_seq [_] _ _ _ (follows_com _))
    | apply (follows_seq [] _ _ _ (follows_on_disk _))
    | apply follows_com ].
Qed.

(** One call that succeeds and leaves the disk alone. *)
Lemma com_ok c d d' tr :
  com_run tr c d = Ok d' -> com c (World d tr) = (Ok tt, World d' (tr ++ [c])).
Proof. intros E. unfold com. simpl. by rewrite E. Qed.

Lemma com_raises c d tr e :
  com_run tr c d = Raise e -> com c (World d tr) = (Raise e, World d (tr ++ [c])).
Proof. intros E. unfold com. simpl. by rewrite E. Qed.

(** The function on a host where the imports succeeded. *)
Lemma convert_dwg_to_pdf_imported dwg_path pdf_output_path :
  pythoncom_imported = true -> win32com_imported = true ->
  convert_dwg_to_pdf dwg_path pdf_output_path
  = (com CoInitialize ;;;
     com (Dispatch "AutoCAD.Application") ;;;
     com (SetVisible false) ;;;
     com (DocumentsOpen dwg_path) ;;;
     com (SetVariable "BACKGROUNDPLOT" 0) ;;;
     on_disk (write_file (dsd_path dwg_path)
                (dsd_content dwg_path pdf_output_path)) ;;;
     com (PublishToWeb (dsd_path dwg_path)) ;;;
     com (DocClose false) ;;;
     com Quit ;;;
     com CoUninitialize).
Proof. intros Hpy Hwin. unfold convert_dwg_to_pdf. by rewrite Hpy, Hwin. Qed.

Lemma on_disk_write p b d tr :
  is_dir p d = false -> parent_ok p d = true ->
  on_disk (write_file p b) (World d tr) = (Ok tt, World (put_file p b d) tr).
Proof. intros Hd Hp. unfold on_disk. simpl. by rewrite (write_file_ok _ _ _ Hd Hp). Qed.

End CadFacts.

(** ** Theorems *)

Section CadTheorems.
Context `{AutoCAD}.
Implicit Types (w : world) (c : ComCall).

(** C27. The protocol of the COM calls.  Whatever AutoCAD answers, the calls
    [convert_dwg_to_pdf] makes are a prefix of the script, in its order:
    initialise, dispatch, hide, open, set the variable, publish, close,
    quit, uninitialise; when the function returns, all nine were made. *)
Theorem convert_dwg_to_pdf_calls_prefix dwg_path pdf_output_path w :
  exists n,
    calls (convert_dwg_to_pdf dwg_path pdf_output_path w).2
    = calls w ++ take n (script dwg_path) /\
    (is_ok (convert_dwg_to_pdf dwg_path pdf_output_path w).1 = true -> n = 9).
Proof. apply convert_dwg_to_pdf_follows. Qed.

(** C30. No clean-up when a call fails.  When AutoCAD cannot open the drawing,
    the exception leaves the function after four calls: AutoCAD has been
    started and is not quit, COM has been initialised and is not
    uninitialised. *)
Theorem convert_dwg_to_pdf_no_cleanup dwg_path pdf_output_path w e :
  pythoncom_imported = true -> win32com_imported = true ->
  (forall tr c d, c ∈ take 3 (script dwg_path) -> com_run tr c d = Ok d) ->
  com_run (calls w ++ take 3 (script dwg_path)) (DocumentsOpen dwg_path) (disk w)
  = Raise e ->
  convert_dwg_to_pdf dwg_path pdf_output_path w
  = (Raise e, World (disk w) (calls w ++ take 4 (script dwg_path))).
Proof.
  intros Hpy Hwin Hq Hopen. rewrite convert_dwg_to_pdf_imported by done.
  destruct w as [d tr]. simpl in Hopen.
  do 3 (erewrite bind_ok; [|apply com_ok, Hq; simpl; repeat constructor]).
  erewrite bind_err by (apply com_raises; rewrite <- !app_assoc; exact Hopen).
  simpl. by rewrite <- !app_assoc.
Qed.

(** C33. The sheet description is left on the disk.  When every call succeeds
    and AutoCAD leaves the [.dsd] file alone, the function returns after
    the nine calls of the script and the file it wrote next to the drawing
    is still there, with the two paths in it. *)
Theorem convert_dwg_to_pdf_leaves_dsd dwg_path pdf_output_path w :
  let dsd := dsd_path dwg_path in
  let text := dsd_content dwg_path pdf_output_path in
  pythoncom_imported = true -> win32com_imported = true ->
  (forall tr c d, c ∈ script dwg_path -> c <> PublishToWeb dsd -> com_run tr c d = Ok d) ->
  (forall tr d, files d !! dsd = Some text ->
     exists d', com_run tr (PublishToWeb dsd) d = Ok d' /\ files d' !! dsd = Some text) ->
  is_dir dsd (disk w) = false -> parent_ok dsd (disk w) = true ->
  exists w', convert_dwg_to_pdf dwg_path pdf_output_path w = (Ok tt, w') /\
             calls w' = calls w ++ script dwg_path /\
             files (disk w') !! dsd = Some text.
Proof.
  intros dsd text Hpy Hwin Hq Hpub Hd Hp. rewrite convert_dwg_to_pdf_imported by done.
  fold dsd text. destruct w as [d tr]. simpl in Hd, Hp.
  do 5 (erewrite bind_ok; [|apply com_ok, Hq; [simpl; repeat constructor|done]]).
  erewrite bind_ok; [|by apply on_disk_write].
  edestruct Hpub as (d' & Hrun & Hf); [apply (files_put_file dsd text d)|].
  erewrite bind_ok; [|apply com_ok, Hrun].
  do 2 (erewrite bind_ok; [|apply com_ok, Hq; [simpl; repeat constructor|done]]).
  erewrite com_ok by (apply Hq; [simpl; repeat constructor|done]).
  eexists. split; [done|]. simpl. split; [|done]. by rewrite <- !app_assoc.
Qed.

End CadTheorems.

(** ** Witnesses *)

Section CadWitnesses.
#[local] Existing Instance toy_autocad.

Lemma convert_dwg_to_pdf_no_cleanup_witness :
  convert_dwg_to_pdf "dwg/none.dwg" "pdf/none.pdf" (World cad_fs [])
  = (Raise (LibraryError "com_error: Open"),
     World cad_fs ([] ++ take 4 (script "dwg/none.dwg"))).
Proof.
  apply (convert_dwg_to_pdf_no_cleanup "dwg/none.dwg" "pdf/none.pdf" (World cad_fs []));
    [done..| |done].
  intros tr c d Hc. by repeat (apply elem_of_cons in Hc as [->|Hc]; [done|]);
    apply elem_of_nil in Hc.
Defined.

Lemma convert_dwg_to_pdf_leaves_dsd_witness :
  exists w', convert_dwg_to_pdf (H:=lenient_autocad) "dwg/plan.dwg" "pdf/plan.pdf"
               (World cad_fs [])
             = (Ok tt, w') /\
             calls w' = [] ++ script "dwg/plan.dwg" /\
             files (disk w') !! dsd_path "dwg/plan.dwg"
             = Some (dsd_content "dwg/plan.dwg" "pdf/plan.pdf").
Proof.
  apply (convert_dwg_to_pdf_leaves_dsd (H:=lenient_autocad)
           "dwg/plan.dwg" "pdf/plan.pdf" (World cad_fs []));
    [done|done| | |by vm_compute..].
  - intros tr c d Hc Hne.
    repeat (apply elem_of_cons in Hc as [->|Hc]; [done|]). by apply elem_of_nil in Hc.
  - intros tr d Hf. eexists.
    cbn [com_run lenient_autocad lenient_com_run toy_com_run]. rewrite Hf.
    split; [done|]. by rewrite files_put_file_ne.
Defined.

End CadWitnesses.
