(* ===== verification/Loading.v ===== *)
(** * Loading: the import statements of the three programs

    Each of [converter.py], [app.py] and [app_qt5.py] starts with its
    import statements.  An import finds the package of the module among
    those of the standard library and those installed, or raises
    [ModuleNotFoundError]; when it finds it, it binds names in the globals
    of the program: [import a.b] binds [a], [from a import x, y] binds [x]
    and [y].  The state is the set of the names bound so far; an exception
    leaves the names bound before it.

    [converter.py] guards the two imports of pywin32 with [try] and
    [except ImportError: pass], and no other: [host] is the [AutoCAD] of
    [Cad] on an installation, with the two names bound or not as the
    imports left them.

    A package that is found is taken to have the modules and the names the
    programs ask of it. *)

From S2P Require Import Prelude PyString FileSys Cad.

Local Open Scope eff_scope.

(** ** Imports *)

Inductive ImportError := ModuleNotFoundError (name : string).

#[export] Instance ImportError_eq_dec : EqDecision ImportError.
Proof. solve_decision. Defined.

(** The globals of a module: the names bound. *)
Definition globals := gset string.

Definition L := Eff globals ImportError.

(** The modules of the standard library the programs import. *)
Definition stdlib : list string := ["os"; "uuid"; "sys"].

(** The package of a module: the text before the first dot. *)
Fixpoint package (module : string) : string :=
  match module with
  | EmptyString => EmptyString
  | String a s => if bool_decide (a = "."%char) then EmptyString else String a (package s)
  end.

Section Loading.
(** The packages installed beside the standard library. *)
Context (installed : string -> bool).

Definition find_module (module : string) : L unit :=
  if bool_decide (package module ∈ stdlib) || installed (package module) then ret tt
  else raise (ModuleNotFoundError (package module)).

(** [import module] *)
Definition import_ (module : string) : L unit :=
  find_module module ;;; modify (union {[ package module ]}).

(** [from module import names] *)
Definition from_import (module : string) (names : list string) : L unit :=
  find_module module ;;; modify (union (list_to_set names)).

(** [converter.py], lines 1 to 11 *)
Definition converter_py : L unit :=
  from_import "PIL" ["Image"] ;;;
  import_ "os" ;;;
  import_ "fitz" ;;;
  import_ "cairosvg" ;;;
  try_except (import_ "pythoncom" ;;; import_ "win32com.client")
    (fun _ => ret tt).

(** [app.py], lines 1 to 7 *)
Definition app_py : L unit :=
  from_import "flask"
    ["Flask"; "request"; "jsonify"; "send_from_directory"; "render_template"] ;;;
  from_import "werkzeug.utils" ["secure_filename"] ;;;
  import_ "uuid" ;;;
  from_import "PIL" ["Image"] ;;;
  import_ "cairosvg" ;;;
  import_ "os" ;;;
  import_ "imageio".

(** [app_qt5.py], lines 1 to 11 *)
Definition app_qt5_py : L unit :=
  import_ "os" ;;;
  import_ "uuid" ;;;
  from_import "PyQt5.QtWidgets"
    ["QApplication"; "QWidget"; "QPushButton"; "QLabel"; "QFileDialog";
     "QVBoxLayout"; "QHBoxLayout"; "QMessageBox"; "QComboBox"] ;;;
  from_import "PyQt5.QtCore" ["Qt"] ;;;
  from_import "PIL" ["Image"] ;;;
  import_ "cairosvg" ;;;
  import_ "imageio" ;;;
  import_ "sys".

(** The globals a program is left with, and whether it was loaded. *)
Definition loaded (program : L unit) : bool := is_ok (program ∅).1.

Definition bound (program : L unit) (name : string) : bool :=
  bool_decide (name ∈ (program ∅).2).

(** The AutoCAD of [convert_dwg_to_pdf] on this installation. *)
Definition host (com_run : list ComCall -> ComCall -> fs -> outcome exn fs) : AutoCAD :=
  {| pythoncom_imported := bound converter_py "pythoncom";
     win32com_imported := bound converter_py "win32com";
     com_run := com_run |}.

End Loading.

(** The global names the functions of [converter.py] look up. *)
Definition convert_image_names : list string := ["os"; "cairosvg"; "Image"].

Definition convert_dwg_to_pdf_names : list string := ["pythoncom"; "win32com"; "os"].

(** ** Installations *)

Definition has (packages : list string) (p : string) : bool :=
  bool_decide (p ∈ packages).

(** Everything installed; no pywin32, as on a host that is not Windows;
    no PyMuPDF. *)
Definition windows_host : string -> bool :=
  has ["PIL"; "fitz"; "cairosvg"; "pythoncom"; "win32com"; "flask"; "werkzeug";
       "imageio"; "PyQt5"].

Definition linux_host : string -> bool :=
  has ["PIL"; "fitz"; "cairosvg"; "flask"; "werkzeug"; "imageio"; "PyQt5"].

Definition no_pymupdf : string -> bool :=
  has ["PIL"; "cairosvg"; "flask"; "werkzeug"; "imageio"; "PyQt5"].

Example run_converter_windows :
  (converter_py windows_host ∅).1 = Ok tt /\
  elements (converter_py windows_host ∅).2
  ≡ₚ ["Image"; "os"; "fitz"; "cairosvg"; "pythoncom"; "win32com"]%string.
Proof. split; [by vm_compute|]. apply (bool_decide_unpack _). by vm_compute. Qed.

Example run_converter_linux :
  (converter_py linux_host ∅).1 = Ok tt /\
  bound (converter_py linux_host) "pythoncom" = false.
Proof. by vm_compute. Qed.

Example run_converter_no_pymupdf :
  (converter_py no_pymupdf ∅).1 = Raise (ModuleNotFoundError "fitz") /\
  (app_py no_pymupdf ∅).1 = Ok tt /\ (app_qt5_py no_pymupdf ∅).1 = Ok tt.
Proof. by vm_compute. Qed.

(** ** Running the imports *)

Section LoadingFacts.
Context (installed : string -> bool).
Implicit Types (g : globals) (m name p : string).

(** Whether the package of a module is found. *)
Definition available (m : string) : bool :=
  bool_decide (package m ∈ stdlib) || installed (package m).

Lemma available_other m :
  bool_decide (package m ∈ stdlib) = false -> available m = installed (package m).
Proof. unfold available. by intros ->. Qed.

Lemma available_stdlib m :
  bool_decide (package m ∈ stdlib) = true -> available m = true.
Proof. unfold available. by intros ->. Qed.

Lemma import_seq {A} m (k : L A) g :
  (import_ installed m ;;; k) g
  = if available m then k ({[ package m ]} ∪ g)
    else (Raise (ModuleNotFoundError (package m)), g).
Proof.
  unfold import_, find_module, bind, modify, ret, raise. fold (available m).
  by destruct (available m).
Qed.

Lemma from_import_seq {A} m names (k : L A) g :
  (from_import installed m names ;;; k) g
  = if available m then k (list_to_set names ∪ g)
    else (Raise (ModuleNotFoundError (package m)), g).
Proof.
  unfold from_import, find_module, bind, modify, ret, raise. fold (available m).
  by destruct (available m).
Qed.

Lemma import_last m g :
  import_ installed m g
  = if available m then (Ok tt, {[ package m ]} ∪ g)
    else (Raise (ModuleNotFoundError (package m)), g).
Proof.
  unfold import_, find_module, bind, modify, ret, raise. fold (available m).
  by destruct (available m).
Qed.

(** The guarded imports never fail; they bind what they found. *)
Lemma guarded_run g :
  try_except (import_ installed "pythoncom" ;;; import_ installed "win32com.client")
    (fun _ => ret tt) g
  = (Ok tt,
     if installed "pythoncom"
     then if installed "win32com" then {[ "win32com"%string ]} ∪ ({[ "pythoncom"%string ]} ∪ g)
          else {[ "pythoncom"%string ]} ∪ g
     else g).
Proof.
  unfold try_except. rewrite import_seq, import_last, !available_other by done.
  simpl package. by destruct (installed "pythoncom"), (installed "win32com").
Qed.

(** [converter.py] step by step. *)
Lemma converter_py_run :
  converter_py installed ∅
  = if installed "PIL" then
      if installed "fitz" then
        if installed "cairosvg" then
          try_except (import_ installed "pythoncom" ;;; import_ installed "win32com.client")
            (fun _ => ret tt) ({[ "cairosvg" ]} ∪ ({[ "fitz" ]} ∪ ({[ "os" ]} ∪ ({[ "Image" ]} ∪ ∅))))
        else (Raise (ModuleNotFoundError "cairosvg"), {[ "fitz" ]} ∪ ({[ "os" ]} ∪ ({[ "Image" ]} ∪ ∅)))
      else (Raise (ModuleNotFoundError "fitz"), {[ "os" ]} ∪ ({[ "Image" ]} ∪ ∅))
    else (Raise (ModuleNotFoundError "PIL"), ∅).
Proof.
  unfold converter_py. rewrite from_import_seq, available_other by done.
  simpl package. destruct (installed "PIL"); [|done].
  rewrite import_seq. change (available "os") with true. cbv iota.
  rewrite import_seq, available_other by done. simpl package.
  destruct (installed "fitz"); [|done].
  rewrite import_seq, available_other by done. simpl package.
  by destruct (installed "cairosvg").
Qed.

End LoadingFacts.

(** One import of a program: the package is of the standard library, or
    the case on whether it is installed. *)
Ltac load :=
  repeat (first [rewrite from_import_seq | rewrite import_seq | rewrite import_last];
          first [rewrite available_stdlib by done | rewrite available_other by done];
          simpl package;
          try match goal with
              | E : ?installed ?p = _ |- context [?installed ?p] => rewrite E
              | |- context [if ?installed ?p then _ else _] =>
                  destruct (installed p) eqn:?; [|try done]
              end).

(** ** Theorems *)

Section LoadingTheorems.
Context (installed : string -> bool).
Implicit Types (w : world) (dwg_path pdf_output_path : string).

Lemma converter_py_loaded :
  loaded (converter_py installed)
  = installed "PIL" && installed "fitz" && installed "cairosvg".
Proof.
  unfold loaded. rewrite converter_py_run.
  destruct (installed "PIL"), (installed "fitz"), (installed "cairosvg");
    try done. by rewrite guarded_run.
Qed.

(** The names the guarded imports leave. *)
Lemma converter_py_bound :
  loaded (converter_py installed) = true ->
  bound (converter_py installed) "pythoncom" = installed "pythoncom" /\
  bound (converter_py installed) "win32com"
  = installed "pythoncom" && installed "win32com" /\
  Forall (fun name => bound (converter_py installed) name = true) convert_image_names.
Proof.
  rewrite converter_py_loaded. intros [[E1 E2]%andb_prop E3]%andb_prop.
  unfold bound. rewrite converter_py_run, E1, E2, E3, guarded_run. cbn [snd].
  destruct (installed "pythoncom"), (installed "win32com");
    (repeat split; [by vm_compute..|]); repeat constructor; by vm_compute.
Qed.

(** What [converter.py] needs.  The module is loaded exactly where
    Pillow, PyMuPDF and CairoSVG are installed: pywin32, whose imports are
    guarded, is not needed.  Once it is loaded every global name that
    [convert_image] looks up is bound. *)
Theorem converter_py_loads :
  loaded (converter_py installed)
  = installed "PIL" && installed "fitz" && installed "cairosvg" /\
  (loaded (converter_py installed) = true ->
   Forall (fun name => bound (converter_py installed) name = true) convert_image_names).
Proof. split; [apply converter_py_loaded|]. by intros (_ & _ & ?)%converter_py_bound. Qed.

(** An import nothing uses.  Without PyMuPDF the import of [fitz]
    fails and [converter.py] cannot be loaded, though neither of its
    functions looks the name up. *)
Theorem converter_py_needs_fitz :
  installed "PIL" = true -> installed "fitz" = false ->
  (converter_py installed ∅).1 = Raise (ModuleNotFoundError "fitz") /\
  "fitz"%string ∉ convert_image_names ++ convert_dwg_to_pdf_names.
Proof.
  intros E1 E2. rewrite converter_py_run, E1, E2. split; [done|].
  apply (bool_decide_unpack _). by vm_compute.
Qed.

(** C34. No backend, no error of its own.  Where pywin32 is not installed
    [converter.py] is loaded all the same, and [convert_dwg_to_pdf] raises
    [NameError] at its first line, with no call made and the disk as it
    was. *)
Theorem convert_dwg_to_pdf_unavailable com_run dwg_path pdf_output_path w :
  loaded (converter_py installed) = true -> installed "pythoncom" = false ->
  convert_dwg_to_pdf (H := host installed com_run) dwg_path pdf_output_path w
  = (Raise (NameError "pythoncom"), w).
Proof.
  intros (Hpy & _)%converter_py_bound Hno. unfold convert_dwg_to_pdf.
  cbn [pythoncom_imported host]. by rewrite Hpy, Hno.
Qed.

(** Half a backend.  With [pythoncom] installed and [win32com] not,
    [convert_dwg_to_pdf] initialises COM and then raises [NameError]: COM
    is never uninitialised. *)
Theorem convert_dwg_to_pdf_half com_run dwg_path pdf_output_path w d :
  loaded (converter_py installed) = true ->
  installed "pythoncom" = true -> installed "win32com" = false ->
  com_run (calls w) CoInitialize (disk w) = Ok d ->
  convert_dwg_to_pdf (H := host installed com_run) dwg_path pdf_output_path w
  = (Raise (NameError "win32com"), World d (calls w ++ [CoInitialize])).
Proof.
  intros (Hpy & Hwin & _)%converter_py_bound E1 E2 Hrun. unfold convert_dwg_to_pdf.
  cbn [pythoncom_imported win32com_imported host]. rewrite Hpy, Hwin, E1, E2.
  destruct w as [d0 tr]. simpl in Hrun. simpl.
  by rewrite (bind_ok _ _ _ _ _ (com_ok (H := host installed com_run) _ _ _ _ Hrun)).
Qed.

(** What the front ends need.  [app.py] is loaded exactly where
    Flask, Werkzeug, Pillow, CairoSVG and imageio are installed, and
    [app_qt5.py] where PyQt5, Pillow, CairoSVG and imageio are: neither
    needs PyMuPDF or pywin32. *)
Theorem front_ends_load :
  loaded (app_py installed)
  = installed "flask" && installed "werkzeug" && installed "PIL"
    && installed "cairosvg" && installed "imageio" /\
  loaded (app_qt5_py installed)
  = installed "PyQt5" && installed "PIL" && installed "cairosvg" && installed "imageio".
Proof. unfold loaded, app_py, app_qt5_py. split; by load. Qed.

End LoadingTheorems.

(** ** Witnesses *)

(** [pythoncom] without [win32com]. *)
Definition half_host : string -> bool :=
  has ["PIL"; "fitz"; "cairosvg"; "pythoncom"].

Lemma converter_py_needs_fitz_witness :
  (converter_py no_pymupdf ∅).1 = Raise (ModuleNotFoundError "fitz") /\
  "fitz"%string ∉ convert_image_names ++ convert_dwg_to_pdf_names.
Proof. by apply converter_py_needs_fitz. Defined.

Lemma convert_dwg_to_pdf_unavailable_witness :
  convert_dwg_to_pdf (H := host linux_host toy_com_run) "dwg/plan.dwg" "pdf/plan.pdf"
    (World cad_fs [])
  = (Raise (NameError "pythoncom"), World cad_fs []).
Proof. by apply convert_dwg_to_pdf_unavailable. Defined.

Lemma convert_dwg_to_pdf_half_witness :
  convert_dwg_to_pdf (H := host half_host toy_com_run) "dwg/plan.dwg" "pdf/plan.pdf"
    (World cad_fs [])
  = (Raise (NameError "win32com"), World cad_fs ([] ++ [CoInitialize])).
Proof. by apply convert_dwg_to_pdf_half. Defined.

(** On a host with everything the function runs to its end. *)
Example run_cad_windows :
  let r := convert_dwg_to_pdf (H := host windows_host toy_com_run)
             "dwg/plan.dwg" "pdf/plan.pdf" (World cad_fs []) in
  r.1 = Ok tt /\ calls r.2 = script "dwg/plan.dwg".
Proof. by vm_compute. Qed.
