(* ===== verification/Dispatch.v ===== *)
(** * Dispatch: the specification's dispatch table, and the code against it

    The specification describes the single-asset converter by a table from
    the kind of the source and the target format to a strategy, and says
    what each strategy produces.  [dispatch] and [produce] are that table
    and those strategies, written from the specification over the same
    imaging library as the code.

    The theorems compare [convert_image] of [src/converter.py] with them:
    on every pair of the table the function returns exactly when the
    strategy produces a payload, and the output file then holds that
    payload; outside the table the two differ for raster sources. *)

From S2P Require Import Prelude PyString Classifier FileSys Imaging Converter.

Local Open Scope eff_scope.

(** ** The table of the specification *)

Inductive Strategy :=
| Reencode    (* raster to png or webp: decode once, encode *)
| Flatten     (* raster to jpg: drop the alpha channel, encode *)
| Rasterize   (* vector to png *)
| TwoStage    (* vector to jpg: rasterize, then flatten and encode *)
| VectorPdf   (* vector to pdf *)
| CadBackend. (* drawing to pdf: the external backend *)

#[export] Instance Strategy_eq_dec : EqDecision Strategy.
Proof. solve_decision. Defined.

Definition dispatch (k : SourceKind) (target : string) : option Strategy :=
  match k with
  | raster =>
      if bool_decide (target = "png") || bool_decide (target = "webp")
      then Some Reencode
      else if bool_decide (target = "jpg") then Some Flatten else None
  | vector =>
      if bool_decide (target = "png") then Some Rasterize
      else if bool_decide (target = "jpg") then Some TwoStage
      else if bool_decide (target = "pdf") then Some VectorPdf else None
  | drawing =>
      if bool_decide (target = "pdf") then Some CadBackend else None
  end.

(** The kind [convert_image] of [converter.py] gives its input: vector when
    the extension is [.svg], raster otherwise. *)
Definition source_kind_of (input_path : string) : SourceKind :=
  if bool_decide (ext_of_input input_path = ".svg") then vector else raster.

Section Produce.
Context `{Pillow}.

Definition ok_of {A} (o : outcome exn A) : option A :=
  match o with Ok a => Some a | Raise _ => None end.

(** The encoding of an image under a format name of the registry. *)
Definition encode_as (name : string) (i : Image) : option bytes :=
  enc ← SAVE name; ok_of (enc i).

(** What a strategy makes of a payload; [None] when a step fails. *)
Definition produce (strat : Strategy) (target : string) (payload : bytes)
    : option bytes :=
  match strat with
  | Reencode => i ← decode payload; encode_as (upper target) i
  | Flatten => i ← decode payload; encode_as "JPEG" (convert RGB i)
  | Rasterize => ok_of (svg2png_bytes payload)
  | TwoStage =>
      p ← ok_of (svg2png_bytes payload);
      i ← decode p;
      encode_as "JPEG" (convert RGB i)
  | VectorPdf => ok_of (svg2pdf_bytes payload)
  | CadBackend => None
  end.

(** The paths a strategy needs to write: the output, and for the two-stage
    pipeline the temporary PNG, which must be another path. *)
Definition can_write (strat : Strategy) (output_path : string) (s : fs) : Prop :=
  is_dir output_path s = false /\ parent_ok output_path s = true /\
  (strat = TwoStage ->
   let tmp_png := replace ".jpg" ".png" output_path in
   tmp_png <> output_path /\ is_dir tmp_png s = false /\ parent_ok tmp_png s = true).

(** The temporary files of a strategy. *)
Definition scratch_of (strat : Strategy) (output_path : string) : gset string :=
  match strat with
  | TwoStage => {[ replace ".jpg" ".png" output_path ]}
  | _ => ∅
  end.

End Produce.

Example dispatch_table :
  dispatch raster "webp" = Some Reencode /\ dispatch raster "jpg" = Some Flatten /\
  dispatch vector "jpg" = Some TwoStage /\ dispatch vector "webp" = None /\
  dispatch raster "pdf" = None /\ dispatch drawing "pdf" = Some CadBackend.
Proof. by vm_compute. Qed.

Example produce_two_stage :
  produce (H:=toy) TwoStage "jpg" "<svg/>" = Some "J3svg/>"%string.
Proof. by vm_compute. Qed.

(** ** Each step of the code against the strategies *)

Section Steps.
Context `{Pillow}.
Implicit Types (s : fs) (p q : string) (b : bytes) (i : Image).

Lemma Image_open_run p s b :
  files s !! p = Some b ->
  match decode b with
  | Some i => Image_open p s = (Ok i, s)
  | None => exists e, Image_open p s = (Raise e, s)
  end.
Proof.
  intros Hb. destruct (decode b) as [i|] eqn:Hi; [by apply Image_open_ok with b|].
  exists (UnidentifiedImageError p). unfold Image_open.
  rewrite (bind_ok _ _ _ _ _ (read_file_ok _ _ _ Hb)). by rewrite Hi.
Qed.

Lemma Image_save_run i p f s :
  is_dir p s = false -> parent_ok p s = true ->
  match encode_as (upper f) i with
  | Some b => Image_save i p f s = (Ok tt, put_file p b s)
  | None => exists e, Image_save i p f s = (Raise e, s)
  end.
Proof.
  intros Hd Hp. unfold encode_as.
  destruct (SAVE (upper f)) as [enc|] eqn:E; simpl;
    [|rewrite Image_save_unregistered by done; by eauto].
  destruct (enc i) as [b|e] eqn:Hb; simpl; [by apply Image_save_ok with enc|].
  exists e. unfold Image_save. rewrite E.
  rewrite (bind_ok _ _ _ _ _ (check_writable_ok p s Hd Hp)).
  unfold bind, lift_outcome. by rewrite Hb.
Qed.

(** [svg2png] and [svg2pdf] are the same action over two renderers. *)
Lemma render_run (render : bytes -> outcome exn bytes) p q s b :
  files s !! p = Some b -> is_dir q s = false -> parent_ok q s = true ->
  let m := (x <- read_file p ;; r <- lift_outcome (render x) ;; write_file q r) in
  match ok_of (render b) with
  | Some r => m s = (Ok tt, put_file q r s)
  | None => exists e, m s = (Raise e, s)
  end.
Proof.
  intros Hb Hd Hp m. unfold m.
  rewrite (bind_ok _ _ _ _ _ (read_file_ok _ _ _ Hb)). unfold bind, lift_outcome.
  destruct (render b) as [r|e]; simpl; [by apply write_file_ok|by eauto].
Qed.

End Steps.

(** ** The refinement *)

Section Refinement.
Context `{Pillow}.
Implicit Types (s : fs) (b payload out : bytes) (strat : Strategy).

(** A computation implements a result of the specification: it returns
    exactly when there is a payload, the output then holds it, and no file
    outside [scratch] has changed. *)
Definition implements (m : M unit) (output_path : string) (scratch : gset string)
    (res : option bytes) (s : fs) : Prop :=
  match res with
  | Some out =>
      exists s', m s = (Ok tt, s') /\ files s' !! output_path = Some out /\
        (forall q, q ∈ scratch -> files s' !! q = None) /\
        (forall q, q <> output_path -> q ∉ scratch -> files s' !! q = files s !! q)
  | None => exists e s', m s = (Raise e, s')
  end.

(** One write of the payload implements it. *)
Lemma implements_put (m : M unit) output_path res s :
  match res with
  | Some out => m s = (Ok tt, put_file output_path out s)
  | None => exists e, m s = (Raise e, s)
  end ->
  implements m output_path ∅ res s.
Proof.
  destruct res as [out|]; simpl; [|intros [e ->]; by eauto].
  intros ->. eexists. split; [done|]. split; [apply files_put_file|].
  split; [set_solver|]. intros q Hq _. by apply files_put_file_ne.
Qed.

(** Raster sources: open, then one save. *)
Lemma raster_implements input_path output_path target s payload :
  ext_of_input input_path <> ".svg" ->
  files s !! input_path = Some payload ->
  is_dir output_path s = false -> parent_ok output_path s = true ->
  implements (convert_image input_path output_path target) output_path ∅
    (i ← decode payload;
     if bool_decide (target = "jpg") then encode_as "JPEG" (convert RGB i)
     else encode_as (upper target) i) s.
Proof.
  intros Hext Hb Hd Hp. apply implements_put.
  rewrite convert_image_raster_eq by done.
  pose proof (Image_open_run _ _ _ Hb) as Ho.
  destruct (decode payload) as [i|]; simpl;
    [|destruct Ho as [e Ho]; exists e; by apply bind_err].
  rewrite (bind_ok _ _ _ _ _ Ho). case_bool_decide.
  - apply (Image_save_run (convert RGB i) output_path "JPEG" s Hd Hp).
  - pose proof (Image_save_run i output_path (upper target) s Hd Hp) as Hs.
    by rewrite upper_idemp in Hs.
Qed.

(** Vector sources, one renderer. *)
Lemma render_implements (render : bytes -> outcome exn bytes)
    input_path output_path s payload :
  files s !! input_path = Some payload ->
  is_dir output_path s = false -> parent_ok output_path s = true ->
  implements (x <- read_file input_path ;; r <- lift_outcome (render x) ;;
              write_file output_path r)
    output_path ∅ (ok_of (render payload)) s.
Proof. intros Hb Hd Hp. by apply implements_put, render_run. Qed.

(** The two-stage pipeline. *)
Lemma two_stage_implements input_path output_path s payload :
  let tmp_png := replace ".jpg" ".png" output_path in
  ext_of_input input_path = ".svg" ->
  files s !! input_path = Some payload ->
  can_write TwoStage output_path s ->
  implements (convert_image input_path output_path "jpg") output_path {[ tmp_png ]}
    (produce TwoStage "jpg" payload) s.
Proof.
  intros tmp Hext Hb (Hd & Hp & (Hne & Htd & Htp)); [done|]. fold tmp in Hne, Htd, Htp.
  rewrite convert_image_svg_jpg_eq by done. cbv zeta. fold tmp. unfold produce.
  pose proof (render_run svg2png_bytes _ tmp _ _ Hb Htd Htp) as H1. cbv zeta in H1.
  fold (svg2png input_path tmp) in H1.
  destruct (ok_of (svg2png_bytes payload)) as [p|]; simpl;
    [|destruct H1 as [e H1]; exists e, s; by apply bind_err].
  pose proof (Image_open_run tmp _ p (files_put_file tmp p s)) as H2.
  destruct (decode p) as [i|]; simpl; cycle 1.
  { destruct H2 as [e H2]. exists e. eexists.
    rewrite (bind_ok _ _ _ _ _ H1). by apply bind_err, bind_err. }
  pose proof (Image_save_run (convert RGB i) output_path "JPEG" (put_file tmp p s))
    as H3.
  rewrite is_dir_put_file, parent_ok_put_file in H3. specialize (H3 Hd Hp).
  change (upper "JPEG") with "JPEG"%string in H3.
  destruct (encode_as "JPEG" (convert RGB i)) as [j|]; simpl; cycle 1.
  { destruct H3 as [e H3]. exists e. eexists.
    rewrite (bind_ok _ _ _ _ _ H1). apply bind_err.
    by rewrite (bind_ok _ _ _ _ _ H2). }
  eexists. split.
  { rewrite (bind_ok _ _ _ _ _ H1).
    erewrite bind_ok; [|by rewrite (bind_ok _ _ _ _ _ H2)].
    apply remove_present with p. by rewrite files_put_file_ne, files_put_file. }
  split; [by rewrite files_del_file_ne, files_put_file|].
  split; [intros q ->%elem_of_singleton; apply files_del_file|].
  intros q Hq Hs%not_elem_of_singleton.
  by rewrite files_del_file_ne, !files_put_file_ne.
Qed.

(** The table entry of a source kind. *)
Lemma dispatch_cases input_path target strat :
  dispatch (source_kind_of input_path) target = Some strat ->
  (ext_of_input input_path <> ".svg" /\
   ((strat = Reencode /\ target <> "jpg") \/ (strat = Flatten /\ target = "jpg")))
  \/
  (ext_of_input input_path = ".svg" /\
   ((strat = Rasterize /\ target = "png") \/ (strat = TwoStage /\ target = "jpg") \/
    (strat = VectorPdf /\ target = "pdf"))).
Proof.
  unfold source_kind_of, dispatch. intros Hd.
  case_bool_decide as Hext; [right|left]; (split; [done|]);
    repeat case_bool_decide; simplify_eq/=; auto.
Qed.

End Refinement.

(** ** Theorems *)

Section DispatchTheorems.
Context `{Pillow}.
Implicit Types (s : fs) (b payload out : bytes) (strat : Strategy).

(** C5. [convert_image] of [converter.py] implements the dispatch table of
    the specification.  For every pair of source kind and target of the
    table, on an input that exists and an output that can be written, the
    call returns exactly when the strategy of the table produces a payload;
    the output file then holds that payload, the temporary PNG of the
    two-stage pipeline is gone, and every other file is as before.  When
    the strategy produces nothing the call raises. *)
Theorem convert_image_refines_dispatch input_path output_path target s payload strat :
  files s !! input_path = Some payload ->
  dispatch (source_kind_of input_path) target = Some strat ->
  can_write strat output_path s ->
  implements (convert_image input_path output_path target) output_path
    (scratch_of strat output_path) (produce strat target payload) s.
Proof.
  intros Hb Hdisp Hw. pose proof Hw as (Hd & Hp & _).
  apply dispatch_cases in Hdisp
    as [[Hext [[-> Ht]|[-> ->]]]|[Hext [[-> ->]|[[-> ->]|[-> ->]]]]].
  - pose proof (raster_implements _ _ target _ _ Hext Hb Hd Hp) as Hr.
    by rewrite bool_decide_false in Hr.
  - apply (raster_implements _ _ "jpg" _ _ Hext Hb Hd Hp).
  - unfold convert_image. rewrite Hext. by apply (render_implements svg2png_bytes).
  - by apply two_stage_implements.
  - unfold convert_image. rewrite Hext. by apply (render_implements svg2pdf_bytes).
Qed.

(** C37. Outside the table the code and the specification differ for raster
    sources: where the specification refuses the pair, [convert_image]
    checks no target and converts to whatever format PIL has an encoder
    for. *)
Theorem convert_image_outside_table input_path output_path target s payload i enc j :
  source_kind_of input_path = raster ->
  dispatch raster target = None ->
  files s !! input_path = Some payload -> decode payload = Some i ->
  SAVE (upper target) = Some enc -> enc i = Ok j ->
  is_dir output_path s = false -> parent_ok output_path s = true ->
  convert_image input_path output_path target s
  = (Ok tt, put_file output_path j s).
Proof.
  unfold source_kind_of. case_bool_decide as Hext; [done|].
  intros _ Hdisp Hb Hi Henc Hj Hd Hp.
  assert (target <> "jpg") as Ht by (intros ->; done).
  rewrite convert_image_raster_app by done.
  by apply app_convert_image_run with payload i enc.
Qed.

End DispatchTheorems.

(** ** Witnesses *)

Section DispatchWitnesses.
#[local] Existing Instance toy.

Lemma convert_image_refines_dispatch_witness :
  implements (convert_image "in/logo.svg" "out/logo.jpg" "jpg") "out/logo.jpg"
    (scratch_of TwoStage "out/logo.jpg") (produce TwoStage "jpg" "<svg/>") demo_fs.
Proof.
  apply (convert_image_refines_dispatch "in/logo.svg" "out/logo.jpg" "jpg" demo_fs);
    [by vm_compute..|].
  repeat split; by vm_compute.
Defined.

Lemma convert_image_outside_table_witness :
  convert_image "in/photo.png" "out/copy.PNG" "PNG" demo_fs
  = (Ok tt, put_file "out/copy.PNG" "P4pixels" demo_fs).
Proof.
  apply (convert_image_outside_table "in/photo.png" "out/copy.PNG" "PNG" demo_fs
           "P4pixels" ((RGBA, "pixels"%string) : @Image toy) (toy_encode "P"));
    by vm_compute.
Defined.

End DispatchWitnesses.
