(* ===== verification/WebApp.v ===== *)
(** * WebApp: the Flask routes of [src/app.py]

    A request is what the routes read of it: the uploaded files (a
    multi-dict, in order) and the form fields.  A route is a computation
    that returns the response ([jsonify(...)] and a status code); an
    exception it lets through is what Flask answers with its own 500 page.

    werkzeug's [secure_filename] is an operation of the class [Werkzeug].
    The routes modelled here are [/convert] and [/dwgtopdf]; [/merge_gif]
    is in [WebGif]. *)

From S2P Require Import Prelude PyString Classifier FileSys Imaging Converter.

Local Open Scope eff_scope.

(** ** Requests and responses *)

Record FileStorage := {
  filename : string;
  stream : bytes
}.

Record Request := {
  request_files : list (string * FileStorage);
  request_form : list (string * string)
}.

(** [key in d] on a multi-dict *)
Definition md_in {V} (key : string) (d : list (string * V)) : bool :=
  bool_decide (key ∈ fst <$> d).

(** [d[key]] and [d.get(key)]: the first value under [key] *)
Definition md_get {V} (key : string) (d : list (string * V)) : option V :=
  (fun r => r.2.2) <$> list_find (fun kv => kv.1 = key) d.

(** [d.getlist(key)]: every value under [key], in order *)
Definition md_getlist {V} (key : string) (d : list (string * V)) : list V :=
  snd <$> filter (fun kv => kv.1 = key) d.

(** The JSON bodies the routes build. *)
Inductive Json :=
| JError (error : string)
| JConverted (message output_file download_url : string).

Record Response := {
  status : nat;
  json : Json
}.

(** ** Configuration ([app.py], module level) *)

Definition UPLOAD_FOLDER : string := "uploads".
Definition OUTPUT_FOLDER : string := "outputs".
Definition DWG_FOLDER : string := join UPLOAD_FOLDER "dwg".
Definition PDF_FOLDER : string := join OUTPUT_FOLDER "pdf".

(** The four [os.makedirs(..., exist_ok=True)] run at import. *)
Definition create_folders : M unit :=
  os_makedirs UPLOAD_FOLDER ;;;
  os_makedirs DWG_FOLDER ;;;
  os_makedirs OUTPUT_FOLDER ;;;
  os_makedirs PDF_FOLDER.

(** ** werkzeug *)

Class Werkzeug := {
  secure_filename : string -> string;
  (** the name returned has no path separator *)
  secure_filename_no_sep : forall f, contains sep (secure_filename f) = false
}.

Section Routes.
Context `{Pillow} `{Werkzeug}.

(** [file.save(dst)] *)
Definition FileStorage_save (file : FileStorage) (dst : string) : M unit :=
  write_file dst (stream file).

(** [if os.path.exists(p): os.remove(p)] *)
Definition remove_if_exists (p : string) : M unit :=
  b <- os_path_exists p ;;
  when b (os_remove p).

(** ** [/convert] *)

(** The [try] / [except] / [finally] statement of the route.  [Some r] is
    the [return] of the [except] clause; [None] is falling through to the
    statements after the [try]. *)
Definition convert_try (ext input_path output_path convert_type : string)
    : M (option Response) :=
  try_finally
    (try_except
       ((if bool_decide (ext = "svg")
         then app_convert_svg input_path output_path convert_type
         else app_convert_image input_path output_path convert_type) ;;;
        ret None)
       (fun e => ret (Some {| status := 500; json := JError (str e) |})))
    (remove_if_exists input_path).

(** The body of [if file and allowed_file(file.filename):]. *)
Definition convert_accepted (file : FileStorage) (convert_type : string)
    : M Response :=
  ext <- from_option ret (raise IndexError) (ext_of_filename (filename file)) ;;
  let filename := secure_filename (filename file) in
  let input_path := join UPLOAD_FOLDER filename in
  FileStorage_save file input_path ;;;
  let base_name := (splitext filename).1 in
  let output_filename := base_name +:+ "." +:+ convert_type in
  let output_dir := join OUTPUT_FOLDER convert_type in
  os_makedirs output_dir ;;;
  let output_path := join output_dir output_filename in
  early <- convert_try ext input_path output_path convert_type ;;
  match early with
  | Some response => ret response
  | None =>
      ret {| status := 200;
             json := JConverted "转换成功" output_filename
                       ("/download/" +:+ convert_type +:+ "/" +:+ output_filename) |}
  end.

Definition convert (request : Request) : M Response :=
  if negb (md_in "file" (request_files request)) then
    ret {| status := 400; json := JError "No file part" |}
  else
  file <- from_option ret (raise (KeyError "file"))
            (md_get "file" (request_files request)) ;;
  if bool_decide (filename file = "") then
    ret {| status := 400; json := JError "No selected file" |}
  else
  match md_get "convert_type" (request_form request) with
  | None => ret {| status := 400; json := JError "无效的转换类型" |}
  | Some convert_type =>
      if negb (bool_decide (convert_type ∈ ({[ "webp"; "png"; "jpg" ]} : gset string)))
      then ret {| status := 400; json := JError "无效的转换类型" |}
      else if allowed_file (filename file)
      then convert_accepted file convert_type
      else ret {| status := 400; json := JError "不支持的文件类型" |}
  end.

(** ** [/dwgtopdf]

    [app.py] calls [convert_dwg_to_pdf], but its definition there is
    commented out and nothing imports it: the call raises [NameError]. *)

Definition convert_dwg_to_pdf_unbound (dwg_path pdf_output_path : string) : M unit :=
  raise (NameError "convert_dwg_to_pdf").

Definition dwg_to_pdf_try (dwg_path output_pdf_path : string) : M (option Response) :=
  try_finally
    (try_except
       (convert_dwg_to_pdf_unbound dwg_path output_pdf_path ;;; ret None)
       (fun e => ret (Some {| status := 500;
                              json := JError ("转换失败: " +:+ str e) |})))
    (remove_if_exists dwg_path).

Definition dwg_to_pdf_accepted (file : FileStorage) : M Response :=
  let filename := secure_filename (filename file) in
  let dwg_path := join DWG_FOLDER filename in
  FileStorage_save file dwg_path ;;;
  let base_name := (splitext filename).1 in
  let output_pdf_path := join PDF_FOLDER (base_name +:+ ".pdf") in
  early <- dwg_to_pdf_try dwg_path output_pdf_path ;;
  match early with
  | Some response => ret response
  | None =>
      ret {| status := 200;
             json := JConverted "DWG 转换成功" (base_name +:+ ".pdf")
                       ("/download/pdf/" +:+ base_name +:+ ".pdf") |}
  end.

Definition dwg_to_pdf (request : Request) : M Response :=
  if negb (md_in "file" (request_files request)) then
    ret {| status := 400; json := JError "没有上传 DWG 文件" |}
  else
  file <- from_option ret (raise (KeyError "file"))
            (md_get "file" (request_files request)) ;;
  if bool_decide (filename file = "") then
    ret {| status := 400; json := JError "未选择文件" |}
  else if is_dwg (filename file) then dwg_to_pdf_accepted file
  else ret {| status := 400; json := JError "只支持 DWG 文件" |}.

End Routes.

#[export] Hint Unfold FileStorage_save remove_if_exists : eff.

(** ** The paths of one [/convert] request

    Names for the paths the route computes, to state the theorems with. *)

Section Paths.
Context `{Pillow} `{Werkzeug}.

Definition convert_types : gset string := {[ "webp"; "png"; "jpg" ]}.

(** where the upload is saved *)
Definition upload_path (file : FileStorage) : string :=
  join UPLOAD_FOLDER (secure_filename (filename file)).

(** [output_filename] *)
Definition output_name (file : FileStorage) (convert_type : string) : string :=
  (splitext (secure_filename (filename file))).1 +:+ "." +:+ convert_type.

(** [output_path] *)
Definition output_path (file : FileStorage) (convert_type : string) : string :=
  join (join OUTPUT_FOLDER convert_type) (output_name file convert_type).

(** the answer of a conversion that returned *)
Definition converted (file : FileStorage) (convert_type : string) : Response :=
  {| status := 200;
     json := JConverted "转换成功" (output_name file convert_type)
               ("/download/" +:+ convert_type +:+ "/" +:+ output_name file convert_type) |}.

(** the answer after the [try] statement *)
Definition answer (file : FileStorage) (ct : string) (early : option Response)
    : Response :=
  from_option id (converted file ct) early.

(** the answer of a conversion that raised [e] *)
Definition failed (e : exn) : Response :=
  {| status := 500; json := JError (str e) |}.

(** where [/dwgtopdf] saves the upload *)
Definition dwg_path (file : FileStorage) : string :=
  join DWG_FOLDER (secure_filename (filename file)).

(** The file system is ready for an upload converted to [convert_type]: the
    upload folder exists, the output folders can be created, and no
    directory has the upload's name. *)
Definition ready (file : FileStorage) (convert_type : string) (s : fs) : Prop :=
  is_dir UPLOAD_FOLDER s = true /\
  is_dir (upload_path file) s = false /\
  is_file OUTPUT_FOLDER s = false /\
  is_file (join OUTPUT_FOLDER convert_type) s = false.

(** The conversion the route runs for an upload of extension [e]. *)
Definition conversion (e : string) (file : FileStorage) (ct : string) : M unit :=
  if bool_decide (e = "svg")
  then app_convert_svg (upload_path file) (output_path file ct) ct
  else app_convert_image (upload_path file) (output_path file ct) ct.

(** The state in which the conversion starts: the upload saved, the output
    folder made. *)
Definition prepared (file : FileStorage) (ct : string) (s : fs) : fs :=
  add_dirs (ancestors (join OUTPUT_FOLDER ct))
    (put_file (upload_path file) (stream file) s).

End Paths.

(** ** Facts shared by the routes *)

Section RouteFacts.
Context `{Pillow} `{Werkzeug}.
Implicit Types (s : fs) (p : string) (file : FileStorage).

Lemma md_in_get {V} key (d : list (string * V)) :
  md_in key d = true -> is_Some (md_get key d).
Proof.
  unfold md_in, md_get. rewrite bool_decide_eq_true, list_elem_of_fmap.
  intros ([k v] & -> & Hin). apply fmap_is_Some.
  destruct (list_find _ d) eqn:E; [done|].
  eapply list_find_None, Forall_forall in E; [|exact Hin]. done.
Qed.

Lemma remove_if_exists_present p s b :
  files s !! p = Some b -> remove_if_exists p s = (Ok tt, del_file p s).
Proof.
  intros Hb. unfold remove_if_exists, os_path_exists, bind, gets.
  rewrite (is_file_Some _ _ _ Hb). simpl. by apply os_remove_ok with b.
Qed.

Lemma remove_if_exists_absent p s :
  files s !! p = None -> is_dir p s = false -> remove_if_exists p s = (Ok tt, s).
Proof.
  intros Hb%is_file_None Hd. unfold remove_if_exists, os_path_exists, bind, gets.
  by rewrite Hb, Hd.
Qed.

(** The shape both routes share: a body under [try], every exception turned
    into an answer, and the upload removed in [finally].  When the body
    does not touch the upload, the statement never raises and the upload is
    gone afterwards. *)
Lemma try_cleanup_run (c : M unit) (h : exn -> Response) ps p b s :
  touches ps c -> p ∉ ps -> files s !! p = Some b ->
  try_finally (try_except (c ;;; ret None) (fun e => ret (Some (h e))))
    (remove_if_exists p) s
  = (Ok (match (c s).1 with Ok _ => None | Raise e => Some (h e) end),
     del_file p (c s).2).
Proof.
  intros Hc Hp Hb. destruct (Hc s) as [_ Hf]. specialize (Hf p Hp).
  rewrite Hb in Hf. unfold try_finally, try_except, bind, ret.
  destruct (c s) as [[[]|e] s1]; simpl in *;
    by rewrite (remove_if_exists_present _ _ _ Hf).
Qed.

(** *** Paths of [/convert] *)

Lemma convert_types_cases ct :
  ct ∈ convert_types -> ct = "webp" \/ ct = "png" \/ ct = "jpg".
Proof.
  unfold convert_types. rewrite !elem_of_union, !elem_of_singleton. tauto.
Qed.

Lemma input_path_eq f :
  join UPLOAD_FOLDER (secure_filename f) = "uploads/" +:+ secure_filename f.
Proof. apply join_dir_name; [done..|apply secure_filename_no_sep]. Qed.

Lemma output_path_eq ct name :
  ct ∈ convert_types -> contains sep name = false ->
  join (join OUTPUT_FOLDER ct) (name +:+ "." +:+ ct)
  = "outputs/" +:+ ct +:+ "/" +:+ name +:+ "." +:+ ct.
Proof.
  intros Hct Hn.
  assert (contains sep (name +:+ "." +:+ ct) = false) as Hc.
  { rewrite contains_app, Hn.
    apply convert_types_cases in Hct. by destruct_or!; subst ct. }
  apply convert_types_cases in Hct.
  destruct_or!; subst ct; by rewrite join_dir_name by done.
Qed.

Lemma temp_png_path_eq ct name :
  ct ∈ convert_types ->
  temp_png_path ("outputs/" +:+ ct +:+ "/" +:+ name +:+ "." +:+ ct)
  = "outputs/" +:+ ct +:+ "/" +:+ name +:+ ".png".
Proof.
  intros Hct%convert_types_cases. unfold temp_png_path.
  destruct_or!; subst ct.
  - change (rsplit1_head "." ("outputs/webp/" +:+ name +:+ String "." "webp") +:+ ".png"
            = "outputs/webp/" +:+ name +:+ ".png").
    by rewrite rsplit1_head_path, string_app_assoc.
  - change (rsplit1_head "." ("outputs/png/" +:+ name +:+ String "." "png") +:+ ".png"
            = "outputs/png/" +:+ name +:+ ".png").
    by rewrite rsplit1_head_path, string_app_assoc.
  - change (rsplit1_head "." ("outputs/jpg/" +:+ name +:+ String "." "jpg") +:+ ".png"
            = "outputs/jpg/" +:+ name +:+ ".png").
    by rewrite rsplit1_head_path, string_app_assoc.
Qed.

Lemma uploads_ne_outputs (x y : string) : "uploads/" +:+ x <> "outputs" +:+ y.
Proof. done. Qed.

Lemma ancestors_output_dir ct :
  ct ∈ convert_types ->
  ancestors (join OUTPUT_FOLDER ct) = [OUTPUT_FOLDER; join OUTPUT_FOLDER ct] /\
  exists y, join OUTPUT_FOLDER ct = "outputs" +:+ y.
Proof.
  intros Hct%convert_types_cases.
  destruct_or!; subst ct; (split; [done|]); by eexists (String "/" _).
Qed.

Lemma output_name_no_sep file :
  contains sep ((splitext (secure_filename (filename file))).1) = false.
Proof. apply splitext_no_sep, secure_filename_no_sep. Qed.

Lemma output_path_outputs file ct :
  ct ∈ convert_types ->
  (exists y, output_path file ct = "outputs" +:+ y) /\
  (exists y, temp_png_path (output_path file ct) = "outputs" +:+ y).
Proof.
  intros Hct. unfold output_path, output_name.
  rewrite output_path_eq by (done || apply (output_name_no_sep file)).
  rewrite temp_png_path_eq by done. split; by eexists (String "/" _).
Qed.

Lemma conversion_touches e file ct :
  touches {[ output_path file ct; temp_png_path (output_path file ct) ]}
    (conversion e file ct).
Proof.
  unfold conversion. case_bool_decide; [apply app_convert_svg_touches|].
  eapply touches_mono; [|apply app_convert_image_touches].
  apply union_subseteq_l.
Qed.

(** The upload is saved apart from what the conversion writes. *)
Lemma upload_ne_output file ct :
  ct ∈ convert_types ->
  upload_path file <> output_path file ct /\
  upload_path file <> temp_png_path (output_path file ct).
Proof.
  intros Hct. destruct (output_path_outputs file ct Hct) as [[y1 ->] [y2 ->]].
  unfold upload_path. rewrite input_path_eq. split; apply uploads_ne_outputs.
Qed.

Lemma prepared_upload file ct s :
  files (prepared file ct s) !! upload_path file = Some (stream file).
Proof. apply lookup_insert_eq. Qed.

(** An accepted request first saves the upload. *)
Lemma convert_accepted_saved file ct s :
  allowed_file (filename file) = true ->
  is_dir UPLOAD_FOLDER s = true -> is_dir (upload_path file) s = false ->
  exists e, ext_of_filename (filename file) = Some e /\
    convert_accepted file ct s
    = (os_makedirs (join OUTPUT_FOLDER ct) ;;;
       early <- convert_try e (upload_path file) (output_path file ct) ct ;;
       ret (answer file ct early))
        (put_file (upload_path file) (stream file) s).
Proof.
  intros (h & t & Hf & Ht & Hin)%allowed_in_inv Hup Hnd.
  assert (ext_of_filename (filename file) = Some (lower t)) as He
    by (unfold ext_of_filename, rsplit1; by rewrite Hf, rsplit_last_app).
  exists (lower t). split; [done|].
  unfold convert_accepted. cbv zeta. rewrite He. simpl from_option.
  rewrite bind_ret_l. fold (upload_path file).
  assert (parent_ok (upload_path file) s = true) as Hpo.
  { unfold parent_ok, upload_path.
    rewrite dirname_join by (done || apply secure_filename_no_sep).
    by rewrite Hup, orb_true_r. }
  unfold FileStorage_save.
  rewrite (bind_ok _ _ _ _ _ (write_file_ok _ (stream file) _ Hnd Hpo)).
  unfold bind. destruct (os_makedirs _ _) as [[[]|] s1]; [|done].
  fold (output_name file ct) (output_path file ct).
  destruct (convert_try _ _ _ _ s1) as [[[r|]|] s2]; done.
Qed.

(** The run of an accepted request, in one equation: the upload is saved,
    the folder made, the conversion run, its exception turned into a 500
    answer, and the upload removed. *)
Lemma convert_accepted_run file ct s :
  ct ∈ convert_types -> allowed_file (filename file) = true -> ready file ct s ->
  exists e, ext_of_filename (filename file) = Some e /\
    convert_accepted file ct s
    = (Ok (match (conversion e file ct (prepared file ct s)).1 with
           | Ok _ => converted file ct
           | Raise x => failed x
           end),
       del_file (upload_path file) (conversion e file ct (prepared file ct s)).2).
Proof.
  intros Hct Hal (Hup & Hnd & Ho1 & Ho2).
  destruct (convert_accepted_saved file ct s Hal Hup Hnd) as (e & He & ->).
  exists e. split; [done|].
  destruct (ancestors_output_dir ct Hct) as [Ha [y Hy]].
  destruct (upload_ne_output file ct Hct) as [Hne1 Hne2].
  erewrite bind_ok; cycle 1.
  { apply os_makedirs_ok. rewrite Ha. unfold is_file in *. simpl.
    repeat constructor; rewrite lookup_insert_ne; try done.
    - unfold upload_path. rewrite input_path_eq. apply (uploads_ne_outputs _ "").
    - unfold upload_path. rewrite input_path_eq, Hy. apply uploads_ne_outputs. }
  fold (prepared file ct s). unfold convert_try. fold (conversion e file ct).
  erewrite bind_ok; cycle 1.
  { apply (try_cleanup_run _ failed _ _ (stream file)
             _ (conversion_touches e file ct)).
    - by rewrite not_elem_of_union, !not_elem_of_singleton.
    - apply prepared_upload. }
  by destruct (conversion _ _ _ _).1.
Qed.

(** *** The prepared state *)

Lemma output_name_contains file ct :
  ct ∈ convert_types -> contains sep (output_name file ct) = false.
Proof.
  intros Hct%convert_types_cases. unfold output_name.
  rewrite contains_app, output_name_no_sep.
  by destruct_or!; subst ct.
Qed.

Lemma output_dir_eq ct :
  ct ∈ convert_types -> join OUTPUT_FOLDER ct = "outputs/" +:+ ct.
Proof. intros Hct%convert_types_cases. by destruct_or!; subst ct. Qed.

Lemma dirname_output_path file ct :
  ct ∈ convert_types ->
  dirname (output_path file ct) = join OUTPUT_FOLDER ct /\
  dirname (temp_png_path (output_path file ct)) = join OUTPUT_FOLDER ct.
Proof.
  intros Hct. pose proof (output_name_contains file ct Hct) as Hn.
  pose proof (output_name_no_sep file) as Hb.
  unfold output_path. split.
  - apply convert_types_cases in Hct.
    destruct_or!; subst ct; by apply dirname_join.
  - unfold output_name. rewrite output_path_eq, temp_png_path_eq by done.
    assert (contains sep ((splitext (secure_filename (filename file))).1 +:+ ".png")
            = false) as Hp by (by rewrite contains_app, Hb).
    apply convert_types_cases in Hct.
    destruct_or!; subst ct.
    + by apply (dirname_dir_name "outputs/webp").
    + by apply (dirname_dir_name "outputs/png").
    + by apply (dirname_dir_name "outputs/jpg").
Qed.

Lemma is_dir_add_dirs q ds s :
  is_dir q (add_dirs ds s) = bool_decide (q ∈ ds) || is_dir q s.
Proof.
  unfold is_dir, add_dirs. simpl. apply bool_decide_ext_orb.
  by rewrite elem_of_union, elem_of_list_to_set.
Qed.

(** In the prepared state both paths the conversion writes can be
    created. *)
Lemma prepared_parent_ok file ct s :
  ct ∈ convert_types ->
  parent_ok (output_path file ct) (prepared file ct s) = true /\
  parent_ok (temp_png_path (output_path file ct)) (prepared file ct s) = true.
Proof.
  intros Hct. destruct (dirname_output_path file ct Hct) as [D1 D2].
  destruct (ancestors_output_dir ct Hct) as [Ha _].
  unfold parent_ok, prepared. rewrite D1, D2, is_dir_add_dirs, Ha.
  rewrite (bool_decide_true (_ ∈ _)) by repeat constructor.
  simpl. by rewrite !orb_true_r.
Qed.

(** A path under an output folder is a directory after the preparation only
    if it was one before. *)
Lemma prepared_is_dir file ct s q n :
  ct ∈ convert_types -> q = join OUTPUT_FOLDER ct +:+ String sep n ->
  is_dir q (prepared file ct s) = is_dir q s.
Proof.
  intros Hct ->. destruct (ancestors_output_dir ct Hct) as [Ha _].
  unfold prepared. rewrite is_dir_add_dirs, Ha. rewrite bool_decide_false; [done|].
  rewrite !elem_of_cons, elem_of_nil. intros [E|[E|[]]].
  - apply convert_types_cases in Hct. by destruct_or!; subst ct.
  - apply (f_equal String.length) in E. rewrite string_app_length in E.
    simpl in E. lia.
Qed.

Lemma output_path_under file ct :
  ct ∈ convert_types ->
  output_path file ct = join OUTPUT_FOLDER ct +:+ String sep (output_name file ct).
Proof.
  intros Hct. unfold output_path. pose proof (output_name_contains file ct Hct).
  apply convert_types_cases in Hct.
  destruct_or!; subst ct; by apply join_dir_name.
Qed.


(** *** Guards *)

Lemma md_get_in {V} key (d : list (string * V)) v :
  md_get key d = Some v -> md_in key d = true.
Proof.
  unfold md_in, md_get. intros ([i [k v']] & Hf & _)%fmap_Some.
  apply list_find_Some in Hf as (Hl & Hk & _). apply bool_decide_eq_true.
  apply list_elem_of_fmap. exists (k, v'). split; [done|].
  by eapply list_elem_of_lookup_2.
Qed.

(** A request that passes the four guards of [/convert] runs the body. *)
Lemma convert_guards request file ct s :
  md_get "file" (request_files request) = Some file ->
  filename file <> "" ->
  md_get "convert_type" (request_form request) = Some ct ->
  ct ∈ convert_types -> allowed_file (filename file) = true ->
  convert request s = convert_accepted file ct s.
Proof.
  intros Hfile Hname Hct Hin Hal. unfold convert.
  rewrite (md_get_in _ _ _ Hfile), Hfile. simpl. rewrite bind_ret_l.
  rewrite bool_decide_false, Hct by done. fold convert_types.
  by rewrite bool_decide_true, Hal.
Qed.

(** A request is refused, with status 400 and nothing changed, or passes
    the guards. *)
Lemma convert_cases request s :
  (exists r, convert request s = (Ok r, s) /\ status r = 400) \/
  (exists file ct,
     md_get "file" (request_files request) = Some file /\ filename file <> "" /\
     md_get "convert_type" (request_form request) = Some ct /\
     ct ∈ convert_types /\ allowed_file (filename file) = true).
Proof.
  unfold convert. destruct (md_in _ _) eqn:Hin; simpl; [|left; by eauto].
  destruct (md_in_get _ _ Hin) as [file Hfile]. rewrite Hfile. simpl.
  rewrite bind_ret_l. case_bool_decide as Hname; [left; by eauto|].
  destruct (md_get "convert_type" _) as [ct|] eqn:Hct; [|left; by eauto].
  fold convert_types. case_bool_decide as Hty; simpl; [|left; by eauto].
  destruct (allowed_file _) eqn:Hal; [|left; by eauto].
  right. by exists file, ct.
Qed.

Lemma dwg_to_pdf_cases request s :
  (exists r, dwg_to_pdf request s = (Ok r, s) /\ status r = 400) \/
  (exists file,
     md_get "file" (request_files request) = Some file /\ filename file <> "" /\
     is_dwg (filename file) = true).
Proof.
  unfold dwg_to_pdf. destruct (md_in _ _) eqn:Hin; simpl; [|left; by eauto].
  destruct (md_in_get _ _ Hin) as [file Hfile]. rewrite Hfile. simpl.
  rewrite bind_ret_l. case_bool_decide as Hname; [left; by eauto|].
  destruct (is_dwg _) eqn:Hdwg; [|left; by eauto].
  right. by exists file.
Qed.

(** Unless the target is ["png"], the temporary file of [convert_svg] is
    not its output. *)
Lemma temp_ne_output file ct :
  ct ∈ convert_types -> ct <> "png" ->
  temp_png_path (output_path file ct) <> output_path file ct.
Proof.
  intros Hct Hpng. pose proof (output_name_no_sep file) as Hn.
  unfold output_path, output_name.
  rewrite output_path_eq, temp_png_path_eq by done.
  apply convert_types_cases in Hct.
  destruct_or!; subst ct; [|done|]; intros E;
    do 4 (apply string_app_inj_l in E); done.
Qed.

Lemma temp_eq_output_png file :
  temp_png_path (output_path file "png") = output_path file "png".
Proof.
  pose proof (output_name_no_sep file) as Hn. unfold output_path, output_name.
  by rewrite output_path_eq, temp_png_path_eq.
Qed.

(** What an accepted request that is answered 200 leaves at its output
    path: a file, unless an SVG was converted to ["png"]. *)
Lemma convert_200_output file ct s s' :
  ct ∈ convert_types -> allowed_file (filename file) = true -> ready file ct s ->
  convert_accepted file ct s = (Ok (converted file ct), s') ->
  if bool_decide (ext_of_filename (filename file) = Some "svg" /\ ct = "png")
  then files s' !! output_path file ct = None
  else is_Some (files s' !! output_path file ct).
Proof.
  intros Hct Hal Hready.
  destruct (convert_accepted_run file ct s Hct Hal Hready) as (e & He & ->).
  destruct (upload_ne_output file ct Hct) as [Hn1 Hn2]. rewrite He.
  destruct (conversion e file ct (prepared file ct s)) as [[[]|x] s1] eqn:Hc;
    [|done]. intros [= <-]. unfold conversion in Hc.
  rewrite files_del_file_ne by done. case_bool_decide as Hsvg.
  - apply app_convert_svg_inv in Hc as (p & j & ->). case_bool_decide as Hpng.
    + destruct Hpng as [_ ->]. rewrite temp_eq_output_png. apply files_del_file.
    + assert (ct <> "png") as Hne by (intros ->; apply Hpng; by subst e).
      rewrite files_del_file_ne, files_put_file by (by apply temp_ne_output).
      by eexists.
  - apply app_convert_image_inv in Hc as (j & ->).
    rewrite bool_decide_false by (intros [[= ->] _]; done).
    rewrite files_put_file. by eexists.
Qed.

(** The [except] clause only ever answers 500. *)
Lemma try_except_status (c : M unit) (h : exn -> Response) cleanup s r s' :
  (forall e, status (h e) = 500) ->
  try_finally (try_except (c ;;; ret None) (fun e => ret (Some (h e)))) cleanup s
  = (Ok (Some r), s') -> status r = 500.
Proof.
  intros Hh. unfold try_finally, try_except, bind, ret.
  destruct (c s) as [[[]|e] s1]; destruct (cleanup s1) as [[[]|e'] s2];
    intros [= <-]; auto.
Qed.

Lemma convert_accepted_status file ct s r s' :
  convert_accepted file ct s = (Ok r, s') -> status r = 200 \/ status r = 500.
Proof.
  unfold convert_accepted. cbv zeta.
  intros (e & s1 & _ & (_ & s2 & _ & (_ & s3 & _ &
    ([r'|] & s4 & Htry & Hret)%bind_ok_inv)%bind_ok_inv)%bind_ok_inv)%bind_ok_inv.
  - injection Hret as <- _. right. by eapply try_except_status in Htry.
  - injection Hret as <- _. by left.
Qed.

End RouteFacts.

(** ** Theorems on [/convert] *)

Section ConvertTheorems.
Context `{Pillow} `{Werkzeug}.
Implicit Types (s : fs) (file : FileStorage) (request : Request).

(** A refused request changes nothing.  Whenever [/convert] answers 400
    (no file part, no file name, unknown target, extension not allowed) the
    file system is exactly as before. *)
Theorem convert_400_unchanged request s r s' :
  convert request s = (Ok r, s') -> status r = 400 -> s' = s.
Proof.
  unfold convert. destruct (md_in _ _); simpl; [|by intros [= _ <-]].
  destruct (md_get "file" _) as [file|]; simpl; [|done]. rewrite bind_ret_l.
  case_bool_decide; [by intros [= _ <-]|].
  destruct (md_get "convert_type" _) as [ct|]; [|by intros [= _ <-]].
  destruct (negb _); [by intros [= _ <-]|].
  destruct (allowed_file _); [|by intros [= _ <-]].
  intros [E|E]%convert_accepted_status; rewrite E; done.
Qed.

(** C12. The upload never survives an accepted request.  When the request
    passes the guards and the folders are in place, [/convert] answers
    (no exception escapes), with status 200 or 500, and afterwards no file
    is at the path the upload was saved to. *)
Theorem convert_cleans_up request file ct s :
  md_get "file" (request_files request) = Some file ->
  filename file <> "" ->
  md_get "convert_type" (request_form request) = Some ct ->
  ct ∈ convert_types -> allowed_file (filename file) = true ->
  ready file ct s ->
  exists r s', convert request s = (Ok r, s') /\
               (status r = 200 \/ status r = 500) /\
               files s' !! upload_path file = None.
Proof.
  intros Hfile Hname Hct Hin Hal Hready.
  rewrite (convert_guards _ file ct) by done.
  destruct (convert_accepted_run file ct s Hin Hal Hready) as (e & _ & ->).
  eexists _, _. split; [done|]. split; [|apply files_del_file].
  destruct (conversion _ _ _ _).1; auto.
Qed.

(** [/convert] never produces a JPEG.  For the target ["jpg"], whatever
    the upload, an accepted request is answered 500 with the text of the
    exception: both converters of [app.py] ask PIL for the encoder
    ["JPG"]. *)
Theorem convert_jpg_500 request file s :
  md_get "file" (request_files request) = Some file ->
  filename file <> "" ->
  md_get "convert_type" (request_form request) = Some "jpg" ->
  allowed_file (filename file) = true ->
  ready file "jpg" s ->
  exists x s', convert request s = (Ok (failed x), s').
Proof.
  intros Hfile Hname Hct Hal Hready.
  rewrite (convert_guards _ file "jpg") by done.
  destruct (convert_accepted_run file "jpg" s ltac:(done) Hal Hready)
    as (e & _ & ->).
  unfold conversion. case_bool_decide.
  - destruct (app_convert_svg_jpg_raises (upload_path file)
                (output_path file "jpg") (prepared file "jpg" s)) as (x & s' & ->).
    by eexists _, _.
  - destruct (app_convert_image_jpg_raises (upload_path file)
                (output_path file "jpg") (prepared file "jpg" s)) as (x & ->).
    by eexists _, _.
Qed.

(** A success answer without a file.  An SVG upload converted to
    ["png"] is answered 200 with a download link, and no file is at the
    output path: [convert_svg] used it as its temporary file and removed
    it. *)
Theorem convert_svg_png_dangling request file s p :
  md_get "file" (request_files request) = Some file ->
  filename file <> "" ->
  md_get "convert_type" (request_form request) = Some "png" ->
  allowed_file (filename file) = true ->
  ext_of_filename (filename file) = Some "svg" ->
  svg2png_bytes (stream file) = Ok p ->
  ready file "png" s -> is_dir (output_path file "png") s = false ->
  exists s', convert request s = (Ok (converted file "png"), s') /\
             files s' !! output_path file "png" = None.
Proof.
  intros Hfile Hname Hct Hal Hext Hp Hready Hd.
  rewrite (convert_guards _ file "png") by done.
  destruct (convert_accepted_run file "png" s ltac:(done) Hal Hready)
    as (e & He & ->). rewrite Hext in He. injection He as <-.
  unfold conversion. rewrite bool_decide_true by done.
  pose proof (output_path_under file "png" ltac:(done)) as Hout.
  destruct (prepared_parent_ok file "png" s ltac:(done)) as [Hpo _].
  rewrite <- (prepared_is_dir file "png" s _ _ ltac:(done) Hout) in Hd.
  assert (output_path file "png" =
          ("outputs/png/" +:+ (splitext (secure_filename (filename file))).1)
          +:+ ".png") as Hstem.
  { rewrite Hout. unfold output_name. by rewrite !string_app_assoc. }
  rewrite Hstem in *.
  destruct (app_convert_svg_png_run (upload_path file) _ (prepared file "png" s)
              (stream file) p (prepared_upload file "png" s) Hp Hd Hpo) as [j ->].
  eexists. split; [done|]. cbn [snd].
  set (out := _ +:+ ".png").
  destruct (decide (upload_path file = out)) as [E|Hne].
  - rewrite E. apply files_del_file.
  - rewrite files_del_file_ne by done. apply files_del_file.
Qed.

(** An accepted raster upload that PIL opens and encodes: the request is
    answered 200, the output is written and the upload removed. *)
Lemma convert_accepted_raster file ct s e i enc b :
  ct ∈ convert_types -> ct <> "jpg"%string ->
  allowed_file (filename file) = true ->
  ext_of_filename (filename file) = Some e -> e <> "svg"%string ->
  ready file ct s -> is_dir (output_path file ct) s = false ->
  decode (stream file) = Some i -> SAVE (upper ct) = Some enc -> enc i = Ok b ->
  convert_accepted file ct s
  = (Ok (converted file ct),
     del_file (upload_path file)
       (put_file (output_path file ct) b (prepared file ct s))).
Proof.
  intros Hct Hjpg Hal He Hsvg Hready Hd Hi Henc Hb.
  destruct (convert_accepted_run file ct s Hct Hal Hready) as (e' & He' & ->).
  rewrite He in He'. injection He' as <-.
  unfold conversion. rewrite bool_decide_false by done.
  destruct (prepared_parent_ok file ct s Hct) as [Hpo _].
  rewrite <- (prepared_is_dir file ct s _ _ Hct (output_path_under file ct Hct)) in Hd.
  by rewrite (app_convert_image_run _ _ ct _ _ i enc b Hjpg
                (prepared_upload file ct s) Hi Henc Hb Hd Hpo).
Qed.

(** The temporary file of an SVG conversion to ["webp"] is beside the
    output, under another name. *)
Lemma temp_png_path_webp file :
  exists n, temp_png_path (output_path file "webp")
            = join OUTPUT_FOLDER "webp" +:+ String sep n /\
            temp_png_path (output_path file "webp") <> output_path file "webp".
Proof.
  pose proof (output_name_no_sep file) as Hn. unfold output_path, output_name.
  rewrite output_path_eq, temp_png_path_eq by done.
  exists ((splitext (secure_filename (filename file))).1 +:+ ".png"). split; [done|].
  intros E. do 2 apply string_app_inj_l in E. apply (string_app_inj_l _ _ _) in E.
  apply string_app_inj_l in E. discriminate E.
Qed.

(** An accepted SVG upload that renders, converted to ["webp"]: the
    request is answered 200, the output is written, and the temporary
    PNG and the upload are removed. *)
Lemma convert_accepted_svg_webp file s p i enc b :
  allowed_file (filename file) = true ->
  ext_of_filename (filename file) = Some "svg" ->
  ready file "webp" s -> is_dir (output_path file "webp") s = false ->
  is_dir (temp_png_path (output_path file "webp")) s = false ->
  svg2png_bytes (stream file) = Ok p -> decode p = Some i ->
  SAVE "WEBP" = Some enc -> enc i = Ok b ->
  convert_accepted file "webp" s
  = (Ok (converted file "webp"),
     del_file (upload_path file)
       (del_file (temp_png_path (output_path file "webp"))
          (put_file (output_path file "webp") b
             (put_file (temp_png_path (output_path file "webp")) p
                (prepared file "webp" s))))).
Proof.
  intros Hal He Hready Hd Hdt Hp Hi Henc Hb.
  assert ("webp" ∈ convert_types) as Hct by (by apply (bool_decide_unpack _)).
  destruct (convert_accepted_run file "webp" s Hct Hal Hready) as (e' & He' & ->).
  rewrite He in He'. injection He' as <-.
  unfold conversion. rewrite bool_decide_true by done.
  destruct (prepared_parent_ok file "webp" s Hct) as [Hpo Hpt].
  destruct (temp_png_path_webp file) as (n & Htmp & Hne).
  rewrite <- (prepared_is_dir file "webp" s _ _ Hct (output_path_under file "webp" Hct)) in Hd.
  rewrite <- (prepared_is_dir file "webp" s _ _ Hct Htmp) in Hdt.
  by rewrite (app_convert_svg_run _ _ "webp" _ _ p i enc b ltac:(done) Hne
                (prepared_upload file "webp" s) Hp Hi Henc Hb Hdt Hpt Hd Hpo).
Qed.

(** The happy path.  A raster upload that PIL opens, converted to
    ["png"], is answered 200, and the file at the output path is what PIL's
    PNG encoder makes of the decoded upload. *)
Theorem convert_raster_png request file s i :
  md_get "file" (request_files request) = Some file ->
  filename file <> "" ->
  md_get "convert_type" (request_form request) = Some "png" ->
  allowed_file (filename file) = true ->
  ext_of_filename (filename file) <> Some "svg" ->
  decode (stream file) = Some i ->
  ready file "png" s -> is_dir (output_path file "png") s = false ->
  exists enc j s',
    convert request s = (Ok (converted file "png"), s') /\
    SAVE "PNG" = Some enc /\ enc i = Ok j /\
    files s' !! output_path file "png" = Some j.
Proof.
  intros Hfile Hname Hct Hal Hext Hi Hready Hd.
  rewrite (convert_guards _ file "png") by done.
  destruct (convert_accepted_saved file "png" s Hal) as (e & He & _);
    [apply Hready..|].
  destruct (SAVE_PNG i) as (enc & j & Henc & Hj). exists enc, j.
  rewrite (convert_accepted_raster file "png" s e i enc j) by (done || congruence).
  eexists. repeat (split; [done|]). cbn [snd].
  rewrite files_del_file_ne, files_put_file; [done|].
  by apply upload_ne_output.
Qed.

(** C36. Clean-up is not guaranteed on every failure path.  [file.save] and
    [os.makedirs] run before the [try]: when a file named [outputs] is in
    the way, [os.makedirs] raises, the exception leaves the route, and the
    upload stays in the upload folder. *)
Theorem convert_makedirs_leak request file ct s :
  md_get "file" (request_files request) = Some file ->
  filename file <> "" ->
  md_get "convert_type" (request_form request) = Some ct ->
  ct ∈ convert_types -> allowed_file (filename file) = true ->
  is_dir UPLOAD_FOLDER s = true -> is_dir (upload_path file) s = false ->
  is_file OUTPUT_FOLDER s = true ->
  convert request s
  = (Raise (FileExistsError OUTPUT_FOLDER),
     put_file (upload_path file) (stream file) s).
Proof.
  intros Hfile Hname Hct Hin Hal Hup Hnd Hout.
  rewrite (convert_guards _ file ct) by done.
  destruct (convert_accepted_saved file ct s Hal Hup Hnd) as (e & _ & ->).
  apply bind_err. destruct (ancestors_output_dir ct Hin) as [Ha _].
  unfold os_makedirs, bind, get. rewrite Ha. simpl.
  rewrite decide_True; [done|]. unfold is_file in *. simpl.
  rewrite lookup_insert_ne; [done|].
  unfold upload_path. rewrite input_path_eq. apply (uploads_ne_outputs _ "").
Qed.

End ConvertTheorems.

(** ** Theorems on [/dwgtopdf] *)

Section DwgTheorems.
Context `{Pillow} `{Werkzeug}.
Implicit Types (s : fs) (file : FileStorage) (request : Request).

Lemma touches_convert_dwg_to_pdf_unbound p q :
  touches ∅ (convert_dwg_to_pdf_unbound p q).
Proof. apply touches_raise. Qed.

(** The answer of [/dwgtopdf] to a request that passes its guards. *)
Definition dwg_failed : Response :=
  {| status := 500;
     json := JError "转换失败: name 'convert_dwg_to_pdf' is not defined" |}.

(** The body of the route: the upload is saved, the call raises, the
    upload is removed. *)
Lemma dwg_to_pdf_accepted_run file s :
  is_dir DWG_FOLDER s = true -> is_dir (dwg_path file) s = false ->
  dwg_to_pdf_accepted file s
  = (Ok dwg_failed,
     del_file (dwg_path file) (put_file (dwg_path file) (stream file) s)).
Proof.
  intros Hup Hnd. unfold dwg_to_pdf_accepted. cbv zeta. fold (dwg_path file).
  assert (parent_ok (dwg_path file) s = true) as Hpo.
  { unfold parent_ok, dwg_path.
    rewrite dirname_join by (done || apply secure_filename_no_sep).
    by rewrite Hup, orb_true_r. }
  unfold FileStorage_save.
  rewrite (bind_ok _ _ _ _ _ (write_file_ok _ (stream file) _ Hnd Hpo)).
  unfold dwg_to_pdf_try. erewrite bind_ok; cycle 1.
  { apply (try_cleanup_run _ (fun e => {| status := 500;
                                         json := JError ("转换失败: " +:+ str e) |})
             ∅ _ (stream file) _ (touches_convert_dwg_to_pdf_unbound _ _)).
    - apply not_elem_of_empty.
    - apply files_put_file. }
  done.
Qed.

(** The guards of [/dwgtopdf]. *)
Lemma dwg_to_pdf_guards request file s :
  md_get "file" (request_files request) = Some file ->
  filename file <> "" -> is_dwg (filename file) = true ->
  dwg_to_pdf request s = dwg_to_pdf_accepted file s.
Proof.
  intros Hfile Hname Hdwg. unfold dwg_to_pdf.
  rewrite (md_get_in _ _ _ Hfile), Hfile. simpl. rewrite bind_ret_l.
  by rewrite bool_decide_false, Hdwg.
Qed.

(** C39. [/dwgtopdf] cannot convert.  Every request that passes its guards is
    answered 500 with [name 'convert_dwg_to_pdf' is not defined]: the
    function the route calls is not defined in [app.py].  The upload is
    saved and removed again. *)
Theorem dwg_to_pdf_500 request file s :
  md_get "file" (request_files request) = Some file ->
  filename file <> "" -> is_dwg (filename file) = true ->
  is_dir DWG_FOLDER s = true -> is_dir (dwg_path file) s = false ->
  dwg_to_pdf request s
  = (Ok {| status := 500;
           json := JError "转换失败: name 'convert_dwg_to_pdf' is not defined" |},
     del_file (dwg_path file) (put_file (dwg_path file) (stream file) s)).
Proof.
  intros Hfile Hname Hdwg Hup Hnd.
  rewrite (dwg_to_pdf_guards _ file) by done. by apply dwg_to_pdf_accepted_run.
Qed.

End DwgTheorems.

(** ** An executable [secure_filename]: keep letters, digits, [_], [.], [-] *)

Definition toy_safe_char (c : ascii) : bool :=
  is_upper c || is_lower c ||
  ((48 <=? N_of_ascii c)%N && (N_of_ascii c <=? 57)%N) ||
  bool_decide (c ∈ ["_"; "."; "-"]%char).

Fixpoint toy_secure_filename (f : string) : string :=
  match f with
  | EmptyString => EmptyString
  | String c f' =>
      if toy_safe_char c then String c (toy_secure_filename f')
      else toy_secure_filename f'
  end.

Lemma toy_secure_filename_no_sep (f : string) :
  contains sep (toy_secure_filename f) = false.
Proof.
  induction f as [|c f IH]; simpl; [done|].
  destruct (toy_safe_char c) eqn:E; [|done]. simpl. rewrite IH, orb_false_r.
  apply bool_decide_eq_false. intros ->. done.
Qed.

Definition toy_werkzeug : Werkzeug := {|
  secure_filename := toy_secure_filename;
  secure_filename_no_sep := toy_secure_filename_no_sep
|}.

(** ** Runs *)

#[local] Existing Instance toy.
#[local] Existing Instance toy_werkzeug.

Definition upload (name : string) (content : bytes) (convert_type : string) : Request :=
  {| request_files := [("file"%string, {| filename := name; stream := content |})];
     request_form := [("convert_type", convert_type)]%string |}.

Definition server_fs : fs := (create_folders empty_fs).2.

Example run_convert_png_webp :
  let r := convert (upload "Cat.PNG" "P4pixels" "webp") server_fs in
  r.1 = Ok {| status := 200;
              json := JConverted "转换成功" "Cat.webp" "/download/webp/Cat.webp" |} /\
  map_to_list (files r.2) = [("outputs/webp/Cat.webp", "W4pixels")]%string.
Proof. vm_compute. done. Qed.

Example run_convert_png_jpg :
  let r := convert (upload "Cat.PNG" "P4pixels" "jpg") server_fs in
  r.1 = Ok {| status := 500; json := JError "'JPG'" |} /\
  map_to_list (files r.2) = [].
Proof. vm_compute. done. Qed.

Example run_convert_svg_png :
  let r := convert (upload "logo.svg" "<svg/>" "png") server_fs in
  r.1 = Ok {| status := 200;
              json := JConverted "转换成功" "logo.png" "/download/png/logo.png" |} /\
  map_to_list (files r.2) = [].
Proof. vm_compute. done. Qed.

Example run_convert_svg_jpg :
  let r := convert (upload "logo.svg" "<svg/>" "jpg") server_fs in
  r.1 = Ok {| status := 500; json := JError "'JPG'" |} /\
  map_to_list (files r.2) = [("outputs/jpg/logo.png", "P4svg/>")]%string.
Proof. vm_compute. done. Qed.

Example run_dwg :
  let r := dwg_to_pdf (upload "plan.dwg" "AC1027" "") server_fs in
  r.1 = Ok {| status := 500;
              json := JError "转换失败: name 'convert_dwg_to_pdf' is not defined" |} /\
  map_to_list (files r.2) = [].
Proof. vm_compute. done. Qed.

(** ** Witnesses *)

Lemma convert_400_unchanged_witness :
  (convert (upload "notes.txt" "hello" "png") server_fs).2 = server_fs.
Proof.
  eapply (convert_400_unchanged (upload "notes.txt" "hello" "png") server_fs);
    [by vm_compute|done].
Defined.

Lemma convert_cleans_up_witness :
  let file := {| filename := "Cat.PNG"; stream := "P4pixels" |} in
  exists r s', convert (upload "Cat.PNG" "P4pixels" "webp") server_fs = (Ok r, s') /\
               (status r = 200 \/ status r = 500) /\
               files s' !! upload_path file = None.
Proof.
  apply (convert_cleans_up (upload "Cat.PNG" "P4pixels" "webp") _ "webp" server_fs);
    by vm_compute.
Defined.

Lemma convert_jpg_500_witness :
  exists x s', convert (upload "Cat.PNG" "P4pixels" "jpg") server_fs
               = (Ok (failed x), s').
Proof.
  apply (convert_jpg_500 (upload "Cat.PNG" "P4pixels" "jpg")
           {| filename := "Cat.PNG"; stream := "P4pixels" |} server_fs);
    by vm_compute.
Defined.

Lemma convert_svg_png_dangling_witness :
  let file := {| filename := "logo.svg"; stream := "<svg/>" |} in
  exists s', convert (upload "logo.svg" "<svg/>" "png") server_fs
             = (Ok (converted file "png"), s') /\
             files s' !! output_path file "png" = None.
Proof.
  apply (convert_svg_png_dangling (upload "logo.svg" "<svg/>" "png")
           {| filename := "logo.svg"; stream := "<svg/>" |} server_fs "P4svg/>");
    by vm_compute.
Defined.

Lemma convert_raster_png_witness :
  let file := {| filename := "photo.jpeg"; stream := "J3pixels" |} in
  exists enc j s',
    convert (upload "photo.jpeg" "J3pixels" "png") server_fs
    = (Ok (converted file "png"), s') /\
    SAVE "PNG" = Some enc /\ enc (RGB, "pixels") = Ok j /\
    files s' !! output_path file "png" = Some j.
Proof.
  apply (convert_raster_png (upload "photo.jpeg" "J3pixels" "png")
           {| filename := "photo.jpeg"; stream := "J3pixels" |} server_fs);
    by vm_compute.
Defined.

(** A server whose working directory holds a file named [outputs]. *)
Definition broken_fs : fs := Fs {[ "outputs" := "not a folder" ]} {[ "uploads" ]}.

Lemma convert_makedirs_leak_witness :
  let file := {| filename := "Cat.PNG"; stream := "P4pixels" |} in
  convert (upload "Cat.PNG" "P4pixels" "png") broken_fs
  = (Raise (FileExistsError OUTPUT_FOLDER),
     put_file (upload_path file) (stream file) broken_fs).
Proof.
  apply (convert_makedirs_leak (upload "Cat.PNG" "P4pixels" "png") _ "png" broken_fs);
    by vm_compute.
Defined.

Lemma dwg_to_pdf_500_witness :
  let file := {| filename := "plan.dwg"; stream := "AC1027" |} in
  dwg_to_pdf (upload "plan.dwg" "AC1027" "") server_fs
  = (Ok {| status := 500;
           json := JError "转换失败: name 'convert_dwg_to_pdf' is not defined" |},
     del_file (dwg_path file) (put_file (dwg_path file) (stream file) server_fs)).
Proof.
  apply (dwg_to_pdf_500 (upload "plan.dwg" "AC1027" "") _ server_fs);
    by vm_compute.
Defined.
