(* ===== verification/RouteTable.v ===== *)
(** * RouteTable: the route [/convert] against the dispatch table

    The specification gives the single-asset converter a table: which
    pairs of a source kind and a target have a strategy, every other pair
    being refused.  [convert_image] of [converter.py] is compared with the
    table in [Dispatch].  The route [/convert] of [app.py] has its own
    copies of the converters and its own list of targets, ["webp"],
    ["png"] and ["jpg"], whatever the upload: this file compares the
    route with the table on the uploads the classifier of the
    specification calls vector.  The two differ both ways: the route
    converts an SVG to ["webp"], a pair the table does not have, and
    refuses the target ["pdf"], which the table has for a vector source. *)

From S2P Require Import Prelude PyString Classifier FileSys Imaging Converter.
From S2P Require Import Dispatch WebApp.

(** ** The table on an upload *)

(** The strategy of the specification for an upload of that name and a
    target: the classifier, then the table; [None] is a refusal,
    [UnsupportedFormat] or [UnsupportedConversion]. *)
Definition strategy_of (name target : string) : option Strategy :=
  k ← classify name; dispatch k target.

(** ** Theorems *)

Section RouteTable.
Context `{Pillow} `{Werkzeug}.
Implicit Types (s : fs) (file : FileStorage) (request : Request).

(** A name with the extension [svg] is a vector source for the
    classifier of the specification. *)
Lemma classify_svg name :
  allowed_file name = true -> ext_of_filename name = Some "svg"%string ->
  classify name = Some vector.
Proof.
  intros (h & t & -> & _)%allowed_in_inv He. unfold classify.
  rewrite contains_app, He. simpl. by rewrite orb_true_r.
Qed.

(** C38. A pair outside the table that the route converts.  For an SVG
    upload that renders and the target ["webp"], which the table of the
    specification does not have for a vector source, [/convert] answers
    200: the output holds what PIL's WEBP encoder makes of the rendering,
    and the temporary PNG and the upload are gone.  It is the only target
    for which the route converts an SVG: for ["png"] the output is removed
    ([WebApp.convert_svg_png_dangling]) and for ["jpg"] the save fails
    ([WebApp.convert_jpg_500]). *)
Theorem convert_vector_webp request file s p i enc b :
  md_get "file" (request_files request) = Some file -> filename file <> "" ->
  md_get "convert_type" (request_form request) = Some "webp" ->
  allowed_file (filename file) = true ->
  ext_of_filename (filename file) = Some "svg" ->
  ready file "webp" s -> is_dir (output_path file "webp") s = false ->
  is_dir (temp_png_path (output_path file "webp")) s = false ->
  svg2png_bytes (stream file) = Ok p -> decode p = Some i ->
  SAVE "WEBP" = Some enc -> enc i = Ok b ->
  strategy_of (filename file) "webp" = None /\
  exists s', convert request s = (Ok (converted file "webp"), s') /\
             files s' !! output_path file "webp" = Some b /\
             files s' !! temp_png_path (output_path file "webp") = None /\
             files s' !! upload_path file = None.
Proof.
  intros Hfile Hname Hct Hal He Hready Hd Hdt Hp Hi Henc Hb.
  split; [unfold strategy_of; by rewrite (classify_svg _ Hal He)|].
  assert ("webp" ∈ convert_types) as Hin by (by apply (bool_decide_unpack _)).
  rewrite (convert_guards _ file "webp") by done.
  rewrite (convert_accepted_svg_webp file s p i enc b) by done.
  destruct (upload_ne_output file "webp" Hin) as [Hn1 Hn2].
  destruct (temp_png_path_webp file) as (n & _ & Hne).
  eexists. split; [done|]. cbn [snd]. split; [|split].
  - rewrite !files_del_file_ne by done. apply files_put_file.
  - rewrite files_del_file_ne by done. apply files_del_file.
  - apply files_del_file.
Qed.

(** A pair of the table that the route refuses.  The table has a
    strategy for an upload with the extension [svg] and the target
    ["pdf"]; [/convert] answers every request for that target with the
    status 400, whatever the upload, and changes nothing. *)
Theorem convert_refuses_pdf request name s :
  md_get "convert_type" (request_form request) = Some "pdf" ->
  allowed_file name = true -> ext_of_filename name = Some "svg"%string ->
  strategy_of name "pdf" = Some VectorPdf /\
  exists r, convert request s = (Ok r, s) /\ status r = 400.
Proof.
  intros Hct Hal He. split; [unfold strategy_of; by rewrite (classify_svg _ Hal He)|].
  destruct (convert_cases request s)
    as [?|(file & ct & _ & _ & Hct' & Hin & _)]; [done|].
  rewrite Hct in Hct'. injection Hct' as <-.
  by apply convert_types_cases in Hin as [?|[?|?]].
Qed.

End RouteTable.

(** ** Witnesses *)

Section RouteTableWitnesses.
#[local] Existing Instance toy.
#[local] Existing Instance toy_werkzeug.

Lemma convert_vector_webp_witness :
  let file := {| filename := "logo.svg"; stream := "<svg/>" |} in
  strategy_of (filename file) "webp" = None /\
  exists s', convert (upload "logo.svg" "<svg/>" "webp") server_fs
             = (Ok (converted file "webp"), s') /\
             files s' !! output_path file "webp" = Some "W4svg/>"%string /\
             files s' !! temp_png_path (output_path file "webp") = None /\
             files s' !! upload_path file = None.
Proof.
  eapply (convert_vector_webp (upload "logo.svg" "<svg/>" "webp")
            {| filename := "logo.svg"; stream := "<svg/>" |} server_fs "P4svg/>");
    by vm_compute.
Defined.

Lemma convert_refuses_pdf_witness :
  strategy_of "logo.svg" "pdf" = Some VectorPdf /\
  exists r, convert (upload "logo.svg" "<svg/>" "pdf") server_fs = (Ok r, server_fs) /\
            status r = 400.
Proof. by apply convert_refuses_pdf. Defined.

End RouteTableWitnesses.
