(* ===== verification/WebGif.v ===== *)
(** * WebGif: the route [/merge_gif] of [src/app.py]

    The route reads the uploads under the key [files] and the form field
    [duration], decodes every upload in memory, and has [imageio.mimsave]
    write one animation under [outputs/gif].  The name of the animation
    holds the hexadecimal text of a fresh [uuid.uuid4()]: the model takes
    that text as an argument of the handler.

    The loop over the uploads ([collect_images]) is pure: it ends with the
    frames, with the 400 answer of its early [return], or with the exception
    of a failed decode.  [frames_of] is the reference it is compared with. *)

From S2P Require Import Prelude PyString PyFloat Classifier FileSys Imaging WebApp.

Local Open Scope eff_scope.

Section MergeGif.
Context `{Pillow} `{!Imageio}.

(** The [for file in files:] loop.  [inl r] is the [return] inside the
    loop, [inr images] is its normal end. *)
Fixpoint collect_images (files : list FileStorage) (images : list Image)
    : outcome exn (Response + list Image) :=
  match files with
  | [] => Ok (inr images)
  | file :: files =>
      if bool_decide (filename file = "") then collect_images files images
      else if allowed_file (filename file) then
        match Image_open_stream (stream file) with
        | Ok img => collect_images files (images ++ [Imaging.convert RGBA img])
        | Raise e => Raise e
        end
      else Ok (inl {| status := 400;
                      json := JError (filename file +:+ " 文件类型不支持") |})
  end.

Definition gif_dir : string := join OUTPUT_FOLDER "gif".

(** [f"combo_{uuid.uuid4().hex}.gif"] *)
Definition gif_filename (hex : string) : string := "combo_" +:+ hex +:+ ".gif".

Definition gif_path (hex : string) : string := join gif_dir (gif_filename hex).

(** The [try] statement: the loop, the count, the folder, the animation;
    every exception becomes a 500 answer. *)
Definition merge_gif_try (hex : string) (files : list FileStorage)
    (duration : float) : M Response :=
  try_except
    (r <- lift_outcome (collect_images files []) ;;
     match r with
     | inl response => ret response
     | inr images =>
         if bool_decide (length images < 2) then
           ret {| status := 400; json := JError "至少需要两张图片合成 GIF" |}
         else
           os_makedirs gif_dir ;;;
           mimsave (gif_path hex) images duration ;;;
           ret {| status := 200;
                  json := JConverted "GIF 合成成功" (gif_filename hex)
                            ("/download/gif/" +:+ gif_filename hex) |}
     end)
    (fun e => ret {| status := 500;
                     json := JError ("GIF 合成失败: " +:+ str e) |}).

(** [float(request.form.get('duration', 0.5))]; [None] is [ValueError]. *)
Definition duration_of (form : list (string * string)) : option float :=
  match md_get "duration" form with
  | None => Some float_half
  | Some text => float_of_str text
  end.

Definition merge_gif (hex : string) (request : Request) : M Response :=
  if negb (md_in "files" (request_files request)) then
    ret {| status := 400; json := JError "没有上传文件" |}
  else
  let files := md_getlist "files" (request_files request) in
  match files with
  | [] => ret {| status := 400; json := JError "未选择任何图片" |}
  | _ =>
      match duration_of (request_form request) with
      | None => ret {| status := 400; json := JError "duration 参数无效" |}
      | Some duration => merge_gif_try hex files duration
      end
  end.

(** ** The reference for the loop *)

(** The uploads the loop looks at: those with a name. *)
Definition named (files : list FileStorage) : list FileStorage :=
  filter (fun file => filename file <> "") files.

(** The frame of one upload. *)
Definition frame_of (file : FileStorage) : option Image :=
  Imaging.convert RGBA <$> decode (stream file).

(** The frames of a batch whose uploads all decode. *)
Definition frames_of (files : list FileStorage) : option (list Image) :=
  mapM frame_of (named files).

(** Every upload with a name has an allowed name. *)
Definition all_allowed (files : list FileStorage) : Prop :=
  Forall (fun file => allowed_file (filename file) = true) (named files).

(** The file system lets the animation be written. *)
Definition gif_ready (hex : string) (s : fs) : Prop :=
  is_file OUTPUT_FOLDER s = false /\ is_file gif_dir s = false /\
  is_dir (gif_path hex) s = false.

(** The answers of the route. *)
Definition merged (hex : string) : Response :=
  {| status := 200;
     json := JConverted "GIF 合成成功" (gif_filename hex)
               ("/download/gif/" +:+ gif_filename hex) |}.

Definition refused (file : FileStorage) : Response :=
  {| status := 400; json := JError (filename file +:+ " 文件类型不支持") |}.

Definition gif_failed (e : exn) : Response :=
  {| status := 500; json := JError ("GIF 合成失败: " +:+ str e) |}.

End MergeGif.

(** ** Tests, on the toy libraries *)

Section Tests.
#[local] Existing Instance toy.
#[local] Existing Instance toy_imageio.

Definition frame1 : FileStorage := {| filename := "a.png"; stream := "P3aa" |}.
Definition frame2 : FileStorage := {| filename := "b.JPG"; stream := "J3bb" |}.
Definition unnamed : FileStorage := {| filename := ""; stream := "" |}.
Definition broken : FileStorage := {| filename := "c.png"; stream := "oops" |}.
Definition script : FileStorage := {| filename := "run.sh"; stream := "#!" |}.

Definition batch (files : list FileStorage) (form : list (string * string))
    : Request :=
  {| request_files := (fun f => ("files"%string, f)) <$> files;
     request_form := form |}.

Definition status_of (r : outcome exn Response * fs) : option nat :=
  match r.1 with Ok a => Some (status a) | Raise _ => None end.

Example merge_two :
  let r := merge_gif "0f" (batch [frame1; unnamed; frame2] [("duration", "0.1")])
             empty_fs in
  status_of r = Some 200 /\
  map_to_list (files r.2) = [("outputs/gif/combo_0f.gif", "G1e-1|aa|bb")]%string.
Proof. vm_compute. done. Qed.

Example merge_one :
  let r := merge_gif "0f" (batch [frame1; unnamed] []) empty_fs in
  status_of r = Some 400 /\ r.2 = empty_fs.
Proof. vm_compute. done. Qed.

Example merge_bad_duration :
  merge_gif "0f" (batch [frame1; frame2] [("duration", "fast")]) empty_fs
  = (Ok {| status := 400; json := JError "duration 参数无效" |}, empty_fs).
Proof. vm_compute. reflexivity. Qed.

Example merge_broken_before_script :
  let r := merge_gif "0f" (batch [frame1; broken; script] []) empty_fs in
  status_of r = Some 500 /\ r.2 = empty_fs.
Proof. vm_compute. done. Qed.

End Tests.

(** ** The loop against its reference *)

Section LoopFacts.
Context `{Pillow} `{!Imageio}.
Implicit Types (file : FileStorage) (files pre post : list FileStorage)
  (images fr : list Image).

Lemma named_cons file files :
  named (file :: files)
  = if bool_decide (filename file = "") then named files else file :: named files.
Proof.
  unfold named. rewrite filter_cons.
  case_bool_decide; destruct (decide _). all: done.
Qed.

Lemma named_app pre post : named (pre ++ post) = named pre ++ named post.
Proof. apply filter_app. Qed.

Lemma Image_open_stream_frame file :
  Image_open_stream (stream file)
  = match decode (stream file) with
    | Some i => Ok i
    | None => Raise (UnidentifiedImageError "<FileStorage>")
    end.
Proof. done. Qed.

Lemma frames_cons_inv file (l : list FileStorage) fr :
  mapM frame_of (file :: l) = Some fr ->
  exists i fr', decode (stream file) = Some i /\ mapM frame_of l = Some fr' /\
                fr = Imaging.convert RGBA i :: fr'.
Proof.
  intros (y & fr' & Hy & Hfr & ->)%mapM_cons_inv.
  apply fmap_Some in Hy as (i & Hi & ->). eauto.
Qed.

Lemma frames_cons file (l : list FileStorage) i fr :
  decode (stream file) = Some i -> mapM frame_of l = Some fr ->
  mapM frame_of (file :: l) = Some (Imaging.convert RGBA i :: fr).
Proof.
  intros Hi Hfr. apply mapM_cons_Some; [|done]. unfold frame_of. by rewrite Hi.
Qed.

(** One step of the loop on an upload that has a name. *)
Lemma collect_images_cons file files images :
  filename file <> "" ->
  collect_images (file :: files) images
  = if allowed_file (filename file) then
      match decode (stream file) with
      | Some i => collect_images files (images ++ [Imaging.convert RGBA i])
      | None => Raise (UnidentifiedImageError "<FileStorage>")
      end
    else Ok (inl (refused file)).
Proof.
  intros Hn. simpl. rewrite bool_decide_false by done.
  unfold Image_open_stream. by destruct (decode (stream file)).
Qed.

Lemma collect_images_skip file files images :
  filename file = "" ->
  collect_images (file :: files) images = collect_images files images.
Proof. intros Hn. simpl. by rewrite bool_decide_true. Qed.

(** The loop over a prefix whose uploads are accepted and decode appends
    their frames, in order, and goes on. *)
Lemma collect_images_app pre post images fr :
  all_allowed pre -> frames_of pre = Some fr ->
  collect_images (pre ++ post) images = collect_images post (images ++ fr).
Proof.
  unfold all_allowed, frames_of. revert images fr.
  induction pre as [|file pre IH]; intros images fr Hal Hfr.
  { injection Hfr as <-. by rewrite app_nil_r. }
  rewrite named_cons in Hal, Hfr. rewrite <- app_comm_cons.
  case_bool_decide as Hn; [rewrite collect_images_skip by done; auto|].
  apply Forall_cons in Hal as [Ha Hal]. rewrite collect_images_cons, Ha by done.
  apply frames_cons_inv in Hfr as (i & fr' & -> & Hfr & ->).
  rewrite (IH _ fr') by done. by rewrite <- app_assoc.
Qed.

Lemma collect_images_frames files images fr :
  all_allowed files -> frames_of files = Some fr ->
  collect_images files images = Ok (inr (images ++ fr)).
Proof.
  intros Hal Hfr. rewrite <- (app_nil_r files).
  by rewrite (collect_images_app _ _ _ fr).
Qed.

(** What a loop that ended normally has seen. *)
Lemma collect_images_inr files images out :
  collect_images files images = Ok (inr out) ->
  all_allowed files /\ exists fr, frames_of files = Some fr /\ out = images ++ fr.
Proof.
  unfold all_allowed, frames_of. revert images.
  induction files as [|file files IH]; intros images.
  { intros [= <-]. split; [constructor|]. exists []. by rewrite app_nil_r. }
  rewrite named_cons. case_bool_decide as Hn.
  { rewrite collect_images_skip by done. apply IH. }
  rewrite collect_images_cons by done.
  destruct (allowed_file (filename file)) eqn:Ha; [|done].
  destruct (decode (stream file)) as [i|] eqn:Hi; [|done].
  intros (Hal & fr & Hfr & ->)%IH. split; [by constructor|].
  exists (Imaging.convert RGBA i :: fr). rewrite <- app_assoc.
  split; [by apply frames_cons|done].
Qed.

End LoopFacts.

(** ** The route *)

Section GifFacts.
Context `{Pillow} `{!Imageio}.
Implicit Types (file : FileStorage) (files pre post : list FileStorage)
  (images fr : list Image) (s : fs) (d : float) (hex : string).

(** What the route does once the frames are there. *)
Definition write_gif hex images d : M Response :=
  try_except
    (os_makedirs gif_dir ;;; mimsave (gif_path hex) images d ;;; ret (merged hex))
    (fun e => ret (gif_failed e)).

Definition too_few : Response :=
  {| status := 400; json := JError "至少需要两张图片合成 GIF" |}.

(** The [try] statement, by the way the loop ended. *)
Lemma merge_gif_try_eq hex files d s :
  merge_gif_try hex files d s
  = match collect_images files [] with
    | Raise e => (Ok (gif_failed e), s)
    | Ok (inl r) => (Ok r, s)
    | Ok (inr images) =>
        if bool_decide (length images < 2) then (Ok too_few, s)
        else write_gif hex images d s
    end.
Proof.
  unfold merge_gif_try, write_gif, try_except, bind at 1, lift_outcome.
  destruct (collect_images files []) as [[r|images]|e]; try done.
  by case_bool_decide.
Qed.

Lemma md_getlist_cons {V} key (d : list (string * V)) :
  md_in key d = true -> exists v vs, md_getlist key d = v :: vs.
Proof.
  unfold md_in, md_getlist. rewrite bool_decide_eq_true, list_elem_of_fmap.
  intros ([k v] & -> & Hin).
  assert ((k, v) ∈ filter (fun kv => kv.1 = k) d) as Hf
    by (by apply list_elem_of_filter).
  destruct (filter _ d) as [|[k' v'] l]; [by apply elem_of_nil in Hf|].
  by exists v', (snd <$> l).
Qed.

(** A request that passes the guards runs the [try] statement. *)
Lemma merge_gif_guards hex request d s :
  md_in "files" (request_files request) = true ->
  duration_of (request_form request) = Some d ->
  merge_gif hex request s
  = merge_gif_try hex (md_getlist "files" (request_files request)) d s.
Proof.
  intros Hin Hd. unfold merge_gif. rewrite Hin, Hd. simpl.
  by destruct (md_getlist_cons _ _ Hin) as (v & vs & ->).
Qed.

(** *** Paths *)

Lemma gif_filename_no_sep hex :
  contains sep hex = false -> contains sep (gif_filename hex) = false.
Proof. intros Hh. unfold gif_filename. by rewrite !contains_app, Hh. Qed.

Lemma gif_path_under hex : gif_path hex = gif_dir +:+ String sep (gif_filename hex).
Proof. reflexivity. Qed.

Lemma dirname_gif_path hex :
  contains sep hex = false -> dirname (gif_path hex) = gif_dir.
Proof. intros Hh. by apply dirname_join, gif_filename_no_sep. Qed.

Lemma gif_path_not_ancestor hex : gif_path hex ∉ ancestors gif_dir.
Proof.
  rewrite gif_path_under. change (ancestors gif_dir) with [OUTPUT_FOLDER; gif_dir].
  rewrite !elem_of_cons, elem_of_nil. intros [E|[E|[]]]; [done|].
  apply (f_equal String.length) in E. rewrite string_app_length in E.
  simpl in E. lia.
Qed.

(** *** Writing the animation *)

Lemma write_gif_run hex images d s b :
  contains sep hex = false -> gif_ready hex s -> mimsave_bytes images d = Ok b ->
  write_gif hex images d s
  = (Ok (merged hex), put_file (gif_path hex) b (add_dirs (ancestors gif_dir) s)).
Proof.
  intros Hh (Ho & Hg & Hd) Hb. unfold write_gif. apply try_except_ok.
  erewrite bind_ok; cycle 1.
  { apply os_makedirs_ok. change (ancestors gif_dir) with [OUTPUT_FOLDER; gif_dir].
    by repeat constructor. }
  erewrite bind_ok; [done|]. apply mimsave_ok; [done|..].
  - rewrite is_dir_add_dirs, Hd, orb_false_r.
    apply bool_decide_eq_false, gif_path_not_ancestor.
  - unfold parent_ok. rewrite dirname_gif_path, is_dir_add_dirs by done.
    rewrite (bool_decide_true (gif_dir ∈ _)) by apply elem_of_ancestors_self.
    by rewrite orb_true_r.
Qed.

(** However the writing ends, it answers; the folder is made when it can
    be, and the animation is the only file written, with the answer 200. *)
Lemma write_gif_inv hex images d s :
  (exists b, mimsave_bytes images d = Ok b /\
     write_gif hex images d s
     = (Ok (merged hex), put_file (gif_path hex) b (os_makedirs gif_dir s).2)) \/
  (exists e, write_gif hex images d s
             = (Ok (gif_failed e), (os_makedirs gif_dir s).2)).
Proof.
  unfold write_gif.
  destruct (os_makedirs gif_dir s) as [[[]|e] s1] eqn:Em; cycle 1.
  { right. exists e. apply try_except_err with (e:=e) (s':=s1). by apply bind_err. }
  destruct (mimsave (gif_path hex) images d s1) as [[[]|e] s2] eqn:E.
  - apply mimsave_inv in E as Hi. destruct Hi as (b & Hb & ->).
    left. exists b. split; [done|]. apply try_except_ok.
    by rewrite (bind_ok _ _ _ _ _ Em), (bind_ok _ _ _ _ _ E).
  - apply mimsave_raise in E as Hi. subst s2. right. exists e.
    apply try_except_err with (e:=e) (s':=s1).
    rewrite (bind_ok _ _ _ _ _ Em). by apply bind_err.
Qed.

End GifFacts.

(** ** What the route answers *)

Section GifAnswers.
Context `{Pillow} `{!Imageio}.
Implicit Types (file : FileStorage) (ups pre post : list FileStorage)
  (images fr : list Image) (s : fs) (d : float) (hex : string).

(** The early [return] of the loop names an upload of the request that
    [allowed_file] refuses. *)
Lemma collect_images_inl ups images r :
  collect_images ups images = Ok (inl r) ->
  exists file, file ∈ ups /\ allowed_file (filename file) = false /\
               r = refused file.
Proof.
  revert images. induction ups as [|file ups IH]; intros images; [done|].
  simpl. case_bool_decide.
  { intros (f & ? & ?)%IH. exists f. by rewrite elem_of_cons; auto. }
  destruct (allowed_file (filename file)) eqn:Ha.
  - destruct (Image_open_stream _); [|done].
    intros (f & ? & ?)%IH. exists f. by rewrite elem_of_cons; auto.
  - intros [= <-]. exists file. by rewrite elem_of_cons; auto.
Qed.

(** The four ways the [try] statement ends. *)
Lemma merge_gif_try_answers hex ups d s r s' :
  merge_gif_try hex ups d s = (Ok r, s') ->
  ((r = too_few \/ exists file, r = refused file) /\ s' = s) \/
  (status r = 500 /\ (s' = s \/ s' = (os_makedirs gif_dir s).2)) \/
  (r = merged hex /\ all_allowed ups /\
   exists fr b, frames_of ups = Some fr /\ 2 <= length fr /\
     mimsave_bytes fr d = Ok b /\
     s' = put_file (gif_path hex) b (os_makedirs gif_dir s).2).
Proof.
  rewrite merge_gif_try_eq.
  destruct (collect_images ups []) as [[r0|images]|e] eqn:E.
  - apply collect_images_inl in E as (f & _ & _ & ->). intros [= <- <-].
    left. split; [right; by exists f|done].
  - apply collect_images_inr in E as (Hal & fr & Hfr & ->).
    change ([] ++ fr) with fr.
    case_bool_decide as Hlen; [intros [= <- <-]; left; by auto|].
    destruct (write_gif_inv hex fr d s) as [(b & Hb & ->)|(e & ->)];
      intros [= <- <-]; [|right; left; by auto].
    right; right. repeat split; [done|]. exists fr, b. repeat split; [done|lia|done].
  - intros [= <- <-]. right; left. by auto.
Qed.

Lemma merge_gif_try_cases hex ups d s r s' :
  merge_gif_try hex ups d s = (Ok r, s') ->
  (status r = 400 /\ s' = s) \/
  (status r = 500 /\ (s' = s \/ s' = (os_makedirs gif_dir s).2)) \/
  (r = merged hex /\ all_allowed ups /\
   exists fr b, frames_of ups = Some fr /\ 2 <= length fr /\
     mimsave_bytes fr d = Ok b /\
     s' = put_file (gif_path hex) b (os_makedirs gif_dir s).2).
Proof.
  intros [[[->|[f ->]] ->]|[?|?]]%merge_gif_try_answers; auto.
Qed.

(** The answer to a duration that [float] refuses. *)
Definition bad_duration : Response :=
  {| status := 400; json := JError "duration 参数无效" |}.

(** The duration is refused when the form has the field and [float]
    refuses its text; without the field it is [0.5]. *)
Lemma duration_of_None form :
  duration_of form = None
  <-> exists text, md_get "duration" form = Some text /\ float_of_str text = None.
Proof.
  unfold duration_of. destruct (md_get "duration" form) as [text|].
  - split; [by exists text|by intros (? & [= <-] & ?)].
  - split; [done|by intros (? & ? & ?)].
Qed.

(** No other path of the route gives that answer. *)
Lemma merge_gif_try_not_bad_duration hex ups d s s' :
  merge_gif_try hex ups d s <> (Ok bad_duration, s').
Proof.
  intros [[[E|[f E]] _]|[[E _]|[E _]]]%merge_gif_try_answers; try done.
  apply (f_equal json) in E. injection E as E.
  apply (f_equal (rsplit_last " ")) in E.
  by rewrite (rsplit_last_app " " (filename f) "文件类型不支持") in E.
Qed.

Lemma merge_gif_cases hex request s r s' :
  merge_gif hex request s = (Ok r, s') ->
  (status r = 400 /\ s' = s) \/
  (status r = 500 /\ (s' = s \/ s' = (os_makedirs gif_dir s).2)) \/
  (r = merged hex /\ all_allowed (md_getlist "files" (request_files request)) /\
   exists d fr b, duration_of (request_form request) = Some d /\
     frames_of (md_getlist "files" (request_files request)) = Some fr /\
     2 <= length fr /\ mimsave_bytes fr d = Ok b /\
     s' = put_file (gif_path hex) b (os_makedirs gif_dir s).2).
Proof.
  unfold merge_gif. destruct (negb _); [intros [= <- <-]; by left|].
  destruct (md_getlist _ _) as [|f fs]; [intros [= <- <-]; by left|].
  destruct (duration_of _) as [d|]; [|intros [= <- <-]; by left].
  intros [?|[?|(? & ? & fr & b & ?)]]%merge_gif_try_cases; auto.
  right; right. repeat split; [done..|]. by exists d, fr, b.
Qed.

Lemma merge_gif_try_total hex ups d s :
  is_ok (merge_gif_try hex ups d s).1 = true.
Proof. by apply try_except_total. Qed.

Lemma merge_gif_total hex request s : is_ok (merge_gif hex request s).1 = true.
Proof.
  unfold merge_gif. destruct (negb _); [done|].
  destruct (md_getlist _ _); [done|].
  destruct (duration_of _); [apply merge_gif_try_total|done].
Qed.

(** The run of a batch whose named uploads are all accepted and decode. *)
Lemma merge_gif_frames hex request d fr s :
  md_in "files" (request_files request) = true ->
  duration_of (request_form request) = Some d ->
  all_allowed (md_getlist "files" (request_files request)) ->
  frames_of (md_getlist "files" (request_files request)) = Some fr ->
  merge_gif hex request s
  = if bool_decide (length fr < 2) then (Ok too_few, s) else write_gif hex fr d s.
Proof.
  intros Hin Hd Hal Hfr. rewrite (merge_gif_guards _ _ d), merge_gif_try_eq by done.
  by rewrite (collect_images_frames _ _ fr).
Qed.

(** The loop on a batch whose first bad upload comes after a good prefix. *)
Lemma collect_images_prefix pre file post fr :
  all_allowed pre -> frames_of pre = Some fr -> filename file <> "" ->
  collect_images (pre ++ file :: post) []
  = if allowed_file (filename file) then
      match decode (stream file) with
      | Some i => collect_images post (fr ++ [Imaging.convert RGBA i])
      | None => Raise (UnidentifiedImageError "<FileStorage>")
      end
    else Ok (inl (refused file)).
Proof.
  intros Hal Hfr Hn.
  by rewrite (collect_images_app _ _ _ fr), collect_images_cons by done.
Qed.

Lemma md_getlist_in {V} key (l : list (string * V)) v vs :
  md_getlist key l = v :: vs -> md_in key l = true.
Proof.
  unfold md_in, md_getlist. intros E. apply bool_decide_eq_true.
  assert (v ∈ snd <$> filter (fun kv => kv.1 = key) l) as Hv
    by (rewrite E; left).
  apply list_elem_of_fmap in Hv as ([k v'] & _ & [<- ?]%list_elem_of_filter).
  apply list_elem_of_fmap. by exists (k, v').
Qed.

(** The route on the uploads and the duration it reads. *)
Lemma merge_gif_run hex request ups d s :
  md_getlist "files" (request_files request) = ups -> ups <> [] ->
  duration_of (request_form request) = Some d ->
  merge_gif hex request s = merge_gif_try hex ups d s.
Proof.
  intros <- Hne Hd. apply merge_gif_guards; [|done].
  destruct (md_getlist _ _) as [|v vs] eqn:E; [done|]. by eapply md_getlist_in.
Qed.

End GifAnswers.

(** ** Theorems *)

Section GifTheorems.
Context `{Pillow} `{!Imageio}.
Implicit Types (file : FileStorage) (ups pre post : list FileStorage)
  (images fr : list Image) (s : fs) (d : float) (hex : string)
  (request : Request).

(** [/merge_gif] always answers: whatever the request and the file
    system, no exception leaves the handler. *)
Theorem merge_gif_never_raises hex request s :
  is_ok (merge_gif hex request s).1 = true.
Proof. apply merge_gif_total. Qed.

(** A batch whose named uploads all have an allowed name and all decode,
    at least two of them, is answered 200, and the animation written under
    [outputs/gif] is what [mimsave] encodes from the frames of the named
    uploads, converted to RGBA, in the order of the request, with the
    duration of the form. *)
Theorem merge_gif_success hex request d fr b s :
  md_in "files" (request_files request) = true ->
  duration_of (request_form request) = Some d ->
  all_allowed (md_getlist "files" (request_files request)) ->
  frames_of (md_getlist "files" (request_files request)) = Some fr ->
  2 <= length fr -> mimsave_bytes fr d = Ok b ->
  contains sep hex = false -> gif_ready hex s ->
  exists s', merge_gif hex request s = (Ok (merged hex), s') /\
             files s' = <[gif_path hex := b]> (files s).
Proof.
  intros Hin Hd Hal Hfr Hlen Hb Hh Hs.
  exists (put_file (gif_path hex) b (add_dirs (ancestors gif_dir) s)).
  split; [|done].
  rewrite (merge_gif_frames _ _ d fr), bool_decide_false by (done || lia).
  by apply write_gif_run.
Qed.

(** C17. An animation is never made of fewer than two frames, and never of
    part of a batch: when [/merge_gif] answers 200 every named upload was
    accepted and decoded, there were at least two, and the file written is
    the encoding of all of them. *)
Theorem merge_gif_200_inv hex request s r s' :
  merge_gif hex request s = (Ok r, s') -> status r = 200 ->
  all_allowed (md_getlist "files" (request_files request)) /\
  exists d fr b, duration_of (request_form request) = Some d /\
    frames_of (md_getlist "files" (request_files request)) = Some fr /\
    2 <= length fr /\ mimsave_bytes fr d = Ok b /\
    files s' = <[gif_path hex := b]> (files s).
Proof.
  intros [[E _]|[[E _]|(_ & Hal & d & fr & b & Hd & Hfr & Hlen & Hb & ->)]]
    %merge_gif_cases Hr; [congruence..|].
  split; [done|]. exists d, fr, b. repeat split; try done.
  simpl. by rewrite os_makedirs_files.
Qed.

(** A request that is not answered 200 leaves every file as it was: a
    refused or failed batch writes nothing. *)
Theorem merge_gif_failure_writes_nothing hex request s r s' :
  merge_gif hex request s = (Ok r, s') -> status r <> 200 -> files s' = files s.
Proof.
  intros [[_ ->]|[[_ [->| ->]]|[-> _]]]%merge_gif_cases Hr;
    [done..|apply os_makedirs_files|done].
Qed.

(** C32. The checks are interleaved with the decoding: an upload that does not
    decode is answered 500 although a later upload of the same batch has a
    name that is not allowed, which checked first would be answered 400. *)
Theorem merge_gif_decode_error_first hex request d pre file post fr s :
  md_getlist "files" (request_files request) = pre ++ file :: post ->
  duration_of (request_form request) = Some d ->
  all_allowed pre -> frames_of pre = Some fr ->
  filename file <> "" -> allowed_file (filename file) = true ->
  decode (stream file) = None ->
  merge_gif hex request s
  = (Ok (gif_failed (UnidentifiedImageError "<FileStorage>")), s).
Proof.
  intros Hups Hd Hal Hfr Hn Ha Hi.
  rewrite (merge_gif_run _ _ _ d s Hups), merge_gif_try_eq
    by (done || by destruct pre).
  by rewrite (collect_images_prefix _ _ _ fr), Ha, Hi.
Qed.

(** The first named upload whose name is not allowed, when those before
    it decode, is answered 400 with its name, and nothing is changed. *)
Theorem merge_gif_refused hex request d pre file post fr s :
  md_getlist "files" (request_files request) = pre ++ file :: post ->
  duration_of (request_form request) = Some d ->
  all_allowed pre -> frames_of pre = Some fr ->
  filename file <> "" -> allowed_file (filename file) = false ->
  merge_gif hex request s = (Ok (refused file), s).
Proof.
  intros Hups Hd Hal Hfr Hn Ha.
  rewrite (merge_gif_run _ _ _ d s Hups), merge_gif_try_eq
    by (done || by destruct pre).
  by rewrite (collect_images_prefix _ _ _ fr), Ha.
Qed.

(** A batch with fewer than two named uploads is answered 400 and
    nothing is written, also when the request holds more uploads whose
    names are empty. *)
Theorem merge_gif_too_few hex request d fr s :
  md_in "files" (request_files request) = true ->
  duration_of (request_form request) = Some d ->
  all_allowed (md_getlist "files" (request_files request)) ->
  frames_of (md_getlist "files" (request_files request)) = Some fr ->
  length fr < 2 ->
  merge_gif hex request s = (Ok too_few, s).
Proof.
  intros Hin Hd Hal Hfr Hlen.
  by rewrite (merge_gif_frames _ _ d fr), bool_decide_true.
Qed.

(** The loop is the reference: it ends normally with the frames [fr]
    exactly when every named upload has an allowed name and [frames_of]
    decodes the batch to [fr]. *)
Theorem collect_images_iff ups fr :
  collect_images ups [] = Ok (inr fr) <->
  all_allowed ups /\ frames_of ups = Some fr.
Proof.
  split.
  - intros (Hal & fr' & Hfr & ->)%collect_images_inr. done.
  - intros [Hal Hfr]. by rewrite (collect_images_frames _ _ fr).
Qed.

(** The test [if not files] of [/merge_gif] never fires: a multi-dict
    that has the key has a value under it. *)
Theorem md_getlist_nonempty {V} (key : string) (l : list (string * V)) :
  md_in key l = true -> md_getlist key l <> [].
Proof. intros (v & vs & ->)%md_getlist_cons. done. Qed.

(** C22. The duration is not checked.  With files in the request, the route
    answers that the duration is invalid exactly when [float] refuses the
    text of the form field: a number that is zero, negative, infinite or
    not a number is read like any other and goes on to [mimsave]. *)
Theorem merge_gif_duration_unchecked hex request s :
  md_in "files" (request_files request) = true ->
  merge_gif hex request s = (Ok bad_duration, s)
  <-> exists text, md_get "duration" (request_form request) = Some text /\
                   float_of_str text = None.
Proof.
  intros Hin. rewrite <- duration_of_None.
  destruct (duration_of (request_form request)) as [d|] eqn:Hd.
  - rewrite (merge_gif_guards _ _ d) by done.
    split; [|done]. by intros ?%merge_gif_try_not_bad_duration.
  - split; [done|intros _]. unfold merge_gif. rewrite Hin, Hd. simpl.
    by destruct (md_getlist_cons _ _ Hin) as (v & vs & ->).
Qed.

End GifTheorems.

(** ** Witnesses *)

Section GifWitnesses.
#[local] Existing Instance toy.
#[local] Existing Instance toy_imageio.

(** Hypotheses on a concrete request are settled by evaluation. *)
Ltac by_run := first [by vm_compute | by repeat constructor].

Definition toy_frames : Type := list (@Image toy).

Lemma merge_gif_success_witness :
  exists s', merge_gif "0f" (batch [frame1; unnamed; frame2] [("duration", "0.1")])
               empty_fs = (Ok (merged "0f"), s') /\
             files s' = <[gif_path "0f" := "G1e-1|aa|bb"%string]> (files empty_fs).
Proof.
  apply (merge_gif_success "0f" _ (Finite false 1 (-1))
           ([(RGBA, "aa"); (RGBA, "bb")]%string : toy_frames));
    by_run.
Defined.

Lemma merge_gif_duration_unchecked_witness :
  let request := batch [frame1; frame2] [("duration", "0,5")] in
  merge_gif "0f" request empty_fs = (Ok bad_duration, empty_fs)
  <-> exists text, md_get "duration" (request_form request) = Some text /\
                   float_of_str text = None.
Proof. by apply merge_gif_duration_unchecked. Defined.

Example merge_odd_durations :
  Forall (fun text =>
    status_of (merge_gif "0f" (batch [frame1; frame2] [("duration", text)]) empty_fs)
    = Some 200)
    ["0"; "-0.5"; "nan"; "inf"; "-inf"; "1e400"; " 1_0 "]%string.
Proof. repeat constructor. Qed.

Lemma merge_gif_200_inv_witness :
  let request := batch [frame1; frame2] [] in
  all_allowed (md_getlist "files" (request_files request)) /\
  exists d fr b, duration_of (request_form request) = Some d /\
    frames_of (md_getlist "files" (request_files request)) = Some fr /\
    2 <= length fr /\ mimsave_bytes fr d = Ok b /\
    files (merge_gif "0f" request empty_fs).2
    = <[gif_path "0f" := b]> (files empty_fs).
Proof.
  apply (merge_gif_200_inv "0f" (batch [frame1; frame2] []) empty_fs
           (merged "0f") (merge_gif "0f" (batch [frame1; frame2] []) empty_fs).2);
    by_run.
Defined.

Lemma merge_gif_failure_writes_nothing_witness :
  files (merge_gif "0f" (batch [frame1; broken] []) server_fs).2 = files server_fs.
Proof.
  apply (merge_gif_failure_writes_nothing "0f" (batch [frame1; broken] []) server_fs
           (gif_failed (UnidentifiedImageError "<FileStorage>")));
    by_run.
Defined.

Lemma merge_gif_decode_error_first_witness :
  merge_gif "0f" (batch [frame1; broken; script] []) empty_fs
  = (Ok (gif_failed (UnidentifiedImageError "<FileStorage>")), empty_fs).
Proof.
  apply (merge_gif_decode_error_first "0f" _ float_half
           [frame1] broken [script] ([(RGBA, "aa")]%string : toy_frames));
    by_run.
Defined.

Lemma merge_gif_refused_witness :
  merge_gif "0f" (batch [frame1; script; broken] []) empty_fs
  = (Ok (refused script), empty_fs).
Proof.
  apply (merge_gif_refused "0f" _ float_half
           [frame1] script [broken] ([(RGBA, "aa")]%string : toy_frames));
    by_run.
Defined.

Lemma merge_gif_too_few_witness :
  merge_gif "0f" (batch [unnamed; frame1; unnamed] []) empty_fs
  = (Ok too_few, empty_fs).
Proof.
  apply (merge_gif_too_few "0f" _ float_half
           ([(RGBA, "aa")]%string : toy_frames));
    by_run.
Defined.

Lemma md_getlist_nonempty_witness :
  md_getlist "files" (request_files (batch [unnamed] [])) <> [].
Proof. apply md_getlist_nonempty. by vm_compute. Defined.

End GifWitnesses.
