(* ===== verification/Server.v ===== *)
(** * Server: the web application as a state machine

    The state of the server is its file system; a step is one request
    served by one of the routes of [src/app.py], from the state the
    previous request left.  [reachable] are the states the server can be in
    after any sequence of requests from a fresh start, where the folders of
    the configuration have been created.

    The invariant [tidy] says what the routes leave behind: files only
    under the output folders, and no directory but those of the
    configuration and of the target formats.  In particular nothing stays
    in the upload folders between two requests, and in a reachable state no
    exception leaves a route: the way [/convert] can fail before its [try]
    needs a file named [outputs], which no request creates. *)

From S2P Require Import Prelude PyString PyFloat Classifier FileSys Imaging Converter.
From S2P Require Import WebApp WebGif.

Local Open Scope eff_scope.

(** ** Calls and reachable states *)

Inductive Call :=
| CallConvert (request : Request)
| CallMergeGif (hex : string) (request : Request)
| CallDwgToPdf (request : Request).

(** The folders the module creates when it is loaded. *)
Definition base_dirs : gset string :=
  {[ UPLOAD_FOLDER; DWG_FOLDER; OUTPUT_FOLDER; PDF_FOLDER ]}.

(** The folders the routes create: one per target format. *)
Definition format_dirs : gset string :=
  {[ "outputs/webp"; "outputs/png"; "outputs/jpg"; "outputs/gif" ]}%string.

(** The names of the folders of [outputs]: the target formats, and [pdf]. *)
Definition formats : list string := ["pdf"; "webp"; "png"; "jpg"; "gif"].

(** A path directly inside a folder of [outputs], that does not lead out of
    it again. *)
Definition under_outputs (p : string) : Prop :=
  exists d n, d ∈ formats /\ contains sep n = false /\ n <> ".." /\
              p = "outputs/" +:+ d +:+ "/" +:+ n.

(** The invariant, up to the files [X] a request has in flight. *)
Record tidy_except (X : gset string) (s : fs) : Prop := Tidy {
  tidy_files : forall p, is_Some (files s !! p) -> p ∈ X \/ under_outputs p;
  tidy_parents : forall p, is_Some (files s !! p) -> dirname p ∈ dirs s;
  tidy_base : base_dirs ⊆ dirs s;
  tidy_dirs : dirs s ⊆ base_dirs ∪ format_dirs
}.

Definition tidy : fs -> Prop := tidy_except ∅.

Section Server.
Context `{Pillow} `{!Imageio} `{Werkzeug}.

Definition serve (c : Call) : M Response :=
  match c with
  | CallConvert request => convert request
  | CallMergeGif hex request => merge_gif hex request
  | CallDwgToPdf request => dwg_to_pdf request
  end.

(** The sanitised name of an upload is not the name of the folder [dwg]
    inside the upload folder, and the text of [uuid.uuid4().hex] holds no
    separator. *)
Definition admissible (c : Call) : Prop :=
  match c with
  | CallConvert request =>
      forall file, md_get "file" (request_files request) = Some file ->
                   secure_filename (filename file) <> "dwg"
  | CallMergeGif hex _ => contains sep hex = false
  | CallDwgToPdf _ => True
  end.

Inductive reachable : fs -> Prop :=
| reachable_start : reachable (create_folders empty_fs).2
| reachable_serve c s :
    reachable s -> admissible c -> reachable (serve c s).2.

End Server.

(** ** Paths *)

Section ServerPaths.
Implicit Types (p x d n : string).

(** A name with an extension of two letters or more is not [".."]. *)
Lemma name_ext_not_up n e :
  1 < String.length e -> n +:+ String extsep e <> "..".
Proof.
  intros He E%(f_equal String.length). rewrite string_app_length in E.
  simpl in E. lia.
Qed.

Lemma formats_cases d :
  d ∈ formats <-> d = "pdf" \/ d = "webp" \/ d = "png" \/ d = "jpg" \/ d = "gif".
Proof. unfold formats. rewrite !elem_of_cons, elem_of_nil. tauto. Qed.

Lemma convert_types_formats ct : ct ∈ convert_types -> ct ∈ formats.
Proof. intros Hct%convert_types_cases. apply formats_cases. tauto. Qed.

Lemma under_outputs_not_uploads x : ~ under_outputs ("uploads" +:+ x).
Proof. by intros (d & n & _ & _ & _ & E). Qed.

Lemma under_outputs_sep x : under_outputs ("outputs/" +:+ x) -> contains sep x = true.
Proof.
  intros (d & n & _ & _ & _ & E). simplify_eq. rewrite contains_app. simpl.
  by rewrite orb_true_r.
Qed.

Lemma under_outputs_not_root : ~ under_outputs OUTPUT_FOLDER.
Proof.
  intros (d & n & _ & _ & _ & E). apply (f_equal String.length) in E.
  rewrite !string_app_length in E. simpl in E. lia.
Qed.

(** The folder of a path directly inside a folder of [outputs]. *)
Lemma dirname_shelf d n :
  d ∈ formats -> contains sep n = false ->
  dirname ("outputs/" +:+ d +:+ "/" +:+ n) = "outputs/" +:+ d /\
  basename ("outputs/" +:+ d +:+ "/" +:+ n) = n.
Proof.
  intros Hd%formats_cases Hn. unfold basename.
  destruct_or!; subst d;
    match goal with |- context [dirname (?o +:+ ?d +:+ _)] =>
      split; [by apply (dirname_dir_name (o +:+ d) n)
             |exact (f_equal snd (split_dir_app (o +:+ d) n Hn))]
    end.
Qed.

Lemma shelf_known d : d ∈ formats -> "outputs/" +:+ d ∈ base_dirs ∪ format_dirs.
Proof.
  intros Hd%formats_cases.
  destruct_or!; subst d; apply (bool_decide_unpack _); by vm_compute.
Qed.

Lemma under_outputs_not_dir x :
  contains sep x = false -> ~ under_outputs ("outputs/" +:+ x).
Proof. intros Hx Hu%under_outputs_sep. congruence. Qed.

Lemma under_outputs_gif hex :
  contains sep hex = false -> under_outputs (gif_path hex).
Proof.
  intros Hh. exists "gif"%string, (gif_filename hex).
  split; [apply formats_cases; tauto|].
  by repeat split; [apply gif_filename_no_sep|].
Qed.

Lemma known_dirs_eq :
  base_dirs ∪ format_dirs
  = {[ "uploads"; "uploads/dwg"; "outputs"; "outputs/pdf"; "outputs/webp";
       "outputs/png"; "outputs/jpg"; "outputs/gif" ]}%string.
Proof. set_solver. Qed.

(** No folder of the server is named like an upload. *)
Lemma upload_not_dir x :
  x <> "dwg"%string -> "uploads/" +:+ x ∉ base_dirs ∪ format_dirs.
Proof.
  intros Hx. rewrite known_dirs_eq, !elem_of_union, !elem_of_singleton.
  intros Hin. destruct_or!; try by simplify_eq.
  by apply (string_app_inj_l "uploads/" x "dwg") in Hin.
Qed.

Lemma dwg_upload_not_dir x : "uploads/dwg/" +:+ x ∉ base_dirs ∪ format_dirs.
Proof.
  rewrite known_dirs_eq, !elem_of_union, !elem_of_singleton.
  intros Hin. destruct_or!; by simplify_eq.
Qed.

End ServerPaths.

(** ** How the actions act on the invariant *)

Section TidyFacts.
Implicit Types (s : fs) (p : string) (X ps : gset string).

(** The parents of the files, when one file is written. *)
Lemma parents_put_file p b s :
  dirname p ∈ dirs s ->
  (forall q, is_Some (files s !! q) -> dirname q ∈ dirs s) ->
  forall q, is_Some (files (put_file p b s) !! q) -> dirname q ∈ dirs s.
Proof.
  intros Hp Hs q. simpl. destruct (decide (p = q)) as [->|Hne]; [done|].
  rewrite lookup_insert_ne by done. apply Hs.
Qed.

Lemma tidy_put_file X p b s :
  dirname p ∈ dirs s ->
  tidy_except X s -> tidy_except ({[ p ]} ∪ X) (put_file p b s).
Proof.
  intros Hp [Hf Hpa Hb Hd]. split; [|by apply parents_put_file|done..].
  intros q. simpl.
  destruct (decide (p = q)) as [->|Hne];
    [left; apply elem_of_union_l; by apply elem_of_singleton|].
  rewrite lookup_insert_ne by done.
  intros [?|?]%Hf; [left; by apply elem_of_union_r|by right].
Qed.

Lemma tidy_put_output X p b s :
  under_outputs p -> dirname p ∈ dirs s ->
  tidy_except X s -> tidy_except X (put_file p b s).
Proof.
  intros Hu Hp [Hf Hpa Hb Hd]. split; [|by apply parents_put_file|done..].
  intros q. simpl. destruct (decide (p = q)) as [->|Hne]; [by right|].
  rewrite lookup_insert_ne by done. apply Hf.
Qed.

Lemma tidy_del_file X p s :
  tidy_except ({[ p ]} ∪ X) s -> tidy_except X (del_file p s).
Proof.
  intros [Hf Hpa Hb Hd]. split; [| |done..]; intros q; simpl;
    (destruct (decide (p = q)) as [->|Hne];
       [rewrite lookup_delete_eq; by intros []|]);
    rewrite lookup_delete_ne by done; [|apply Hpa].
  intros [[?%elem_of_singleton|?]%elem_of_union|?]%Hf; by auto.
Qed.

Lemma tidy_add_dirs X ds s :
  list_to_set ds ⊆ base_dirs ∪ format_dirs ->
  tidy_except X s -> tidy_except X (add_dirs ds s).
Proof.
  intros Hds [Hf Hpa Hb Hd]. split; simpl; [done|..].
  - intros q Hq. apply elem_of_union_r. by apply Hpa.
  - by apply union_subseteq_r'.
  - by apply union_least.
Qed.

(** An action that writes only inside existing folders of [outputs] keeps
    the invariant. *)
Lemma tidy_touches {A} X ps (m : M A) s :
  touches ps m ->
  (forall p, p ∈ ps -> under_outputs p /\ dirname p ∈ dirs s) ->
  tidy_except X s -> tidy_except X (m s).2.
Proof.
  intros Hm Hps [Hf Hpa Hb Hd]. destruct (Hm s) as [Edirs Efiles].
  split; rewrite ?Edirs; [| |done..]; intros q Hq;
    (destruct (decide (q ∈ ps)) as [Hin|Hout];
       [try right; by apply Hps|]);
    [apply Hf|apply Hpa]; by rewrite <- Efiles.
Qed.

Lemma os_makedirs_state p s :
  (os_makedirs p s).2 = s \/ (os_makedirs p s).2 = add_dirs (ancestors p) s.
Proof.
  unfold os_makedirs. eff_unfold.
  destruct (list_find _ (ancestors p)) as [[]|]; auto.
Qed.

Lemma tidy_makedirs X p s :
  list_to_set (ancestors p) ⊆ base_dirs ∪ format_dirs ->
  tidy_except X s -> tidy_except X (os_makedirs p s).2.
Proof.
  intros Hp Hs. destruct (os_makedirs_state p s) as [-> | ->]; [done|].
  by apply tidy_add_dirs.
Qed.

(** In a tidy state a path outside [outputs] holds no file. *)
Lemma tidy_no_file p s : tidy s -> ~ under_outputs p -> is_file p s = false.
Proof.
  intros [Hf _ _ _] Hp. apply is_file_None.
  destruct (files s !! p) eqn:E; [|done].
  destruct (Hf p) as [?%not_elem_of_empty|?]; [by eexists|done..].
Qed.

Lemma tidy_is_dir p s : tidy s -> p ∈ base_dirs -> is_dir p s = true.
Proof. intros [_ _ Hb _] Hp. apply bool_decide_eq_true. by apply Hb. Qed.

Lemma tidy_not_dir p s :
  tidy s -> p ∉ base_dirs ∪ format_dirs -> is_dir p s = false.
Proof.
  intros [_ _ _ Hd] Hp. apply bool_decide_eq_false. intros Hin. by apply Hp, Hd.
Qed.

(** In a tidy state [os.makedirs] of a folder of [outputs] succeeds. *)
Lemma tidy_makedirs_ok d s :
  tidy s -> d ∈ formats ->
  os_makedirs ("outputs/" +:+ d) s
  = (Ok tt, add_dirs (ancestors ("outputs/" +:+ d)) s).
Proof.
  intros Hs Hd%formats_cases. apply os_makedirs_ok.
  destruct_or!; subst d; repeat constructor; (apply tidy_no_file; [done|]);
    (apply under_outputs_not_root || by apply under_outputs_not_dir).
Qed.

Lemma tidy_base_dir X p s : tidy_except X s -> p ∈ base_dirs -> p ∈ dirs s.
Proof. intros [_ _ Hb _] Hp. by apply Hb. Qed.

End TidyFacts.

(** ** The routes keep the invariant *)

Section ServerInvariant.
Context `{Pillow} `{!Imageio} `{Werkzeug}.
Implicit Types (s : fs) (file : FileStorage) (request : Request) (c : Call).

Lemma tidy_start : tidy (create_folders empty_fs).2.
Proof.
  assert ((create_folders empty_fs).2 = Fs ∅ base_dirs) as -> by (by vm_compute).
  split; simpl; [by intros p [x ?]..|done|apply union_subseteq_l].
Qed.

Lemma output_dir_known ct :
  ct ∈ convert_types ->
  list_to_set (ancestors (join OUTPUT_FOLDER ct)) ⊆@{gset string}
    base_dirs ∪ format_dirs.
Proof.
  intros Hct. rewrite known_dirs_eq. apply convert_types_cases in Hct.
  destruct_or!; subst ct; apply (bool_decide_unpack _); by vm_compute.
Qed.

Lemma gif_dir_known :
  list_to_set (ancestors gif_dir) ⊆@{gset string} base_dirs ∪ format_dirs.
Proof. rewrite known_dirs_eq. apply (bool_decide_unpack _). by vm_compute. Qed.

Lemma output_path_under_outputs file ct :
  ct ∈ convert_types ->
  under_outputs (output_path file ct) /\
  under_outputs (temp_png_path (output_path file ct)).
Proof.
  intros Hct. pose proof (output_name_no_sep file) as Hn.
  pose proof (output_name_contains file ct Hct) as Hc.
  unfold output_path, output_name in *.
  rewrite output_path_eq, temp_png_path_eq by done.
  assert (1 < String.length ct) as Hl.
  { apply convert_types_cases in Hct. destruct_or!; subst ct; simpl; lia. }
  pose proof (convert_types_formats ct Hct) as Hf.
  split.
  - exists ct, ((splitext (secure_filename (filename file))).1 +:+ "." +:+ ct).
    repeat split; [done..|by apply (name_ext_not_up _ ct)].
  - exists ct, ((splitext (secure_filename (filename file))).1 +:+ ".png").
    repeat split; [done|by rewrite contains_app, Hn|].
    apply (name_ext_not_up _ "png"). simpl. lia.
Qed.

(** The folder an upload is saved in. *)
Lemma dirname_upload_path file : dirname (upload_path file) = UPLOAD_FOLDER.
Proof. apply dirname_join; [done..|apply secure_filename_no_sep]. Qed.

Lemma dirname_dwg_path file : dirname (dwg_path file) = DWG_FOLDER.
Proof. apply dirname_join; [done..|apply secure_filename_no_sep]. Qed.

(** In a tidy state the folders are ready for any upload. *)
Lemma tidy_ready file ct s :
  tidy s -> secure_filename (filename file) <> "dwg" -> ct ∈ convert_types ->
  ready file ct s.
Proof.
  intros Hs Hname Hct. unfold ready, upload_path. rewrite input_path_eq.
  repeat split.
  - apply tidy_is_dir; [done|]. unfold base_dirs. set_unfold. auto.
  - by apply tidy_not_dir, upload_not_dir.
  - apply tidy_no_file; [done|apply under_outputs_not_root].
  - apply tidy_no_file; [done|]. rewrite output_dir_eq by done.
    apply under_outputs_not_dir. apply convert_types_cases in Hct.
    by destruct_or!; subst ct.
Qed.

Lemma convert_tidy request s :
  tidy s -> admissible (CallConvert request) ->
  tidy (convert request s).2 /\ is_ok (convert request s).1 = true.
Proof.
  intros Hs Hadm.
  destruct (convert_cases request s)
    as [(r & -> & _)|(file & ct & Hfile & Hname & Hct & Hin & Hal)]; [done|].
  rewrite (convert_guards _ file ct) by done.
  destruct (convert_accepted_run file ct s Hin Hal) as (e & _ & ->);
    [apply tidy_ready; [done|by apply Hadm|done]|].
  split; [|by destruct (conversion _ _ _ _).1]. cbn [snd].
  apply tidy_del_file.
  apply (tidy_touches _ _ _ _ (conversion_touches e file ct)).
  { intros p Hp. split.
    - apply elem_of_union in Hp as [->%elem_of_singleton| ->%elem_of_singleton];
        by apply output_path_under_outputs.
    - apply elem_of_union_l, elem_of_list_to_set.
      destruct (dirname_output_path file ct Hin) as [E1 E2].
      apply elem_of_union in Hp as [->%elem_of_singleton| ->%elem_of_singleton];
        rewrite ?E1, ?E2; apply elem_of_ancestors_self. }
  apply tidy_add_dirs, tidy_put_file; [by apply output_dir_known| |done].
  rewrite dirname_upload_path. apply (tidy_base_dir ∅); [done|].
  unfold base_dirs. set_unfold. auto.
Qed.

Lemma merge_gif_tidy hex request s :
  tidy s -> contains sep hex = false -> tidy (merge_gif hex request s).2.
Proof.
  intros Hs Hh. pose proof (merge_gif_total hex request s) as Hok.
  destruct (merge_gif hex request s) as [[r|e] s'] eqn:E; [|done]. cbn [snd].
  apply merge_gif_cases in E
    as [[_ ->]|[[_ [-> | ->]]|(_ & _ & d & fr & b & _ & _ & _ & _ & ->)]];
    [done..| |].
  - apply tidy_makedirs; [apply gif_dir_known|done].
  - apply tidy_put_output; [by apply under_outputs_gif| |].
    + rewrite dirname_gif_path by done. change gif_dir with ("outputs/" +:+ "gif").
      rewrite tidy_makedirs_ok by (done || apply formats_cases; tauto).
      apply elem_of_union_l, elem_of_list_to_set, elem_of_ancestors_self.
    + apply tidy_makedirs; [apply gif_dir_known|done].
Qed.

Lemma dwg_to_pdf_tidy request s :
  tidy s -> tidy (dwg_to_pdf request s).2 /\ is_ok (dwg_to_pdf request s).1 = true.
Proof.
  intros Hs.
  destruct (dwg_to_pdf_cases request s)
    as [(r & -> & _)|(file & Hfile & Hname & Hdwg)]; [done|].
  rewrite (dwg_to_pdf_guards _ file), dwg_to_pdf_accepted_run; try done.
  - split; [|done]. apply tidy_del_file, tidy_put_file; [|done].
    rewrite dirname_dwg_path. apply (tidy_base_dir ∅); [done|].
    unfold base_dirs. set_unfold. auto.
  - apply tidy_is_dir; [done|]. unfold base_dirs. set_unfold. auto.
  - apply tidy_not_dir; [done|]. unfold dwg_path.
    rewrite join_dir_name by (done || apply secure_filename_no_sep).
    apply (dwg_upload_not_dir (secure_filename (filename file))).
Qed.

(** Every route keeps the invariant and answers. *)
Lemma serve_tidy c s :
  tidy s -> admissible c -> tidy (serve c s).2 /\ is_ok (serve c s).1 = true.
Proof.
  intros Hs Hadm. destruct c as [request|hex request|request]; simpl.
  - by apply convert_tidy.
  - split; [by apply merge_gif_tidy|apply merge_gif_total].
  - by apply dwg_to_pdf_tidy.
Qed.

Lemma reachable_inv s : reachable s -> tidy s.
Proof.
  induction 1 as [|c s _ IH Hadm]; [apply tidy_start|].
  by apply serve_tidy.
Qed.

End ServerInvariant.

(** ** Theorems *)

Section ServerTheorems.
Context `{Pillow} `{!Imageio} `{Werkzeug}.
Implicit Types (s : fs) (c : Call).

(** C6. The invariant of the server.  After any sequence of requests from a
    fresh start, every file is directly inside a folder of [outputs] named
    after a format, and that folder exists (so the upload folders are
    empty: no upload outlives its request); the four folders of the
    configuration exist, and the only other folders are those of the
    target formats. *)
Theorem reachable_tidy s :
  reachable s ->
  (forall p, is_Some (files s !! p) -> under_outputs p /\ dirname p ∈ dirs s) /\
  (forall p, startswith "uploads" p = true -> files s !! p = None) /\
  base_dirs ⊆ dirs s /\ dirs s ⊆ base_dirs ∪ format_dirs.
Proof.
  intros Hs%reachable_inv. pose proof Hs as [Hf Hpa Hb Hd].
  split; [|split; [|done]].
  - intros p Hp. split; [|by apply Hpa].
    by destruct (Hf p Hp) as [?%not_elem_of_empty|?].
  - intros p (x & ->)%startswith_inv. apply is_file_None.
    apply tidy_no_file; [done|apply under_outputs_not_uploads].
Qed.

(** In a reachable state no exception leaves a route: whatever the
    request, [/convert], [/merge_gif] and [/dwgtopdf] answer.  The failure
    of [os.makedirs] before the [try] of [/convert] needs a file named
    [outputs], and no sequence of requests creates one. *)
Theorem reachable_always_answers c s :
  reachable s -> admissible c -> is_ok (serve c s).1 = true.
Proof. intros Hs%reachable_inv Hadm. by apply serve_tidy. Qed.

End ServerTheorems.

(** ** Witnesses *)

Section ServerWitnesses.
#[local] Existing Instance toy.
#[local] Existing Instance toy_imageio.
#[local] Existing Instance toy_werkzeug.

(** A failed conversion to [jpg], then a successful one to [webp]. *)
Definition two_requests : fs :=
  (serve (CallConvert (upload "Cat.PNG" "P4pixels" "webp"))
     (serve (CallConvert (upload "logo.svg" "<svg/>" "jpg")) server_fs).2).2.

Lemma upload_admissible name content ct :
  toy_secure_filename name <> "dwg"%string ->
  admissible (CallConvert (upload name content ct)).
Proof. intros Hn file [= <-]. exact Hn. Qed.

Lemma two_requests_reachable : reachable two_requests.
Proof. repeat (apply reachable_serve; [|by apply upload_admissible]). apply reachable_start. Qed.

Lemma reachable_tidy_witness :
  (forall p, is_Some (files two_requests !! p) ->
             under_outputs p /\ dirname p ∈ dirs two_requests) /\
  (forall p, startswith "uploads" p = true -> files two_requests !! p = None) /\
  base_dirs ⊆ dirs two_requests /\ dirs two_requests ⊆ base_dirs ∪ format_dirs.
Proof. apply reachable_tidy, two_requests_reachable. Defined.

Lemma reachable_always_answers_witness :
  is_ok (serve (CallDwgToPdf (upload "plan.dwg" "AC1027" "")) two_requests).1 = true.
Proof. apply reachable_always_answers; [apply two_requests_reachable|done]. Defined.

Example two_requests_files :
  map_to_list (files two_requests)
  = [("outputs/webp/Cat.webp", "W4pixels"); ("outputs/jpg/logo.png", "P4svg/>")]%string.
Proof. by vm_compute. Qed.

End ServerWitnesses.
