(* ===== verification/Listing.v ===== *)
(** * Listing: the routes of [src/app.py] that only read

    [index] (route [/]) walks the folders of [outputs] and gives the
    template the paths of what it finds, relative to [outputs];
    [download_file] (route [/download/<format>/<filename>]) sends one file
    of a folder of [outputs] back.

    Flask is the class [Flask]: [safe_join], with what it does on a path
    of one component (the URL converter of the route matches no
    separator).  [send_from_directory] is written after Flask's: the
    joined path, [NotFound] unless it is a file, the file as an
    attachment otherwise.  Flask resolves the folder against the
    directory of [app.py] and the routes that write resolve theirs
    against the working directory; the model has one root for both.

    The order of [os.listdir] is that of the model's finite maps; the
    theorems speak of membership only.

    On the reachable states of [Server] the list of [index] is exactly the
    files of the server, and every entry of it can be downloaded. *)

From S2P Require Import Prelude PyString Classifier FileSys Imaging Converter.
From S2P Require Import WebApp WebGif Server.

Local Open Scope eff_scope.

(** ** flask *)

(** What [render_template('index.html', converted_files=...)] is given. *)
Inductive Page := index_html (converted_files : list string).

(** What [send_from_directory] answers: the file as an attachment, or the
    [NotFound] that Flask turns into the status 404. *)
Inductive Download :=
| attachment (download_name : string) (content : bytes)
| NotFound.

#[export] Instance Download_eq_dec : EqDecision Download.
Proof. solve_decision. Defined.

Class Flask := {
  (** [werkzeug.security.safe_join(directory, path)] *)
  safe_join : string -> string -> option string;
  (** a path of one component is joined to the directory, *)
  safe_join_name : forall d n,
    contains sep n = false -> n <> ".." -> safe_join d n = Some (join d n);
  (** unless it is the parent *)
  safe_join_up : forall d, safe_join d ".." = None
}.

Section ReadRoutes.
Context `{Flask}.

(** [send_from_directory(directory, path, as_attachment=True)] *)
Definition send_from_directory (directory path : string) : M Download :=
  match safe_join directory path with
  | None => ret NotFound
  | Some path =>
      b <- os_path_isfile path ;;
      if negb b then ret NotFound
      else
        content <- read_file path ;;
        ret (attachment (basename path) content)
  end.

(** ** [/] *)

(** One turn of the outer loop: the inner loop appends the files of one
    folder. *)
Definition index_subdir (all_files : list string) (subdir : string)
    : M (list string) :=
  let subdir_path := join OUTPUT_FOLDER subdir in
  b <- os_path_isdir subdir_path ;;
  if b then
    names <- os_listdir subdir_path ;;
    ret (all_files ++ ((fun file => subdir +:+ "/" +:+ file) <$> names))
  else ret all_files.

(** [for subdir in os.listdir(OUTPUT_FOLDER): ...] *)
Fixpoint index_loop (subdirs : list string) (all_files : list string)
    : M (list string) :=
  match subdirs with
  | [] => ret all_files
  | subdir :: subdirs =>
      all_files <- index_subdir all_files subdir ;;
      index_loop subdirs all_files
  end.

Definition index : M Page :=
  subdirs <- os_listdir OUTPUT_FOLDER ;;
  all_files <- index_loop subdirs [] ;;
  ret (index_html all_files).

(** ** [/download/<format>/<filename>] *)

Definition download_file (format filename : string) : M Download :=
  let folder := join OUTPUT_FOLDER format in
  send_from_directory folder filename.

End ReadRoutes.

(** ** What the list should be *)

(** The entries of one folder of [outputs]. *)
Definition shelf (s : fs) (subdir : string) : list string :=
  if is_dir (join OUTPUT_FOLDER subdir) s
  then (fun file => subdir +:+ "/" +:+ file) <$> children (join OUTPUT_FOLDER subdir) s
  else [].

Definition listing (s : fs) : list string :=
  children OUTPUT_FOLDER s ≫= shelf s.

(** ** Runs on the executable instance *)

Definition toy_safe_join (d n : string) : option string :=
  if contains sep n || bool_decide (n = "..") then None else Some (join d n).

Lemma toy_safe_join_name d n :
  contains sep n = false -> n <> ".."%string -> toy_safe_join d n = Some (join d n).
Proof. intros Hn Hu. unfold toy_safe_join. by rewrite Hn, bool_decide_false. Qed.

Definition toy_flask : Flask := {|
  safe_join := toy_safe_join;
  safe_join_name := toy_safe_join_name;
  safe_join_up := fun _ => eq_refl
|}.

Section ListingTests.
#[local] Existing Instance toy.
#[local] Existing Instance toy_imageio.
#[local] Existing Instance toy_werkzeug.
#[local] Existing Instance toy_flask.

Example run_index_fresh : (index server_fs).1 = Ok (index_html []).
Proof. by vm_compute. Qed.

Example run_index : (index two_requests).1 = Ok (index_html ["webp/Cat.webp"; "jpg/logo.png"]).
Proof. by vm_compute. Qed.

Example run_index_no_outputs :
  (index empty_fs).1 = Raise (FileNotFoundError "outputs").
Proof. by vm_compute. Qed.

Example run_download :
  (download_file "webp" "Cat.webp" two_requests).1 = Ok (attachment "Cat.webp" "W4pixels").
Proof. by vm_compute. Qed.

Example run_download_missing :
  (download_file "png" "Cat.png" two_requests).1 = Ok NotFound.
Proof. by vm_compute. Qed.

Example run_download_up :
  (download_file "png" ".." two_requests).1 = Ok NotFound.
Proof. by vm_compute. Qed.

End ListingTests.

(** ** The loop of [index] *)

Section IndexRuns.
Context `{Flask}.
Implicit Types (s : fs) (subdir file x : string) (subdirs all_files : list string).

Lemma index_subdir_run all_files subdir s :
  index_subdir all_files subdir s = (Ok (all_files ++ shelf s subdir), s).
Proof.
  unfold index_subdir, shelf, os_path_isdir. eff_unfold.
  destruct (is_dir _ s) eqn:Hd; [by rewrite Hd|by rewrite app_nil_r].
Qed.

Lemma index_loop_run subdirs all_files s :
  index_loop subdirs all_files s
  = (Ok (all_files ++ (subdirs ≫= shelf s)), s).
Proof.
  revert all_files. induction subdirs as [|subdir subdirs IH]; intros all_files.
  - by rewrite app_nil_r.
  - simpl. rewrite (bind_ok _ _ _ _ _ (index_subdir_run _ _ _)), IH.
    by rewrite <- app_assoc.
Qed.

(** Where [outputs] is a folder, [index] returns the list of its folders'
    entries and changes nothing. *)
Lemma index_run s :
  is_dir OUTPUT_FOLDER s = true -> index s = (Ok (index_html (listing s)), s).
Proof.
  intros Hd. unfold index.
  rewrite (bind_ok _ _ _ _ _ (os_listdir_ok _ _ Hd)).
  by rewrite (bind_ok _ _ _ _ _ (index_loop_run _ _ _)).
Qed.

(** [index] only reads, whether it returns or raises. *)
Lemma index_reads s : exists o, index s = (o, s).
Proof.
  destruct (is_dir OUTPUT_FOLDER s) eqn:Hd; [rewrite index_run by done; by eexists|].
  unfold index, os_listdir. eff_unfold. rewrite Hd.
  destruct (is_file OUTPUT_FOLDER s); by eexists.
Qed.

Lemma elem_of_listing x s :
  x ∈ listing s <->
  exists subdir file,
    x = subdir +:+ "/" +:+ file /\ subdir ∈ children OUTPUT_FOLDER s /\
    is_dir (join OUTPUT_FOLDER subdir) s = true /\
    file ∈ children (join OUTPUT_FOLDER subdir) s.
Proof.
  unfold listing. rewrite list_elem_of_bind. split.
  - intros (subdir & Hx & Hs). unfold shelf in Hx.
    destruct (is_dir _ s) eqn:Hd; [|by apply elem_of_nil in Hx].
    apply list_elem_of_fmap in Hx as (file & -> & Hf). by exists subdir, file.
  - intros (subdir & file & -> & Hs & Hd & Hf). exists subdir. split; [|done].
    unfold shelf. rewrite Hd. apply list_elem_of_fmap. by exists file.
Qed.

(** ** [download_file] *)

Lemma send_from_directory_total directory path s :
  exists r, send_from_directory directory path s = (Ok r, s).
Proof.
  unfold send_from_directory, os_path_isfile.
  destruct (safe_join directory path) as [p|]; [|by eexists].
  eff_unfold. destruct (is_file p s) eqn:Hf; [|by eexists]. simpl.
  apply bool_decide_eq_true in Hf as [b Hb]. rewrite Hb. by eexists.
Qed.

Lemma send_from_directory_file d n b s :
  d <> EmptyString -> rstrip sep d = d -> contains sep n = false -> n <> ".."%string ->
  files s !! (d +:+ String sep n) = Some b ->
  send_from_directory d n s = (Ok (attachment n b), s).
Proof.
  intros Hd Hr Hn Hu Hb. unfold send_from_directory, os_path_isfile.
  rewrite safe_join_name, join_dir_name by done. eff_unfold.
  rewrite (is_file_Some _ _ _ Hb). simpl. rewrite Hb. unfold basename.
  by rewrite split_dir_app.
Qed.

Lemma send_from_directory_missing d n s :
  d <> EmptyString -> rstrip sep d = d -> contains sep n = false ->
  files s !! (d +:+ String sep n) = None ->
  send_from_directory d n s = (Ok NotFound, s).
Proof.
  intros Hd Hr Hn Hb. unfold send_from_directory, os_path_isfile.
  destruct (decide (n = ".."%string)) as [->|Hu]; [by rewrite safe_join_up|].
  rewrite safe_join_name, join_dir_name by done. eff_unfold.
  by rewrite (proj1 (is_file_None _ _) Hb).
Qed.

End IndexRuns.

(** ** The folders of [outputs] *)

Section Shelves.
Implicit Types (s : fs) (d n q x : string).

Lemma join_outputs d : d ∈ formats -> join OUTPUT_FOLDER d = "outputs/" +:+ d.
Proof. intros Hd%formats_cases. by destruct_or!; subst d. Qed.

(** A folder of the server that lies directly inside [outputs] is named
    after a format. *)
Lemma shelf_of_dir q :
  q ∈ base_dirs ∪ format_dirs -> dirname q = OUTPUT_FOLDER ->
  exists d, d ∈ formats /\ q = "outputs/" +:+ d /\ basename q = d.
Proof.
  rewrite known_dirs_eq, !elem_of_union, !elem_of_singleton.
  intros Hq Hd. destruct_or!; subst q; try (by vm_compute in Hd);
    (eexists; split; [|split; [reflexivity|]]; [|by vm_compute]);
    apply formats_cases; tauto.
Qed.

Lemma dir_of_shelf d :
  d ∈ formats ->
  dirname ("outputs/" +:+ d) = OUTPUT_FOLDER /\ basename ("outputs/" +:+ d) = d.
Proof. intros Hd%formats_cases. by destruct_or!; subst d. Qed.

(** No folder of the server lies inside a folder of [outputs]. *)
Lemma no_dir_in_shelf q d :
  q ∈ base_dirs ∪ format_dirs -> d ∈ formats -> dirname q <> "outputs/" +:+ d.
Proof.
  rewrite known_dirs_eq, !elem_of_union, !elem_of_singleton.
  intros Hq Hd%formats_cases. destruct_or!; subst q d; by vm_compute.
Qed.

Lemma shelf_inj d d' : d ∈ formats -> "outputs/" +:+ d = "outputs/" +:+ d' -> d = d'.
Proof. intros _ E. by simplify_eq/=. Qed.

(** What [os.listdir(OUTPUT_FOLDER)] returns on a tidy file system. *)
Lemma tidy_children_outputs s d :
  tidy s ->
  d ∈ children OUTPUT_FOLDER s <-> d ∈ formats /\ "outputs/" +:+ d ∈ dirs s.
Proof.
  intros [Hf _ _ Hk]. rewrite elem_of_children. split.
  - intros (q & [Hq|Hq] & Hd & Hb).
    + destruct (Hf q Hq) as [?%not_elem_of_empty|(d' & n & Hd' & Hn & _ & ->)];
        [done|].
      rewrite (proj1 (dirname_shelf d' n Hd' Hn)) in Hd. by simplify_eq/=.
    + destruct (shelf_of_dir q (Hk q Hq) Hd) as (d' & ? & -> & E).
      rewrite E in Hb. by subst d'.
  - intros [Hd Hq]. exists ("outputs/" +:+ d).
    split; [by right|by apply dir_of_shelf].
Qed.

(** What [os.listdir] returns for a folder of [outputs]. *)
Lemma tidy_children_shelf s d n :
  tidy s -> d ∈ formats ->
  n ∈ children ("outputs/" +:+ d) s <->
  contains sep n = false /\ is_Some (files s !! ("outputs/" +:+ d +:+ "/" +:+ n)).
Proof.
  intros [Hf _ _ Hk] Hd. rewrite elem_of_children. split.
  - intros (q & [Hq|Hq] & Eq & Hb).
    + destruct (Hf q Hq) as [?%not_elem_of_empty|(d' & n' & Hd' & Hn & _ & ->)];
        [done|].
      destruct (dirname_shelf d' n' Hd' Hn) as [E1 E2].
      rewrite E1 in Eq. rewrite E2 in Hb. apply shelf_inj in Eq; [|done].
      by subst.
    + by destruct (no_dir_in_shelf q d (Hk q Hq) Hd).
  - intros [Hn Hq]. exists ("outputs/" +:+ d +:+ "/" +:+ n).
    split; [by left|by apply dirname_shelf].
Qed.

(** On a tidy file system the list of [index] is the files of the server,
    each by its path from [outputs]. *)
Lemma tidy_listing s x :
  tidy s -> x ∈ listing s <-> is_Some (files s !! ("outputs/" +:+ x)).
Proof.
  intros Hs. rewrite elem_of_listing. split.
  - intros (d & n & -> & [Hd _]%tidy_children_outputs & _ & Hn); [|done].
    rewrite join_outputs in Hn by done.
    by apply tidy_children_shelf in Hn as [_ Hn].
  - intros Hx. pose proof Hs as [Hf Hp _ _].
    destruct (Hf _ Hx) as [?%not_elem_of_empty|(d & n & Hd & Hn & _ & E)];
      [done|].
    assert (x = d +:+ "/" +:+ n) as -> by (by simplify_eq/=).
    specialize (Hp _ Hx). rewrite (proj1 (dirname_shelf d n Hd Hn)) in Hp.
    exists d, n. rewrite join_outputs by done.
    repeat split; [by apply tidy_children_outputs|by apply bool_decide_eq_true|].
    by apply tidy_children_shelf.
Qed.

End Shelves.

(** ** Downloads *)

Section Downloads.
Context `{Flask}.
Implicit Types (s : fs) (d n : string).

Lemma download_file_run d n b s :
  d ∈ formats -> contains sep n = false -> n <> ".."%string ->
  files s !! ("outputs/" +:+ d +:+ "/" +:+ n) = Some b ->
  download_file d n s = (Ok (attachment n b), s).
Proof.
  intros Hd Hn Hu Hb. unfold download_file. cbv zeta. rewrite join_outputs by done.
  apply formats_cases in Hd.
  destruct_or!; subst d;
    match goal with |- context [send_from_directory (?o +:+ ?d)] =>
      by apply (send_from_directory_file (o +:+ d) n)
    end.
Qed.

Lemma download_file_missing d n s :
  d ∈ formats -> contains sep n = false ->
  files s !! ("outputs/" +:+ d +:+ "/" +:+ n) = None ->
  download_file d n s = (Ok NotFound, s).
Proof.
  intros Hd Hn Hb. unfold download_file. cbv zeta. rewrite join_outputs by done.
  apply formats_cases in Hd.
  destruct_or!; subst d;
    match goal with |- context [send_from_directory (?o +:+ ?d)] =>
      by apply (send_from_directory_missing (o +:+ d) n)
    end.
Qed.

End Downloads.

(** ** The link of an answer of [/convert] *)

Section Links.
Context `{Pillow} `{!Imageio} `{Werkzeug} `{Flask}.

(** The file the answer 200 of [/convert] names is there to download,
    but for an SVG converted to ["png"]. *)
Lemma convert_link request file ct s s' :
  reachable s -> admissible (CallConvert request) ->
  md_get "file" (request_files request) = Some file ->
  md_get "convert_type" (request_form request) = Some ct ->
  convert request s = (Ok (converted file ct), s') ->
  let link := download_file ct (output_name file ct) s' in
  if bool_decide (ext_of_filename (filename file) = Some "svg" /\ ct = "png")
  then link = (Ok NotFound, s')
  else exists b, link = (Ok (attachment (output_name file ct) b), s').
Proof.
  intros Hs%reachable_inv Hadm Hfile Hct Hrun link. subst link.
  destruct (convert_cases request s)
    as [(r & E & Hr)|(file' & ct' & Hfile' & Hname & Hct' & Hin & Hal)];
    [rewrite E in Hrun; by injection Hrun as -> _|].
  rewrite Hfile in Hfile'. rewrite Hct in Hct'. simplify_eq.
  rewrite (convert_guards _ file' ct') in Hrun by done.
  apply convert_200_output in Hrun;
    [|done..|apply tidy_ready; [done|by apply Hadm|done]].
  pose proof (output_name_contains file' ct' Hin) as Hn.
  rewrite output_path_under, output_dir_eq in Hrun by done.
  pose proof (convert_types_formats ct' Hin) as Hf.
  case_bool_decide; [by apply download_file_missing|].
  destruct Hrun as [b Hb]. exists b. apply download_file_run; [done..| |done].
  unfold output_name in *. apply (name_ext_not_up _ ct').
  apply convert_types_cases in Hin. destruct_or!; subst ct'; simpl; lia.
Qed.

(** An answer 200 of [/convert] is the answer for the file and the type
    of the request. *)
Lemma convert_200 request r s s' :
  reachable s -> admissible (CallConvert request) ->
  convert request s = (Ok r, s') -> status r = 200 ->
  exists file ct,
    md_get "file" (request_files request) = Some file /\
    md_get "convert_type" (request_form request) = Some ct /\
    ct ∈ convert_types /\ r = converted file ct.
Proof.
  intros Hs%reachable_inv Hadm Hrun Hr.
  destruct (convert_cases request s)
    as [(r' & E & Hr')|(file & ct & Hfile & Hname & Hct & Hin & Hal)].
  - rewrite E in Hrun. injection Hrun as <- _. congruence.
  - exists file, ct. repeat split; try done.
    rewrite (convert_guards _ file ct) in Hrun by done.
    destruct (convert_accepted_run file ct s Hin Hal) as (e & _ & E);
      [apply tidy_ready; [done|by apply Hadm|done]|].
    rewrite E in Hrun. injection Hrun as <- _.
    by destruct (conversion e file ct (prepared file ct s)).1.
Qed.

Lemma output_name_nonempty file ct : output_name file ct <> EmptyString.
Proof.
  unfold output_name. intros E%(f_equal String.length).
  rewrite string_app_length in E. simpl in E. lia.
Qed.

End Links.

(** ** Theorems *)

Section ListingTheorems.
Context `{Pillow} `{!Imageio} `{Werkzeug} `{Flask}.
Implicit Types (s : fs) (x d n : string) (l : list string).

(** C23. The list of [index] is the files of the server.  After any sequence
    of requests from a fresh start, [index] returns, changes nothing, and
    the paths it gives the template are exactly the paths, from [outputs],
    of the files the server holds. *)
Theorem index_lists_files s :
  reachable s ->
  exists l, index s = (Ok (index_html l), s) /\
            forall x, x ∈ l <-> is_Some (files s !! ("outputs/" +:+ x)).
Proof.
  intros Hs%reachable_inv. exists (listing s). split.
  - apply index_run, tidy_is_dir; [done|]. unfold base_dirs. set_unfold. auto.
  - intros x. by apply tidy_listing.
Qed.

(** C25. Every entry of the list can be downloaded.  In a reachable state an
    entry of the list of [index] is a folder and a name, and
    [download_file] of the two answers the file at that path as an
    attachment of that name, and changes nothing. *)
Theorem index_download_roundtrip s l x :
  reachable s -> (index s).1 = Ok (index_html l) -> x ∈ l ->
  exists d n b,
    x = d +:+ "/" +:+ n /\ files s !! ("outputs/" +:+ x) = Some b /\
    download_file d n s = (Ok (attachment n b), s).
Proof.
  intros Hs%reachable_inv Hl. rewrite index_run in Hl
    by (apply tidy_is_dir; [done|]; unfold base_dirs; set_unfold; auto).
  injection Hl as <-. intros [b Hb]%tidy_listing; [|done].
  destruct Hs as [Hf _ _ _].
  destruct (Hf _ (mk_is_Some _ _ Hb))
    as [?%not_elem_of_empty|(d & n & Hd & Hn & Hu & E)]; [done|].
  assert (x = d +:+ "/" +:+ n) as -> by (by simplify_eq/=).
  exists d, n, b. repeat split; [done|]. by apply download_file_run.
Qed.

(** [download_file] answers every request and writes nothing: whatever
    the folder and the name asked for, and whatever [safe_join] makes of
    them, the result is an attachment or [NotFound], in the state the
    request found. *)
Theorem download_file_total format filename s :
  exists r, download_file format filename s = (Ok r, s).
Proof. apply send_from_directory_total. Qed.

(** What the link of a 200 answer leads to.  In a reachable state, when
    [/convert] answers 200 for an upload, [download_file] of the folder and
    the name in the answer's [download_url] sends the converted file,
    unless the upload was an SVG converted to ["png"]: then the link
    answers [NotFound]. *)
Theorem convert_link_downloads request file ct s s' :
  reachable s -> admissible (CallConvert request) ->
  md_get "file" (request_files request) = Some file ->
  md_get "convert_type" (request_form request) = Some ct ->
  convert request s = (Ok (converted file ct), s') ->
  let link := download_file ct (output_name file ct) s' in
  if bool_decide (ext_of_filename (filename file) = Some "svg" /\ ct = "png")
  then link = (Ok NotFound, s')
  else exists b, link = (Ok (attachment (output_name file ct) b), s').
Proof. apply convert_link. Qed.

(** [index] needs the folder [outputs]: without it the exception of
    [os.listdir] leaves the route. *)
Theorem index_needs_outputs s :
  is_dir OUTPUT_FOLDER s = false -> is_ok (index s).1 = false.
Proof.
  intros Hd. unfold index, os_listdir. eff_unfold. rewrite Hd.
  by destruct (is_file OUTPUT_FOLDER s).
Qed.

End ListingTheorems.

(** ** Witnesses *)

Section ListingWitnesses.
#[local] Existing Instance toy.
#[local] Existing Instance toy_imageio.
#[local] Existing Instance toy_werkzeug.
#[local] Existing Instance toy_flask.

Lemma index_lists_files_witness :
  exists l, index two_requests = (Ok (index_html l), two_requests) /\
            forall x, x ∈ l <-> is_Some (files two_requests !! ("outputs/" +:+ x)).
Proof. apply index_lists_files, two_requests_reachable. Defined.

Lemma index_download_roundtrip_witness :
  exists d n b,
    "jpg/logo.png"%string = d +:+ "/" +:+ n /\
    files two_requests !! ("outputs/" +:+ "jpg/logo.png") = Some b /\
    download_file d n two_requests = (Ok (attachment n b), two_requests).
Proof.
  apply (index_download_roundtrip _ ["webp/Cat.webp"; "jpg/logo.png"]%string);
    [apply two_requests_reachable|by vm_compute|].
  apply (bool_decide_unpack _). by vm_compute.
Defined.

(** The link of an SVG converted to ["png"] leads nowhere. *)
Lemma convert_link_downloads_witness :
  let request := upload "logo.svg" "<svg/>" "png" in
  let file := {| filename := "logo.svg"; stream := "<svg/>" |} in
  let s' := (convert request server_fs).2 in
  let link := download_file "png" (output_name file "png") s' in
  if bool_decide (ext_of_filename (filename file) = Some "svg" /\ "png" = "png")
  then link = (Ok NotFound, s')
  else exists b, link = (Ok (attachment (output_name file "png") b), s').
Proof.
  intros request file s'.
  apply (convert_link_downloads request file "png" server_fs);
    [apply reachable_start|by apply upload_admissible|done..|by vm_compute].
Defined.

Lemma index_needs_outputs_witness : is_ok (index empty_fs).1 = false.
Proof. by apply index_needs_outputs. Defined.

End ListingWitnesses.
