(* ===== verification/Routes.v ===== *)
(** * Routes: the Flask application of [src/app.py]

    The decorators [@app.route] of [app.py] register five rules, and
    [app.config['MAX_CONTENT_LENGTH']] bounds the body of a request.
    [wsgi_app] is what the application does with one HTTP request: match
    the path against the rules (Werkzeug's [Map]), answer 404 or 405, or
    call the view of the rule with the arguments of the path, and turn an
    exception that leaves the view into the status 500.

    A rule is a list of parts, the texts between the slashes of the
    pattern; [<name>] is Werkzeug's string converter, which takes any text
    without a slash that is not empty.  Flask adds [HEAD] to a rule with
    [GET] and [OPTIONS] to every rule.  A view that reads [request.files],
    as the three views with [POST] do in their first line, raises
    [RequestEntityTooLarge] (413) when the body is longer than
    [MAX_CONTENT_LENGTH].

    The path of a request is the decoded path of its URL, without a query;
    Werkzeug matches it with the slashes it starts with made one.  A
    doubled slash further on, which Werkzeug answers with a redirect to the
    path without it when that path has a rule, is not modelled: such a
    path has no rule here.  The rule [/static/<path:filename>] that Flask
    adds by itself is left out: the repository has no static folder.

    [run] is [app.run]: the requests are served one after another, each in
    the state the one before left.  The requests of the threaded server
    that overlap are the subject of [Interleave] and [Pool].

    [call_of] is the table of the requests that reach a route of [Server];
    the theorems show that [wsgi_app] serves exactly those, that a body
    over the bound is refused before a route sees it, that the link of an
    answer of [/convert] leads back to the converted file, and that
    [download_file] can be made to read beside the folder [outputs]. *)

From S2P Require Import Prelude PyString PyFloat Classifier FileSys Imaging Converter.
From S2P Require Import WebApp WebGif Server Listing.

Local Open Scope eff_scope.

(** ** Requests and responses *)

Record HttpRequest := {
  method : string;
  path : string;
  content_length : N;
  body : Request
}.

Inductive HttpResponse :=
| jsonify (r : Response)
| render_template (p : Page)
| send_file (d : Download)
| automatic_options (allow : list string)
| abort (code : nat).

(** The status line of a response. *)
Definition http_status (r : HttpResponse) : nat :=
  match r with
  | jsonify r => status r
  | render_template _ => 200
  | send_file (attachment _ _) => 200
  | send_file NotFound => 404
  | automatic_options _ => 200
  | abort code => code
  end.

(** ** The URL map *)

(** The texts between the slashes of a path.  A path starts with a slash,
    and the slashes it starts with count as one. *)
Definition segments (path : string) : option (list string) :=
  match path with
  | EmptyString => None
  | String a rest =>
      if bool_decide (a = sep) then Some (split_on sep (lstrip sep rest)) else None
  end.

Inductive part := Static (text : string) | Arg.

Inductive endpoint :=
| index_endpoint
| convert_endpoint
| merge_gif_endpoint
| dwg_to_pdf_endpoint
| download_file_endpoint.

#[export] Instance endpoint_eq_dec : EqDecision endpoint.
Proof. solve_decision. Defined.

Record Rule := {
  rule_parts : list part;
  rule_methods : list string;
  rule_endpoint : endpoint
}.

(** [@app.route('/')] *)
Definition index_rule : Rule :=
  {| rule_parts := [Static ""]; rule_methods := ["GET"]%string;
     rule_endpoint := index_endpoint |}.

(** [@app.route('/convert', methods=['POST'])] *)
Definition convert_rule : Rule :=
  {| rule_parts := [Static "convert"]; rule_methods := ["POST"]%string;
     rule_endpoint := convert_endpoint |}.

(** [@app.route('/merge_gif', methods=['POST'])] *)
Definition merge_gif_rule : Rule :=
  {| rule_parts := [Static "merge_gif"]; rule_methods := ["POST"]%string;
     rule_endpoint := merge_gif_endpoint |}.

(** [@app.route('/dwgtopdf', methods=['POST'])] *)
Definition dwg_to_pdf_rule : Rule :=
  {| rule_parts := [Static "dwgtopdf"]; rule_methods := ["POST"]%string;
     rule_endpoint := dwg_to_pdf_endpoint |}.

(** [@app.route('/download/<format>/<filename>')] *)
Definition download_file_rule : Rule :=
  {| rule_parts := [Static "download"; Arg; Arg]; rule_methods := ["GET"]%string;
     rule_endpoint := download_file_endpoint |}.

(** [app = Flask(__name__)]: the rules of the application, in the order
    the decorators of [app.py] add them. *)
Definition url_map : list Rule :=
  [index_rule; convert_rule; merge_gif_rule; dwg_to_pdf_rule; download_file_rule].

(** The methods of a rule, with those Flask adds. *)
Definition methods_of (r : Rule) : list string :=
  rule_methods r
  ++ (if bool_decide ("GET"%string ∈ rule_methods r) then ["HEAD"] else [])
  ++ ["OPTIONS"]%string.

(** The arguments of a path that fits a rule. *)
Fixpoint match_rule (parts : list part) (segs : list string) : option (list string) :=
  match parts, segs with
  | [], [] => Some []
  | Static text :: parts, x :: segs =>
      if bool_decide (x = text) then match_rule parts segs else None
  | Arg :: parts, x :: segs =>
      if bool_decide (x = EmptyString) then None
      else args ← match_rule parts segs; Some (x :: args)
  | _, _ => None
  end.

Inductive matched :=
| Found (e : endpoint) (args : list string)
| MethodNotAllowed
| NoRule.

(** Werkzeug's [MapAdapter.match]: the first rule that fits the path and
    has the method; [seen] tells that a rule fitted the path. *)
Fixpoint match_url (rules : list Rule) (method : string) (segs : list string)
    (seen : bool) : matched :=
  match rules with
  | [] => if seen then MethodNotAllowed else NoRule
  | r :: rules =>
      match match_rule (rule_parts r) segs with
      | Some args =>
          if bool_decide (method ∈ methods_of r) then Found (rule_endpoint r) args
          else match_url rules method segs true
      | None => match_url rules method segs seen
      end
  end.

(** [16 * 1024 * 1024], the value of [MAX_CONTENT_LENGTH] *)
Definition MAX_CONTENT_LENGTH : N := 16 * 1024 * 1024.

Inductive config_value := ConfigPath (p : string) | ConfigSize (n : N).

(** [app.config[...] = ...] *)
Definition app_config : list (string * config_value) :=
  [ ("UPLOAD_FOLDER", ConfigPath UPLOAD_FOLDER);
    ("OUTPUT_FOLDER", ConfigPath OUTPUT_FOLDER);
    ("MAX_CONTENT_LENGTH", ConfigSize MAX_CONTENT_LENGTH) ]%string.

(** [request.max_content_length]: the entry of the configuration, when it
    is a number. *)
Definition max_content_length (config : list (string * config_value)) : option N :=
  match md_get "MAX_CONTENT_LENGTH" config with
  | Some (ConfigSize n) => Some n
  | _ => None
  end.

(** Flask refuses a body longer than the bound, when there is one. *)
Definition too_large (req : HttpRequest) : bool :=
  match max_content_length app_config with
  | Some n => (n <? content_length req)%N
  | None => false
  end.

Section Application.
Context `{Pillow} `{!Imageio} `{Werkzeug} `{Flask}.

(** A view that starts by reading [request.files]. *)
Definition with_files (req : HttpRequest) (view : Request -> M Response)
    : M HttpResponse :=
  if too_large req then ret (abort 413)
  else r <- view (body req) ;; ret (jsonify r).

(** The view function of an endpoint on the arguments of the path. *)
Definition view (hex : string) (req : HttpRequest) (e : endpoint)
    (args : list string) : M HttpResponse :=
  match e, args with
  | index_endpoint, [] => p <- index ;; ret (render_template p)
  | convert_endpoint, [] => with_files req convert
  | merge_gif_endpoint, [] => with_files req (merge_gif hex)
  | dwg_to_pdf_endpoint, [] => with_files req dwg_to_pdf
  | download_file_endpoint, [format; filename] =>
      d <- download_file format filename ;; ret (send_file d)
  | _, _ => ret (abort 500)
  end.

(** One request.  [hex] is the text of [uuid.uuid4().hex], should the
    view ask. *)
Definition wsgi_app (hex : string) (req : HttpRequest) : M HttpResponse :=
  match segments (path req) with
  | None => ret (abort 404)
  | Some segs =>
      match match_url url_map (method req) segs false with
      | NoRule => ret (abort 404)
      | MethodNotAllowed => ret (abort 405)
      | Found e args =>
          if bool_decide (method req = "OPTIONS")
          then ret (automatic_options
                      (mjoin ((fun r => if bool_decide (is_Some (match_rule (rule_parts r) segs))
                                        then methods_of r else []) <$> url_map)))
          else try_except (view hex req e args) (fun _ => ret (abort 500))
      end
  end.

(** [app.run(debug=True, port=3010)]: the requests in the order they
    arrive, each with the text [uuid.uuid4().hex] would give it. *)
Fixpoint run (reqs : list (string * HttpRequest)) : M (list HttpResponse) :=
  match reqs with
  | [] => ret []
  | hr :: reqs =>
      r <- wsgi_app hr.1 hr.2 ;;
      rs <- run reqs ;;
      ret (r :: rs)
  end.

(** The module as a program: the folders, then the server. *)
Definition app_main (reqs : list (string * HttpRequest)) : M (list HttpResponse) :=
  create_folders ;;; run reqs.

End Application.

(** ** The requests that reach a route of the server *)

(** [is_path x path]: [path] is [x] after one slash or more. *)
Definition is_path (x path : string) : bool :=
  match path with
  | EmptyString => false
  | String a rest => bool_decide (a = sep) && bool_decide (lstrip sep rest = x)
  end.

(** The call of [Server] a request amounts to: a [POST] to one of three
    paths with a body within the bound. *)
Definition call_of (hex : string) (req : HttpRequest) : option Call :=
  if bool_decide (method req = "POST") && (content_length req <=? MAX_CONTENT_LENGTH)%N
  then
    if is_path "convert" (path req) then Some (CallConvert (body req))
    else if is_path "merge_gif" (path req) then Some (CallMergeGif hex (body req))
    else if is_path "dwgtopdf" (path req) then Some (CallDwgToPdf (body req))
    else None
  else None.

(** What Flask makes of the outcome of a view. *)
Definition answer_of (o : outcome exn Response) : HttpResponse :=
  match o with
  | Ok r => jsonify r
  | Raise _ => abort 500
  end.

(** A request whose call, if it has one, is admissible. *)
Definition polite `{Werkzeug} (hr : string * HttpRequest) : Prop :=
  forall c, call_of hr.1 hr.2 = Some c -> admissible c.

Definition http_get (path : string) : HttpRequest :=
  {| method := "GET"; path := path; content_length := 0;
     body := {| request_files := []; request_form := [] |} |}.

Definition http_post (path : string) (n : N) (body : Request) : HttpRequest :=
  {| method := "POST"; path := path; content_length := n; body := body |}.

(** ** Runs *)

Section RoutesTests.
#[local] Existing Instance toy.
#[local] Existing Instance toy_imageio.
#[local] Existing Instance toy_werkzeug.
#[local] Existing Instance toy_flask.

Definition statuses (reqs : list HttpRequest) (s : fs) : list nat :=
  (fun req => match (wsgi_app "0f" req s).1 with
              | Ok r => http_status r
              | Raise _ => 0
              end) <$> reqs.

Example run_routes :
  statuses [http_get "/"; http_get "/convert"; http_get "/convert/"; http_get "/nowhere"; http_get "";
            http_get "/download/webp/cat.webp"; http_get "/download/webp"; http_get "/download//x";
            http_get "/download/a/b/c"; http_post "/" 0 (upload "a.png" "P1a" "png");
            http_post "//convert" 10 (upload "a.png" "P1a" "png");
            http_post "/convert" 16777216 (upload "a.png" "P1a" "png");
            http_post "/convert" 16777217 (upload "a.png" "P1a" "png");
            http_post "/dwgtopdf" 10 (upload "a.dwg" "x" "");
            {| method := "OPTIONS"; path := "/convert"; content_length := 0;
               body := upload "" "" "" |};
            {| method := "HEAD"; path := "/"; content_length := 0;
               body := upload "" "" "" |}] server_fs
  = [200; 405; 404; 404; 404; 404; 404; 404; 404; 405; 200; 200; 413; 500; 200; 200].
Proof. by vm_compute. Qed.

(** Without the folder [outputs] the page [/] is an error 500. *)
Example run_index_500 : statuses [http_get "/"] empty_fs = [500].
Proof. by vm_compute. Qed.

End RoutesTests.

(** ** Paths and rules *)

Section UrlFacts.
Implicit Types (c : ascii) (s h t n x d : string) (segs args : list string).

(** A path of one segment. *)
Lemma segments_one path x :
  segments path = Some [x] <-> is_path x path = true /\ contains sep x = false.
Proof.
  unfold segments, is_path.
  destruct path as [|a rest]; [split; [done|by intros [? _]]|].
  case_bool_decide; [|split; [done|by intros [? _]]]. simpl. rewrite bool_decide_eq_true. split.
  - intros [= E]. split.
    + by rewrite <- (split_on_join sep (lstrip sep rest)), E.
    + apply (split_on_contains sep (lstrip sep rest)). rewrite E. by left.
  - intros [-> Hx]. by rewrite split_on_none.
Qed.

End UrlFacts.

(** ** The rule a request meets *)

Section MatchFacts.
Implicit Types (m x d n t : string) (segs args : list string) (e : endpoint).

(** A path that is found met a rule of the map. *)
Lemma match_url_Found rules m segs seen e args :
  match_url rules m segs seen = Found e args ->
  exists r, r ∈ rules /\ rule_endpoint r = e /\
            match_rule (rule_parts r) segs = Some args /\ m ∈ methods_of r.
Proof.
  revert seen. induction rules as [|r rules IH]; intros seen; simpl.
  - by destruct seen.
  - destruct (match_rule (rule_parts r) segs) as [a|] eqn:E.
    + case_bool_decide as Hm.
      * intros [= <- <-]. exists r. split; [by left|done].
      * intros (r' & ? & ?)%IH. exists r'. split; [by right|done].
    + intros (r' & ? & ?)%IH. exists r'. split; [by right|done].
Qed.

Lemma match_rule_static t segs args :
  match_rule [Static t] segs = Some args -> segs = [t] /\ args = [].
Proof.
  destruct segs as [|x [|y segs]]; simpl; [done|..]; case_bool_decide;
    intros [= <-] || done. by subst x.
Qed.

Lemma match_rule_download segs args :
  match_rule (rule_parts download_file_rule) segs = Some args ->
  exists d n, segs = ["download"; d; n]%string /\ args = [d; n] /\
              d <> EmptyString /\ n <> EmptyString.
Proof.
  destruct segs as [|x [|d [|n [|]]]]; simpl; repeat case_bool_decide;
    intros [= <-] || done. subst x. by exists d, n.
Qed.

(** The views that only read, and those that take an upload. *)
Definition reads_only (e : endpoint) : bool :=
  match e with
  | index_endpoint | download_file_endpoint => true
  | _ => false
  end.

Definition path_of (e : endpoint) : string :=
  match e with
  | index_endpoint => ""
  | convert_endpoint => "convert"
  | merge_gif_endpoint => "merge_gif"
  | dwg_to_pdf_endpoint => "dwgtopdf"
  | download_file_endpoint => "download"
  end.

(** The rules of [app.py]: what the path, the method and the arguments
    of a request are when it meets the rule of [e]. *)
Lemma match_url_map m segs e args :
  match_url url_map m segs false = Found e args ->
  m ∈ (if reads_only e then ["GET"; "HEAD"; "OPTIONS"] else ["POST"; "OPTIONS"])%string /\
  if bool_decide (e = download_file_endpoint)
  then exists d n, segs = ["download"; d; n]%string /\ args = [d; n] /\
                   d <> EmptyString /\ n <> EmptyString
  else segs = [path_of e] /\ args = [].
Proof.
  intros (r & Hr & <- & Hm & Hin)%match_url_Found. unfold url_map in Hr.
  repeat (apply elem_of_cons in Hr as [->|Hr]); [..|by apply elem_of_nil in Hr];
    (split; [done|]); simpl;
    by (apply match_rule_static in Hm || apply match_rule_download in Hm).
Qed.

(** The three rules with [POST]. *)
Lemma match_url_post t :
  t ∈ ["convert"; "merge_gif"; "dwgtopdf"]%string ->
  exists e, match_url url_map "POST" [t] false = Found e [] /\
            reads_only e = false /\ path_of e = t.
Proof.
  rewrite !elem_of_cons, elem_of_nil.
  intros [->|[->|[->|[]]]]; by eexists.
Qed.

(** The rule of [download_file] takes two texts, neither empty. *)
Lemma match_url_download m d n :
  d <> EmptyString -> n <> EmptyString -> m ∈ ["GET"; "HEAD"]%string ->
  match_url url_map m ["download"; d; n]%string false
  = Found download_file_endpoint [d; n].
Proof.
  intros Hd Hn Hm. unfold url_map. simpl.
  rewrite !bool_decide_false by done. simpl.
  rewrite bool_decide_true; [done|].
  rewrite !elem_of_cons in Hm. unfold methods_of. simpl.
  rewrite !elem_of_cons. tauto.
Qed.

(** The path of a download link. *)
Lemma segments_download d n :
  contains sep d = false -> contains sep n = false ->
  segments ("/download/" +:+ d +:+ "/" +:+ n) = Some ["download"; d; n]%string.
Proof.
  intros Hd Hn.
  change ("/download/" +:+ d +:+ "/" +:+ n)
    with (String sep (String "d" ("ownload" +:+ String sep (d +:+ String sep n)))).
  unfold segments. rewrite bool_decide_true, lstrip_head by done. f_equal.
  change (String "d" ("ownload" +:+ ?x)) with ("download" +:+ x).
  rewrite !split_on_app by done. by rewrite split_on_none.
Qed.

End MatchFacts.

(** ** What the application does with a request *)

Section ApplicationFacts.
Context `{Pillow} `{!Imageio} `{Werkzeug} `{Flask}.
Implicit Types (hex : string) (req : HttpRequest) (s : fs) (c : Call).

Lemma too_large_iff req :
  too_large req = negb (content_length req <=? MAX_CONTENT_LENGTH)%N.
Proof.
  unfold too_large. simpl. apply eq_true_iff_eq.
  rewrite negb_true_iff, N.ltb_lt, N.leb_gt. done.
Qed.

(** Within the bound, the view is given the body and its answer is the
    response; its exception is Flask's. *)
Lemma with_files_run req (v : Request -> M Response) s :
  too_large req = false ->
  with_files req v s
  = (match (v (body req) s).1 with Ok r => Ok (jsonify r) | Raise e => Raise e end,
     (v (body req) s).2).
Proof.
  intros Hn. unfold with_files, bind, ret. rewrite Hn.
  by destruct (v (body req) s) as [[r|e] s'].
Qed.

(** The view of an endpoint that takes an upload is the route of
    [Server] on the body. *)
Definition route_of hex (e : endpoint) : option (Request -> Call) :=
  match e with
  | convert_endpoint => Some CallConvert
  | merge_gif_endpoint => Some (CallMergeGif hex)
  | dwg_to_pdf_endpoint => Some CallDwgToPdf
  | _ => None
  end.

Lemma route_of_Some hex e : reads_only e = false -> is_Some (route_of hex e).
Proof. by destruct e. Qed.

Lemma view_route hex req e k s :
  route_of hex e = Some k ->
  try_except (view hex req e []) (fun _ => ret (abort 500)) s
  = if too_large req then (Ok (abort 413), s)
    else (Ok (answer_of (serve (k (body req)) s).1), (serve (k (body req)) s).2).
Proof.
  intros Hk. unfold try_except.
  destruct e; simplify_eq/=; unfold with_files;
    (destruct (too_large req) eqn:Hn; [done|]); unfold bind, ret;
    match goal with |- context [?v (body req) s] =>
      by destruct (v (body req) s) as [[r|x] s'] end.
Qed.

(** The number of arguments the rule of an endpoint gives its view. *)
Definition arity (e : endpoint) : nat :=
  if bool_decide (e = download_file_endpoint) then 2 else 0.

(** The views that only read answer in the state they found; where
    [outputs] is a folder they do not raise. *)
Lemma view_reads hex req e args s :
  reads_only e = true ->
  exists r, try_except (view hex req e args) (fun _ => ret (abort 500)) s = (Ok r, s) /\
            (is_dir OUTPUT_FOLDER s = true -> length args = arity e -> r <> abort 500).
Proof.
  intros He. unfold try_except. destruct e; try done; simpl.
  - destruct args; [|by eexists].
    destruct (is_dir OUTPUT_FOLDER s) eqn:Hd.
    + rewrite (bind_ok _ _ _ _ _ (index_run _ Hd)). by eexists.
    + destruct (index_reads s) as [[p|x] E].
      * rewrite (bind_ok _ _ _ _ _ E). by eexists.
      * rewrite (bind_err _ _ _ _ _ E). by eexists.
  - destruct args as [|d [|n [|]]]; try by eexists.
    destruct (send_from_directory_total (join OUTPUT_FOLDER d) n s) as [r E].
    unfold download_file. cbv zeta. rewrite (bind_ok _ _ _ _ _ E). by eexists.
Qed.

End ApplicationFacts.

(** ** Requests and calls *)

Section Serving.
Context `{Pillow} `{!Imageio} `{Werkzeug} `{Flask}.
Implicit Types (hex : string) (req : HttpRequest) (s : fs) (c : Call).

(** A [POST] to the path of a rule runs the view of the rule. *)
Lemma wsgi_app_post hex req t e s :
  method req = "POST"%string -> is_path t (path req) = true ->
  contains sep t = false -> match_url url_map "POST" [t] false = Found e [] ->
  wsgi_app hex req s = try_except (view hex req e []) (fun _ => ret (abort 500)) s.
Proof.
  intros Hm Hp Ht Hu. unfold wsgi_app.
  by rewrite (proj2 (segments_one _ _) (conj Hp Ht)), Hm, Hu.
Qed.

(** A request with a call is answered by the route of the call. *)
Lemma wsgi_app_call hex req c s :
  call_of hex req = Some c ->
  wsgi_app hex req s = (Ok (answer_of (serve c s).1), (serve c s).2).
Proof.
  unfold call_of. case_bool_decide as Hm; [|done].
  destruct (content_length req <=? MAX_CONTENT_LENGTH)%N eqn:Hn; [|done]. simpl.
  assert (too_large req = false) as Hl by (by rewrite too_large_iff, Hn).
  repeat case_match; intros [= <-];
    erewrite wsgi_app_post, view_route by done; by rewrite Hl.
Qed.

(** Any other request is answered in the state it found; where [outputs]
    is a folder, not by an exception. *)
Lemma wsgi_app_other hex req s :
  call_of hex req = None ->
  exists r, wsgi_app hex req s = (Ok r, s) /\
            (is_dir OUTPUT_FOLDER s = true -> r <> abort 500).
Proof.
  intros Hc. unfold wsgi_app.
  destruct (segments (path req)) as [segs|] eqn:Hseg; [|by eexists].
  destruct (match_url url_map (method req) segs false) as [e args| |] eqn:Hu;
    [|by eexists..].
  case_bool_decide as Ho; [by eexists|]. apply match_url_map in Hu as [Hm Hu].
  destruct (reads_only e) eqn:He.
  - destruct (view_reads hex req e args s He) as (r & -> & Hr).
    exists r. split; [done|]. intros Hd. apply Hr; [done|]. unfold arity.
    case_bool_decide; [by destruct Hu as (d & n & _ & -> & _)|by destruct Hu as [_ ->]].
  - assert (method req = "POST"%string) as Hp
      by (rewrite !elem_of_cons, elem_of_nil in Hm; tauto).
    rewrite bool_decide_false in Hu by (by intros ->). destruct Hu as [-> ->].
    destruct (route_of_Some hex e He) as [k Hk]. rewrite (view_route hex req e k) by done.
    destruct (too_large req) eqn:Hn; [by eexists|]. exfalso.
    apply segments_one in Hseg as [Hpath _]. revert Hc. unfold call_of.
    rewrite too_large_iff in Hn. apply negb_false_iff in Hn.
    rewrite Hn, bool_decide_true by done.
    destruct e; try done; simpl in *; rewrite ?Hpath; by repeat case_match.
Qed.

(** A link [/download/d/n] asks [download_file] for [d] and [n]. *)
Lemma wsgi_app_download hex d n x s :
  contains sep d = false -> contains sep n = false ->
  d <> EmptyString -> n <> EmptyString ->
  download_file d n s = (Ok x, s) ->
  wsgi_app hex (http_get ("/download/" +:+ d +:+ "/" +:+ n)) s = (Ok (send_file x), s).
Proof.
  intros Hd Hn Hd' Hn' E. unfold wsgi_app. cbn [path method http_get].
  rewrite segments_download, match_url_download by (done || by left).
  rewrite bool_decide_false by done. unfold try_except. simpl.
  by rewrite (bind_ok _ _ _ _ _ E).
Qed.

(** The folders are made without an error. *)
Lemma create_folders_start :
  create_folders empty_fs = (Ok tt, (create_folders empty_fs).2).
Proof. by vm_compute. Qed.

(** In a reachable state every request is answered, by its view, in a
    reachable state. *)
Lemma wsgi_app_reachable hex req s :
  reachable s -> polite (hex, req) ->
  exists r, wsgi_app hex req s = (Ok r, (wsgi_app hex req s).2) /\
            reachable (wsgi_app hex req s).2 /\ r <> abort 500.
Proof.
  intros Hs Hp. destruct (call_of hex req) as [c|] eqn:Hc.
  - rewrite (wsgi_app_call _ _ c) by done. cbn [snd].
    destruct (serve_tidy c s (reachable_inv s Hs) (Hp c Hc)) as [_ Hok].
    destruct (serve c s).1 as [r|x] eqn:E; [|done].
    exists (jsonify r). repeat split; [|done]. apply reachable_serve; [done|by apply Hp].
  - destruct (wsgi_app_other hex req s Hc) as (r & -> & Hr). exists r.
    repeat split; [done|]. apply Hr, tidy_is_dir; [by apply reachable_inv|].
    unfold base_dirs. set_unfold. auto.
Qed.

Lemma run_reachable reqs s :
  reachable s -> Forall polite reqs ->
  exists rs s', run reqs s = (Ok rs, s') /\ reachable s' /\
                length rs = length reqs /\ abort 500 ∉ rs.
Proof.
  intros Hs Hp. revert s Hs. induction Hp as [|[hex req] reqs Hp _ IH]; intros s Hs.
  - exists [], s. repeat split; [done|apply not_elem_of_nil].
  - destruct (wsgi_app_reachable hex req s Hs Hp) as (r & E & Hs' & Hr).
    destruct (IH _ Hs') as (rs & s' & Erun & ? & ? & ?).
    exists (r :: rs), s'. simpl. rewrite (bind_ok _ _ _ _ _ E), (bind_ok _ _ _ _ _ Erun).
    repeat split; [done|simpl; congruence|]. rewrite not_elem_of_cons. by split.
Qed.

End Serving.

(** ** Theorems *)

Section RoutesTheorems.
Context `{Pillow} `{!Imageio} `{Werkzeug} `{Flask}.
Implicit Types (hex : string) (req : HttpRequest) (s : fs) (c : Call).

(** C8. The application refines the server.  A request that amounts to a
    call, a [POST] to [/convert], [/merge_gif] or [/dwgtopdf] with a body
    within the bound, is answered with the answer of the route of [Server]
    on its body, or with the status 500 when the route raises, in the state
    the route leaves.  Every other request, whatever its path and method,
    is answered in the state it found. *)
Theorem wsgi_app_refines hex req s :
  match call_of hex req with
  | Some c => wsgi_app hex req s = (Ok (answer_of (serve c s).1), (serve c s).2)
  | None => exists r, wsgi_app hex req s = (Ok r, s)
  end.
Proof.
  destruct (call_of hex req) as [c|] eqn:Hc; [by apply wsgi_app_call|].
  destruct (wsgi_app_other hex req s Hc) as (r & E & _). by exists r.
Qed.

(** C13. The program never answers with an exception.  From a fresh start,
    whatever requests arrive one after another, [app.py] creates its
    folders and answers each request, none with the status 500 of an
    exception that left a view, and ends in a state of [Server]. *)
Theorem app_main_answers reqs :
  Forall polite reqs ->
  exists rs s, app_main reqs empty_fs = (Ok rs, s) /\ reachable s /\
               length rs = length reqs /\ abort 500 ∉ rs.
Proof.
  intros Hp.
  destruct (run_reachable reqs _ reachable_start Hp) as (rs & s & E & Hs).
  exists rs, s. split; [|done]. unfold app_main.
  by rewrite (bind_ok _ _ _ _ _ create_folders_start).
Qed.

(** C21. The bound on the body.  A [POST] to one of the three routes is
    answered 413, by Flask and before the route sees it, exactly when its
    body is longer than 16 MiB; nothing is written then. *)
Theorem content_length_bound hex req t s :
  method req = "POST"%string -> t ∈ ["convert"; "merge_gif"; "dwgtopdf"]%string ->
  is_path t (path req) = true ->
  wsgi_app hex req s = (Ok (abort 413), s)
  <-> (16 * 1024 * 1024 < content_length req)%N.
Proof.
  intros Hm Ht Hp. destruct (match_url_post t Ht) as (e & Hu & He & <-).
  destruct (route_of_Some hex e He) as [k Hk].
  rewrite (wsgi_app_post hex req (path_of e) e), (view_route hex req e k),
    too_large_iff by (done || by destruct e).
  fold MAX_CONTENT_LENGTH.
  destruct (N.leb_spec (content_length req) MAX_CONTENT_LENGTH); simpl; [|done].
  split; [|lia]. intros [= E _]. by destruct (serve (k (body req)) s).1.
Qed.

(** C15. The link of an answer leads to the file.  In a reachable state,
    when a [POST] to [/convert] is answered 200, a [GET] of the
    [download_url] of the answer is routed to [download_file] and sends
    the converted file under the name [output_file] of the answer, unless
    the upload was an SVG converted to ["png"]: then the link answers
    404. *)
Theorem download_url_roundtrip hex hex' req msg out url s s' :
  reachable s -> admissible (CallConvert (body req)) ->
  call_of hex req = Some (CallConvert (body req)) ->
  wsgi_app hex req s
  = (Ok (jsonify {| status := 200; json := JConverted msg out url |}), s') ->
  exists file ct,
    md_get "file" (request_files (body req)) = Some file /\
    md_get "convert_type" (request_form (body req)) = Some ct /\
    if bool_decide (ext_of_filename (filename file) = Some "svg" /\ ct = "png")
    then wsgi_app hex' (http_get url) s' = (Ok (send_file NotFound), s')
    else exists b, wsgi_app hex' (http_get url) s' = (Ok (send_file (attachment out b)), s').
Proof.
  intros Hs Hadm Hc Hrun. rewrite (wsgi_app_call _ _ _ _ Hc) in Hrun. simpl in Hrun.
  destruct (convert (body req) s) as [[r|x] s1] eqn:E; [|done]. simplify_eq/=.
  destruct (convert_200 _ _ _ _ Hs Hadm E eq_refl)
    as (file & ct & Hfile & Hct & Hin & [= -> -> ->]).
  exists file, ct. repeat split; [done..|].
  pose proof (convert_link _ _ _ _ _ Hs Hadm Hfile Hct E) as Hlink. simpl in Hlink.
  pose proof (output_name_contains file ct Hin) as Hn.
  pose proof (output_name_nonempty file ct) as Hne.
  assert (contains sep ct = false /\ ct <> EmptyString) as [? ?]
    by (apply convert_types_cases in Hin; by destruct_or!; subst ct).
  case_bool_decide; [by apply wsgi_app_download|].
  destruct Hlink as [b Hb]. exists b. by apply wsgi_app_download.
Qed.

(** C14. [download_file] reads beside the folder [outputs].  The folder of
    a download is the text of the URL, joined to [outputs] unchecked:
    with [..] for the folder, the file the route sends is the one at
    [outputs/../n], the path of the entry [n] of the folder that holds
    [outputs]. *)
Theorem download_leaves_outputs hex n b s :
  plain n -> files s !! ("outputs/../" +:+ n) = Some b ->
  wsgi_app hex (http_get ("/download/../" +:+ n)) s
  = (Ok (send_file (attachment n b)), s) /\
  normpath ("outputs/../" +:+ n) = n.
Proof.
  intros Hn Hb. pose proof Hn as [Hc Hne]. rewrite !elem_of_cons in Hne. split.
  - apply (wsgi_app_download hex ".." n); [done..|tauto|].
    apply (send_from_directory_file "outputs/.." n); [done..|tauto|done].
  - apply (normpath_parent "outputs" n); [|done]. by apply (bool_decide_unpack _).
Qed.

End RoutesTheorems.

(** ** Witnesses *)

Section RoutesWitnesses.
#[local] Existing Instance toy.
#[local] Existing Instance toy_imageio.
#[local] Existing Instance toy_werkzeug.
#[local] Existing Instance toy_flask.

Lemma polite_get hex p : polite (hex, http_get p).
Proof. by intros c. Qed.

Lemma polite_upload hex p n name content ct :
  contains sep hex = false -> toy_secure_filename name <> "dwg"%string ->
  polite (hex, http_post p n (upload name content ct)).
Proof.
  intros Hh Hn c. unfold call_of. cbn [fst snd method path content_length body http_post].
  repeat case_match; intros [= <-]; [by apply upload_admissible|done..].
Qed.

(** An upload, the front page, the download of the result, and an upload
    that is too long. *)
Definition session : list (string * HttpRequest) :=
  [ ("0f", http_post "/convert" 10 (upload "Cat.PNG" "P4pixels" "webp"));
    ("0f", http_get "/");
    ("0f", http_get "/download/webp/Cat.webp");
    ("0f", http_post "/merge_gif" 16777217 (upload "a.png" "P1a" "")) ]%string.

Example run_session :
  (app_main session empty_fs).1
  = Ok [ jsonify (converted {| filename := "Cat.PNG"; stream := "P4pixels" |} "webp");
         render_template (index_html ["webp/Cat.webp"]);
         send_file (attachment "Cat.webp" "W4pixels");
         abort 413 ]%string.
Proof. by vm_compute. Qed.

(** A request at the bound and the call it amounts to. *)
Lemma wsgi_app_refines_witness :
  let req := http_post "/convert" 16777216 (upload "Cat.PNG" "P4pixels" "webp") in
  wsgi_app "0f" req server_fs
  = (Ok (answer_of (serve (CallConvert (body req)) server_fs).1),
     (serve (CallConvert (body req)) server_fs).2).
Proof. apply (wsgi_app_refines "0f" (http_post "/convert" 16777216 _) server_fs). Defined.

Lemma app_main_answers_witness :
  exists rs s, app_main session empty_fs = (Ok rs, s) /\ reachable s /\
               length rs = length session /\ abort 500 ∉ rs.
Proof.
  apply app_main_answers.
  repeat constructor; (by apply polite_get) || by apply polite_upload.
Defined.

Lemma content_length_bound_witness :
  wsgi_app "0f" (http_post "//merge_gif" 16777217 (upload "a.png" "P1a" "")) server_fs
  = (Ok (abort 413), server_fs)
  <-> (16 * 1024 * 1024 < 16777217)%N.
Proof.
  apply (content_length_bound "0f" (http_post "//merge_gif" 16777217 _) "merge_gif");
    [done|by right; left|done].
Defined.

Lemma download_url_roundtrip_witness :
  let req := http_post "/convert" 10 (upload "Cat.PNG" "P4pixels" "webp") in
  let s' := (wsgi_app "0f" req server_fs).2 in
  exists file ct,
    md_get "file" (request_files (body req)) = Some file /\
    md_get "convert_type" (request_form (body req)) = Some ct /\
    if bool_decide (ext_of_filename (filename file) = Some "svg" /\ ct = "png")
    then wsgi_app "1a" (http_get "/download/webp/Cat.webp") s' = (Ok (send_file NotFound), s')
    else exists b, wsgi_app "1a" (http_get "/download/webp/Cat.webp") s'
                   = (Ok (send_file (attachment "Cat.webp" b)), s').
Proof.
  intros req s'.
  apply (download_url_roundtrip "0f" "1a" req "转换成功" "Cat.webp"
           "/download/webp/Cat.webp" server_fs s');
    [apply reachable_start|by apply upload_admissible|done|by vm_compute].
Defined.

(** A file beside [outputs], as the file system resolves the path. *)
Definition beside : fs := put_file "outputs/../app.py" "import os" server_fs.

Lemma plain_app_py : plain "app.py".
Proof. by apply (bool_decide_unpack _). Qed.

Lemma download_leaves_outputs_witness :
  wsgi_app "0f" (http_get "/download/../app.py") beside
  = (Ok (send_file (attachment "app.py" "import os")), beside) /\
  normpath ("outputs/../" +:+ "app.py") = "app.py"%string.
Proof.
  apply (download_leaves_outputs "0f" "app.py" "import os" beside);
    [apply plain_app_py|done].
Defined.

End RoutesWitnesses.
