(* ===== verification/Interleave.v ===== *)
(** * Interleave: two [/convert] requests served at the same time

    Flask's server serves each request in a thread of its own, on one file
    system.  Here the body of [/convert] ([src/app.py], lines 118 to 144,
    with [convert_image] and [convert_svg], lines 32 to 46) is cut at its
    calls of the operating system and of the imaging libraries: a thread
    is at a program point [pc], and [step] runs the one call at that
    point and moves to the next.  Between two steps of a thread the other
    thread may run.

    [run_thread] is a thread run alone; it is the handler of [WebApp]
    ([thread_alone], with eight steps, the longest path through the
    handler).  [interleave] runs two threads along a schedule.  Two
    uploads with the same name share the paths of the upload, of the
    output and of the temporary file: [same_name_mixed_up] and
    [same_name_crash] are two schedules that go wrong, and
    [same_name_replaces] is what the shared output path means for two
    requests served in turn.

    Each call is one step: [file.save], [cairosvg.svg2png] and [img.save]
    write their file at once, and [Image.open] reads the whole file. *)

From S2P Require Import Prelude PyString Classifier FileSys Imaging Converter.
From S2P Require Import WebApp WebGif Server Listing.

Local Open Scope eff_scope.

(** ** Program points *)

(** One accepted request: the upload and the target format. *)
Record job := Job {
  job_file : FileStorage;
  job_type : string
}.

Section Threads.
Context `{Pillow} `{Werkzeug}.

(** Where a thread is in the body of [/convert].  [AtOpen] and
    [AtSaveImage] are points of [convert_image] or of [convert_svg]
    ([svg] tells which), [AtExists] and [AtRemove] are the two lines of the
    [finally] clause, with the answer of the [except] clause if it ran. *)
Inductive pc :=
| AtSave
| AtMakedirs (ext : string)
| AtRender
| AtOpen (svg : bool)
| AtSaveImage (svg : bool) (img : Image)
| AtRemoveTemp
| AtExists (early : option Response)
| AtRemove (early : option Response)
| Answered (r : Response)
| Crashed (e : exn).

(** Run the call of a program point: [ok] is the next point when it
    returns, [err] when it raises. *)
Definition on {A} (m : M A) (ok : A -> pc) (err : exn -> pc) (s : fs) : pc * fs :=
  match m s with
  | (Ok a, s') => (ok a, s')
  | (Raise e, s') => (err e, s')
  end.

(** The [except] clause, on the way to the [finally] clause. *)
Definition caught (e : exn) : pc := AtExists (Some (failed e)).

(** After the [finally] clause: the [return] of the [except] clause, or the
    [return] after the [try] statement. *)
Definition finish (j : job) (early : option Response) : pc :=
  Answered (answer (job_file j) (job_type j) early).

Definition step (j : job) (p : pc) : fs -> pc * fs :=
  let file := job_file j in
  let convert_type := job_type j in
  let input_path := upload_path file in
  let output_path := output_path file convert_type in
  match p with
  | AtSave =>
      match ext_of_filename (filename file) with
      | None => fun s => (Crashed IndexError, s)
      | Some ext => on (FileStorage_save file input_path) (fun _ => AtMakedirs ext) Crashed
      end
  | AtMakedirs ext =>
      on (os_makedirs (join OUTPUT_FOLDER convert_type))
         (fun _ => if bool_decide (ext = "svg") then AtRender else AtOpen false)
         Crashed
  | AtRender =>
      on (svg2png input_path (temp_png_path output_path)) (fun _ => AtOpen true) caught
  | AtOpen svg =>
      on (Image_open (if svg then temp_png_path output_path else input_path))
         (AtSaveImage svg) caught
  | AtSaveImage svg img =>
      let img := if bool_decide (convert_type = "jpg") then Imaging.convert RGB img else img in
      on (Image_save img output_path (upper convert_type))
         (fun _ => if svg then AtRemoveTemp else AtExists None) caught
  | AtRemoveTemp =>
      on (os_remove (temp_png_path output_path)) (fun _ => AtExists None) caught
  | AtExists early =>
      on (os_path_exists input_path)
         (fun b : bool => if b then AtRemove early else finish j early) Crashed
  | AtRemove early =>
      on (os_remove input_path) (fun _ => finish j early) Crashed
  | Answered r => fun s => (Answered r, s)
  | Crashed e => fun s => (Crashed e, s)
  end.

(** A thread run alone for [n] steps. *)
Fixpoint run_thread (n : nat) (j : job) (p : pc) (s : fs) : pc * fs :=
  match n with
  | 0 => (p, s)
  | S n => let '(p', s') := step j p s in run_thread n j p' s'
  end.

(** How a thread ends, as the outcome of a handler. *)
Definition ended (r : outcome exn Response * fs) : pc * fs :=
  (match r.1 with Ok r => Answered r | Raise e => Crashed e end, r.2).

(** ** Two threads *)

(** The two program points, and who runs next: [false] is the first
    thread. *)
Definition sched_step (j1 j2 : job) (c : pc * pc * fs) (who : bool) : pc * pc * fs :=
  let '(p1, p2, s) := c in
  if who then let '(p2', s') := step j2 p2 s in (p1, p2', s')
  else let '(p1', s') := step j1 p1 s in (p1', p2, s').

Definition run_sched (j1 j2 : job) (sched : list bool) (c : pc * pc * fs)
    : pc * pc * fs :=
  foldl (sched_step j1 j2) c sched.

(** Two requests that arrive together, served along [sched]. *)
Definition interleave (j1 j2 : job) (sched : list bool) (s : fs) : pc * pc * fs :=
  run_sched j1 j2 sched (AtSave, AtSave, s).

End Threads.

(** ** A thread alone *)

Section Alone.
Context `{Pillow} `{Werkzeug}.
Implicit Types (j : job) (p : pc) (s : fs) (early : option Response).

(** The answer of the [except] clause, if the conversion raised. *)
Definition early_of (o : outcome exn unit) : option Response :=
  match o with Ok _ => None | Raise e => Some (failed e) end.

(** Where the thread is after the [finally] clause ran as [c]. *)
Definition cleaned j early (c : outcome exn unit * fs) : pc * fs :=
  (match c.1 with Ok _ => finish j early | Raise e => Crashed e end, c.2).

(** The conversion, then the [finally] clause. *)
Definition converted_and_cleaned j (r : outcome exn unit * fs) : pc * fs :=
  cleaned j (early_of r.1) (remove_if_exists (upload_path (job_file j)) r.2).

Definition final p : Prop :=
  match p with Answered _ | Crashed _ => True | _ => False end.

Lemma run_thread_final n j p s : final p -> run_thread n j p s = (p, s).
Proof.
  revert p s. induction n as [|n IH]; [done|].
  intros [] s; try done; intros _; simpl; by apply IH.
Qed.

Lemma run_step n j p s :
  run_thread (S n) j p s = run_thread n j (step j p s).1 (step j p s).2.
Proof. simpl. by destruct (step j p s). Qed.

(** The two steps of the [finally] clause. *)
Lemma run_thread_finally n j early s :
  run_thread (S (S n)) j (AtExists early) s
  = cleaned j early (remove_if_exists (upload_path (job_file j)) s).
Proof.
  rewrite run_step. cbn [step].
  unfold on, cleaned, remove_if_exists, os_path_exists, when, bind, gets, ret.
  destruct (is_file _ s || is_dir _ s); cbn [fst snd].
  - rewrite run_step. cbn [step]. unfold on.
    destruct (os_remove _ s) as [[[]|e] s1]; by rewrite run_thread_final.
  - by rewrite run_thread_final.
Qed.

(** The steps of [convert_image], then those of the [finally] clause. *)
Lemma run_thread_image n j s :
  run_thread (S (S (S (S n)))) j (AtOpen false) s
  = converted_and_cleaned j
      (app_convert_image (upload_path (job_file j))
         (output_path (job_file j) (job_type j)) (job_type j) s).
Proof.
  unfold converted_and_cleaned, app_convert_image, bind.
  rewrite run_step. cbn [step]. unfold on.
  destruct (Image_open _ s) as [[img|e] s1]; [|apply run_thread_finally].
  cbn [fst snd]. rewrite run_step. cbn [step]. unfold on. cbv zeta.
  destruct (Image_save _ _ _ s1) as [[[]|e] s2]; apply run_thread_finally.
Qed.

(** The steps of [convert_svg], then those of the [finally] clause. *)
Lemma run_thread_svg n j s :
  run_thread (S (S (S (S (S (S n)))))) j AtRender s
  = converted_and_cleaned j
      (app_convert_svg (upload_path (job_file j))
         (output_path (job_file j) (job_type j)) (job_type j) s).
Proof.
  unfold converted_and_cleaned, app_convert_svg, bind. cbv zeta.
  rewrite run_step. cbn [step]. unfold on.
  destruct (svg2png _ _ s) as [[[]|e] s1]; [|apply run_thread_finally].
  cbn [fst snd]. rewrite run_step. cbn [step]. unfold on.
  destruct (Image_open _ s1) as [[img|e] s2]; [|apply run_thread_finally].
  cbn [fst snd]. rewrite run_step. cbn [step]. unfold on. cbv zeta.
  destruct (Image_save _ _ _ s2) as [[[]|e] s3]; [|apply run_thread_finally].
  cbn [fst snd]. rewrite run_step. cbn [step]. unfold on.
  destruct (os_remove _ s3) as [[[]|e] s4]; apply run_thread_finally.
Qed.

Lemma ended_bind {A} (m : M A) (k : A -> M Response) s :
  ended (bind m k s)
  = match m s with
    | (Ok a, s') => ended (k a s')
    | (Raise e, s') => (Crashed e, s')
    end.
Proof. unfold bind. by destruct (m s) as [[a|e] s']. Qed.

(** The [try] statement of the handler and the [return] after it. *)
Lemma convert_try_answer ext file ct s :
  ended ((early <- convert_try ext (upload_path file) (output_path file ct) ct ;;
          ret (answer file ct early)) s)
  = converted_and_cleaned (Job file ct) (conversion ext file ct s).
Proof.
  unfold convert_try, conversion, converted_and_cleaned, cleaned, finish, ended.
  unfold try_finally, try_except, bind, ret. cbn [job_file job_type].
  destruct (if bool_decide (ext = "svg") then _ else _) as [[[]|e] s1].
  all: cbn [fst snd]; by destruct (remove_if_exists _ s1) as [[[]|e'] s2].
Qed.

(** A thread run alone is the handler: after eight steps, the longest path
    through it, the thread has answered what [convert_accepted] returns,
    or has crashed with the exception that leaves it, in the same state. *)
Lemma thread_alone j s :
  run_thread 8 j AtSave s = ended (convert_accepted (job_file j) (job_type j) s).
Proof.
  destruct j as [file ct]. unfold convert_accepted. cbn [job_file job_type].
  cbv zeta. fold (upload_path file) (output_name file ct).
  fold (output_path file ct).
  rewrite run_step. cbn [step job_file job_type].
  destruct (ext_of_filename (filename file)) as [ext|];
    [|by rewrite run_thread_final].
  simpl from_option. rewrite bind_ret_l, ended_bind. unfold on.
  destruct (FileStorage_save _ _ s) as [[[]|e] s1]; cbn [fst snd];
    [|by rewrite run_thread_final].
  rewrite run_step, ended_bind. cbn [step job_file job_type]. unfold on.
  destruct (os_makedirs _ s1) as [[[]|e] s2]; cbn [fst snd];
    [|by rewrite run_thread_final].
  transitivity (converted_and_cleaned (Job file ct) (conversion ext file ct s2)).
  - unfold conversion.
    case_bool_decide; [apply run_thread_svg|apply (run_thread_image 2)].
  - rewrite <- convert_try_answer. unfold ended, bind.
    by destruct (convert_try _ _ _ _ s2) as [[[r|]|e] s3].
Qed.

End Alone.

(** More steps change nothing: eight are enough. *)
Section Fuel.
Context `{Pillow} `{Werkzeug}.

Lemma run_thread_add n m j p s :
  run_thread (n + m) j p s
  = run_thread m j (run_thread n j p s).1 (run_thread n j p s).2.
Proof.
  revert p s. induction n as [|n IH]; intros p s; [done|].
  cbn [Nat.add]. by rewrite !run_step, IH.
Qed.

Lemma thread_alone_enough n j s :
  8 <= n ->
  run_thread n j AtSave s = ended (convert_accepted (job_file j) (job_type j) s).
Proof.
  intros Hn. replace n with (8 + (n - 8)) by lia.
  rewrite run_thread_add, thread_alone. apply run_thread_final.
  unfold ended. cbn [fst]. by destruct (convert_accepted _ _ s).1.
Qed.






End Fuel.

(** ** Schedules *)

Section Schedules.
Context `{Pillow} `{Werkzeug}.
Implicit Types (j : job) (p : pc) (s : fs) (sched : list bool).

Lemma run_sched_app j1 j2 sched1 sched2 c :
  run_sched j1 j2 (sched1 ++ sched2) c
  = run_sched j1 j2 sched2 (run_sched j1 j2 sched1 c).
Proof. apply foldl_app. Qed.

Lemma run_sched_cons j1 j2 who sched c :
  run_sched j1 j2 (who :: sched) c = run_sched j1 j2 sched (sched_step j1 j2 c who).
Proof. reflexivity. Qed.

Lemma sched_step_first j1 j2 p1 p2 s :
  sched_step j1 j2 (p1, p2, s) false = ((step j1 p1 s).1, p2, (step j1 p1 s).2).
Proof. simpl. by destruct (step j1 p1 s). Qed.

Lemma sched_step_second j1 j2 p1 p2 s :
  sched_step j1 j2 (p1, p2, s) true = (p1, (step j2 p2 s).1, (step j2 p2 s).2).
Proof. simpl. by destruct (step j2 p2 s). Qed.

(** A stretch of the schedule given to one thread is that thread run
    alone. *)
Lemma run_sched_first j1 j2 n p1 p2 s :
  run_sched j1 j2 (replicate n false) (p1, p2, s)
  = ((run_thread n j1 p1 s).1, p2, (run_thread n j1 p1 s).2).
Proof.
  revert p1 s. induction n as [|n IH]; intros p1 s; [done|].
  rewrite run_step. simpl. destruct (step j1 p1 s) as [p1' s']. apply IH.
Qed.

Lemma run_sched_second j1 j2 n p1 p2 s :
  run_sched j1 j2 (replicate n true) (p1, p2, s)
  = (p1, (run_thread n j2 p2 s).1, (run_thread n j2 p2 s).2).
Proof.
  revert p2 s. induction n as [|n IH]; intros p2 s; [done|].
  rewrite run_step. simpl. destruct (step j2 p2 s) as [p2' s']. apply IH.
Qed.

(** Served one after the other, two requests are two calls of the
    handler. *)
Lemma serial_is_sequential j1 j2 s :
  let r1 := convert_accepted (job_file j1) (job_type j1) s in
  let r2 := convert_accepted (job_file j2) (job_type j2) r1.2 in
  interleave j1 j2 (replicate 8 false ++ replicate 8 true) s
  = ((ended r1).1, (ended r2).1, r2.2).
Proof.
  intros r1 r2. unfold interleave.
  rewrite run_sched_app, run_sched_first, run_sched_second.
  rewrite (thread_alone j1 s). fold r1. cbn [fst snd ended].
  rewrite (thread_alone j2 r1.2). by fold r2.
Qed.

End Schedules.

(** ** The paths of a job *)

Section JobPaths.
Context `{Pillow} `{Werkzeug}.

(** What a thread writes: the upload, the output, the temporary file. *)
Definition writes (j : job) : list string :=
  [upload_path (job_file j); output_path (job_file j) (job_type j);
   temp_png_path (output_path (job_file j) (job_type j))].

Lemma upload_in_writes j : upload_path (job_file j) ∈ writes j.
Proof. repeat constructor. Qed.

Lemma output_in_writes j : output_path (job_file j) (job_type j) ∈ writes j.
Proof. repeat constructor. Qed.

Lemma temp_in_writes j :
  temp_png_path (output_path (job_file j) (job_type j)) ∈ writes j.
Proof. repeat constructor. Qed.

(** No thread writes a file where a folder of the server is. *)
Lemma writes_not_folder j ct q :
  job_type j ∈ convert_types -> ct ∈ convert_types -> q ∈ writes j ->
  q <> UPLOAD_FOLDER /\ q <> OUTPUT_FOLDER /\ q <> join OUTPUT_FOLDER ct.
Proof.
  intros Hj Hct. rewrite (output_dir_eq ct Hct). unfold writes.
  rewrite !elem_of_cons, elem_of_nil. intros [->|[->|[->|[]]]].
  - unfold upload_path. rewrite input_path_eq.
    apply convert_types_cases in Hct. by destruct_or!; subst ct.
  - destruct (output_path_under_outputs (job_file j) _ Hj) as [Hu _].
    repeat split; intros E; rewrite E in Hu;
      [by destruct Hu as (?&?&?&?&?&?)|by apply under_outputs_not_root in Hu|].
    apply under_outputs_not_dir in Hu; [done|].
    apply convert_types_cases in Hct. by destruct_or!; subst ct.
  - destruct (output_path_under_outputs (job_file j) _ Hj) as [_ Hu].
    repeat split; intros E; rewrite E in Hu;
      [by destruct Hu as (?&?&?&?&?&?)|by apply under_outputs_not_root in Hu|].
    apply under_outputs_not_dir in Hu; [done|].
    apply convert_types_cases in Hct. by destruct_or!; subst ct.
Qed.

End JobPaths.

(** ** Single steps *)

Section Steps.
Context `{Pillow} `{Werkzeug}.
Implicit Types (j : job) (p : pc) (s : fs) (e : string).

Lemma Image_open_missing (path : string) s :
  files s !! path = None -> is_dir path s = false ->
  Image_open path s = (Raise (FileNotFoundError path), s).
Proof.
  intros Hf Hd. unfold Image_open, read_file. eff_unfold. by rewrite Hf, Hd.
Qed.

Lemma step_save j e s :
  ext_of_filename (filename (job_file j)) = Some e ->
  is_dir (upload_path (job_file j)) s = false -> is_dir UPLOAD_FOLDER s = true ->
  step j AtSave s
  = (AtMakedirs e, put_file (upload_path (job_file j)) (stream (job_file j)) s).
Proof.
  intros He Hd Hu. unfold step. rewrite He. unfold on, FileStorage_save.
  rewrite write_file_ok; [done..|].
  unfold parent_ok. by rewrite dirname_upload_path, Hu, orb_true_r.
Qed.

Lemma step_makedirs j e s :
  job_type j ∈ convert_types ->
  is_file OUTPUT_FOLDER s = false ->
  is_file (join OUTPUT_FOLDER (job_type j)) s = false ->
  step j (AtMakedirs e) s
  = (if bool_decide (e = "svg") then AtRender else AtOpen false,
     add_dirs (ancestors (join OUTPUT_FOLDER (job_type j))) s).
Proof.
  intros Hct H1 H2. unfold step, on. rewrite os_makedirs_ok; [done|].
  destruct (ancestors_output_dir _ Hct) as [-> _]. by repeat constructor.
Qed.

Lemma step_open_missing j s :
  files s !! upload_path (job_file j) = None ->
  is_dir (upload_path (job_file j)) s = false ->
  step j (AtOpen false) s
  = (caught (FileNotFoundError (upload_path (job_file j))), s).
Proof. intros Hf Hd. unfold step, on. by rewrite Image_open_missing. Qed.

Lemma step_open j s b i :
  files s !! upload_path (job_file j) = Some b -> decode b = Some i ->
  step j (AtOpen false) s = (AtSaveImage false i, s).
Proof. intros Hf Hd. unfold step, on. by rewrite (Image_open_ok _ _ b i). Qed.

Lemma step_save_image j svg i enc b s :
  job_type j <> "jpg" -> SAVE (upper (job_type j)) = Some enc -> enc i = Ok b ->
  is_dir (output_path (job_file j) (job_type j)) s = false ->
  parent_ok (output_path (job_file j) (job_type j)) s = true ->
  step j (AtSaveImage svg i) s
  = (if svg then AtRemoveTemp else AtExists None,
     put_file (output_path (job_file j) (job_type j)) b s).
Proof.
  intros Hj He Hb Hd Hp. unfold step, on. cbv zeta.
  rewrite bool_decide_false by done.
  by rewrite (Image_save_ok _ _ _ _ enc b) by (by rewrite ?upper_idemp).
Qed.

Lemma step_exists j early s :
  step j (AtExists early) s
  = (if is_file (upload_path (job_file j)) s || is_dir (upload_path (job_file j)) s
     then AtRemove early else finish j early, s).
Proof. reflexivity. Qed.

Lemma step_remove j early s b :
  files s !! upload_path (job_file j) = Some b ->
  step j (AtRemove early) s = (finish j early, del_file (upload_path (job_file j)) s).
Proof. intros Hf. unfold step, on. by rewrite (os_remove_ok _ _ b). Qed.

Lemma step_remove_missing j early s :
  files s !! upload_path (job_file j) = None ->
  is_dir (upload_path (job_file j)) s = false ->
  step j (AtRemove early) s
  = (Crashed (FileNotFoundError (upload_path (job_file j))), s).
Proof.
  intros Hf Hd. unfold step, on, os_remove. eff_unfold.
  by rewrite (proj1 (is_file_None _ _) Hf), Hd.
Qed.

(** No step leads back to the start. *)
Lemma step_not_start j p s : (step j p s).1 <> AtSave.
Proof.
  destruct p; unfold step, on, caught, finish; cbv zeta;
    repeat match goal with
           | |- context [match ?x with _ => _ end] => destruct x
           end; done.
Qed.

End Steps.

(** ** Two uploads with the same name *)

Section SameName.
Context `{Pillow} `{Werkzeug}.
Context (file1 file2 : FileStorage) (ct : string).
Context (Hname : secure_filename (filename file1) = secure_filename (filename file2)).
Implicit Types (p : pc) (s : fs).

Lemma same_upload_path : upload_path file1 = upload_path file2.
Proof. unfold upload_path. by rewrite Hname. Qed.

Lemma same_output_path : output_path file1 ct = output_path file2 ct.
Proof. unfold output_path, output_name. by rewrite Hname. Qed.

Lemma same_answer early : answer file1 ct early = answer file2 ct early.
Proof. unfold answer, converted, output_name. by rewrite Hname. Qed.

(** After the upload is saved the two threads run the same code on the
    same paths. *)
Lemma step_same_name p s :
  p <> AtSave -> step (Job file1 ct) p s = step (Job file2 ct) p s.
Proof.
  intros Hp. destruct p; [done|..]; unfold step, finish; cbn [job_file job_type];
    by rewrite ?same_upload_path, ?same_output_path, ?same_answer.
Qed.

Lemma run_thread_same_name n p s :
  p <> AtSave -> run_thread n (Job file1 ct) p s = run_thread n (Job file2 ct) p s.
Proof.
  revert p s. induction n as [|n IH]; intros p s Hp; [done|].
  rewrite !run_step, <- step_same_name by done. apply IH, step_not_start.
Qed.

(** The extension matters only through the test [ext == 'svg']. *)
Lemma run_thread_raster n j e1 e2 s :
  e1 <> "svg"%string -> e2 <> "svg"%string ->
  run_thread (S n) j (AtMakedirs e1) s = run_thread (S n) j (AtMakedirs e2) s.
Proof.
  intros H1 H2. rewrite !run_step. cbn [step]. unfold on.
  by rewrite !bool_decide_false by done.
Qed.

(** Both uploads saved, the second over the first. *)
Lemma both_saved s e1 e2 :
  ext_of_filename (filename file1) = Some e1 ->
  ext_of_filename (filename file2) = Some e2 ->
  is_dir (upload_path file2) s = false -> is_dir UPLOAD_FOLDER s = true ->
  run_sched (Job file1 ct) (Job file2 ct) [false; true] (AtSave, AtSave, s)
  = (AtMakedirs e1, AtMakedirs e2, put_file (upload_path file2) (stream file2) s).
Proof.
  intros He1 He2 Hd Hu. unfold run_sched. cbn [foldl sched_step].
  rewrite (step_save (Job file1 ct) e1 s);
    cbn [job_file]; rewrite ?same_upload_path; [|done..].
  cbn [sched_step]. rewrite (step_save (Job file2 ct) e2);
    cbn [job_file]; rewrite ?is_dir_put_file; [|done..].
  by rewrite put_file_twice.
Qed.

(** The state a conversion of [file2] alone leaves: the output written, the
    upload removed. *)
Definition served (b : bytes) (s : fs) : fs :=
  del_file (upload_path file2)
    (put_file (output_path file2 ct) b (prepared file2 ct s)).

Lemma served_upload_gone b s :
  is_dir (upload_path file2) s = false -> ct ∈ convert_types ->
  files (served b s) !! upload_path file2 = None /\
  is_dir (upload_path file2) (served b s) = false.
Proof.
  intros Hd Hct. split; [apply files_del_file|].
  unfold served, prepared.
  rewrite is_dir_del_file, is_dir_put_file, is_dir_add_dirs, is_dir_put_file, Hd.
  destruct (ancestors_output_dir ct Hct) as [-> [y Hy]].
  rewrite bool_decide_false; [done|]. unfold upload_path.
  rewrite input_path_eq, Hy, !elem_of_cons, elem_of_nil.
  intros [E|[E|[]]]; by apply (uploads_ne_outputs _ _ E) || by apply (uploads_ne_outputs _ "" E).
Qed.

Lemma served_folders_free b s :
  ct ∈ convert_types ->
  is_file OUTPUT_FOLDER s = false -> is_file (join OUTPUT_FOLDER ct) s = false ->
  is_file OUTPUT_FOLDER (served b s) = false /\
  is_file (join OUTPUT_FOLDER ct) (served b s) = false.
Proof.
  intros Hct H1 H2. unfold served, prepared.
  destruct (writes_not_folder (Job file2 ct) ct _ Hct Hct
              (upload_in_writes (Job file2 ct))) as (_ & U1 & U2).
  destruct (writes_not_folder (Job file2 ct) ct _ Hct Hct
              (output_in_writes (Job file2 ct))) as (_ & O1 & O2).
  cbn [job_file job_type] in *.
  by rewrite !is_file_del_file_ne, !is_file_put_file_ne, !is_file_add_dirs,
    !is_file_put_file_ne by done.
Qed.

(** The second thread, left with the state the first one served: its
    upload is gone. *)
Lemma run_thread_upload_gone n b e s :
  ct ∈ convert_types -> e <> "svg"%string -> ready file2 ct s ->
  run_thread (S (S (S n))) (Job file2 ct) (AtMakedirs e) (served b s)
  = (Answered (failed (FileNotFoundError (upload_path file2))),
     add_dirs (ancestors (join OUTPUT_FOLDER ct)) (served b s)).
Proof.
  intros Hct He (Hup & Hnd & Ho1 & Ho2).
  destruct (served_folders_free b s Hct Ho1 Ho2) as [F1 F2].
  destruct (served_upload_gone b s Hnd Hct) as [G1 G2].
  destruct (ancestors_output_dir ct Hct) as [Ha [y Hy]].
  assert (is_dir (upload_path file2)
            (add_dirs (ancestors (join OUTPUT_FOLDER ct)) (served b s)) = false) as G3.
  { rewrite is_dir_add_dirs, G2, Ha, bool_decide_false; [done|].
    destruct (writes_not_folder (Job file2 ct) ct _ Hct Hct
                (upload_in_writes (Job file2 ct))) as (_ & U1 & U2).
    rewrite !elem_of_cons, elem_of_nil. cbn [job_file] in *. tauto. }
  rewrite run_step, step_makedirs by done. cbn [fst snd job_file job_type].
  rewrite bool_decide_false by done.
  rewrite run_step, step_open_missing by done. cbn [fst snd job_file]. unfold caught.
  rewrite run_step, step_exists. cbn [fst snd job_file].
  rewrite (proj1 (is_file_None _ _)), G3 by done. cbn [orb].
  by rewrite run_thread_final.
Qed.

(** The first thread, after both uploads are saved, serves the upload of
    the second. *)
Lemma first_serves_second s e1 e2 i enc b :
  ct ∈ convert_types -> ct <> "jpg"%string ->
  allowed_file (filename file2) = true ->
  ext_of_filename (filename file2) = Some e2 ->
  e1 <> "svg"%string -> e2 <> "svg"%string ->
  ready file2 ct s -> is_dir (output_path file2 ct) s = false ->
  decode (stream file2) = Some i -> SAVE (upper ct) = Some enc -> enc i = Ok b ->
  run_thread 7 (Job file1 ct) (AtMakedirs e1)
    (put_file (upload_path file2) (stream file2) s)
  = (Answered (converted file1 ct), served b s).
Proof.
  intros Hct Hjpg Hal He2 H1 H2 Hready Hd Hi Henc Hb.
  rewrite run_thread_same_name, (run_thread_raster 6 _ e1 e2) by done.
  pose proof (thread_alone (Job file2 ct) s) as Ha.
  rewrite run_step, (step_save _ e2) in Ha by (done || apply Hready).
  cbn [fst snd job_file job_type] in Ha. rewrite Ha. clear Ha.
  rewrite (convert_accepted_raster file2 ct s e2 i enc b) by done.
  unfold ended, served. cbn [fst snd]. do 2 f_equal.
  unfold converted, output_name. by rewrite Hname.
Qed.

(** The two threads in lockstep, from the point where both uploads are
    saved: each converts the upload of the second. *)
Lemma lockstep_convert s e1 e2 i enc b :
  ct ∈ convert_types -> ct <> "jpg"%string ->
  e1 <> "svg"%string -> e2 <> "svg"%string ->
  ready file2 ct s -> is_dir (output_path file2 ct) s = false ->
  decode (stream file2) = Some i -> SAVE (upper ct) = Some enc -> enc i = Ok b ->
  run_sched (Job file1 ct) (Job file2 ct) [false; true; false; true; false; true]
    (AtMakedirs e1, AtMakedirs e2, put_file (upload_path file2) (stream file2) s)
  = (AtExists None, AtExists None,
     put_file (output_path file2 ct) b (prepared file2 ct s)).
Proof.
  intros Hct Hjpg H1 H2 (Hup & Hnd & Ho1 & Ho2) Hd Hi Henc Hb.
  destruct (writes_not_folder (Job file2 ct) ct _ Hct Hct
              (upload_in_writes (Job file2 ct))) as (_ & U1 & U2).
  cbn [job_file job_type] in U1, U2.
  destruct (prepared_parent_ok file2 ct s Hct) as [Hpo _].
  rewrite <- (prepared_is_dir file2 ct s _ _ Hct (output_path_under file2 ct Hct)) in Hd.
  (* os.makedirs, twice *)
  rewrite run_sched_cons, sched_step_first, step_same_name by done.
  rewrite step_makedirs by (by rewrite ?is_file_put_file_ne). cbn [fst snd job_type].
  rewrite run_sched_cons, sched_step_second.
  rewrite step_makedirs by (by rewrite ?is_file_add_dirs, ?is_file_put_file_ne).
  cbn [fst snd job_type]. rewrite add_dirs_twice, !bool_decide_false by done.
  fold (prepared file2 ct s).
  (* Image.open, twice *)
  rewrite run_sched_cons, sched_step_first, step_same_name by done.
  rewrite (step_open _ _ _ i) by (done || apply prepared_upload). cbn [fst snd].
  rewrite run_sched_cons, sched_step_second.
  rewrite (step_open _ _ _ i) by (done || apply prepared_upload). cbn [fst snd].
  (* img.save, twice *)
  rewrite run_sched_cons, sched_step_first, step_same_name by done.
  rewrite (step_save_image _ _ _ enc b) by done. cbn [fst snd job_file job_type].
  rewrite run_sched_cons, sched_step_second.
  rewrite (step_save_image _ _ _ enc b)
    by (by rewrite ?is_dir_put_file, ?parent_ok_put_file).
  cbn [fst snd job_file job_type]. by rewrite put_file_twice.
Qed.

(** Then both see the upload in the [finally] clause, the first removes
    it, and [os.remove] raises in the second. *)
Lemma lockstep_finally s b :
  ct ∈ convert_types -> is_dir (upload_path file2) s = false ->
  run_sched (Job file1 ct) (Job file2 ct) [false; true; false; true]
    (AtExists None, AtExists None,
     put_file (output_path file2 ct) b (prepared file2 ct s))
  = (Answered (converted file1 ct),
     Crashed (FileNotFoundError (upload_path file2)), served b s).
Proof.
  intros Hct Hnd. destruct (upload_ne_output file2 ct Hct) as [Hne _].
  destruct (served_upload_gone b s Hnd Hct) as [G1 G2].
  assert (files (put_file (output_path file2 ct) b (prepared file2 ct s))
            !! upload_path file2 = Some (stream file2)) as Hthere.
  { rewrite files_put_file_ne by done. apply prepared_upload. }
  (* os.path.exists, twice *)
  rewrite run_sched_cons, sched_step_first, step_same_name, step_exists by done.
  cbn [fst snd job_file]. rewrite (is_file_Some _ _ _ Hthere). cbn [orb].
  rewrite run_sched_cons, sched_step_second, step_exists.
  cbn [fst snd job_file]. rewrite (is_file_Some _ _ _ Hthere). cbn [orb].
  (* os.remove, twice *)
  rewrite run_sched_cons, sched_step_first, step_same_name by done.
  rewrite (step_remove (Job file2 ct) _ _ _ Hthere). cbn [fst snd job_file].
  rewrite run_sched_cons, sched_step_second.
  rewrite step_remove_missing by done. cbn [fst snd job_file].
  unfold finish, answer. cbn [job_file job_type from_option].
  unfold converted, output_name. by rewrite Hname.
Qed.

Lemma lockstep s e1 e2 i enc b :
  ct ∈ convert_types -> ct <> "jpg"%string ->
  e1 <> "svg"%string -> e2 <> "svg"%string ->
  ready file2 ct s -> is_dir (output_path file2 ct) s = false ->
  decode (stream file2) = Some i -> SAVE (upper ct) = Some enc -> enc i = Ok b ->
  run_sched (Job file1 ct) (Job file2 ct)
    [false; true; false; true; false; true; false; true; false; true]
    (AtMakedirs e1, AtMakedirs e2, put_file (upload_path file2) (stream file2) s)
  = (Answered (converted file1 ct),
     Crashed (FileNotFoundError (upload_path file2)), served b s).
Proof.
  intros Hct Hjpg H1 H2 Hready Hd Hi Henc Hb.
  rewrite (run_sched_app _ _ [false; true; false; true; false; true]
             [false; true; false; true]).
  rewrite (lockstep_convert s e1 e2 i enc b) by done.
  apply lockstep_finally; [done|apply Hready].
Qed.

End SameName.

(** ** One after the other

    The output is named after the upload, not after the request.  Served in
    turn, no request is harmed while it runs, but the second conversion
    replaces the file the answer to the first points to. *)

Section Sequential.
Context `{Pillow} `{Werkzeug}.
Implicit Types (s : fs) (file : FileStorage) (ct : string) (b : bytes).

Lemma served_output file ct b s :
  ct ∈ convert_types ->
  files (served file ct b s) !! output_path file ct = Some b /\
  is_dir (output_path file ct) (served file ct b s)
  = is_dir (output_path file ct) s.
Proof.
  intros Hct. unfold served. split.
  - rewrite files_del_file_ne, files_put_file; [done|]. by apply upload_ne_output.
  - rewrite is_dir_del_file, is_dir_put_file.
    apply (prepared_is_dir file ct s _ _ Hct (output_path_under file ct Hct)).
Qed.

(** A served request leaves the state ready for the next upload of the
    same name. *)
Lemma served_ready file ct b s :
  ct ∈ convert_types -> ready file ct s -> ready file ct (served file ct b s).
Proof.
  intros Hct (Hup & Hnd & Ho1 & Ho2).
  destruct (served_upload_gone file ct b s Hnd Hct) as [_ G].
  destruct (served_folders_free file ct b s Hct Ho1 Ho2) as [F1 F2].
  repeat split; [|done..]. unfold served, prepared.
  rewrite is_dir_del_file, is_dir_put_file, is_dir_add_dirs, is_dir_put_file, Hup.
  apply orb_true_r.
Qed.

(** Two raster uploads of the same name, converted to the same format one
    after the other: both are answered 200 with the same [download_url];
    after the first the file behind it is the conversion of the first
    upload, after the second it is the conversion of the second. *)
Theorem same_name_replaces file1 file2 ct s e1 e2 i1 i2 enc b1 b2 :
  secure_filename (filename file1) = secure_filename (filename file2) ->
  ct ∈ convert_types -> ct <> "jpg"%string ->
  allowed_file (filename file1) = true -> allowed_file (filename file2) = true ->
  ext_of_filename (filename file1) = Some e1 -> e1 <> "svg"%string ->
  ext_of_filename (filename file2) = Some e2 -> e2 <> "svg"%string ->
  ready file1 ct s -> is_dir (output_path file1 ct) s = false ->
  decode (stream file1) = Some i1 -> decode (stream file2) = Some i2 ->
  SAVE (upper ct) = Some enc -> enc i1 = Ok b1 -> enc i2 = Ok b2 ->
  exists s1 s2,
    convert_accepted file1 ct s = (Ok (converted file1 ct), s1) /\
    files s1 !! output_path file1 ct = Some b1 /\
    convert_accepted file2 ct s1 = (Ok (converted file1 ct), s2) /\
    files s2 !! output_path file1 ct = Some b2.
Proof.
  intros Hname Hct Hjpg A1 A2 E1 S1 E2 S2 Hready Hd I1 I2 Henc B1 B2.
  pose proof (same_upload_path _ _ Hname) as Hu.
  pose proof (same_output_path _ _ ct Hname) as Ho.
  assert (converted file1 ct = converted file2 ct) as Hc
    by (unfold converted, output_name; by rewrite Hname).
  destruct (served_output file1 ct b1 s Hct) as [O1 D1].
  pose proof (served_ready file1 ct b1 s Hct Hready) as R1.
  unfold ready in R1. rewrite Hu in R1. rewrite Hd, Ho in D1.
  exists (served file1 ct b1 s), (served file2 ct b2 (served file1 ct b1 s)).
  rewrite (convert_accepted_raster file1 ct s e1 i1 enc b1) by done.
  rewrite (convert_accepted_raster file2 ct _ e2 i2 enc b2) by done.
  rewrite Hc, Ho. repeat split;
    [unfold served; by rewrite <- Ho|by rewrite <- Ho|apply served_output, Hct].
Qed.

End Sequential.

(** ** Theorems *)

Section InterleaveTheorems.
Context `{Pillow} `{Werkzeug}.
Implicit Types (j : job) (s : fs) (file : FileStorage) (ct : string).



(** C11. Two uploads with the same name, served at the same time, are mixed
    up.  When the second request saves its upload after the first one did
    and before the first one converts, the first request is answered 200
    and its output is the conversion of the second upload; the second
    request, which was as valid, is answered 500: its upload was removed
    by the first. *)
Theorem same_name_mixed_up file1 file2 ct s e1 e2 i enc b :
  secure_filename (filename file1) = secure_filename (filename file2) ->
  ct ∈ convert_types -> ct <> "jpg"%string ->
  allowed_file (filename file2) = true ->
  ext_of_filename (filename file1) = Some e1 -> e1 <> "svg"%string ->
  ext_of_filename (filename file2) = Some e2 -> e2 <> "svg"%string ->
  ready file2 ct s -> is_dir (output_path file2 ct) s = false ->
  decode (stream file2) = Some i -> SAVE (upper ct) = Some enc -> enc i = Ok b ->
  exists s',
    interleave (Job file1 ct) (Job file2 ct)
      ([false; true] ++ replicate 7 false ++ replicate 7 true) s
    = (Answered (converted file1 ct),
       Answered (failed (FileNotFoundError (upload_path file2))), s') /\
    files s' !! output_path file1 ct = Some b.
Proof.
  intros Hname Hct Hjpg Hal He1 H1 He2 H2 Hready Hd Hi Henc Hb.
  unfold interleave. rewrite !run_sched_app.
  rewrite (both_saved _ _ ct Hname s e1 e2) by (done || apply Hready).
  rewrite run_sched_first.
  rewrite (first_serves_second _ _ ct Hname s e1 e2 i enc b) by done.
  cbn [fst snd]. rewrite run_sched_second.
  rewrite (run_thread_upload_gone file2 ct 4) by done. cbn [fst snd].
  eexists. split; [done|].
  rewrite (same_output_path _ _ ct Hname). unfold served.
  rewrite files_add_dirs, files_del_file_ne, files_put_file; [done|].
  by apply upload_ne_output.
Qed.

(** C20. Two uploads with the same name, served in lockstep: an exception
    leaves the route.  Both threads find the upload in the [finally]
    clause ([os.path.exists]); the first removes it, and [os.remove] of the
    second raises [FileNotFoundError], which nothing catches.  Served one
    after the other, no request makes a route raise. *)
Theorem same_name_crash file1 file2 ct s e1 e2 i enc b :
  secure_filename (filename file1) = secure_filename (filename file2) ->
  ct ∈ convert_types -> ct <> "jpg"%string ->
  ext_of_filename (filename file1) = Some e1 -> e1 <> "svg"%string ->
  ext_of_filename (filename file2) = Some e2 -> e2 <> "svg"%string ->
  ready file2 ct s -> is_dir (output_path file2 ct) s = false ->
  decode (stream file2) = Some i -> SAVE (upper ct) = Some enc -> enc i = Ok b ->
  exists s',
    interleave (Job file1 ct) (Job file2 ct)
      [false; true; false; true; false; true; false; true; false; true;
       false; true] s
    = (Answered (converted file1 ct),
       Crashed (FileNotFoundError (upload_path file2)), s') /\
    files s' !! upload_path file2 = None.
Proof.
  intros Hname Hct Hjpg He1 H1 He2 H2 Hready Hd Hi Henc Hb.
  unfold interleave.
  rewrite (run_sched_app _ _ [false; true]
             [false; true; false; true; false; true; false; true; false; true]).
  rewrite (both_saved _ _ ct Hname s e1 e2) by (done || apply Hready).
  rewrite (lockstep _ _ ct Hname s e1 e2 i enc b) by done.
  eexists. split; [done|]. apply files_del_file.
Qed.

End InterleaveTheorems.

(** ** Witnesses *)

Section InterleaveWitnesses.
#[local] Existing Instance toy.
#[local] Existing Instance toy_werkzeug.

Definition mine : FileStorage := {| filename := "cat.png"; stream := "P4mine" |}.
Definition yours : FileStorage := {| filename := "cat.png"; stream := "P3yours" |}.

Example run_mixed_up :
  let r := interleave (Job mine "webp") (Job yours "webp")
             ([false; true] ++ replicate 7 false ++ replicate 7 true) server_fs in
  r.1 = (Answered (converted mine "webp"),
         Answered (failed (FileNotFoundError "uploads/cat.png"))) /\
  map_to_list (files r.2) = [("outputs/webp/cat.webp", "W3yours")]%string.
Proof. by vm_compute. Qed.

Example run_serial :
  let r := interleave (Job mine "webp") (Job yours "webp")
             (replicate 8 false ++ replicate 8 true) server_fs in
  r.1 = (Answered (converted mine "webp"), Answered (converted yours "webp")).
Proof. by vm_compute. Qed.

Lemma same_name_mixed_up_witness :
  exists s',
    interleave (Job mine "webp") (Job yours "webp")
      ([false; true] ++ replicate 7 false ++ replicate 7 true) server_fs
    = (Answered (converted mine "webp"),
       Answered (failed (FileNotFoundError (upload_path yours))), s') /\
    files s' !! output_path mine "webp" = Some "W3yours"%string.
Proof.
  eapply (same_name_mixed_up mine yours "webp" server_fs "png" "png");
    try (by vm_compute); reflexivity.
Defined.

Lemma same_name_crash_witness :
  exists s',
    interleave (Job mine "webp") (Job yours "webp")
      [false; true; false; true; false; true; false; true; false; true;
       false; true] server_fs
    = (Answered (converted mine "webp"),
       Crashed (FileNotFoundError (upload_path yours)), s') /\
    files s' !! upload_path yours = None.
Proof.
  eapply (same_name_crash mine yours "webp" server_fs "png" "png");
    try (by vm_compute); reflexivity.
Defined.

Lemma same_name_replaces_witness :
  exists s1 s2,
    convert_accepted mine "webp" server_fs = (Ok (converted mine "webp"), s1) /\
    files s1 !! output_path mine "webp" = Some "W4mine"%string /\
    convert_accepted yours "webp" s1 = (Ok (converted mine "webp"), s2) /\
    files s2 !! output_path mine "webp" = Some "W3yours"%string.
Proof.
  eapply (same_name_replaces mine yours "webp" server_fs "png" "png");
    try (by vm_compute); reflexivity.
Defined.

End InterleaveWitnesses.
