(* ===== verification/Independent.v ===== *)
(** * Independent: what a thread sees of the others

    Requests are served at the same time, as in [Interleave].  When no
    path one thread writes (its upload, its output, its temporary file) is
    a path another reads, a thread cannot tell the state the others leave
    from the state of its run alone.  This file holds the relation and
    its two step lemmas; [Pool] runs the induction over the schedule.

    [sim] relates the state of the interleaved run to the state of a
    thread's run alone: the same files at the paths the thread reads, and
    the same folders up to those the other threads make.  A step of the
    thread keeps the relation and leads to the same program point from
    both states ([step_local]): each step is one call, whose outcome
    depends on what [sim] fixes ([same_run]).  A step of another thread
    keeps the relation because of what it leaves alone ([step_frame]). *)

From S2P Require Import Prelude PyString Classifier FileSys Imaging Converter.
From S2P Require Import WebApp WebGif Server Listing Interleave.

Local Open Scope eff_scope.

(** ** Runs that agree *)

(** What one call does to the file system. *)
Inductive update :=
| Same
| Put (p : string) (b : bytes)
| Del (p : string)
| Mk (ds : list string).

Definition apply_update (u : update) (s : fs) : fs :=
  match u with
  | Same => s
  | Put p b => put_file p b s
  | Del p => del_file p s
  | Mk ds => add_dirs ds s
  end.

(** [m] has the same outcome from [s] and from [a], and changes nothing. *)
Definition same_read {A} (m : M A) (s a : fs) : Prop :=
  exists o, m s = (o, s) /\ m a = (o, a).

(** [m] has the same outcome from [s] and from [a], and changes both in the
    same way. *)
Definition same_run {A} (m : M A) (s a : fs) : Prop :=
  exists o u, m s = (o, apply_update u s) /\ m a = (o, apply_update u a).

Section SameRun.
Context {A B : Type}.
Implicit Types (s a : fs) (p q : string).

Lemma same_read_run (m : M A) s a : same_read m s a -> same_run m s a.
Proof. intros (o & Hs & Ha). by exists o, Same. Qed.

Lemma same_read_ret (x : A) s a : same_read (ret x) s a.
Proof. by exists (Ok x). Qed.

Lemma same_read_raise (e : exn) s a : same_read (raise (A:=A) e) s a.
Proof. by exists (Raise e). Qed.

Lemma same_read_lift_outcome (o : outcome exn A) s a : same_read (lift_outcome o) s a.
Proof. by exists o. Qed.

Lemma same_read_bind (m : M A) (k : A -> M B) s a :
  same_read m s a -> (forall x, same_read (k x) s a) -> same_read (bind m k) s a.
Proof.
  intros ([x|e] & Hs & Ha) Hk; unfold same_read, bind; rewrite Hs, Ha;
    [apply Hk|by exists (Raise e)].
Qed.

Lemma same_run_bind (m : M A) (k : A -> M B) s a :
  same_read m s a -> (forall x, same_run (k x) s a) -> same_run (bind m k) s a.
Proof.
  intros ([x|e] & Hs & Ha) Hk; unfold same_run, bind; rewrite Hs, Ha;
    [apply Hk|by exists (Raise e), Same].
Qed.

End SameRun.

(** ** The calls of the handler *)

Section Calls.
Context `{Pillow}.
Implicit Types (s a : fs) (p q : string) (b : bytes).

Lemma same_read_read_file p s a :
  files s !! p = files a !! p -> is_dir p s = is_dir p a ->
  same_read (read_file p) s a.
Proof.
  intros Hf Hd. unfold same_read, read_file. eff_unfold. rewrite Hf, Hd.
  destruct (files a !! p); [by eexists|]. destruct (is_dir p a); by eexists.
Qed.

Lemma same_read_check_writable p s a :
  is_dir p s = is_dir p a -> parent_ok p s = parent_ok p a ->
  same_read (check_writable p) s a.
Proof.
  intros Hd Hp. unfold same_read, check_writable. eff_unfold. rewrite Hd, Hp.
  destruct (is_dir p a); [by eexists|]. destruct (parent_ok p a); by eexists.
Qed.

Lemma same_run_write_file p b s a :
  is_dir p s = is_dir p a -> parent_ok p s = parent_ok p a ->
  same_run (write_file p b) s a.
Proof.
  intros Hd Hp. apply same_run_bind; [by apply same_read_check_writable|].
  intros _. by exists (Ok tt), (Put p b).
Qed.

Lemma same_run_os_remove p s a :
  files s !! p = files a !! p -> is_dir p s = is_dir p a ->
  same_run (os_remove p) s a.
Proof.
  intros Hf Hd. unfold same_run, os_remove, is_file. eff_unfold. rewrite Hf, Hd.
  case_bool_decide; [by exists (Ok tt), (Del p)|].
  destruct (is_dir p a); by eexists _, Same.
Qed.

Lemma same_read_os_path_exists p s a :
  files s !! p = files a !! p -> is_dir p s = is_dir p a ->
  same_read (os_path_exists p) s a.
Proof.
  intros Hf Hd. unfold same_read, os_path_exists, is_file. eff_unfold.
  rewrite Hf, Hd. by eexists.
Qed.

Lemma same_run_os_makedirs p s a :
  (forall q, q ∈ ancestors p -> files s !! q = files a !! q) ->
  same_run (os_makedirs p) s a.
Proof.
  intros Hf. unfold same_run, os_makedirs. eff_unfold.
  assert (list_find (fun q => is_file q s = true) (ancestors p)
          = list_find (fun q => is_file q a = true) (ancestors p)) as ->.
  { induction (ancestors p) as [|q l IH]; [done|]. cbn [list_find].
    assert (is_file q s = is_file q a) as Hq
      by (unfold is_file; rewrite Hf; [done|by left]).
    rewrite !decide_bool_decide. rewrite Hq.
    rewrite IH by (intros q' Hq'; apply Hf; by right). done. }
  destruct (list_find _ (ancestors p)) as [[n q]|];
    [by eexists _, Same|by exists (Ok tt), (Mk (ancestors p))].
Qed.

Lemma same_read_Image_open p s a :
  files s !! p = files a !! p -> is_dir p s = is_dir p a ->
  same_read (Image_open p) s a.
Proof.
  intros Hf Hd. apply same_read_bind; [by apply same_read_read_file|].
  intros b. destruct (decode b); [apply same_read_ret|apply same_read_raise].
Qed.

Lemma same_run_Image_save i p f s a :
  is_dir p s = is_dir p a -> parent_ok p s = parent_ok p a ->
  same_run (Image_save i p f) s a.
Proof.
  intros Hd Hp. unfold Image_save.
  destruct (SAVE (upper f)) as [enc|]; [|apply same_read_run, same_read_raise].
  apply same_run_bind; [by apply same_read_check_writable|]. intros _.
  apply same_run_bind; [apply same_read_lift_outcome|]. intros b.
  by apply same_run_write_file.
Qed.

Lemma same_run_svg2png p q s a :
  files s !! p = files a !! p -> is_dir p s = is_dir p a ->
  is_dir q s = is_dir q a -> parent_ok q s = parent_ok q a ->
  same_run (svg2png p q) s a.
Proof.
  intros Hf Hd Hq Hp. unfold svg2png.
  apply same_run_bind; [by apply same_read_read_file|]. intros b.
  apply same_run_bind; [apply same_read_lift_outcome|]. intros r.
  by apply same_run_write_file.
Qed.

End Calls.

(** ** The simulation *)

(** [s], the state of the interleaved run, looks like [a], the state of a
    run alone, to a thread that reads the files [R]: the same files
    there, and the same folders up to the folders [X] that the other
    thread makes. *)
Record sim (R : list string) (X : gset string) (s a : fs) : Prop := Sim {
  sim_files : forall q, q ∈ R -> files s !! q = files a !! q;
  sim_lo : dirs a ⊆ dirs s;
  sim_hi : dirs s ⊆ dirs a ∪ X
}.

Section Sim.
Implicit Types (R : list string) (X : gset string) (s a : fs) (p q : string).

Lemma sim_refl R X s : sim R X s s.
Proof. split; [done..|apply union_subseteq_l]. Qed.

(** The same call on both sides keeps the relation. *)
Lemma sim_update R X u s a :
  sim R X s a -> sim R X (apply_update u s) (apply_update u a).
Proof.
  intros [Hf Hlo Hhi]. destruct u as [|p b|p|ds]; [done|..]; split; simpl;
    try done.
  - intros q Hq. destruct (decide (p = q)) as [->|Hne];
      [by rewrite !lookup_insert_eq|by rewrite !lookup_insert_ne; auto].
  - intros q Hq. destruct (decide (p = q)) as [->|Hne];
      [by rewrite !lookup_delete_eq|by rewrite !lookup_delete_ne; auto].
  - by apply union_mono_l.
  - rewrite <- (assoc_L (∪)). by apply union_mono_l.
Qed.

Lemma sim_is_file R X q s a : sim R X s a -> q ∈ R -> is_file q s = is_file q a.
Proof. intros [Hf _ _] Hq. unfold is_file. by rewrite Hf. Qed.

(** A path the other thread does not make is a folder on both sides or on
    neither. *)
Lemma sim_is_dir R X q s a : sim R X s a -> q ∉ X -> is_dir q s = is_dir q a.
Proof.
  intros [_ Hlo Hhi] Hq. unfold is_dir. apply bool_decide_ext. split.
  - intros [?|?]%Hhi%elem_of_union; done.
  - apply Hlo.
Qed.

(** A folder of the run alone is a folder of the interleaved run. *)
Lemma sim_is_dir_made R X q s a :
  sim R X s a -> q ∈ dirs a -> is_dir q s = is_dir q a.
Proof.
  intros [_ Hlo _] Hq. unfold is_dir.
  rewrite !bool_decide_true; [done..|by apply Hlo].
Qed.

(** A step of the other thread: it leaves the files [R] alone and makes
    folders of [X] only. *)
Lemma sim_frame R X s s' a :
  sim R X s a ->
  (forall q, q ∈ R -> files s' !! q = files s !! q) ->
  dirs s ⊆ dirs s' -> dirs s' ⊆ dirs s ∪ X ->
  sim R X s' a.
Proof.
  intros [Hf Hlo Hhi] Hfiles Hsub Hsup. split.
  - intros q Hq. rewrite Hfiles by done. by apply Hf.
  - by etrans.
  - etrans; [exact Hsup|]. apply union_least; [done|apply union_subseteq_r].
Qed.

End Sim.

(** ** The steps of a job *)

Section Jobs.
Context `{Pillow} `{Werkzeug}.
Implicit Types (j k : job) (p : pc) (s a : fs) (q : string).

(** The files a thread looks at: those it writes, and the two paths where
    [os.makedirs] wants no file. *)
Definition reads (j : job) : list string :=
  writes j ++ [OUTPUT_FOLDER; join OUTPUT_FOLDER (job_type j)].

(** The folders a thread makes. *)
Definition makes (j : job) : gset string :=
  list_to_set (ancestors (join OUTPUT_FOLDER (job_type j))).

(** The program points between [os.makedirs] and the last write. *)
Definition made (p : pc) : Prop :=
  match p with AtRender | AtOpen _ | AtSaveImage _ _ => True | _ => False end.

(** There, the output folder exists. *)
Definition inv (j : job) (p : pc) (a : fs) : Prop :=
  made p -> join OUTPUT_FOLDER (job_type j) ∈ dirs a.

Lemma writes_reads j q : q ∈ writes j -> q ∈ reads j.
Proof. intros Hq. apply elem_of_app. by left. Qed.

Lemma ancestors_reads j q :
  job_type j ∈ convert_types ->
  q ∈ ancestors (join OUTPUT_FOLDER (job_type j)) -> q ∈ reads j.
Proof.
  intros Hj Hq. destruct (ancestors_output_dir _ Hj) as [Ha _].
  rewrite Ha in Hq. apply elem_of_app. by right.
Qed.

(** The call of a program point, from two states that agree. *)
Lemma on_same_run {A} (m : M A) ok err s a :
  same_run m s a ->
  exists p' u, on m ok err s = (p', apply_update u s) /\
               on m ok err a = (p', apply_update u a).
Proof.
  intros ([x|e] & u & Hs & Ha); unfold on; rewrite Hs, Ha; by eexists _, u.
Qed.

Lemma parent_ok_ext q s a :
  is_dir (dirname q) s = is_dir (dirname q) a -> parent_ok q s = parent_ok q a.
Proof. intros E. unfold parent_ok. by rewrite E. Qed.

(** A step of a thread, from the interleaved state and from its state
    alone: the same program point next, and the same change.  [X] are the
    folders the other threads make: none is a path of the thread, none is
    the upload folder. *)
Lemma step_local j X p s a :
  job_type j ∈ convert_types ->
  (forall q, q ∈ writes j -> q ∉ X) -> UPLOAD_FOLDER ∉ X ->
  sim (reads j) X s a -> inv j p a ->
  exists p' u, step j p s = (p', apply_update u s) /\
               step j p a = (p', apply_update u a).
Proof.
  intros Hj HX HXu Hsim Hinv.
  pose proof (fun q Hq => sim_files _ _ _ _ Hsim q (writes_reads j q Hq)) as Hf.
  pose proof (fun q Hq => sim_is_dir _ _ q _ _ Hsim (HX q Hq)) as Hd.
  pose proof (sim_is_dir _ _ _ _ _ Hsim HXu) as Hu.
  destruct (dirname_output_path (job_file j) _ Hj) as [D1 D2].
  pose proof (upload_in_writes j) as W1. pose proof (output_in_writes j) as W2.
  pose proof (temp_in_writes j) as W3.
  assert (made p -> forall q, dirname q = join OUTPUT_FOLDER (job_type j) ->
                    parent_ok q s = parent_ok q a) as Hpo.
  { intros Hp q Hq. apply parent_ok_ext. rewrite Hq.
    by apply (sim_is_dir_made _ _ _ _ _ Hsim), Hinv. }
  destruct p; unfold step; cbv zeta; try by eexists _, Same.
  - destruct (ext_of_filename _); [|by eexists _, Same].
    apply on_same_run, same_run_write_file; [by apply Hd|].
    apply parent_ok_ext. by rewrite dirname_upload_path.
  - apply on_same_run, same_run_os_makedirs. intros q Hq.
    by apply (sim_files _ _ _ _ Hsim), ancestors_reads.
  - apply on_same_run, same_run_svg2png; auto. by apply Hpo.
  - apply on_same_run, same_read_run. destruct svg; apply same_read_Image_open; auto.
  - apply on_same_run, same_run_Image_save; auto. by apply Hpo.
  - apply on_same_run, same_run_os_remove; auto.
  - apply on_same_run, same_read_run, same_read_os_path_exists; auto.
  - apply on_same_run, same_run_os_remove; auto.
Qed.

Lemma on_state {A} (m : M A) ok err s : (on m ok err s).2 = (m s).2.
Proof. unfold on. by destruct (m s) as [[x|e] s']. Qed.

(** What an action that touches only the files of [k] leaves alone. *)
Lemma frame_touches {A} k (m : M A) s :
  touches (list_to_set (writes k)) m ->
  (forall q, q ∉ writes k -> files (m s).2 !! q = files s !! q) /\
  dirs s ⊆ dirs (m s).2 /\ dirs (m s).2 ⊆ dirs s ∪ makes k.
Proof.
  intros Hm. destruct (Hm s) as [Ed Ef]. rewrite Ed.
  split; [|split; [done|apply union_subseteq_l]].
  intros q Hq. apply Ef. by rewrite elem_of_list_to_set.
Qed.

Lemma in_writes_set k q : q ∈ writes k -> q ∈@{gset string} list_to_set (writes k).
Proof. by rewrite elem_of_list_to_set. Qed.

(** A step of a thread writes its own files only, and makes its own
    folders only. *)
Lemma step_frame k p s :
  (forall q, q ∉ writes k -> files (step k p s).2 !! q = files s !! q) /\
  dirs s ⊆ dirs (step k p s).2 /\ dirs (step k p s).2 ⊆ dirs s ∪ makes k.
Proof.
  pose proof (in_writes_set k _ (upload_in_writes k)) as W1.
  pose proof (in_writes_set k _ (output_in_writes k)) as W2.
  pose proof (in_writes_set k _ (temp_in_writes k)) as W3.
  destruct p; unfold step; cbv zeta;
    try (split; [done|split; [done|apply union_subseteq_l]]);
    try (rewrite on_state; apply frame_touches; solve [eff_touches]).
  - destruct (ext_of_filename _);
      [|split; [done|split; [done|apply union_subseteq_l]]].
    rewrite on_state. apply frame_touches. unfold FileStorage_save. eff_touches.
  - rewrite on_state, os_makedirs_files. split; [done|].
    destruct (os_makedirs_state (join OUTPUT_FOLDER (job_type k)) s) as [-> | ->];
      [split; [done|apply union_subseteq_l]|].
    simpl. split; [apply union_subseteq_r|]. unfold makes.
    by rewrite (comm_L (∪)).
Qed.

(** The output folder, once made, stays. *)
Lemma step_inv j p a : inv j p a -> inv j (step j p a).1 (step j p a).2.
Proof.
  intros Hinv. destruct p; unfold step, inv; cbv zeta; try (by intros []).
  - destruct (ext_of_filename _); [|by intros []]. unfold on.
    by destruct (FileStorage_save _ _ a) as [[[]|e] a']; intros [].
  - unfold on. destruct (os_makedirs _ a) as [[[]|e'] a'] eqn:E; [|by intros []].
    intros _. apply os_makedirs_is_dir in E. by apply bool_decide_eq_true in E.
  - unfold on. pose proof (touches_svg2png (list_to_set (writes j))
      (upload_path (job_file j)) _ (in_writes_set j _ (temp_in_writes j)) a) as [Ed _].
    destruct (svg2png _ _ a) as [[[]|e] a']; [|by intros []].
    intros _. simpl in *. rewrite Ed. by apply Hinv.
  - unfold on. pose proof (Image_open_state
      (if svg then temp_png_path (output_path (job_file j) (job_type j))
       else upload_path (job_file j)) a) as Es.
    destruct (Image_open _ a) as [[i|e] a']; [|by intros []].
    intros _. simpl in *. subst a'. by apply Hinv.
  - unfold on. destruct (Image_save _ _ _ a) as [[[]|e] a']; [|by intros []].
    by destruct svg; intros [].
  - unfold on. by destruct (os_remove _ a) as [[[]|e] a']; intros [].
  - unfold on, os_path_exists, gets. by destruct (_ || _); intros [].
  - unfold on. by destruct (os_remove _ a) as [[[]|e] a']; intros [].
Qed.

End Jobs.

(** ** Uploads with different names *)

Section Names.
Context `{Pillow} `{Werkzeug}.
Implicit Types (j : job) (q n e : string).

(** The name of the upload without its extension. *)
Definition stem (j : job) : string :=
  (splitext (secure_filename (filename (job_file j)))).1.

Lemma name_ext_inj n1 n2 e1 e2 :
  contains "." e1 = false -> contains "." e2 = false ->
  n1 +:+ String "." e1 = n2 +:+ String "." e2 -> n1 = n2.
Proof.
  intros H1 H2 E. apply (f_equal (rsplit_last ".")) in E.
  rewrite !rsplit_last_app in E by done. by injection E.
Qed.

(** Two paths inside folders of [outputs] are equal only if the names
    before the extension are. *)
Lemma shelf_path_inj ct1 ct2 n1 n2 e1 e2 :
  ct1 ∈ convert_types -> ct2 ∈ convert_types ->
  contains "." e1 = false -> contains "." e2 = false ->
  "outputs/" +:+ ct1 +:+ "/" +:+ n1 +:+ "." +:+ e1
  = "outputs/" +:+ ct2 +:+ "/" +:+ n2 +:+ "." +:+ e2 ->
  n1 = n2.
Proof.
  intros H1%convert_types_cases H2%convert_types_cases He1 He2 E.
  apply string_app_inj_l in E.
  destruct_or!; subst ct1 ct2; try done;
    do 2 apply string_app_inj_l in E; by apply name_ext_inj in E.
Qed.

Lemma ext_no_dot ct : ct ∈ convert_types -> contains "." ct = false.
Proof. intros Hct%convert_types_cases. by destruct_or!; subst ct. Qed.

(** The paths of [writes], spelled out. *)
Lemma writes_spelled j q :
  job_type j ∈ convert_types -> q ∈ writes j ->
  q = "uploads/" +:+ secure_filename (filename (job_file j)) \/
  exists e, contains "." e = false /\
            q = "outputs/" +:+ job_type j +:+ "/" +:+ stem j +:+ "." +:+ e.
Proof.
  intros Hj. unfold writes. rewrite !elem_of_cons, elem_of_nil.
  pose proof (output_name_no_sep (job_file j)) as Hn.
  unfold output_path, output_name, upload_path.
  rewrite input_path_eq, output_path_eq, temp_png_path_eq by done.
  intros [->|[->|[->|[]]]]; [by left|right..].
  - exists (job_type j). by split; [apply ext_no_dot|].
  - by exists "png"%string.
Qed.

(** Uploads whose names differ before the extension share no path. *)
Lemma distinct_stems j1 j2 :
  job_type j1 ∈ convert_types -> job_type j2 ∈ convert_types ->
  stem j1 <> stem j2 ->
  Forall (fun q => q ∉ reads j2) (writes j1).
Proof.
  intros H1 H2 Hne. apply Forall_forall. intros q Hq1 Hq2.
  apply elem_of_app in Hq2 as [Hq2|Hq2].
  - apply (writes_spelled _ _ H1) in Hq1. apply (writes_spelled _ _ H2) in Hq2.
    destruct Hq1 as [->|(e1 & He1 & ->)], Hq2 as [E|(e2 & He2 & E)]; try done.
    + apply string_app_inj_l in E. apply Hne. unfold stem. by rewrite E.
    + by apply shelf_path_inj in E.
  - destruct (writes_not_folder j1 _ q H1 H2 Hq1) as (_ & N1 & N2).
    rewrite !elem_of_cons, elem_of_nil in Hq2. tauto.
Qed.

End Names.
