(* ===== verification/Threaded.v ===== *)
(** * Threaded: the server that takes requests one at a time and the pool

    [app.run] of Flask serves every request in a thread of its own.
    [Routes.run] is the server that takes the requests one after another;
    [Pool.serve_all] is the pool of the threads that convert, along a
    schedule.  This file relates the two on uploads to [/convert] that
    pass the guards of the route: when no two of them share a path, the
    pool answers each request as [run] does and leaves the same files,
    whatever the schedule. *)

From S2P Require Import Prelude PyString PyFloat Classifier FileSys Imaging Converter.
From S2P Require Import WebApp WebGif Server Listing Routes Interleave Independent Pool.

Local Open Scope eff_scope.

(** ** Requests and jobs *)

Section Threaded.
Context `{Pillow} `{!Imageio} `{Werkzeug} `{Flask}.
Implicit Types (req : HttpRequest) (j : job) (js : list job) (s : fs)
  (reqs : list (string * HttpRequest)).

(** [req] is an upload to [/convert] that passes the guards of the route,
    with the file and the target of [j]. *)
Record uploads (req : HttpRequest) (j : job) : Prop := Uploads {
  uploads_method : method req = "POST"%string;
  uploads_path : is_path "convert" (path req) = true;
  uploads_length : (content_length req <= MAX_CONTENT_LENGTH)%N;
  uploads_file : md_get "file" (request_files (body req)) = Some (job_file j);
  uploads_name : filename (job_file j) <> EmptyString;
  uploads_type : md_get "convert_type" (request_form (body req)) = Some (job_type j);
  uploads_known : job_type j ∈ convert_types;
  uploads_allowed : allowed_file (filename (job_file j)) = true
}.

(** What the client of a thread receives: the answer of the route, or
    the status 500 when the thread crashed. *)
Definition response_of (p : pc) : HttpResponse :=
  match p with
  | Answered r => jsonify r
  | _ => abort 500
  end.

(** ** One after another *)

Lemma uploads_call hex req j :
  uploads req j -> call_of hex req = Some (CallConvert (body req)).
Proof.
  intros [Hm Hp Hn _ _ _ _ _]. unfold call_of.
  by rewrite Hm, Hp, (proj2 (N.leb_le _ _) Hn).
Qed.

(** An upload is answered by the handler of its job. *)
Lemma wsgi_app_upload hex req j s :
  uploads req j ->
  let r := ended (convert_accepted (job_file j) (job_type j) s) in
  wsgi_app hex req s = (Ok (response_of r.1), r.2).
Proof.
  intros Hu r. rewrite (wsgi_app_call hex req _ s (uploads_call hex req j Hu)).
  destruct Hu as [_ _ _ Hfile Hname Hct Hin Hal]. cbn [serve].
  rewrite (convert_guards _ _ _ s Hfile Hname Hct Hin Hal). subst r.
  unfold ended. cbn [fst snd]. by destruct (convert_accepted _ _ s).1.
Qed.

(** [run] on uploads is [one_by_one] on their jobs. *)
Lemma run_one_by_one reqs js s :
  Forall2 (fun hr j => uploads hr.2 j) reqs js ->
  run reqs s = (Ok (response_of <$> (one_by_one js s).1), (one_by_one js s).2).
Proof.
  intros Hu. revert s. induction Hu as [|[hex req] j reqs js Hu _ IH]; intros s; [done|].
  cbn [run one_by_one fst snd fmap list_fmap].
  rewrite (bind_ok _ _ _ _ _ (wsgi_app_upload hex req j s Hu)).
  by rewrite (bind_ok _ _ _ _ _ (IH _)).
Qed.

Lemma uploads_accepted reqs js :
  Forall2 (fun hr j => uploads hr.2 j) reqs js -> accepted js.
Proof.
  intros Hu. apply Forall_forall. intros j Hj.
  destruct (proj1 (list_elem_of_lookup _ _) Hj) as [i Hi].
  destruct (Forall2_lookup_r _ _ _ _ _ Hu Hi) as (hr & _ & Hr). apply Hr.
Qed.

(** ** Theorems *)

(** C9. The threaded server answers as the server that takes one request
    at a time.  For uploads to [/convert] that pass the guards and no two
    of which share a path, and along every schedule that gives every
    thread eight turns, each client of the pool receives the response
    that [run] gives the request, and the pool leaves the files [run]
    leaves. *)
Theorem threaded_as_sequential reqs js sched s :
  Forall2 (fun hr j => uploads hr.2 j) reqs js -> apart js ->
  (forall i, i < length js -> 8 <= turns_of i sched) ->
  exists rs s', run reqs s = (Ok rs, s') /\
                rs = response_of <$> (serve_all js sched s).1 /\
                files s' = files (serve_all js sched s).2.
Proof.
  intros Hu Hap Hfair.
  destruct (pool_one_by_one js sched s (uploads_accepted _ _ Hu) Hap Hfair) as [-> ->].
  eexists _, _. split; [by apply run_one_by_one|done].
Qed.

End Threaded.

(** ** Witnesses *)

Section ThreadedWitnesses.
#[local] Existing Instance toy.
#[local] Existing Instance toy_imageio.
#[local] Existing Instance toy_werkzeug.
#[local] Existing Instance toy_flask.

(** The request of a browser that uploads [file] for the target [ct]. *)
Definition browser (file : FileStorage) (ct : string) : string * HttpRequest :=
  ("0f"%string, http_post "/convert" 1024 (upload (filename file) (stream file) ct)).

Lemma browser_uploads file ct :
  filename file <> EmptyString -> ct ∈ convert_types ->
  allowed_file (filename file) = true -> uploads (browser file ct).2 (Job file ct).
Proof. intros Hn Hct Hal. by split; [..|destruct file|done|done|done|done]. Qed.

Lemma three_uploads :
  Forall2 (fun hr j => uploads hr.2 j)
    [browser mine "webp"; browser logo "webp"; browser dog "png"] three.
Proof.
  repeat constructor; apply browser_uploads;
    done || (apply (bool_decide_unpack _); by vm_compute).
Qed.

Lemma threaded_as_sequential_witness :
  exists rs s',
    run [browser mine "webp"; browser logo "webp"; browser dog "png"] server_fs
    = (Ok rs, s') /\
    rs = response_of <$> (serve_all three round_robin server_fs).1 /\
    files s' = files (serve_all three round_robin server_fs).2.
Proof.
  apply (threaded_as_sequential _ three round_robin server_fs three_uploads);
    [|apply round_robin_fair].
  apply apart_stems; [exact (uploads_accepted _ _ three_uploads)|].
  apply (bool_decide_unpack _). by vm_compute.
Defined.

End ThreadedWitnesses.
