(* ===== verification/QtApp.v ===== *)
(** * QtApp: the two button handlers of [src/app_qt5.py]

    [select_and_convert] converts every file the dialog returned and counts
    the successes; [select_and_merge_gif] composes the files into one
    animation.  What the dialogs and combo boxes return (the paths chosen,
    the target format, the text of the duration, the text of
    [uuid.uuid4().hex]) is an argument of the handler; the message box it
    ends with is its result.

    [qt5_convert_image] and [qt5_convert_svg] are the module's own copies of
    the two functions of [app.py].

    The loop of [select_and_convert] is a fold of [convert_step] over the
    paths, with the two counters of the code as its accumulator
    ([tally]). *)

From stdpp Require Import pretty.
From S2P Require Import Prelude PyString PyFloat Classifier FileSys Imaging Converter.

Local Open Scope eff_scope.

(** ** What the handlers show *)

Inductive MessageBox :=
| warning (title text : string)
| information (title text : string)
| critical (title text : string).

#[export] Instance MessageBox_eq_dec : EqDecision MessageBox.
Proof. solve_decision. Defined.

(** ["\n"] *)
Definition nl : ascii := "010"%char.

(** The counters of the loop. *)
Record tally := Tally {
  success_count : nat;
  failed_files : list string
}.

Section Qt5.
Context `{Pillow} `{!Imageio}.

(** ** The module's converters *)

Definition qt5_convert_image (input_path output_path format : string) : M unit :=
  img <- Image_open input_path ;;
  let img := if bool_decide (format = "jpg") then convert RGB img else img in
  Image_save img output_path (upper format).

Definition qt5_convert_svg (input_path output_path format : string) : M unit :=
  let temp_png_path := rsplit1_head "." output_path +:+ ".png" in
  svg2png input_path temp_png_path ;;;
  (img <- Image_open temp_png_path ;;
   let img := if bool_decide (format = "jpg") then convert RGB img else img in
   Image_save img output_path (upper format)) ;;;
  os_remove temp_png_path.

(** ** [select_and_convert] *)

(** [os.path.join(os.path.dirname(file_path), f"{base_name}.{convert_type}")] *)
Definition qt5_output_path (file_path convert_type : string) : string :=
  let base_name := (splitext (basename file_path)).1 in
  join (dirname file_path) (base_name +:+ "." +:+ convert_type).

(** One turn of the loop. *)
Definition convert_step (convert_type : string) (t : tally) (file_path : string)
    : M tally :=
  ext <- from_option ret (raise IndexError) (ext_of_path_qt5 file_path) ;;
  if negb (allowed_file_qt5 file_path) then
    ret (Tally (success_count t) (failed_files t ++ [file_path]))
  else
    let output_path := qt5_output_path file_path convert_type in
    try_except
      ((if bool_decide (ext = "svg")
        then qt5_convert_svg file_path output_path convert_type
        else qt5_convert_image file_path output_path convert_type) ;;;
       ret (Tally (S (success_count t)) (failed_files t)))
      (fun e => ret (Tally (success_count t) (failed_files t ++ [file_path]))).

(** [for file_path in file_paths: ...] *)
Fixpoint convert_loop (convert_type : string) (file_paths : list string)
    (t : tally) : M tally :=
  match file_paths with
  | [] => ret t
  | file_path :: file_paths =>
      t <- convert_step convert_type t file_path ;;
      convert_loop convert_type file_paths t
  end.

(** The message of the box, from the counters. *)
Definition report (t : tally) : MessageBox :=
  let message := "成功转换 " +:+ pretty (success_count t) +:+ " 个文件。" in
  match failed_files t with
  | [] => information "成功" message
  | _ => warning "部分失败"
           (message +:+ String nl "失败文件:" +:+ String nl (sep_join nl (failed_files t)))
  end.

(** [None] is the [return] without a box, when the dialog was cancelled. *)
Definition select_and_convert (file_paths : list string) (convert_type : string)
    : M (option MessageBox) :=
  match file_paths with
  | [] => ret None
  | _ =>
      t <- convert_loop convert_type file_paths (Tally 0 []) ;;
      ret (Some (report t))
  end.

(** ** [select_and_merge_gif] *)

(** [[Image.open(fp).convert("RGBA") for fp in file_paths]] *)
Fixpoint open_all (file_paths : list string) : M (list Image) :=
  match file_paths with
  | [] => ret []
  | fp :: file_paths =>
      img <- Image_open fp ;;
      let frame := convert RGBA img in
      images <- open_all file_paths ;;
      ret (frame :: images)
  end.

(** [float(s)] as an action *)
Definition py_float (s : string) : M float :=
  from_option ret
    (raise (ValueError ("could not convert string to float: '" +:+ s +:+ "'")))
    (float_of_str s).

Definition qt5_gif_path (file_paths : list string) (hex : string) : M string :=
  first <- from_option ret (raise IndexError) (file_paths !! 0) ;;
  ret (join (dirname first) ("combo_" +:+ hex +:+ ".gif")).

Definition select_and_merge_gif (file_paths : list string)
    (duration_text hex : string) : M MessageBox :=
  if bool_decide (file_paths = []) || bool_decide (length file_paths < 2) then
    ret (critical "错误" "请至少选择两张图片")
  else
    try_except
      (images <- open_all file_paths ;;
       duration <- py_float duration_text ;;
       output_path <- qt5_gif_path file_paths hex ;;
       mimsave output_path images duration ;;;
       ret (information "成功"
              ("GIF 合成成功！" +:+ String nl "输出文件: " +:+ output_path)))
      (fun e => ret (critical "合成失败" (str e))).

End Qt5.

(** ** Runs on the executable instance *)

Section QtTests.
#[local] Existing Instance toy.
#[local] Existing Instance toy_imageio.

Definition desk_fs : fs :=
  Fs {[ "desk/logo.svg" := "<svg/>"; "desk/photo.png" := "P4pixels";
        "desk/scan.jpeg" := "J3scan"; "desk/notes.txt" := "hello" ]}%string
     {[ "desk" ]}%string.

Example run_qt_batch :
  let r := select_and_convert ["desk/photo.png"; "desk/notes.txt"; "desk/scan.jpeg"]
             "webp" desk_fs in
  r.1 = Ok (Some (warning "部分失败"
                    ("成功转换 2 个文件。" +:+ String nl "失败文件:" +:+
                     String nl "desk/notes.txt"))) /\
  files r.2 !! "desk/photo.webp"%string = Some "W4pixels"%string /\
  files r.2 !! "desk/scan.webp"%string = Some "W3scan"%string.
Proof. vm_compute. done. Qed.

Example run_qt_svg_png :
  let r := select_and_convert ["desk/logo.svg"] "png" desk_fs in
  r.1 = Ok (Some (information "成功" "成功转换 1 个文件。")) /\
  files r.2 !! "desk/logo.png"%string = None.
Proof. vm_compute. done. Qed.

Example run_qt_svg_clobbers :
  let s := put_file "desk/logo.png" "P3mine" desk_fs in
  let r := select_and_convert ["desk/logo.svg"] "webp" s in
  r.1 = Ok (Some (information "成功" "成功转换 1 个文件。")) /\
  files r.2 !! "desk/logo.webp"%string = Some "W4svg/>"%string /\
  files r.2 !! "desk/logo.png"%string = None.
Proof. vm_compute. done. Qed.

Example run_qt_gif :
  let r := select_and_merge_gif ["desk/photo.png"; "desk/scan.jpeg"] "0.2" "0f"
             desk_fs in
  r.1 = Ok (information "成功"
              ("GIF 合成成功！" +:+ String nl "输出文件: desk/combo_0f.gif")) /\
  files r.2 !! "desk/combo_0f.gif"%string = Some "G2e-1|pixels|scan"%string.
Proof. vm_compute. done. Qed.

End QtTests.

(** ** Paths *)

Section QtPaths.
Implicit Types (d n e ct : string).

(** A name that holds no separator does not restart the path. *)
Lemma startswith_sep_app n e :
  contains sep n = false ->
  startswith (String sep EmptyString) (n +:+ String extsep e) = false.
Proof.
  destruct n as [|c n]; [done|]. intros Hn.
  rewrite string_app_cons. by apply (startswith_sep_contains (String c n)) in Hn.
Qed.

(** [os.path.join] with a name and its extension. *)
Lemma join_ext d n e :
  contains sep n = false ->
  join d (n +:+ String extsep e) = join d n +:+ String extsep e.
Proof.
  intros Hn. unfold join.
  rewrite startswith_sep_app, startswith_sep_contains by done.
  destruct (_ || _); [by rewrite string_app_assoc|].
  by rewrite <- string_app_cons, string_app_assoc.
Qed.

Lemma qt5_output_path_eq file_path ct :
  qt5_output_path file_path ct
  = join (dirname file_path) (splitext (basename file_path)).1 +:+ String extsep ct.
Proof.
  unfold qt5_output_path. cbv zeta. apply join_ext, splitext_no_sep, basename_no_sep.
Qed.

(** The temporary PNG of a conversion is the file beside the input that
    has the input's name and the extension [.png]. *)
Lemma qt5_temp_png_path file_path ct :
  contains extsep ct = false ->
  rsplit1_head extsep (qt5_output_path file_path ct) +:+ ".png"
  = qt5_output_path file_path "png".
Proof.
  intros Hct. by rewrite !qt5_output_path_eq, rsplit1_head_app.
Qed.

End QtPaths.

(** ** The loop of [select_and_convert] *)

Section QtFacts.
Context `{Pillow} `{!Imageio}.
Implicit Types (s : fs) (t : tally) (fp ct : string) (fps : list string).

(** The module's converters are those of [app.py]. *)
Lemma qt5_convert_image_app : qt5_convert_image = app_convert_image.
Proof. reflexivity. Qed.

Lemma qt5_convert_svg_app : qt5_convert_svg = app_convert_svg.
Proof. reflexivity. Qed.

(** The index [[-1]] never raises: [rsplit] returns at least one piece. *)
Lemma ext_of_path_qt5_Some fp : is_Some (ext_of_path_qt5 fp).
Proof.
  unfold ext_of_path_qt5, py_last, rsplit1. apply fmap_is_Some.
  by destruct (rsplit_last "." fp) as [[h t]|].
Qed.

(** The two ways a turn of the loop ends. *)
Definition counted (t : tally) : tally :=
  Tally (S (success_count t)) (failed_files t).

Definition failed_on (fp : string) (t : tally) : tally :=
  Tally (success_count t) (failed_files t ++ [fp]).

(** The conversion a turn runs, for an accepted path of extension [e]. *)
Definition qt5_conversion (e fp ct : string) : M unit :=
  if bool_decide (e = "svg")
  then qt5_convert_svg fp (qt5_output_path fp ct) ct
  else qt5_convert_image fp (qt5_output_path fp ct) ct.

(** A turn of the loop, in one equation. *)
Lemma convert_step_run ct t fp s :
  exists e, ext_of_path_qt5 fp = Some e /\
  convert_step ct t fp s
  = if allowed_file_qt5 fp then
      match (qt5_conversion e fp ct s).1 with
      | Ok _ => (Ok (counted t), (qt5_conversion e fp ct s).2)
      | Raise _ => (Ok (failed_on fp t), (qt5_conversion e fp ct s).2)
      end
    else (Ok (failed_on fp t), s).
Proof.
  destruct (ext_of_path_qt5_Some fp) as [e He]. exists e. split; [done|].
  unfold convert_step. rewrite He. simpl from_option. rewrite bind_ret_l.
  destruct (allowed_file_qt5 fp); [|done]. cbn [negb]. cbv zeta.
  unfold try_except, bind, qt5_conversion.
  destruct (bool_decide (e = "svg"));
    [destruct (qt5_convert_svg _ _ _ s) as [[[]|x] s1]
    |destruct (qt5_convert_image _ _ _ s) as [[[]|x] s1]]; done.
Qed.

(** A turn never raises, and counts its path once. *)
Lemma convert_step_total ct t fp s :
  exists t' s', convert_step ct t fp s = (Ok t', s') /\
                (t' = counted t \/ t' = failed_on fp t).
Proof.
  destruct (convert_step_run ct t fp s) as (e & _ & ->).
  destruct (allowed_file_qt5 fp); [|by eauto].
  destruct (qt5_conversion e fp ct s).1; by eauto.
Qed.

(** The loop over two lists in a row. *)
Lemma convert_loop_app ct fps1 fps2 t s :
  convert_loop ct (fps1 ++ fps2) t s
  = (t' <- convert_loop ct fps1 t ;; convert_loop ct fps2 t') s.
Proof.
  revert t s. induction fps1 as [|fp fps1 IH]; intros t s; [done|].
  simpl. rewrite bind_assoc.
  destruct (convert_step ct t fp s) as [[t1|e] s1] eqn:E.
  - rewrite !(bind_ok _ _ _ _ _ E). apply IH.
  - by rewrite !(bind_err _ _ _ _ _ E).
Qed.

(** The invariant of the loop: no exception, every path counted once, the
    failed paths appended in the order of the selection. *)
Lemma convert_loop_total ct fps t s :
  exists t' s' l, convert_loop ct fps t s = (Ok t', s') /\
    failed_files t' = failed_files t ++ l /\ sublist l fps /\
    success_count t' + length l = success_count t + length fps.
Proof.
  revert t s. induction fps as [|fp fps IH]; intros t s.
  { exists t, s, []. by rewrite app_nil_r. }
  destruct (convert_step_total ct t fp s) as (t1 & s1 & Hstep & Ht1).
  destruct (IH t1 s1) as (t' & s' & l & Hloop & Hf & Hsub & Hn).
  simpl. rewrite (bind_ok _ _ _ _ _ Hstep), Hloop.
  destruct Ht1 as [-> | ->]; simpl in *.
  - exists t', s', l. repeat split; [done|by apply sublist_cons|lia].
  - exists t', s', (fp :: l). rewrite Hf, <- app_assoc.
    repeat split; [by apply sublist_skip|simpl; lia].
Qed.

End QtFacts.

(** ** What [select_and_convert] reports *)

Section QtConvertFacts.
Context `{Pillow} `{!Imageio}.
Implicit Types (s : fs) (t : tally) (fp ct : string) (fps : list string).

(** A box without failed files comes from a tally without failed files. *)
Lemma report_information t title text :
  report t = information title text -> failed_files t = [].
Proof. unfold report. by destruct (failed_files t). Qed.

Lemma failed_on_ne_nil fp t : failed_files (failed_on fp t) <> [].
Proof. simpl. by destruct (failed_files t). Qed.

(** The handler on a selection that is not empty. *)
Lemma select_and_convert_run fps ct s :
  fps <> [] ->
  select_and_convert fps ct s
  = (t <- convert_loop ct fps (Tally 0 []) ;; ret (Some (report t))) s.
Proof. by destruct fps. Qed.

(** The handler on a single path. *)
Lemma select_and_convert_one fp ct s :
  select_and_convert [fp] ct s
  = (t <- convert_step ct (Tally 0 []) fp ;; ret (Some (report t))) s.
Proof.
  unfold select_and_convert, convert_loop. rewrite bind_assoc. unfold bind.
  by destruct (convert_step _ _ _ s) as [[]].
Qed.

(** With the target [jpg] a turn fails, whatever the file. *)
Lemma convert_step_jpg t fp s :
  exists s', convert_step "jpg" t fp s = (Ok (failed_on fp t), s').
Proof.
  destruct (convert_step_run "jpg" t fp s) as (e & _ & ->).
  destruct (allowed_file_qt5 fp); [|by eauto]. unfold qt5_conversion.
  case_bool_decide.
  - destruct (app_convert_svg_jpg_raises fp (qt5_output_path fp "jpg") s)
      as (x & s' & E).
    rewrite qt5_convert_svg_app, E. by eauto.
  - destruct (app_convert_image_jpg_raises fp (qt5_output_path fp "jpg") s)
      as (x & E).
    rewrite qt5_convert_image_app, E. by eauto.
Qed.

Lemma convert_loop_jpg fps t s :
  exists s', convert_loop "jpg" fps t s
             = (Ok (Tally (success_count t) (failed_files t ++ fps)), s').
Proof.
  revert t s. induction fps as [|fp fps IH]; intros t s.
  { exists s. simpl. rewrite app_nil_r. by destruct t. }
  destruct (convert_step_jpg t fp s) as [s1 Hstep].
  destruct (IH (failed_on fp t) s1) as [s' Hloop]. exists s'.
  simpl. rewrite (bind_ok _ _ _ _ _ Hstep), Hloop. simpl.
  by rewrite <- app_assoc.
Qed.

(** A conversion of an SVG that returned has removed its temporary PNG. *)
Lemma qt5_convert_svg_temp_gone input output format s s' :
  qt5_convert_svg input output format s = (Ok tt, s') ->
  files s' !! (rsplit1_head "." output +:+ ".png") = None.
Proof.
  unfold qt5_convert_svg. cbv zeta.
  intros ([] & s1 & _ & ([] & s2 & _ & Hrm)%bind_ok_inv)%bind_ok_inv.
  by apply os_remove_gone in Hrm.
Qed.

(** A turn on an accepted SVG that counted a success. *)
Lemma convert_step_svg_counted ct t fp s t' s' :
  allowed_file_qt5 fp = true -> ext_of_path_qt5 fp = Some "svg" ->
  convert_step ct t fp s = (Ok t', s') -> failed_files t' = failed_files t ->
  qt5_convert_svg fp (qt5_output_path fp ct) ct s = (Ok tt, s').
Proof.
  intros Hal Hext. destruct (convert_step_run ct t fp s) as (e & He & ->).
  rewrite Hext in He. injection He as <-. rewrite Hal. unfold qt5_conversion.
  rewrite bool_decide_true by done.
  destruct (qt5_convert_svg _ _ _ s) as [[[]|x] s1]; simpl; intros [= <- <-];
    [done|].
  simpl. intros E. apply (f_equal length) in E. rewrite length_app in E.
  simpl in E. lia.
Qed.

End QtConvertFacts.

(** ** [select_and_merge_gif] *)

Section QtGifFacts.
Context `{Pillow} `{!Imageio}.
Implicit Types (s : fs) (fp : string) (fps : list string) (fr : list Image).

(** The frame the comprehension makes of one path: the reference for
    [open_all]. *)
Definition frame_at (s : fs) (fp : string) : option Image :=
  b ← files s !! fp; convert RGBA <$> decode b.

Definition frames_at (s : fs) (fps : list string) : option (list Image) :=
  mapM (frame_at s) fps.

(** Where the animation goes: beside the first file chosen. *)
Definition gif_beside (first hex : string) : string :=
  join (dirname first) ("combo_" +:+ hex +:+ ".gif").

Lemma open_all_state fps s : (open_all fps s).2 = s.
Proof.
  induction fps as [|fp fps IH]; [done|]. simpl. unfold bind at 1.
  pose proof (Image_open_state fp s) as Ho.
  destruct (Image_open fp s) as [[i|e] s1]; simpl in Ho; subst s1; [|done].
  unfold bind. by destruct (open_all fps s) as [[]].
Qed.

Lemma Image_open_frame fp s i :
  Image_open fp s = (Ok i, s) <-> exists b, files s !! fp = Some b /\ decode b = Some i.
Proof.
  split.
  - intros (b & ? & ? & _)%Image_open_inv. by exists b.
  - intros (b & Hb & Hi). by apply Image_open_ok with b.
Qed.

Lemma frame_at_Some s fp y :
  frame_at s fp = Some y <->
  exists i, Image_open fp s = (Ok i, s) /\ y = convert RGBA i.
Proof.
  unfold frame_at. setoid_rewrite Image_open_frame. split.
  - intros (b & Hb & (i & Hi & ->)%fmap_Some)%bind_Some. by eauto.
  - intros (i & (b & Hb & Hi) & ->). rewrite Hb. simpl. by rewrite Hi.
Qed.

(** The comprehension against its reference. *)
Lemma open_all_frames fps s fr :
  open_all fps s = (Ok fr, s) <-> frames_at s fps = Some fr.
Proof.
  unfold frames_at. revert fr. induction fps as [|fp fps IH]; intros fr.
  { simpl. split; by intros [= <-]. }
  simpl open_all. split.
  - intros (i & s1 & Hi & (im & s2 & Him & [= <- ->])%bind_ok_inv)%bind_ok_inv.
    pose proof (Image_open_state fp s) as E1. rewrite Hi in E1. simpl in E1. subst s1.
    apply mapM_cons_Some; [apply frame_at_Some; by eauto|by apply IH].
  - intros (y & im & (i & Hi & ->)%frame_at_Some & Him%IH & ->)%mapM_cons_inv.
    by rewrite (bind_ok _ _ _ _ _ Hi), (bind_ok _ _ _ _ _ Him).
Qed.

Lemma qt5_gif_path_run fps hex s first :
  fps !! 0 = Some first -> qt5_gif_path fps hex s = (Ok (gif_beside first hex), s).
Proof. intros Hf. unfold qt5_gif_path. by rewrite Hf. Qed.

Lemma py_float_run text s d :
  float_of_str text = Some d -> py_float text s = (Ok d, s).
Proof. intros Hd. unfold py_float. by rewrite Hd. Qed.

Lemma select_and_merge_gif_guard fps duration_text hex s :
  length fps < 2 ->
  select_and_merge_gif fps duration_text hex s
  = (Ok (critical "错误" "请至少选择两张图片"), s).
Proof.
  intros Hl. unfold select_and_merge_gif.
  by rewrite (bool_decide_true (_ < _)), orb_true_r.
Qed.

(** The [try] statement of the handler. *)
Definition merge_gif_body fps duration_text hex : M MessageBox :=
  try_except
    (images <- open_all fps ;;
     duration <- py_float duration_text ;;
     output_path <- qt5_gif_path fps hex ;;
     mimsave output_path images duration ;;;
     ret (information "成功"
            ("GIF 合成成功！" +:+ String nl "输出文件: " +:+ output_path)))
    (fun e => ret (critical "合成失败" (str e))).

Lemma select_and_merge_gif_body fps duration_text hex s :
  2 <= length fps ->
  select_and_merge_gif fps duration_text hex s
  = merge_gif_body fps duration_text hex s.
Proof.
  intros Hl. unfold select_and_merge_gif.
  rewrite bool_decide_false, bool_decide_false
    by (lia || (destruct fps; [simpl in Hl; lia|done])).
  reflexivity.
Qed.

(** The run of a selection whose files all decode. *)
Lemma select_and_merge_gif_run fps duration_text hex s first fr d b :
  2 <= length fps -> fps !! 0 = Some first ->
  frames_at s fps = Some fr -> float_of_str duration_text = Some d ->
  mimsave_bytes fr d = Ok b ->
  is_dir (gif_beside first hex) s = false ->
  parent_ok (gif_beside first hex) s = true ->
  select_and_merge_gif fps duration_text hex s
  = (Ok (information "成功"
           ("GIF 合成成功！" +:+ String nl "输出文件: " +:+ gif_beside first hex)),
     put_file (gif_beside first hex) b s).
Proof.
  intros Hl Hfirst Hfr%open_all_frames Hd Hb Hdir Hpar.
  rewrite select_and_merge_gif_body by done. apply try_except_ok. rewrite (bind_ok _ _ _ _ _ Hfr).
  rewrite (bind_ok _ _ _ _ _ (py_float_run _ _ _ Hd)).
  rewrite (bind_ok _ _ _ _ _ (qt5_gif_path_run _ hex _ _ Hfirst)).
  by rewrite (bind_ok _ _ _ _ _ (mimsave_ok _ _ _ _ _ Hb Hdir Hpar)).
Qed.

(** The handler writes nothing but the animation, and only with the box
    [information]. *)
Lemma select_and_merge_gif_cases fps duration_text hex s :
  (exists title text, select_and_merge_gif fps duration_text hex s
                      = (Ok (critical title text), s)) \/
  (exists first fr d b text,
     fps !! 0 = Some first /\ 2 <= length fps /\ frames_at s fps = Some fr /\
     float_of_str duration_text = Some d /\ mimsave_bytes fr d = Ok b /\
     select_and_merge_gif fps duration_text hex s
     = (Ok (information "成功" text), put_file (gif_beside first hex) b s)).
Proof.
  destruct (decide (length fps < 2)) as [Hl|Hl].
  { left. rewrite select_and_merge_gif_guard by done. by eauto. }
  rewrite select_and_merge_gif_body by lia. unfold merge_gif_body.
  pose proof (open_all_state fps s) as Ho.
  destruct (open_all fps s) as [[fr|e] s1] eqn:Hfr; simpl in Ho; subst s1; cycle 1.
  { left. exists "合成失败"%string, (str e).
    erewrite try_except_err; [done|]. by apply bind_err. }
  destruct (float_of_str duration_text) as [d|] eqn:Hd; cycle 1.
  { left. eexists "合成失败"%string, _.
    erewrite try_except_err; [done|].
    rewrite (bind_ok _ _ _ _ _ Hfr). unfold py_float. by rewrite Hd. }
  destruct fps as [|first fps]; [simpl in Hl; lia|].
  destruct (mimsave (gif_beside first hex) fr d s) as [[[]|e] s2] eqn:Hm.
  - apply mimsave_inv in Hm as Hi. destruct Hi as (b & Hb & ->). right.
    exists first, fr, d, b. eexists. apply open_all_frames in Hfr as Hfr'.
    repeat split; [lia|done..|].
    apply try_except_ok. rewrite (bind_ok _ _ _ _ _ Hfr).
    rewrite (bind_ok _ _ _ _ _ (py_float_run _ _ _ Hd)).
    rewrite (bind_ok _ _ _ _ _ (qt5_gif_path_run (first :: fps) hex _ _ eq_refl)).
    by rewrite (bind_ok _ _ _ _ _ Hm).
  - apply mimsave_raise in Hm as Hi. subst s2. left.
    exists "合成失败"%string, (str e). erewrite try_except_err; [done|].
    rewrite (bind_ok _ _ _ _ _ Hfr).
    rewrite (bind_ok _ _ _ _ _ (py_float_run _ _ _ Hd)).
    rewrite (bind_ok _ _ _ _ _ (qt5_gif_path_run (first :: fps) hex _ _ eq_refl)).
    by apply bind_err.
Qed.

End QtGifFacts.

(** ** Theorems *)

Section QtTheorems.
Context `{Pillow} `{!Imageio}.
Implicit Types (s : fs) (t : tally) (fp ct : string) (fps : list string).

(** C18. Partial failure across a batch.  [select_and_convert] never raises
    and never stops early: every selected path is counted exactly once, as
    a success or in the list of failed files, and the failed files are
    reported in the order of the selection. *)
Theorem select_and_convert_counts fps ct s :
  fps <> [] ->
  exists t s', select_and_convert fps ct s = (Ok (Some (report t)), s') /\
    success_count t + length (failed_files t) = length fps /\
    sublist (failed_files t) fps.
Proof.
  intros Hne. rewrite select_and_convert_run by done.
  destruct (convert_loop_total ct fps (Tally 0 []) s)
    as (t & s' & l & Hloop & Hf & Hsub & Hn).
  exists t, s'. rewrite (bind_ok _ _ _ _ _ Hloop). simpl in Hf, Hn.
  by rewrite Hf.
Qed.

(** With the target [jpg] the Qt front end converts nothing: every
    selected file, whatever it holds, ends in the list of failed files and
    the count of successes is zero. *)
Theorem select_and_convert_jpg_all_fail fps s :
  fps <> [] ->
  exists s', select_and_convert fps "jpg" s = (Ok (Some (report (Tally 0 fps))), s').
Proof.
  intros Hne. rewrite select_and_convert_run by done.
  destruct (convert_loop_jpg fps (Tally 0 []) s) as [s' Hloop]. exists s'.
  by rewrite (bind_ok _ _ _ _ _ Hloop).
Qed.

(** An SVG converted to [png] is reported as a success and leaves no
    PNG: the output path is the temporary path, which the conversion
    removes at its end. *)
Theorem select_and_convert_svg_png fp s b p :
  allowed_file_qt5 fp = true -> ext_of_path_qt5 fp = Some "svg" ->
  files s !! fp = Some b -> svg2png_bytes b = Ok p ->
  is_dir (qt5_output_path fp "png") s = false ->
  parent_ok (qt5_output_path fp "png") s = true ->
  exists s', select_and_convert [fp] "png" s
             = (Ok (Some (information "成功" "成功转换 1 个文件。")), s') /\
             files s' !! qt5_output_path fp "png" = None.
Proof.
  intros Hal Hext Hb Hp Hd Hok. rewrite select_and_convert_one.
  destruct (convert_step_run "png" (Tally 0 []) fp s) as (e & He & Hstep).
  rewrite Hext in He. injection He as <-. rewrite Hal in Hstep.
  unfold qt5_conversion in Hstep. rewrite bool_decide_true in Hstep by done.
  rewrite qt5_convert_svg_app, qt5_output_path_eq in *.
  change (String extsep "png") with ".png"%string in *.
  destruct (app_convert_svg_png_run fp _ s b p Hb Hp Hd Hok) as [j Hrun].
  rewrite Hrun in Hstep. eexists. rewrite (bind_ok _ _ _ _ _ Hstep).
  split; [done|]. apply files_del_file.
Qed.

(** C26. The temporary PNG is the user's file.  The Qt front end renders an
    SVG to the file of the same name with the extension [.png] in the same
    folder: whenever a selected SVG is reported as converted, no file is at
    that path afterwards, whatever was there before. *)
Theorem select_and_convert_svg_removes_sibling fp ct s title text s' :
  allowed_file_qt5 fp = true -> ext_of_path_qt5 fp = Some "svg" ->
  contains extsep ct = false ->
  select_and_convert [fp] ct s = (Ok (Some (information title text)), s') ->
  files s' !! qt5_output_path fp "png" = None.
Proof.
  intros Hal Hext Hct. rewrite select_and_convert_one.
  intros (t & s1 & Hstep & [= Hrep <-])%bind_ok_inv.
  apply report_information in Hrep.
  apply (convert_step_svg_counted _ _ _ _ _ _ Hal Hext) in Hstep; [|done].
  apply qt5_convert_svg_temp_gone in Hstep. by rewrite qt5_temp_png_path in Hstep.
Qed.

(** Composition is all or nothing.  [select_and_merge_gif] never raises;
    either it shows an error and the file system is as before, or it shows
    a success, every selected file was decoded, there were at least two,
    and the one file written, beside the first file selected, is the
    encoding of all the frames in the order of the selection. *)
Theorem select_and_merge_gif_all_or_nothing fps duration_text hex s :
  (exists title text, select_and_merge_gif fps duration_text hex s
                      = (Ok (critical title text), s)) \/
  (exists first fr d b text,
     fps !! 0 = Some first /\ 2 <= length fps /\ frames_at s fps = Some fr /\
     float_of_str duration_text = Some d /\ mimsave_bytes fr d = Ok b /\
     select_and_merge_gif fps duration_text hex s
     = (Ok (information "成功" text), put_file (gif_beside first hex) b s)).
Proof. apply select_and_merge_gif_cases. Qed.

(** A selection of at least two files that all decode, with a duration
    that parses and a folder that can be written, is composed: the box
    names the output path and the file there is the encoding of the frames
    of all the files, converted to RGBA, in the order of the selection. *)
Theorem select_and_merge_gif_success fps duration_text hex s first fr d b :
  2 <= length fps -> fps !! 0 = Some first ->
  frames_at s fps = Some fr -> float_of_str duration_text = Some d ->
  mimsave_bytes fr d = Ok b ->
  is_dir (gif_beside first hex) s = false ->
  parent_ok (gif_beside first hex) s = true ->
  exists s', select_and_merge_gif fps duration_text hex s
     = (Ok (information "成功"
              ("GIF 合成成功！" +:+ String nl "输出文件: " +:+ gif_beside first hex)), s') /\
     files s' = <[gif_beside first hex := b]> (files s).
Proof.
  intros Hl Hfirst Hfr Hd Hb Hdir Hpar.
  exists (put_file (gif_beside first hex) b s). split; [|done].
  by apply select_and_merge_gif_run with fr d.
Qed.

End QtTheorems.

(** ** Witnesses *)

Section QtWitnesses.
#[local] Existing Instance toy.
#[local] Existing Instance toy_imageio.

Lemma select_and_convert_counts_witness :
  let fps := ["desk/photo.png"; "desk/notes.txt"]%string in
  exists t s', select_and_convert fps "webp" desk_fs = (Ok (Some (report t)), s') /\
    success_count t + length (failed_files t) = length fps /\
    sublist (failed_files t) fps.
Proof. by apply (select_and_convert_counts ["desk/photo.png"; "desk/notes.txt"]%string). Defined.

Lemma select_and_convert_jpg_all_fail_witness :
  let fps := ["desk/photo.png"; "desk/logo.svg"]%string in
  exists s', select_and_convert fps "jpg" desk_fs
             = (Ok (Some (report (Tally 0 fps))), s').
Proof. by apply (select_and_convert_jpg_all_fail ["desk/photo.png"; "desk/logo.svg"]%string). Defined.

Lemma select_and_convert_svg_png_witness :
  exists s', select_and_convert ["desk/logo.svg"] "png" desk_fs
             = (Ok (Some (information "成功" "成功转换 1 个文件。")), s') /\
             files s' !! qt5_output_path "desk/logo.svg" "png" = None.
Proof.
  apply (select_and_convert_svg_png "desk/logo.svg" desk_fs "<svg/>" "P4svg/>");
    by vm_compute.
Defined.

Lemma select_and_convert_svg_removes_sibling_witness :
  let s := put_file "desk/logo.png" "P3mine" desk_fs in
  files (select_and_convert ["desk/logo.svg"] "webp" s).2
    !! qt5_output_path "desk/logo.svg" "png" = None.
Proof.
  apply (select_and_convert_svg_removes_sibling "desk/logo.svg" "webp"
           (put_file "desk/logo.png" "P3mine" desk_fs) "成功" "成功转换 1 个文件。");
    by vm_compute.
Defined.

Lemma select_and_merge_gif_success_witness :
  exists s', select_and_merge_gif ["desk/photo.png"; "desk/scan.jpeg"] "0.2" "0f" desk_fs
     = (Ok (information "成功"
              ("GIF 合成成功！" +:+ String nl "输出文件: " +:+ gif_beside "desk/photo.png" "0f")),
        s') /\
     files s' = <[gif_beside "desk/photo.png" "0f" := "G2e-1|pixels|scan"%string]>
                  (files desk_fs).
Proof.
  apply (select_and_merge_gif_success _ _ _ _ _
           ([(RGBA, "pixels"); (RGBA, "scan")]%string : list (@Image toy))
           (Finite false 2 (-1)));
    first [by vm_compute | simpl; lia].
Defined.

End QtWitnesses.
