(* ===== verification/QtWindow.v ===== *)
(** * QtWindow: the window of [src/app_qt5.py] and its event loop

    [ImageConverter.__init__] (lines 33 to 63) builds the window: two combo
    boxes, two buttons, and the connection of each button to a handler of
    [QtApp].  The main block (lines 116 to 120) shows it and enters Qt's
    event loop.

    A [QComboBox] is its items and the index of the current one, [-1] when
    there is none, as in Qt.  The boxes are not editable: what the user can
    do to one is to pick a row.  An event of the loop is such a pick, or a
    click on a widget of the layout; a click on a button runs the slots
    connected to it, with what the file dialog and [uuid.uuid4] return in
    the handler as part of the event.

    [wf] is the invariant of the window: the boxes hold the items of the
    constructor and each has a current item.  It gives the handlers their
    arguments: the target format is one of the three of the box, and the
    text [float] is called on is one of the four durations, so that
    [float] does not raise there.  No event makes the loop end with an
    exception ([main_never_raises]). *)

From S2P Require Import Prelude PyString PyFloat Classifier FileSys Imaging Converter.
From S2P Require Import WebApp QtApp.

Local Open Scope eff_scope.

(** ** Widgets *)

Record QComboBox := {
  items : list string;
  currentIndex : Z
}.

(** [QComboBox()] *)
Definition QComboBox_new : QComboBox := {| items := []; currentIndex := -1 |}.

(** [box.addItems(texts)]: when the box was empty and has no current item,
    the first of the new items becomes current. *)
Definition addItems (texts : list string) (box : QComboBox) : QComboBox :=
  {| items := items box ++ texts;
     currentIndex :=
       if bool_decide (items box = [] /\ texts <> [] /\ currentIndex box = (-1)%Z)
       then 0%Z else currentIndex box |}.

(** [box.currentText()]: the empty string when there is no current item. *)
Definition currentText (box : QComboBox) : string :=
  if bool_decide (0 <= currentIndex box)%Z
  then default EmptyString (items box !! Z.to_nat (currentIndex box))
  else EmptyString.

(** The user picks row [i] of the list of the box. *)
Definition activated (i : nat) (box : QComboBox) : QComboBox :=
  if bool_decide (i < length (items box))
  then {| items := items box; currentIndex := Z.of_nat i |}
  else box.

(** The two methods that buttons are connected to. *)
Inductive slot := SelectAndConvert | SelectAndMergeGif.

(** The attributes that hold a combo box. *)
Inductive combo := FormatCombo | DurationCombo.

Inductive widget :=
| QLabel (text : string)
| ComboBox (c : combo)
| QPushButton (text : string) (clicked : list slot).

(** An entry of the window's [QVBoxLayout]: a widget, or a row of widgets
    (a [QHBoxLayout]). *)
Inductive entry := Widget (w : widget) | Row (ws : list widget).

#[export] Instance slot_eq_dec : EqDecision slot.
Proof. solve_decision. Defined.
#[export] Instance combo_eq_dec : EqDecision combo.
Proof. solve_decision. Defined.
#[export] Instance widget_eq_dec : EqDecision widget.
Proof. solve_decision. Defined.
#[export] Instance entry_eq_dec : EqDecision entry.
Proof. solve_decision. Defined.

(** [QPushButton(text)] and [button.clicked.connect(slot)] *)
Definition QPushButton_new (text : string) : widget := QPushButton text [].

Definition connect (sl : slot) (w : widget) : widget :=
  match w with
  | QPushButton text clicked => QPushButton text (clicked ++ [sl])
  | _ => w
  end.

(** [layout.addWidget(w)] on a row and on the column, [layout.addLayout] *)
Definition row_addWidget (w : widget) (row : list widget) : list widget := row ++ [w].
Definition addWidget (w : widget) (layout : list entry) : list entry :=
  layout ++ [Widget w].
Definition addLayout (row : list widget) (layout : list entry) : list entry :=
  layout ++ [Row row].

(** ** The window *)

Record ImageConverter := {
  windowTitle : string;
  fixedSize : Z * Z;
  format_combo : QComboBox;
  duration_combo : QComboBox;
  layout : list entry;
  visible : bool
}.

(** [ImageConverter.__init__], call by call. *)
Definition ImageConverter_init : ImageConverter :=
  let layout := [] in
  let format_layout := row_addWidget (QLabel "选择转换格式:") [] in
  let format_combo := addItems ["png"; "jpg"; "webp"] QComboBox_new in
  let format_layout := row_addWidget (ComboBox FormatCombo) format_layout in
  let layout := addLayout format_layout layout in
  let convert_btn := connect SelectAndConvert (QPushButton_new "选择文件并转换") in
  let layout := addWidget convert_btn layout in
  let duration_layout := row_addWidget (QLabel "GIF 每帧间隔 (秒):") [] in
  let duration_combo := addItems ["0.1"; "0.2"; "0.5"; "1.0"] QComboBox_new in
  let duration_layout := row_addWidget (ComboBox DurationCombo) duration_layout in
  let layout := addLayout duration_layout layout in
  let gif_btn := connect SelectAndMergeGif (QPushButton_new "选择多张图片合成GIF") in
  let layout := addWidget gif_btn layout in
  {| windowTitle := "图片/矢量转换工具"; fixedSize := (400, 250)%Z;
     format_combo := format_combo; duration_combo := duration_combo;
     layout := layout; visible := false |}.

(** [window.show()] *)
Definition show (w : ImageConverter) : ImageConverter :=
  {| windowTitle := windowTitle w; fixedSize := fixedSize w;
     format_combo := format_combo w; duration_combo := duration_combo w;
     layout := layout w; visible := true |}.

(** ** Events *)

(** What the user does: pick row [index] of a combo box, or click the
    entry at position [at_entry] of the layout.  [file_paths] is what the
    file dialog of the slot returns and [hex] the text of
    [uuid.uuid4().hex], should the slot ask. *)
Inductive event :=
| Activated (c : combo) (index : nat)
| Clicked (at_entry : nat) (file_paths : list string) (hex : string).

Definition set_combo (c : combo) (f : QComboBox -> QComboBox)
    (w : ImageConverter) : ImageConverter :=
  {| windowTitle := windowTitle w; fixedSize := fixedSize w;
     format_combo := match c with FormatCombo => f (format_combo w)
                     | DurationCombo => format_combo w end;
     duration_combo := match c with DurationCombo => f (duration_combo w)
                       | FormatCombo => duration_combo w end;
     layout := layout w; visible := visible w |}.

(** The slots a click at an entry of the layout runs. *)
Definition slots_at (w : ImageConverter) (at_entry : nat) : list slot :=
  match layout w !! at_entry with
  | Some (Widget (QPushButton _ clicked)) => clicked
  | _ => []
  end.

Section Loop.
Context `{Pillow} `{!Imageio}.

(** A slot, with the window it is a method of.  The box it shows, if any,
    is its result. *)
Definition run_slot (w : ImageConverter) (file_paths : list string) (hex : string)
    (sl : slot) : M (option MessageBox) :=
  match sl with
  | SelectAndConvert =>
      select_and_convert file_paths (currentText (format_combo w))
  | SelectAndMergeGif =>
      box <- select_and_merge_gif file_paths (currentText (duration_combo w)) hex ;;
      ret (Some box)
  end.

(** The slots of a click, in the order they were connected. *)
Fixpoint run_slots (w : ImageConverter) (file_paths : list string) (hex : string)
    (sls : list slot) : M (list MessageBox) :=
  match sls with
  | [] => ret []
  | sl :: sls =>
      box <- run_slot w file_paths hex sl ;;
      boxes <- run_slots w file_paths hex sls ;;
      ret (option_list box ++ boxes)
  end.

(** One event: the window after it and the boxes shown. *)
Definition handle (w : ImageConverter) (ev : event)
    : M (ImageConverter * list MessageBox) :=
  match ev with
  | Activated c index => ret (set_combo c (activated index) w, [])
  | Clicked at_entry file_paths hex =>
      boxes <- run_slots w file_paths hex (slots_at w at_entry) ;;
      ret (w, boxes)
  end.

(** [app.exec_()]: the events in turn.  An exception that leaves a slot
    ends the loop. *)
Fixpoint exec_ (w : ImageConverter) (evs : list event)
    : M (ImageConverter * list MessageBox) :=
  match evs with
  | [] => ret (w, [])
  | ev :: evs =>
      r <- handle w ev ;;
      r' <- exec_ r.1 evs ;;
      ret (r'.1, r.2 ++ r'.2)
  end.

(** The main block. *)
Definition main (evs : list event) : M (ImageConverter * list MessageBox) :=
  let window := ImageConverter_init in
  let window := show window in
  exec_ window evs.

End Loop.

(** ** Combo boxes *)

Section Combo.
Implicit Types (box : QComboBox) (texts : list string) (i : nat).

(** The box has a current item. *)
Definition has_current box : Prop :=
  (0 <= currentIndex box < Z.of_nat (length (items box)))%Z.

Lemma addItems_new texts :
  texts <> [] ->
  items (addItems texts QComboBox_new) = texts /\
  has_current (addItems texts QComboBox_new).
Proof.
  intros Hne. unfold addItems, has_current. simpl.
  rewrite bool_decide_true by done. split; [done|].
  destruct texts; [done|]. simpl. lia.
Qed.

Lemma activated_items i box : items (activated i box) = items box.
Proof. unfold activated. by case_bool_decide. Qed.

Lemma activated_current i box : has_current box -> has_current (activated i box).
Proof.
  unfold activated, has_current. case_bool_decide; [|done]. simpl. lia.
Qed.

(** Picking a row makes it the current one; a row the box does not have
    cannot be picked. *)
Lemma activated_text i box text :
  items box !! i = Some text -> currentText (activated i box) = text.
Proof.
  intros Hi. unfold activated.
  rewrite bool_decide_true by (by eapply lookup_lt_Some).
  unfold currentText. simpl.
  rewrite bool_decide_true, Nat2Z.id, Hi by lia. done.
Qed.

(** The text of a box with a current item is one of its items. *)
Lemma currentText_item box : has_current box -> currentText box ∈ items box.
Proof.
  intros [Hlo Hhi]. unfold currentText. rewrite bool_decide_true by done.
  destruct (lookup_lt_is_Some_2 (items box) (Z.to_nat (currentIndex box)))
    as [text Ht]; [lia|].
  rewrite Ht. by eapply list_elem_of_lookup_2.
Qed.

End Combo.

(** ** The invariant of the window *)

Definition formats_offered : list string := ["png"; "jpg"; "webp"].
Definition durations_offered : list string := ["0.1"; "0.2"; "0.5"; "1.0"].

(** The window is as the constructor built it, up to the rows picked. *)
Record wf (w : ImageConverter) : Prop := Wf {
  wf_formats : items (format_combo w) = formats_offered;
  wf_format : has_current (format_combo w);
  wf_durations : items (duration_combo w) = durations_offered;
  wf_duration : has_current (duration_combo w);
  wf_layout : layout w = layout ImageConverter_init
}.

Section Window.
Implicit Types (w : ImageConverter) (c : combo) (i : nat).

Lemma wf_init : wf ImageConverter_init.
Proof.
  split; try done; apply (addItems_new _ ltac:(done)).
Qed.

Lemma wf_show w : wf w -> wf (show w).
Proof. by intros []. Qed.

Lemma wf_activated w c i : wf w -> wf (set_combo c (activated i) w).
Proof.
  intros []. destruct c; split; simpl; rewrite ?activated_items;
    try done; by apply activated_current.
Qed.

(** The layout of the constructor: the row of the formats, the button
    that converts, the row of the durations, the button that composes. *)
Lemma wf_slots_at w n :
  wf w ->
  slots_at w n = match n with
                 | 1 => [SelectAndConvert]
                 | 3 => [SelectAndMergeGif]
                 | _ => []
                 end.
Proof.
  intros Hw. unfold slots_at. rewrite (wf_layout w Hw).
  by destruct n as [|[|[|[|[|n]]]]].
Qed.

End Window.

(** ** The loop *)

Section LoopFacts.
Context `{Pillow} `{!Imageio}.
Implicit Types (w : ImageConverter) (s : fs) (fps : list string) (evs : list event).

(** No slot raises. *)
Lemma run_slot_ok w fps hex sl s :
  exists box s', run_slot w fps hex sl s = (Ok box, s').
Proof.
  destruct sl; simpl.
  - destruct fps as [|fp fps]; [by eexists _, _|].
    rewrite select_and_convert_run by done.
    destruct (convert_loop_total (currentText (format_combo w)) (fp :: fps)
                (Tally 0 []) s) as (t & s' & l & E & _).
    rewrite (bind_ok _ _ _ _ _ E). by eexists _, _.
  - destruct (select_and_merge_gif_cases fps (currentText (duration_combo w)) hex s)
      as [(t & x & E)|(first & fr & d & b & x & _ & _ & _ & _ & _ & E)];
      rewrite (bind_ok _ _ _ _ _ E); by eexists _, _.
Qed.

Lemma run_slots_ok w fps hex sls s :
  exists boxes s', run_slots w fps hex sls s = (Ok boxes, s').
Proof.
  revert s. induction sls as [|sl sls IH]; intros s; [by eexists _, _|].
  destruct (run_slot_ok w fps hex sl s) as (box & s1 & E1).
  destruct (IH s1) as (boxes & s2 & E2). simpl.
  rewrite (bind_ok _ _ _ _ _ E1), (bind_ok _ _ _ _ _ E2). by eexists _, _.
Qed.

(** An event is handled without an exception and leaves the window as
    the constructor built it, up to the rows picked. *)
Lemma handle_ok w ev s :
  exists w' boxes s', handle w ev s = (Ok (w', boxes), s') /\ (wf w -> wf w').
Proof.
  destruct ev as [c i|n fps hex]; simpl.
  - eexists _, _, _. split; [done|]. apply wf_activated.
  - destruct (run_slots_ok w fps hex (slots_at w n) s) as (boxes & s' & E).
    rewrite (bind_ok _ _ _ _ _ E). by eexists _, _, _.
Qed.

Lemma exec_ok w evs s :
  exists w' boxes s', exec_ w evs s = (Ok (w', boxes), s') /\ (wf w -> wf w').
Proof.
  revert w s. induction evs as [|ev evs IH]; intros w s; [by eexists _, _, _|].
  destruct (handle_ok w ev s) as (w1 & b1 & s1 & E1 & Hw1).
  destruct (IH w1 s1) as (w2 & b2 & s2 & E2 & Hw2). simpl.
  rewrite (bind_ok _ _ _ _ _ E1). cbn [fst snd].
  rewrite (bind_ok _ _ _ _ _ E2). eexists _, _, _. split; [done|]. auto.
Qed.

(** The loop after its first event. *)
Lemma exec_cons w ev evs s w1 b1 s1 :
  handle w ev s = (Ok (w1, b1), s1) ->
  exec_ w (ev :: evs) s = (r <- exec_ w1 evs ;; ret (r.1, b1 ++ r.2)) s1.
Proof. intros E. cbn [exec_]. by rewrite (bind_ok _ _ _ _ _ E). Qed.

Lemma exec_one w ev s w1 b1 s1 :
  handle w ev s = (Ok (w1, b1), s1) -> exec_ w [ev] s = (Ok (w1, b1), s1).
Proof.
  intros E. rewrite (exec_cons _ _ _ _ _ _ _ E). cbn [exec_].
  rewrite bind_ret_l. cbn [fst snd]. by rewrite app_nil_r.
Qed.

(** A click on the button that converts. *)
Lemma click_convert w fps hex s :
  wf w ->
  handle w (Clicked 1 fps hex) s
  = (box <- select_and_convert fps (currentText (format_combo w)) ;;
     ret (w, option_list box)) s.
Proof.
  intros Hw. simpl. rewrite (wf_slots_at w 1 Hw). simpl.
  unfold bind at 1 2 3 4. destruct (select_and_convert _ _ s) as [[box|e] s']; [|done].
  simpl. by rewrite app_nil_r.
Qed.

End LoopFacts.

(** ** Theorems *)

Section WindowTheorems.
Context `{Pillow} `{!Imageio}.
Implicit Types (w : ImageConverter) (s : fs) (fps : list string) (evs : list event).

(** C19. The event loop never ends with an exception.  Whatever the user
    picks and clicks, whatever the dialogs return and whatever is on the
    disk, every event is handled, and the window stays as the constructor
    built it: the two boxes hold their items and each has a current
    one. *)
Theorem main_never_raises evs s :
  exists w boxes s', main evs s = (Ok (w, boxes), s') /\ wf w.
Proof.
  unfold main. destruct (exec_ok (show ImageConverter_init) evs s)
    as (w & boxes & s' & E & Hw).
  exists w, boxes, s'. split; [done|]. apply Hw, wf_show, wf_init.
Qed.

(** C24. What the window gives to its handlers.  The target format is one
    of the three that the web route accepts, and the text that
    [select_and_merge_gif] calls [float] on is read as a finite number
    above zero: [float] cannot raise there. *)
Theorem window_arguments w :
  wf w ->
  currentText (format_combo w) ∈ convert_types /\
  exists d, float_of_str (currentText (duration_combo w)) = Some d /\
            is_positive d = true.
Proof.
  intros Hw.
  pose proof (currentText_item _ (wf_format w Hw)) as Hf.
  pose proof (currentText_item _ (wf_duration w Hw)) as Hd.
  rewrite (wf_formats w Hw) in Hf. rewrite (wf_durations w Hw) in Hd.
  unfold formats_offered, durations_offered in *.
  rewrite !elem_of_cons, elem_of_nil in Hf.
  rewrite !elem_of_cons, elem_of_nil in Hd. split.
  - destruct Hf as [->|[->|[->|[]]]]; by apply (bool_decide_unpack _).
  - destruct Hd as [->|[->|[->|[->|[]]]]]; by eexists.
Qed.

(** C28. With [jpg] picked in the box of the formats, a click on the button
    that converts shows one box, a warning that lists every selected file
    as failed and counts no success. *)
Theorem window_jpg_converts_nothing fps hex s :
  fps <> [] ->
  exists w s',
    main [Activated FormatCombo 1; Clicked 1 fps hex] s
    = (Ok (w, [report (Tally 0 fps)]), s').
Proof.
  intros Hne. unfold main.
  set (w := set_combo FormatCombo (activated 1) (show ImageConverter_init)).
  assert (wf w) as Hw by apply wf_activated, wf_show, wf_init.
  rewrite (exec_cons (show ImageConverter_init) (Activated FormatCombo 1) _ s
             w [] s eq_refl).
  destruct (convert_loop_jpg fps (Tally 0 []) s) as [s' E].
  assert (handle w (Clicked 1 fps hex) s
          = (Ok (w, [report (Tally 0 fps)]), s')) as Ec.
  { rewrite click_convert by done.
    change (currentText (format_combo w)) with "jpg"%string.
    erewrite bind_ok; cycle 1.
    { rewrite select_and_convert_run by done. by rewrite (bind_ok _ _ _ _ _ E). }
    done. }
  exists w, s'. by rewrite (bind_ok _ _ _ _ _ (exec_one _ _ _ _ _ _ Ec)).
Qed.

End WindowTheorems.

(** ** Runs and witnesses *)

Section WindowWitnesses.
#[local] Existing Instance toy.
#[local] Existing Instance toy_imageio.

(** The user picks ["webp"] and one second, converts two files, composes
    them, clicks on a label, and cancels a dialog. *)
Example run_window :
  let r := main [Activated FormatCombo 2; Activated DurationCombo 3;
                 Clicked 1 ["desk/photo.png"; "desk/scan.jpeg"] "";
                 Clicked 3 ["desk/photo.png"; "desk/scan.jpeg"] "0f";
                 Clicked 0 ["desk/photo.png"] ""; Clicked 1 [] "";
                 Activated FormatCombo 7] desk_fs in
  (match r.1 with
   | Ok (w, boxes) =>
       Some (currentText (format_combo w), currentText (duration_combo w), boxes)
   | Raise _ => None
   end)
  = Some ("webp", "1.0",
          [information "成功" "成功转换 2 个文件。";
           information "成功"
             ("GIF 合成成功！" +:+ String nl "输出文件: desk/combo_0f.gif")])%string /\
  files r.2 !! "desk/combo_0f.gif"%string = Some "G1e0|pixels|scan"%string.
Proof. by vm_compute. Qed.

Lemma window_arguments_witness :
  currentText (format_combo ImageConverter_init) ∈ convert_types /\
  exists d, float_of_str (currentText (duration_combo ImageConverter_init)) = Some d /\
            is_positive d = true.
Proof. apply window_arguments, wf_init. Defined.

Lemma window_jpg_converts_nothing_witness :
  exists w s',
    main [Activated FormatCombo 1; Clicked 1 ["desk/photo.png"] ""] desk_fs
    = (Ok (w, [report (Tally 0 ["desk/photo.png"])]), s').
Proof. by apply window_jpg_converts_nothing. Defined.

End WindowWitnesses.
