(* ===== verification/FrontEnds.v ===== *)
(** * FrontEnds: the web application and the Qt window compared

    Both front ends compose an animation from a batch of images:
    [/merge_gif] of [src/app.py] from the uploads of a request, in memory,
    [select_and_merge_gif] of [src/app_qt5.py] from files on disk.  This
    file relates the two: on the same images they hand the same frames to
    [imageio.mimsave]. *)

From S2P Require Import Prelude PyString PyFloat Classifier FileSys Imaging Converter.
From S2P Require Import WebApp WebGif QtApp.

Section FrontEnds.
Context `{Pillow} `{!Imageio}.
Implicit Types (s : fs) (fps : list string) (ups : list FileStorage)
  (fr : list Image).

(** The uploads of a web batch are the files of a Qt selection: same
    contents, in the same order, each upload with a name. *)
Definition same_batch (s : fs) (fps : list string) (ups : list FileStorage) : Prop :=
  Forall2 (fun fp up => files s !! fp = Some (stream up) /\ filename up <> "") fps ups.

Lemma same_batch_named s fps ups : same_batch s fps ups -> named ups = ups.
Proof.
  unfold named. induction 1 as [|fp up fps ups [_ Hn] _ IH]; [done|].
  rewrite filter_cons_True by done. by rewrite IH.
Qed.

Lemma same_batch_frames s fps ups :
  same_batch s fps ups -> frames_at s fps = frames_of ups.
Proof.
  intros Hb. unfold frames_at, frames_of. rewrite (same_batch_named _ _ _ Hb).
  induction Hb as [|fp up fps ups [Hf _] _ IH]; [done|].
  assert (frame_at s fp = frame_of up) as E
    by (unfold frame_at, frame_of; by rewrite Hf).
  simpl. by rewrite IH, E.
Qed.

(** The two front ends compose the same animation.  On a batch of
    uploads that all have an allowed name and on a selection of files with
    the same contents, the loop of [/merge_gif] ends with the frames [fr]
    exactly when the comprehension of [select_and_merge_gif] does. *)
Theorem qt_web_same_frames s fps ups fr :
  same_batch s fps ups -> all_allowed ups ->
  collect_images ups [] = Ok (inr fr) <-> open_all fps s = (Ok fr, s).
Proof.
  intros Hb Hal. rewrite open_all_frames, (same_batch_frames _ _ _ Hb). split.
  - by intros (_ & fr' & ? & ->)%collect_images_inr.
  - intros Hfr. by rewrite (collect_images_frames _ _ fr).
Qed.

End FrontEnds.

(** ** Witness *)

Section FrontEndsWitness.
#[local] Existing Instance toy.
#[local] Existing Instance toy_imageio.

Lemma qt_web_same_frames_witness :
  let fr : list (@Image toy) := [(RGBA, "pixels"); (RGBA, "scan")]%string in
  collect_images [ {| filename := "a.png"; stream := "P4pixels" |};
                   {| filename := "b.jpg"; stream := "J3scan" |} ] []
  = Ok (inr fr) <->
  open_all ["desk/photo.png"; "desk/scan.jpeg"] desk_fs = (Ok fr, desk_fs).
Proof.
  apply (qt_web_same_frames desk_fs); repeat constructor; by vm_compute.
Defined.

End FrontEndsWitness.
